(* ===== verification/_CoqProject ===== *)
-Q . S2P
Prelude.v
Json.v
JsDate.v
TimeParse.v
Schedule.v
RowDocuments.v
Table.v
Slots.v
Appointment.v
Database.v
Conflict.v
AppointmentStore.v
ContactStore.v
Availability.v
Catalog.v
CalendarStore.v
ScheduleStore.v
CategoryStore.v
UserStore.v
MailerStore.v
Encryption.v
TemplateStore.v
AppointmentController.v
AppointmentPage.v
AppointmentCalendar.v
MySQLPool.v
Backup.v
EmailServiceLayer.v
SeedData.v
Diagnostics.v
AppointmentHandlers.v
ContactController.v
ContactPage.v
ContactForms.v
Geo.v
Geocode.v
LocationAware.v
Controller.v
Server.v
FrontendUtils.v
