(* ===== verification/Prelude.v ===== *)
(** * Verification of the Services-Calendar booking backend

    The repository ([booking-backend-main]) books service appointments of
    customers ("contacts") with field technicians ("calendars").  Express
    handlers ([server/app/*/controller.ts]) call services
    ([AppointmentsService.ts], [LocationAwareService.ts]) that call the
    MySQL DAOs of [database-client/src/*/*DaoMySql.ts].  The development
    models the tables those DAOs read and write as explicit state: the
    appointment and contact tables ([Database.Db]) and the back-office
    catalog of calendars, working-hour rules, categories and services
    ([Catalog.Catalog]), the back-office users with their password-reset
    tokens, the SMTP configurations and the e-mail templates, each table
    with its [AUTO_INCREMENT] counter; the DAO
    methods as computations in a state-and-error monad over them; the
    availability engine (rule selection, slot generation, conflict and
    past-time filtering, the location-aware scoring); and the HTTP handlers
    of appointments and contacts with the mails they send.  The DAOs run
    their statements on the pools of [database-client/src/mysqlClient.ts],
    whose module state is modelled with the promises that settle later.

    ** Files (in dependency order) and what they model

    - [Prelude] (this file): the [sched_scope] notations, the hint
      databases [sched] / [sched_rw], the tactics, the state-and-error monad
      [ST] ([Result] is [Ok] or [Err]; the state is kept on error, as the
      appointment and contact DAOs run no transaction) with [st_bind_mono],
      the relation [order_by] of what MySQL promises of [ORDER BY] (rows
      with equal keys in any order) with its uniqueness under distinct
      keys, the stable insertion sort [sort_by] as one such order, the
      deciders of the key invariants, and generic lemmas on lists and
      integers.
    - [Json]: [JSON.stringify] and [JSON.parse] on [null], booleans,
      strings and arrays (byte strings with the escapes of ECMA-262), the
      [parseJSON] of the DAOs, and the round trip of the list columns.
    - [JsDate]: the ECMA-262 UTC [Date] arithmetic on [Z] milliseconds
      ([Day], [MakeTime], [setUTCHours], [WeekDay], the civil calendar).
    - [TimeParse]: [parseTime] of [AppointmentsService.ts] with the JS
      [split], [toLowerCase], [Number] and [parseInt] it calls.
    - [Schedule]: the [schedules] and [calendars] rows and
      [ScheduleDaoMySql.getScheduleByDate] as their join; the class
      [ScheduleDao].
    - [Table]: a generic table ([rows] and [next_id]) with the typeclass
      [HasId], the statements [INSERT], [SELECT ... WHERE id = ?],
      [UPDATE ... WHERE id = ?], [DELETE ... WHERE id = ?] and
      [LIMIT / OFFSET], its invariant [table_wf] (ids positive, below the
      counter, distinct) and the abstraction [abs] of a table as a [gmap]
      from ids to rows, with the lemmas that each statement acts on [abs]
      as [insert], [alter] and [delete].
    - [Slots]: [calculateTimeSlots] and its [while] loop ([slot_loop]).
    - [Appointment]: the rows, [mapAppointmentWithContact], the read
      queries of [AppointmentDaoMySql] (inner joins with [contacts], sorted);
      the class [AppointmentDao].
    - [Database]: the state [Db] (both tables and their [AUTO_INCREMENT]
      counters) and its invariant [db_wf] with the decider [db_wfb].
    - [Conflict]: [filterBookedAppointments] and the past-time filter.
    - [AppointmentStore]: [addAppointment], [updateAppointment],
      [deleteAppointment] and the reminder query of [AppointmentDaoMySql].
    - [ContactStore]: every method of [ContactDaoMySql], with MySQL's
      [LIKE], [LIMIT] / [OFFSET] over the order the server picks for each
      query ([server_order]), and the [LEFT JOIN] aggregate that mysql2
      hands over parsed and [JSON.parse] then rejects.
    - [Availability]: [AppointmentsService.getTimeSlots] against the DAO
      classes, and the class [CategoryDao] with its MySQL instance.
    - [Catalog]: the state [Catalog] of four [Table]s ([calendars],
      [schedules], [categories], [services]), its invariant [catalog_wf]
      and decider, and the transaction of [CategoryDaoMySql]
      ([beginTransaction], [commit], [rollback]: the rows restored, the
      InnoDB counters not).
    - [CalendarStore]: every method of [CalendarDaoMySql], and the
      abstract machine [spec_run] of calendar writes on a [gmap].
    - [ScheduleStore]: the CRUD methods of [ScheduleDaoMySql], and how
      they compose with [getScheduleByDate] and [deleteCalendar].
    - [CategoryStore]: every method of [CategoryDaoMySql], with the
      foreign key of [services] on [categories] and its cascade, and the
      composition of [updateCategory] with the availability query's
      service lookup.
    - [UserStore]: every method of [UserDaoMySql] on the [users] and
      [reset_tokens] tables, and the token machine [token_spec].
    - [MailerStore]: every method of [EmailConfigDaoMySql] with its port
      validation, and [EmailService.sendMail] with [decrypt] of
      [server/utils/encryption.ts].
    - [Encryption]: [encrypt], the key of [getEncryptionKey] and the
      decipher of [decrypt] (hexadecimal, AES-256-CTR over an abstract
      keystream), with [decrypt] inverting [encrypt].
    - [TemplateStore]: every method of [EmailTemplateDaoMySql].
    - [AppointmentController]: the handler [addAppointment] (contact
      upsert, validation, insert, mails) and the response types; every
      mail of the handlers goes through [MailerStore.sendMail]
      ([send_mail]) on the [email_configs] table.
    - [AppointmentPage]: the time-slot list of the booking page of the
      frontend ([pages/Appointment/index.tsx]): sorting, one entry per
      label, and the start a click pre-fills.
    - [AppointmentCalendar]: the rest of that page as a step machine
      (mount, date pickers, modals, slot entries, [onSelectSlot]) with
      [componentDidUpdate]'s refetches, and the day view's [events] and
      [resourceMap]; the browser's offset to UTC is a section [Context].
      Its invariant by induction on [reachable]: the latest requests are
      for [currentDate] and its local month
      ([calendar_requests_current]); an appointment without calendar is
      drawn in no column ([unassigned_appointment_hidden]); a booking from
      a slot entry is drawn at the slot's instant in local time
      ([entry_booking_drawn_at_slot]).
    - [RowDocuments]: the generic helpers of [mysqlClient.ts]
      ([mapRowToDocument], [mapRowsToDocuments], the exported
      [parseJSON]) with JS objects as key lists in insertion order;
      [mapRowToDocument_spec] describes the document of a row, and
      [client_parseJSON_equiv] shows the exported [parseJSON] equal to the
      DAOs' copy.
    - [FrontendUtils]: [generatePassword] of the frontend's [utils.ts],
      with [Math.random]'s draws as integers over [2^53]: every password
      has ten characters, one of each class first
      ([generatePassword_shape]); [getProfile] and the requests of
      [upload] and [download], which run on the container of the stored
      role ([upload_container]).
    - [MySQLPool]: the connection pool module [mysqlClient.ts]
      ([getMySQLConfig], [getMySQLPool] with its test-connection
      callbacks, [closeMySQLPool], [checkMySQLHealth]) as a step machine
      whose event sequences are the interleavings the event loop allows,
      its invariant [pool_inv] by induction on [reachable], and the two
      [createContainer] calls of the server's start.
    - [Backup]: [dbbackup.ts], the [mysqldump] command and the
      time-stamped file of [backupDatabase], the shell a section
      variable.
    - [EmailServiceLayer]: the forwarding methods of [EmailService] with
      their [catch] clauses ([ClientError] 500 or [null]) over the two
      mail tables, and the template and sender the booking handler takes
      from them, composed with [AppointmentController.customer_mail].
    - [SeedData]: the script [scripts/reset-and-seed-db.ts] on the whole
      database: [deleteAllData], the rows of [insertDummyData], the counts
      of [verifyData] and everything it prints, its sample joins
      included; the seeded database through the availability query.
    - [Diagnostics]: the diagnostic scripts [check-join.ts],
      [check-appointments.ts], [check-calendar-matching.ts] and
      [test-query.ts], each a function from the tables to the lines it
      logs: the INNER and LEFT JOIN counts and the orphans of check-join,
      the containment and overlap queries of the 21st of November.
    - [AppointmentHandlers]: the other appointment handlers (range read,
      XLSX export, reads by contact and calendar, update with cancellation
      mails, delete, time slots) and the [AppointmentsService] methods
      they call, the write wrappers rethrowing a DAO rejection as a
      [ClientError] with status 500 ([EmailServiceLayer.rethrow_500]).
    - [ContactController]: the contact handlers (add, list, read, update
      with the [archived] cascade, delete with the appointment cascade,
      credentials mail, and the sync, which runs [Backup.backupDatabase]
      and answers success even when the backup was skipped).
    - [ContactPage]: the contact list of the back office
      ([pages/Contact/index.tsx]) as a step machine: mount, debounced
      search, pager, modal and export toggles, and the answers of
      [getContactsHandler] arriving in any order on any database; every
      request it sends asks for a page and a size of at least 1
      ([contact_requests_answered]), and the runs show the double fetch
      at mount, stale search results and the total a search without
      results keeps.
    - [ContactForms]: the modals and row actions of the same page (the
      new/edit form with its rules, archive, delete, password reset,
      import, sync) against the [ContactController] handlers: a contact
      created in the form keeps its password in clear text
      ([form_create_stores_password_plain]), and the reset modal never
      sees a success ([reset_never_confirmed]).
    - [Geo]: the Haversine distance over the reals and the district table
      as a [gmap].
    - [Geocode]: [geocodeAddress] of [utils/geospatial.ts] with
      [encodeURIComponent] on byte strings and the HTTP call as a section
      variable; [decode_encode] is the round trip of the escaping, and
      [geocode_request_params] shows that the request always carries
      exactly the address and the key, whatever the address.
    - [LocationAware]: [resolveCoordinates] and
      [getAvailableSlotsWithLocationScore].
    - [Controller]: the location-aware HTTP handler.
    - [Server]: the Express application of [server/app/app.ts] as its
      chain of layers in dispatch order, the [/api] route of
      [locationAwareResource.ts], [injectService] choosing a container,
      the listener of [server/index.ts], and the choice of Firebase or
      local file storage at start.  Every response carries the
      frame guard and no [X-Powered-By] ([app_responses_safe]); [GET /]
      and the location-aware route are reached ([root_up],
      [location_route_reached]); a request runs on the pool the module
      holds exactly when its role is [user] ([request_pool]); the runs
      show a body-parse error skipping the rate limiter.

    ** The theorems

    C1-C10 are about the availability engine and what it runs on: the
    soundness of the slots it returns (C1), the reference semantics of the
    slot loop (C2, C5), the conflict filter (C3), the findings on the MySQL
    selector, the 12-o'clock parse and the non-terminating loop (C6, C7,
    C10), and the location-aware score, which with the MySQL DAOs and no
    geocoding key never marks a slot optimal (C8).  C4 shows the database
    configuration reaching the shell of [backupDatabase] unquoted; C9 and
    C22 are about the contact forms of the back office: a contact created
    there keeps its password in clear text (C9) and the password reset is
    never confirmed (C22).  C11-C12 are about the connection pool: once the
    pending test connections succeed the module stops creating pools
    (C11, liveness), and the first of the server's two pools, created at
    start-up, is never closed (C12).  C13 shows a service's first e-mail
    template to be final for the booking handler.  C14-C23 are about the
    appointment and contact DAOs on the database state: the insert round
    trip (C14), deletion (C17), the search (C19), pagination, complete
    whatever order MySQL gives each page when no two contacts share
    [created_at] (C20), and the findings on double bookings, unknown
    contacts, the reminder year test, [getContactsWithAppointments]
    throwing as soon as a contact exists, and the orphan rows (C15, C16,
    C18, C21, C23).  C24-C29 are about the handlers: the contact upsert of
    a booking (C24-C26), the booking that delivers no mail once the mailer
    is configured through the app (C27), the export that always throws on
    a non-empty range (C28), and the cascade of a contact's deletion
    (C29).  C30 is the round trip of [encrypt] and [decrypt].  C31-C33 are
    about the catalog DAOs: a deleted calendar's rules stay but are never
    selected (C31), [updateCategory] renumbers the services and so breaks
    the service lookup of the availability query (C32), and a failing
    [addCategory] is rolled back (C33).  C34 shows the diagnostic
    [check-join.ts] counting and listing exactly the appointments without
    a contact, those the DAOs' inner joins hide.  C35-C38 are about the
    back office: reset tokens behave as the token machine and never expire
    (C35), a duplicate e-mail shadows the new user (C36), every stored SMTP
    port stays in 1..65535 (C37), and a configuration saved with its
    password as typed silently disables all mail (C38).  C39-C40 are about
    the booking page: one technician per time label (C39), and a click
    that pre-fills a start shifted by the browser's UTC offset (C40).
    Every theorem with hypotheses has a witness at a concrete input; the
    concrete runs use [vm_compute].

    ** Fuel and bounds

    The [while] loop of [calculateTimeSlots] does not terminate on every
    input (C6), so [slot_loop] takes fuel, [None] meaning the fuel ran out;
    the handler [getTimeSlots] then never answers ([Pending]).  C2 gives
    the fuel that is enough for a rule that lies inside one day: the number
    of slots plus two rounds.  The examples use 40 rounds, more than the
    slots of a working day with 60-minute services.  Every other loop of
    the code runs over a list and is a structural recursion.  Integers are
    [Z]: ids and instants stay far below 2^53, where JS numbers are exact,
    and the [AUTO_INCREMENT] counters below the range of MySQL's [INT].
    The pool machine has no fuel: C11 names the finite run (one success
    callback per pending test connection) after which the pool is fixed.

    ** Not modelled

    HTTP routing, authentication, the SMTP transport, the file upload, the
    XLSX encoding and the shell that runs the backup are I/O; their outcomes are
    section variables or left out; so are the connections and queries of
    the [mysql2] pools, whose effect on the tables the DAO models give
    (a JSON column comes back parsed, as mysql2 does without
    [jsonStrings]),
    and the AES-256 keystream and SHA-256 of [encryption.ts], which are
    section variables of [Encryption].  The JSON columns that no modelled code reads
    ([advanced_settings], [skills], [paired_calendars], [attachment],
    [channels], [internal]) are
    left out of the rows; the list columns that are kept are lists, which
    [Json.parseJSON_store_list] justifies: a list written with
    [JSON.stringify] reads back as itself.  An explicit [null] in a
    request body is not distinguished from [undefined].
    [contact/ContactsService.ts], [category/dto],
    [middlewares/authMiddleware], [utils/isValidNumber] and the schema are
    imported but missing from the repository: the contact service is taken
    to forward to the DAO, the hash and [isValidNumber] are section
    variables, and the foreign key [services.category_id] with its
    [ON DELETE CASCADE] is the one the code's comment states.  [TimeClip]
    of ECMA-262 is not modelled: all instants in the theorems are far
    inside its range.  The order of rows with equal keys under [ORDER BY]
    is unspecified in MySQL: where a theorem depends on it, the order is a
    parameter bounded by [order_by]; elsewhere, and for [LIMIT 1] without
    [ORDER BY], the model takes the table order and the theorems rely only
    on membership and the order of the keys. *)

From Stdlib Require Import ZArith List String Ascii Bool Lia Sorted Permutation.
From stdpp Require Import base.
Import ListNotations.

Declare Scope sched_scope.
Delimit Scope sched_scope with sched.
Open Scope Z_scope.

(** ** Console output

    The scripts' [console.log] calls are modelled by their arguments:
    [lf] is a newline inside one, [repeat_str s n] is [s.repeat(n)]. *)
Definition lf : string := String (ascii_of_nat 10) EmptyString.

Fixpoint repeat_str (s : string) (n : nat) : string :=
  match n with O => EmptyString | S k => String.append s (repeat_str s k) end.

(** ** Hint database and tactics *)

Create HintDb sched.
Create Rewrite HintDb sched_rw.

(** Turn boolean comparisons in hypotheses and goal into propositions. *)
Ltac bool_to_prop :=
  repeat match goal with
  | H : (_ && _)%bool = true |- _ => apply andb_prop in H; destruct H
  | H : (_ || _)%bool = false |- _ => apply orb_false_elim in H; destruct H
  | H : (_ || _)%bool = true |- _ => apply orb_prop in H
  | H : negb _ = true |- _ => apply negb_true_iff in H
  | H : negb _ = false |- _ => apply negb_false_iff in H
  | H : (_ <? _) = true |- _ => apply Z.ltb_lt in H
  | H : (_ <? _) = false |- _ => apply Z.ltb_ge in H
  | H : (_ <=? _) = true |- _ => apply Z.leb_le in H
  | H : (_ <=? _) = false |- _ => apply Z.leb_gt in H
  | H : (_ =? _) = true |- _ => apply Z.eqb_eq in H
  | H : (_ =? _) = false |- _ => apply Z.eqb_neq in H
  end.

(** Case on every [if] of the goal, keeping the equation. *)
Ltac case_ifs :=
  repeat match goal with
  | |- context [if ?c then _ else _] =>
      let E := fresh "E" in destruct c eqn:E
  end.

(** Case on the scrutinee of every [match] of the goal. *)
Ltac destruct_matches :=
  repeat match goal with
  | |- context [match ?x with _ => _ end] =>
      lazymatch x with context [match _ with _ => _ end] => fail | _ => idtac end;
      let E := fresh "M" in destruct x eqn:E
  end.

(** Case on every integer comparison of the goal. *)
Ltac destruct_cmps :=
  repeat match goal with
  | |- context [Z.ltb ?a ?b] => let E := fresh "C" in destruct (Z.ltb a b) eqn:E
  | |- context [Z.leb ?a ?b] => let E := fresh "C" in destruct (Z.leb a b) eqn:E
  | |- context [Z.eqb ?a ?b] => let E := fresh "C" in destruct (Z.eqb a b) eqn:E
  end.

(** Close a goal of booleans built from integer comparisons by linear
    arithmetic on every case. *)
Ltac solve_cmps := destruct_cmps; simpl; bool_to_prop; first [reflexivity | exfalso; lia].

(** ** Generic lemmas on lists and options *)

Section ListFacts.
  Context {A : Type}.

Lemma existsb_false_forall (f : A -> bool) (l : list A) :
    existsb f l = false <-> (forall x, In x l -> f x = false).
  Proof.
    induction l as [|a l IH]; simpl; [tauto|].
    rewrite orb_false_iff, IH. split.
    - intros [Ha Hl] x [<-|Hx]; auto.
    - intros H. split; auto.
  Qed.

Lemma In_filter_iff (f : A -> bool) (l : list A) x :
    In x (List.filter f l) <-> In x l /\ f x = true.
  Proof. apply filter_In. Qed.

Lemma Forall_filter (P : A -> Prop) (f : A -> bool) (l : list A) :
    Forall P l -> Forall P (List.filter f l).
  Proof.
    rewrite !Forall_forall. intros H x Hx.
    apply In_filter_iff in Hx. apply H, Hx.
  Qed.

Lemma filter_all_false (f : A -> bool) (l : list A) :
    (forall x, In x l -> f x = false) -> List.filter f l = [].
  Proof.
    induction l as [|a l IH]; simpl; intros H; [reflexivity|].
    rewrite (H a (or_introl eq_refl)). apply IH. auto.
  Qed.

Lemma filter_all_true (f : A -> bool) (l : list A) :
    (forall x, In x l -> f x = true) -> List.filter f l = l.
  Proof.
    induction l as [|a l IH]; simpl; intros H; [reflexivity|].
    rewrite (H a (or_introl eq_refl)), IH; auto.
  Qed.

Lemma filter_filter_andb (f g : A -> bool) (l : list A) :
    List.filter f (List.filter g l) = List.filter (fun x => g x && f x) l.
  Proof.
    induction l as [|a l IH]; simpl; [reflexivity|].
    destruct (g a); simpl; [destruct (f a); rewrite IH; reflexivity | exact IH].
  Qed.

(** A key that no two elements share selects one element. *)
Lemma filter_key_unique (f : A -> Z) (l : list A) (r : A) :
    List.NoDup (map f l) -> In r l -> List.length (List.filter (fun c => Z.eqb (f r) (f c)) l) = 1%nat.
  Proof.
    induction l as [|x l IH]; simpl; intros Hnd Hr; [contradiction|].
    inversion Hnd as [|? ? Hx Hnd']; subst.
    destruct Hr as [<-|Hr].
    - rewrite Z.eqb_refl, filter_all_false; [reflexivity|].
      intros c Hc. apply Z.eqb_neq. intros Heq. apply Hx. rewrite Heq. apply in_map, Hc.
    - destruct (Z.eqb_spec (f r) (f x)) as [Heq|_]; [|apply IH; assumption].
      exfalso. apply Hx. rewrite <- Heq. apply in_map, Hr.
  Qed.

Lemma find_all_false (f : A -> bool) (l : list A) :
    (forall x, In x l -> f x = false) -> List.find f l = None.
  Proof.
    induction l as [|a l IH]; simpl; intros H; [reflexivity|].
    rewrite (H a (or_introl eq_refl)). apply IH. auto.
  Qed.

Lemma hd_error_map {B} (f : A -> B) (l : list A) :
    hd_error (map f l) = option_map f (hd_error l).
  Proof. destruct l; reflexivity. Qed.

Lemma NoDup_map_filter {B} (f : A -> B) (p : A -> bool) (l : list A) :
    List.NoDup (map f l) -> List.NoDup (map f (List.filter p l)).
  Proof.
    induction l as [|a l IH]; simpl; intros H; [constructor|].
    inversion H as [|? ? Hn Hnd]; subst. destruct (p a); simpl; [|auto].
    constructor; [|auto]. intros Hin. apply Hn.
    apply in_map_iff in Hin as [y [Hy Hin]]. apply In_filter_iff in Hin as [Hin _].
    rewrite <- Hy. apply in_map, Hin.
  Qed.

Lemma NoDup_map_eq {B} (f : A -> B) (l : list A) a b :
    List.NoDup (map f l) -> In a l -> In b l -> f a = f b -> a = b.
  Proof.
    induction l as [|x l IH]; simpl; intros Hnd Ha Hb Hf; [contradiction|].
    inversion Hnd as [|? ? Hn Hnd']; subst.
    destruct Ha as [->|Ha], Hb as [->|Hb]; auto.
    - exfalso. apply Hn. rewrite Hf. apply in_map, Hb.
    - exfalso. apply Hn. rewrite <- Hf. apply in_map, Ha.
  Qed.

Lemma find_app_first (f : A -> bool) (l1 l2 : list A) :
    List.find f (l1 ++ l2) = match List.find f l1 with Some x => Some x | None => List.find f l2 end.
  Proof. induction l1 as [|a l1 IH]; simpl; [reflexivity|]. destruct (f a); [reflexivity | exact IH]. Qed.

Lemma option_map_cons_Some (x : A) (o : option (list A)) l :
    option_map (cons x) o = Some l -> exists l', o = Some l' /\ l = x :: l'.
  Proof. destruct o; simpl; intros H; inversion H; eauto. Qed.
End ListFacts.

(** ** Deciding the key invariants of a table *)

Fixpoint nodupb (l : list Z) : bool :=
  match l with
  | [] => true
  | x :: xs => negb (existsb (Z.eqb x) xs) && nodupb xs
  end.

Lemma nodupb_NoDup l : nodupb l = true -> List.NoDup l.
Proof.
  induction l as [|x xs IH]; simpl; intros H; [constructor|]. bool_to_prop.
  constructor; [|auto]. intros Hin.
  apply (existsb_false_forall (Z.eqb x) xs) with (x := x) in Hin;
    [rewrite Z.eqb_refl in Hin; discriminate | destruct (existsb _ _); [discriminate|reflexivity]].
Qed.

Lemma forallb_bounds {A} (key : A -> Z) (b : Z) l :
  forallb (fun r => (0 <? key r) && (key r <? b)) l = true -> List.Forall (fun r => 0 < key r < b) l.
Proof.
  intros H. apply List.Forall_forall. intros x Hx. rewrite forallb_forall in H.
  specialize (H x Hx). bool_to_prop. lia.
Qed.

#[export] Hint Resolve Forall_filter : sched.

(** ** Results and the state-and-error monad of the DAO layer

    A DAO method runs SQL statements against the database and may throw.
    An exception does not undo the statements already executed (the code
    runs without transactions), so a computation returns its result or error
    together with the new state. *)

Inductive Result (A : Type) :=
  | Ok (a : A)
  | Err (msg : string).
Arguments Ok {A} a.
Arguments Err {A} msg.

Definition ST (S A : Type) : Type := S -> Result A * S.

Definition st_ret {S A} (a : A) : ST S A := fun s => (Ok a, s).
Definition st_err {S A} (msg : string) : ST S A := fun s => (Err msg, s).
Definition st_get {S} : ST S S := fun s => (Ok s, s).
Definition st_put {S} (s' : S) : ST S unit := fun _ => (Ok tt, s').
Definition st_bind {S A B} (m : ST S A) (k : A -> ST S B) : ST S B :=
  fun s => match m s with
           | (Ok a, s') => k a s'
           | (Err e, s') => (Err e, s')
           end.

Notation "x <- m ;; k" := (st_bind m (fun x => k))
  (at level 100, m at next level, right associativity) : sched_scope.
Notation "m ;;; k" := (st_bind m (fun _ => k))
  (at level 100, right associativity) : sched_scope.

Lemma st_bind_Ok {S A B} (m : ST S A) (k : A -> ST S B) s a s' :
  m s = (Ok a, s') -> st_bind m k s = k a s'.
Proof. intros H. unfold st_bind. rewrite H. reflexivity. Qed.

Lemma st_bind_Err {S A B} (m : ST S A) (k : A -> ST S B) s e s' :
  m s = (Err e, s') -> st_bind m k s = (Err e, s').
Proof. intros H. unfold st_bind. rewrite H. reflexivity. Qed.

(** An invariant of the state that both steps of a bind keep holds
    after it, whatever they answer. *)
Lemma st_bind_inv {S A B} (P : S -> Prop) (m : ST S A) (k : A -> ST S B) s :
  (P s -> P (snd (m s))) -> (forall a s', P s' -> P (snd (k a s'))) -> P s -> P (snd (st_bind m k s)).
Proof. intros Hm Hk Hs. unfold st_bind. destruct (m s) as [[a|e] s'] eqn:E; simpl in *; auto. Qed.

(** A transitive relation that every step of a bind keeps between its
    states holds between the first and the last state. *)
Lemma st_bind_mono {S A B} (R : S -> S -> Prop) (m : ST S A) (k : A -> ST S B) s :
  (forall x y z, R x y -> R y z -> R x z) -> (forall x, R x x) ->
  R s (snd (m s)) -> (forall a s', R s' (snd (k a s'))) -> R s (snd (st_bind m k s)).
Proof.
  intros Htr Hrefl Hm Hk. unfold st_bind. destruct (m s) as [[a|e] s'] eqn:E; simpl in *; eauto.
Qed.

(** [x !== undefined] for an optional field. *)
Definition defined {A} (o : option A) : bool := match o with Some _ => true | None => false end.

(** [col = ?] of an UPDATE for an optional field: set when the request's
    field is not [undefined]. *)
Definition upd_opt {A} (o : option A) (cur : option A) : option A :=
  match o with Some x => Some x | None => cur end.

(** ** [ORDER BY]: a stable insertion sort on an integer key

    MySQL leaves the order of rows with equal keys unspecified: [order_by]
    is what it promises, and [sort_by] is one such order, the table order
    among equal keys.  A theorem that depends on the order of equal keys
    takes the order as a parameter constrained by [order_by]. *)

Section Sort.
  Context {A : Type} (key : A -> Z) (desc : bool).

Definition key_le (x y : A) : bool :=
  if desc then key y <=? key x else key x <=? key y.

Fixpoint insert_by (x : A) (l : list A) : list A :=
  match l with
  | [] => [x]
  | y :: l' => if key_le x y then x :: y :: l' else y :: insert_by x l'
  end.

Fixpoint sort_by (l : list A) : list A :=
  match l with
  | [] => []
  | x :: l' => insert_by x (sort_by l')
  end.

Lemma In_insert_by x y l : In y (insert_by x l) <-> y = x \/ In y l.
Proof.
  induction l as [|z l IH]; simpl; [intuition congruence|].
  destruct (key_le x z); simpl; rewrite ?IH; intuition congruence.
Qed.

Lemma In_sort_by l y : In y (sort_by l) <-> In y l.
Proof.
  induction l as [|x l IH]; simpl; [tauto|].
  rewrite In_insert_by, IH. intuition congruence.
Qed.

Lemma length_insert_by x l : List.length (insert_by x l) = S (List.length l).
Proof. induction l as [|z l IH]; simpl; [reflexivity|]. destruct (key_le x z); simpl; auto. Qed.

Lemma length_sort_by l : List.length (sort_by l) = List.length l.
Proof. induction l; simpl; rewrite ?length_insert_by; auto. Qed.

Lemma key_le_total x y : key_le x y = false -> key_le y x = true.
Proof. unfold key_le. destruct desc; intros H; bool_to_prop; apply Z.leb_le; lia. Qed.

Lemma Sorted_insert_by x l :
  Sorted (fun a b => key_le a b = true) l -> Sorted (fun a b => key_le a b = true) (insert_by x l).
Proof.
  induction 1 as [|z l Hs IH Hhd]; simpl; [repeat constructor|].
  destruct (key_le x z) eqn:E.
  - constructor; [constructor; auto | constructor; exact E].
  - constructor; [exact IH|]. apply key_le_total in E.
    destruct Hhd as [|w l' Hw]; simpl; [constructor; exact E|].
    destruct (key_le x w); constructor; auto.
Qed.

Lemma Sorted_sort_by l : Sorted (fun a b => key_le a b = true) (sort_by l).
Proof. induction l; simpl; [constructor | apply Sorted_insert_by; assumption]. Qed.

(** The first row of an [ORDER BY] comes before every row. *)
Lemma sort_by_head_le l h rest :
  sort_by l = h :: rest -> forall y, In y l -> key_le h y = true.
Proof.
  intros Hs y Hy. apply (In_sort_by l y) in Hy. rewrite Hs in Hy.
  pose proof (Sorted_sort_by l) as Hsort. rewrite Hs in Hsort.
  apply Sorted_StronglySorted in Hsort; [|intros a b c; unfold key_le; destruct desc; intros; bool_to_prop; apply Z.leb_le; lia].
  destruct Hy as [->|Hy]; [unfold key_le; destruct desc; apply Z.leb_le; lia|].
  inversion Hsort as [|? ? _ Hall]; subst. rewrite List.Forall_forall in Hall. exact (Hall y Hy).
Qed.

(** An [ORDER BY] only reorders the rows. *)
Lemma Permutation_insert_by x l : Permutation (insert_by x l) (x :: l).
Proof.
  induction l as [|z l IH]; simpl; [reflexivity|].
  destruct (key_le x z); [reflexivity|]. rewrite IH. apply perm_swap.
Qed.

Lemma Permutation_sort_by l : Permutation (sort_by l) l.
Proof. induction l as [|x l IH]; simpl; [reflexivity|]. rewrite Permutation_insert_by, IH. reflexivity. Qed.

(** What MySQL promises of [ORDER BY key]: the rows in some order of
    their keys; rows with equal keys come in any order, which may change
    from one query to the next. *)
Definition order_by (rows l : list A) : Prop :=
  Permutation rows l /\ Sorted (fun a b => key_le a b = true) l.

(** The stable sort is one of these orders. *)
Lemma order_by_sort_by rows : order_by rows (sort_by rows).
Proof. split; [symmetry; apply Permutation_sort_by | apply Sorted_sort_by]. Qed.

Lemma key_le_trans x y z : key_le x y = true -> key_le y z = true -> key_le x z = true.
Proof. unfold key_le. destruct desc; intros; bool_to_prop; apply Z.leb_le; lia. Qed.

Lemma key_le_antisym x y : key_le x y = true -> key_le y x = true -> key x = key y.
Proof. unfold key_le. destruct desc; intros; bool_to_prop; lia. Qed.

Lemma NoDup_map_key_inj l x y : List.NoDup (map key l) -> In x l -> In y l -> key x = key y -> x = y.
Proof.
  induction l as [|z l IH]; intros Hnd Hx Hy Hk; [destruct Hx|]. simpl in Hnd. apply List.NoDup_cons_iff in Hnd as [Hz Hnd].
  destruct Hx as [<-|Hx], Hy as [<-|Hy]; [reflexivity | | | exact (IH Hnd Hx Hy Hk)];
    exfalso; apply Hz; [rewrite Hk | rewrite <- Hk]; apply in_map; assumption.
Qed.

(** With distinct keys the order is unique. *)
Lemma order_by_unique rows l1 l2 :
  List.NoDup (map key rows) -> order_by rows l1 -> order_by rows l2 -> l1 = l2.
Proof.
  intros Hnd [P1 S1] [P2 S2].
  assert (P : Permutation l1 l2) by (rewrite <- P1; exact P2).
  assert (Hnd1 : List.NoDup (map key l1)) by (eapply Permutation.Permutation_NoDup; [apply Permutation_map, P1 | exact Hnd]).
  apply Sorted_StronglySorted in S1, S2; try exact key_le_trans. clear P1 P2 Hnd.
  revert l2 P S2. induction S1 as [|x l1 _ IH Hx]; intros l2 P S2.
  - symmetry. apply Permutation_nil, P.
  - destruct S2 as [|y l2 S2 Hy]; [apply Permutation_sym, Permutation_nil in P; discriminate|].
    assert (Exy : x = y).
    { destruct (Permutation_in x P (or_introl eq_refl)) as [<-|Hxl2]; [reflexivity|].
      destruct (Permutation_in y (Permutation_sym P) (or_introl eq_refl)) as [<-|Hyl1]; [reflexivity|].
      rewrite List.Forall_forall in Hx, Hy.
      apply (NoDup_map_key_inj (x :: l1)); [exact Hnd1 | left; reflexivity | right; exact Hyl1|].
      apply key_le_antisym; [apply Hx, Hyl1 | apply Hy, Hxl2]. }
    subst y. f_equal. simpl in Hnd1. apply List.NoDup_cons_iff in Hnd1 as [_ Hnd1].
    apply IH; [exact Hnd1 | apply Permutation_cons_inv in P; exact P | exact S2].
Qed.
End Sort.

(** A WHERE clause commutes with a reordering. *)
Lemma Permutation_filter_bool {A} (f : A -> bool) l l' :
  Permutation l l' -> Permutation (List.filter f l) (List.filter f l').
Proof.
  induction 1 as [|x l l' _ IH|x y l|l l' l'' _ IH1 _ IH2]; simpl.
  - reflexivity.
  - destruct (f x); [apply perm_skip|]; exact IH.
  - destruct (f x), (f y); try reflexivity. apply perm_swap.
  - etransitivity; eassumption.
Qed.

Lemma Sorted_map {A B} (R : A -> A -> Prop) (R' : B -> B -> Prop) (f : A -> B) l :
  (forall x y, R x y -> R' (f x) (f y)) -> Sorted R l -> Sorted R' (map f l).
Proof.
  intros Hf. induction 1 as [|x l Hs IH Hhd]; simpl; constructor; [exact IH|].
  destruct Hhd; simpl; constructor; auto.
Qed.

#[export] Hint Resolve Sorted_sort_by : sched.

(** ** Integer division by positive constants *)

Lemma Z_div_mod_split (t m : Z) : 0 < m -> t = m * (t / m) + t mod m /\ 0 <= t mod m < m.
Proof. intros Hm. split; [apply Z.div_mod; lia | apply Z.mod_pos_bound; lia]. Qed.

Lemma Z_div_add_mul_small (q r m : Z) : 0 < m -> 0 <= r < m -> (m * q + r) / m = q.
Proof.
  intros Hm Hr. rewrite Z.add_comm, Z.mul_comm, Z.div_add by lia.
  rewrite Z.div_small by lia. lia.
Qed.

Lemma Z_mod_add_mul_small (q r m : Z) : 0 < m -> 0 <= r < m -> (m * q + r) mod m = r.
Proof.
  intros Hm Hr. rewrite Z.add_comm, Z.mul_comm, Z.mod_add by lia.
  apply Z.mod_small; lia.
Qed.

#[export] Hint Rewrite Z_div_add_mul_small Z_mod_add_mul_small using lia : sched_rw.

(** ** Exhaustive checks over a range of integers

    [all_lt p f] checks [f] on [0 .. p - 1] by halving [p], so that a
    check over a large range costs no unary numbers. *)
Fixpoint all_lt (p : positive) (f : Z -> bool) : bool :=
  match p with
  | xH => f 0
  | xO q => all_lt q f && all_lt q (fun x => f (x + Zpos q))
  | xI q => f (2 * Zpos q) && all_lt q f && all_lt q (fun x => f (x + Zpos q))
  end.

Lemma all_lt_spec p : forall f, all_lt p f = true -> forall x, 0 <= x < Zpos p -> f x = true.
Proof.
  induction p as [q IH | q IH |]; intros f H x Hx; cbn in H.
  - apply andb_true_iff in H as [[H0 H1]%andb_true_iff H2].
    destruct (Z.eq_dec x (2 * Zpos q)) as [-> | Hne]; [exact H0|].
    destruct (Z.lt_ge_cases x (Zpos q)); [apply IH; auto; lia|].
    replace x with ((x - Zpos q) + Zpos q) by lia. apply (IH _ H2). lia.
  - apply andb_true_iff in H as [H1 H2].
    destruct (Z.lt_ge_cases x (Zpos q)); [apply IH; auto; lia|].
    replace x with ((x - Zpos q) + Zpos q) by lia. apply (IH _ H2). lia.
  - replace x with 0 by lia. exact H.
Qed.
