(* ===== verification/Json.v ===== *)
(** The JSON columns of the DAOs: [JSON.stringify] of the values they
    write and [parseJSON] of what they read back (the private method of
    [CalendarDaoMySql], [CategoryDaoMySql], [ScheduleDaoMySql] and
    [AppointmentDaoMySql], and [parseJSON] of [mysqlClient.ts]).  The JSON
    values are those of the list columns: [null], booleans, strings and
    arrays; numbers and objects are not modelled (a text holding one does
    not parse here).  Strings are byte strings: [JSON.stringify] escapes
    the quote, the backslash and the bytes below 0x20, and lets the bytes
    of a UTF-8 sequence through; [JSON.parse] reads a [\u] escape as the
    UTF-8 encoding of its code point (a surrogate is not modelled).  The
    parser takes fuel; [JSON_parse] gives it the length of the text, which
    the round trip shows to be enough. *)

From Stdlib Require Import ZArith List String Ascii Bool Lia Arith.
From S2P Require Import Prelude.
Import ListNotations.

Module Json.
Local Open Scope string_scope.
Local Open Scope nat_scope.

Inductive json :=
| JNull
| JBool (b : bool)
| JStr (s : string)
| JArr (l : list json).

(** Induction with a hypothesis on every element of an array. *)
Section JsonInd.
Variable P : json -> Prop.
Hypothesis Hnull : P JNull.
Hypothesis Hbool : forall b, P (JBool b).
Hypothesis Hstr : forall s, P (JStr s).
Hypothesis Harr : forall l, Forall P l -> P (JArr l).

Fixpoint json_ind' (v : json) : P v :=
  match v with
  | JNull => Hnull
  | JBool b => Hbool b
  | JStr s => Hstr s
  | JArr l => Harr l ((fix go (l : list json) : Forall P l :=
                         match l with
                         | [] => Forall_nil _
                         | x :: l' => Forall_cons _ (json_ind' x) (go l')
                         end) l)
  end.
End JsonInd.

Definition dq : ascii := ascii_of_nat 34.
Definition bs : ascii := ascii_of_nat 92.

(** ** [JSON.stringify] *)

(** A lower-case hexadecimal digit. *)
Definition hex_digit (n : nat) : ascii := ascii_of_nat (if n <? 10 then 48 + n else 87 + n).

(** QuoteJSONString on one byte. *)
Definition quote_char (c : ascii) : string :=
  let n := nat_of_ascii c in
  if n =? 8 then String bs "b"
  else if n =? 9 then String bs "t"
  else if n =? 10 then String bs "n"
  else if n =? 12 then String bs "f"
  else if n =? 13 then String bs "r"
  else if n =? 34 then String bs (String dq EmptyString)
  else if n =? 92 then String bs (String bs EmptyString)
  else if n <? 32 then String bs (String "u" (String "0" (String "0"
                         (String (hex_digit (n / 16)) (String (hex_digit (n mod 16)) EmptyString)))))
  else String c EmptyString.

Fixpoint quote_chars (s : string) : string :=
  match s with
  | EmptyString => EmptyString
  | String c s' => quote_char c ++ quote_chars s'
  end.

(** The elements of an array, separated by commas. *)
Fixpoint join_with (f : json -> string) (l : list json) : string :=
  match l with
  | [] => EmptyString
  | [x] => f x
  | x :: l' => f x ++ "," ++ join_with f l'
  end.

Fixpoint JSON_stringify (v : json) : string :=
  match v with
  | JNull => "null"
  | JBool true => "true"
  | JBool false => "false"
  | JStr s => String dq (quote_chars s ++ String dq EmptyString)
  | JArr l => "[" ++ join_with JSON_stringify l ++ "]"
  end.

(** ** [JSON.parse] *)

(** JSON whitespace: space, tab, line feed, carriage return. *)
Definition is_ws (c : ascii) : bool :=
  let n := nat_of_ascii c in (n =? 32) || (n =? 9) || (n =? 10) || (n =? 13).

Fixpoint skip_ws (s : string) : string :=
  match s with
  | String c s' => if is_ws c then skip_ws s' else s
  | EmptyString => EmptyString
  end.

(** [s] without the prefix [p], if it has it. *)
Fixpoint strip_prefix (p s : string) : option string :=
  match p, s with
  | EmptyString, _ => Some s
  | String a p', String b s' => if Ascii.eqb a b then strip_prefix p' s' else None
  | String _ _, EmptyString => None
  end.

Definition hex_value (c : ascii) : option nat :=
  let n := nat_of_ascii c in
  if (48 <=? n) && (n <=? 57) then Some (n - 48)
  else if (97 <=? n) && (n <=? 102) then Some (n - 87)
  else if (65 <=? n) && (n <=? 70) then Some (n - 55)
  else None.

Definition hex4 (a b c d : ascii) : option nat :=
  match hex_value a, hex_value b, hex_value c, hex_value d with
  | Some x, Some y, Some z, Some w => Some (((x * 16 + y) * 16 + z) * 16 + w)
  | _, _, _, _ => None
  end.

(** The UTF-8 bytes of a code point of the Basic Multilingual Plane;
    [None] for a surrogate. *)
Definition utf8_bytes (n : nat) : option string :=
  if n <? 128 then Some (String (ascii_of_nat n) EmptyString)
  else if n <? 2048 then
    Some (String (ascii_of_nat (192 + n / 64)) (String (ascii_of_nat (128 + n mod 64)) EmptyString))
  else if (55296 <=? n) && (n <=? 57343) then None
  else Some (String (ascii_of_nat (224 + n / 4096))
              (String (ascii_of_nat (128 + (n / 64) mod 64)) (String (ascii_of_nat (128 + n mod 64)) EmptyString))).

(** The one-letter escapes. *)
Definition simple_escape (e : ascii) : option ascii :=
  let n := nat_of_ascii e in
  if n =? 34 then Some dq
  else if n =? 92 then Some bs
  else if n =? 47 then Some "/"%char
  else if n =? 98 then Some (ascii_of_nat 8)
  else if n =? 102 then Some (ascii_of_nat 12)
  else if n =? 110 then Some (ascii_of_nat 10)
  else if n =? 114 then Some (ascii_of_nat 13)
  else if n =? 116 then Some (ascii_of_nat 9)
  else None.

Definition prepend (p : string) (o : option (string * string)) : option (string * string) :=
  option_map (fun '(t, r) => (p ++ t, r)) o.

(** The characters of a string literal after its opening quote, up to
    and without its closing quote; and the text after it. *)
Fixpoint parse_chars (s : string) : option (string * string) :=
  match s with
  | EmptyString => None
  | String c s' =>
      if Ascii.eqb c dq then Some (EmptyString, s')
      else if Ascii.eqb c bs then
        match s' with
        | String e s'' =>
            if Ascii.eqb e "u"%char then
              match s'' with
              | String h1 (String h2 (String h3 (String h4 r))) =>
                  match hex4 h1 h2 h3 h4 with
                  | Some n => match utf8_bytes n with
                              | Some b => prepend b (parse_chars r)
                              | None => None
                              end
                  | None => None
                  end
              | _ => None
              end
            else match simple_escape e with
                 | Some ch => prepend (String ch EmptyString) (parse_chars s'')
                 | None => None
                 end
        | EmptyString => None
        end
      else if nat_of_ascii c <? 32 then None
      else prepend (String c EmptyString) (parse_chars s')
  end.

(** A value after optional whitespace, and the text after it; an array's
    elements after its [[] when it is not empty. *)
Fixpoint parse_value (fuel : nat) (s : string) {struct fuel} : option (json * string) :=
  match fuel with
  | O => None
  | S f =>
      let t := skip_ws s in
      match t with
      | EmptyString => None
      | String c r =>
          if Ascii.eqb c dq then option_map (fun '(x, r') => (JStr x, r')) (parse_chars r)
          else if Ascii.eqb c "["%char then
            match skip_ws r with
            | String d r' =>
                if Ascii.eqb d "]"%char then Some (JArr [], r')
                else option_map (fun '(l, r') => (JArr l, r')) (parse_elems f r)
            | EmptyString => None
            end
          else match strip_prefix "null" t, strip_prefix "true" t, strip_prefix "false" t with
               | Some r', _, _ => Some (JNull, r')
               | None, Some r', _ => Some (JBool true, r')
               | None, None, Some r' => Some (JBool false, r')
               | None, None, None => None
               end
      end
  end
with parse_elems (fuel : nat) (s : string) {struct fuel} : option (list json * string) :=
  match fuel with
  | O => None
  | S f =>
      match parse_value f s with
      | None => None
      | Some (v, r) =>
          match skip_ws r with
          | String c r' =>
              if Ascii.eqb c ","%char then option_map (fun '(l, r'') => (v :: l, r'')) (parse_elems f r')
              else if Ascii.eqb c "]"%char then Some ([v], r')
              else None
          | EmptyString => None
          end
      end
  end.

(** [JSON.parse]: one value and nothing but whitespace after it; [None]
    is the [SyntaxError]. *)
Definition JSON_parse (s : string) : option json :=
  match parse_value (S (String.length s)) s with
  | Some (v, r) => match skip_ws r with EmptyString => Some v | _ => None end
  | None => None
  end.

(** ** [parseJSON] of the DAOs *)

(** What [parseJSON] answers: [null], the parsed value, or the string as
    it was. *)
Inductive JsValue :=
| VNull
| VJson (v : json)
| VString (s : string).

(** [if (!value) return value; if (typeof value === 'string') { try
    { return JSON.parse(value) } catch { return value } } return value]
    on a column read as text ([None] is [NULL]). *)
Definition parseJSON (value : option string) : JsValue :=
  match value with
  | None => VNull
  | Some s =>
      if String.eqb s EmptyString then VString s
      else match JSON_parse s with Some v => VJson v | None => VString s end
  end.

(** [x ? JSON.stringify(x) : null] for a list column: an array, empty or
    not, is truthy. *)
Definition store_list (o : option (list string)) : option string :=
  match o with
  | Some l => Some (JSON_stringify (JArr (map JStr l)))
  | None => None
  end.

(** ** Fuel *)

(** The fuel [parse_value] needs for a value: one per nesting level and
    per element. *)
Fixpoint cost_list (f : json -> nat) (l : list json) : nat :=
  match l with
  | [] => 0
  | x :: l' => 1 + Nat.max (f x) (cost_list f l')
  end.

Fixpoint cost (v : json) : nat :=
  match v with
  | JArr l => 1 + cost_list cost l
  | _ => 1
  end.

(** ** Lemmas *)

Lemma str_app_assoc (a b c : string) : (a ++ b) ++ c = a ++ (b ++ c).
Proof. induction a as [|x a IH]; simpl; [reflexivity | now rewrite IH]. Qed.

Lemma str_app_empty_r (a : string) : a ++ EmptyString = a.
Proof. induction a as [|x a IH]; simpl; [reflexivity | now rewrite IH]. Qed.

Lemma str_app_length (a b : string) : String.length (a ++ b) = String.length a + String.length b.
Proof. induction a as [|x a IH]; simpl; [reflexivity | now rewrite IH]. Qed.

(** Each byte's escape reads back as the byte, by cases on the 256 bytes. *)
Lemma quote_char_parse c r :
  parse_chars (quote_char c ++ r) = prepend (String c EmptyString) (parse_chars r).
Proof.
  destruct c as [b0 b1 b2 b3 b4 b5 b6 b7].
  destruct b0, b1, b2, b3, b4, b5, b6, b7; reflexivity.
Qed.

Lemma parse_chars_quote s r : parse_chars (quote_chars s ++ String dq r) = Some (s, r).
Proof.
  induction s as [|c s IH]; [reflexivity|].
  simpl quote_chars. rewrite str_app_assoc, quote_char_parse, IH. reflexivity.
Qed.

(** A serialized value starts with a byte that is neither whitespace nor
    a closing bracket. *)
Lemma stringify_head v :
  exists c t, JSON_stringify v = String c t /\ is_ws c = false /\ Ascii.eqb c "]"%char = false.
Proof. destruct v as [|[]| |]; (do 2 eexists; split; [reflexivity | split; reflexivity]). Qed.

Lemma skip_ws_stringify v r : skip_ws (JSON_stringify v ++ r) = JSON_stringify v ++ r.
Proof. destruct (stringify_head v) as (c & t & E & Hws & _). rewrite E. simpl. now rewrite Hws. Qed.

(** The elements of a non-empty array, each read back with the fuel it
    needs, read back as the array's elements. *)
Lemma parse_elems_join l f r :
  l <> [] ->
  Forall (fun x => forall f r, cost x <= f -> parse_value f (JSON_stringify x ++ r) = Some (x, r)) l ->
  cost_list cost l <= f ->
  parse_elems f (join_with JSON_stringify l ++ "]" ++ r) = Some (l, r).
Proof.
  revert f. induction l as [|x l IH]; intros f Hne Hall Hf; [contradiction|].
  inversion Hall as [|? ? Hx Hl]; subst. destruct f as [|f]; [simpl in Hf; lia|]. simpl in Hf.
  destruct l as [|y l].
  - simpl. rewrite (Hx f _) by lia. reflexivity.
  - cbn [join_with]. rewrite !str_app_assoc. simpl parse_elems.
    rewrite (Hx f _) by lia. simpl.
    pose proof (IH f ltac:(discriminate) Hl ltac:(lia)) as IH'. simpl in IH'. rewrite IH'. reflexivity.
Qed.

Lemma parse_value_stringify v : forall f r, cost v <= f -> parse_value f (JSON_stringify v ++ r) = Some (v, r).
Proof.
  induction v as [| b | s | l Hl] using json_ind'; intros f r Hf; destruct f as [|f]; try (simpl in Hf; lia).
  - reflexivity.
  - destruct b; reflexivity.
  - simpl. rewrite str_app_assoc. simpl. rewrite parse_chars_quote. reflexivity.
  - destruct l as [|x l]; [reflexivity|].
    assert (Hj : parse_elems f (join_with JSON_stringify (x :: l) ++ "]" ++ r) = Some (x :: l, r))
      by (apply parse_elems_join; [discriminate | assumption | cbn [cost] in Hf; lia]).
    destruct (stringify_head x) as (c & t & E & Hws & Hb).
    assert (Ht : exists t', join_with JSON_stringify (x :: l) ++ "]" ++ r = String c t')
      by (destruct l; cbn [join_with]; rewrite ?str_app_assoc, E; eexists; reflexivity).
    destruct Ht as [t' Ht].
    replace (JSON_stringify (JArr (x :: l)) ++ r)
      with (String "["%char (join_with JSON_stringify (x :: l) ++ "]" ++ r))
      by (simpl JSON_stringify; simpl; now rewrite str_app_assoc).
    rewrite Ht. simpl. rewrite Hws, Hb, <- Ht, Hj. reflexivity.
Qed.

Lemma cost_list_le l :
  Forall (fun x => cost x <= String.length (JSON_stringify x)) l ->
  cost_list cost l <= String.length (join_with JSON_stringify l) + 1.
Proof.
  induction l as [|x l IH]; intros Hall; simpl; [lia|]. inversion Hall as [|? ? Hx Hl]; subst.
  destruct (stringify_head x) as (c & t & E & _ & _).
  assert (1 <= String.length (JSON_stringify x)) by (rewrite E; simpl; lia).
  destruct l as [|y l]; [simpl; lia|].
  specialize (IH Hl). cbn [join_with] in *. rewrite !str_app_length. cbn [String.length]. lia.
Qed.

Lemma cost_le_length v : cost v <= String.length (JSON_stringify v).
Proof.
  induction v as [| b | s | l Hl] using json_ind'; simpl; try lia.
  - destruct b; simpl; lia.
  - pose proof (cost_list_le l Hl). rewrite str_app_length. simpl. lia.
Qed.

(** ** Theorems *)

(** [JSON.parse(JSON.stringify(v))] is [v], for every value of the
    modelled kinds: the escapes read back as the bytes they stand for,
    and the fuel of [JSON_parse] is enough. *)
Theorem JSON_parse_stringify v : JSON_parse (JSON_stringify v) = Some v.
Proof.
  unfold JSON_parse. rewrite <- (str_app_empty_r (JSON_stringify v)) at 2.
  rewrite parse_value_stringify by (pose proof (cost_le_length v); lia). reflexivity.
Qed.

(** A list column written by a DAO ([x ? JSON.stringify(x) : null]) and
    read back by its [parseJSON] is the list it was, and [NULL] is
    [null]: the development keeps the list columns as lists. *)
Theorem parseJSON_store_list o :
  parseJSON (store_list o) = match o with Some l => VJson (JArr (map JStr l)) | None => VNull end.
Proof.
  destruct o as [l|]; [|reflexivity]. unfold parseJSON, store_list.
  destruct (String.eqb _ EmptyString) eqn:E.
  - apply String.eqb_eq in E. simpl in E. discriminate.
  - now rewrite JSON_parse_stringify.
Qed.

(** ** Concrete runs *)

(** MySQL's JSON type gives the text back with blanks after the commas;
    [JSON.parse] skips them. *)
Example parse_with_blanks :
  JSON_parse (String "["%char (String dq (String "1"%char (String dq (String ","%char (String " "%char
     (String dq (String "2"%char (String dq (String "]"%char EmptyString)))))))))) =
  Some (JArr [JStr "1"; JStr "2"]).
Proof. reflexivity. Qed.

(** A text that is not JSON, and the empty text, come back as they are. *)
Example parseJSON_fallbacks :
  parseJSON (Some "Montag") = VString "Montag" /\ parseJSON (Some EmptyString) = VString EmptyString /\
  parseJSON (Some "null") = VJson JNull.
Proof. repeat split. Qed.

(** A quote, a backslash and a line feed are escaped, and the escape
    [u00e9] reads as the two UTF-8 bytes of an e with acute accent. *)
Example escapes :
  JSON_stringify (JStr (String dq (String bs (String (ascii_of_nat 10) EmptyString)))) =
    String dq (String bs (String dq (String bs (String bs (String bs (String "n"%char (String dq EmptyString))))))) /\
  JSON_parse (String dq (String bs ("u00e9" ++ String dq EmptyString))) =
    Some (JStr (String (ascii_of_nat 195) (String (ascii_of_nat 169) EmptyString))).
Proof. split; reflexivity. Qed.

End Json.
