(* ===== verification/JsDate.v ===== *)
(** The UTC arithmetic of the JavaScript [Date] object, as ECMA-262 (sections
    "Time Values and Time Range" and "Date.prototype.setUTC...") defines it,
    on time values in milliseconds since the epoch.  The slot generator of
    [AppointmentsService.calculateTimeSlots] is written with
    [setUTCHours], [setUTCMinutes], [getUTCHours] and [getUTCMinutes]; the
    rule selector names the weekday with [toLocaleDateString]. *)

From Stdlib Require Import ZArith List String Lia.
From S2P Require Import Prelude.
Import ListNotations.
Open Scope Z_scope.

Module JsDate.

Definition msPerSecond : Z := 1000.
Definition msPerMinute : Z := 60000.
Definition msPerHour : Z := 3600000.
Definition msPerDay : Z := 86400000.

(** [Day(t) = floor(t / msPerDay)]; [Z.div] floors, also on negative [t]. *)
Definition Day (t : Z) : Z := t / msPerDay.
Definition HourFromTime (t : Z) : Z := (t / msPerHour) mod 24.
Definition MinFromTime (t : Z) : Z := (t / msPerMinute) mod 60.
Definition SecFromTime (t : Z) : Z := (t / msPerSecond) mod 60.
Definition msFromTime (t : Z) : Z := t mod msPerSecond.

Definition MakeTime (h m s ms : Z) : Z :=
  h * msPerHour + m * msPerMinute + s * msPerSecond + ms.
Definition MakeDate (day time : Z) : Z := day * msPerDay + time.

(** [d.setUTCHours(h, m, s, ms)] and [d.setUTCMinutes(m)]. *)
Definition setUTCHours (t h m s ms : Z) : Z := MakeDate (Day t) (MakeTime h m s ms).
Definition setUTCMinutes (t m : Z) : Z :=
  MakeDate (Day t) (MakeTime (HourFromTime t) m (SecFromTime t) (msFromTime t)).

Definition getUTCHours (t : Z) : Z := HourFromTime t.
Definition getUTCMinutes (t : Z) : Z := MinFromTime t.

(** [WeekDay(t) = (Day(t) + 4) modulo 7], 0 being Sunday. *)
Definition WeekDay (t : Z) : Z := (Day t + 4) mod 7.

Definition weekday_names : list string :=
  ["Sunday"; "Monday"; "Tuesday"; "Wednesday"; "Thursday"; "Friday"; "Saturday"]%string.

(** [t.toLocaleDateString("en-US", { weekday: "long" })] on a host whose
    local time is [t + offset]. *)
Definition toLocaleWeekday (offset t : Z) : string :=
  nth (Z.to_nat (WeekDay (t + offset))) weekday_names EmptyString.

(** Local midnight and 23:59:59.999 of the local day of [t], on a host at a
    fixed [offset] from UTC: [d.setHours(0, 0, 0, 0)],
    [d.setHours(23, 59, 59, 999)], and moment's [startOf('day')] /
    [endOf('day')]. *)
Definition local_start_of_day (offset t : Z) : Z := Day (t + offset) * msPerDay - offset.
Definition local_end_of_day (offset t : Z) : Z := local_start_of_day offset t + msPerDay - 1.

(** ** Calendar dates

    The proleptic Gregorian (year, month, day) of a day number since the
    epoch, by the era decomposition of ECMA-262's [YearFromTime],
    [MonthFromTime] and [DateFromTime]; it is also what MySQL's [YEAR()],
    [MONTH()], [DAY()] and moment's [year()], [month() + 1], [date()] give
    for a date in the session's time zone. *)
Definition civil_from_days (z0 : Z) : Z * Z * Z :=
  let z := z0 + 719468 in
  let era := z / 146097 in
  let doe := z - era * 146097 in
  let yoe := (doe - doe / 1460 + doe / 36524 - doe / 146096) / 365 in
  let y := yoe + era * 400 in
  let doy := doe - (365 * yoe + yoe / 4 - yoe / 100) in
  let mp := (5 * doy + 2) / 153 in
  let d := doy - (153 * mp + 2) / 5 + 1 in
  let m := if mp <? 10 then mp + 3 else mp - 9 in
  (if m <=? 2 then y + 1 else y, m, d).

Definition YearFromDay (z : Z) : Z := fst (fst (civil_from_days z)).
Definition MonthFromDay (z : Z) : Z := snd (fst (civil_from_days z)).
Definition DateFromDay (z : Z) : Z := snd (civil_from_days z).

(** ** Lemmas *)

Lemma time_decompose (t : Z) :
  t = Day t * msPerDay + HourFromTime t * msPerHour + MinFromTime t * msPerMinute
      + SecFromTime t * msPerSecond + msFromTime t.
Proof.
  unfold Day, HourFromTime, MinFromTime, SecFromTime, msFromTime,
    msPerDay, msPerHour, msPerMinute, msPerSecond.
  replace 86400000 with (1000 * 60 * 60 * 24) by reflexivity.
  replace 3600000 with (1000 * 60 * 60) by reflexivity.
  replace 60000 with (1000 * 60) by reflexivity.
  rewrite <- !Z.div_div by lia.
  pose proof (Z.div_mod t 1000 ltac:(lia)).
  pose proof (Z.div_mod (t / 1000) 60 ltac:(lia)).
  pose proof (Z.div_mod (t / 1000 / 60) 60 ltac:(lia)).
  pose proof (Z.div_mod (t / 1000 / 60 / 60) 24 ltac:(lia)).
  lia.
Qed.

Lemma getUTCHours_range (t : Z) : 0 <= getUTCHours t < 24.
Proof. apply Z.mod_pos_bound. lia. Qed.

Lemma getUTCMinutes_range (t : Z) : 0 <= getUTCMinutes t < 60.
Proof. apply Z.mod_pos_bound. lia. Qed.

(** Setting the minute field to [getUTCMinutes() + d] advances by [d]
    minutes: the loop step of [calculateTimeSlots]. *)
Lemma setUTCMinutes_advance (t d : Z) :
  setUTCMinutes t (getUTCMinutes t + d) = t + d * msPerMinute.
Proof.
  pose proof (time_decompose t) as Ht.
  unfold setUTCMinutes, MakeDate, MakeTime, getUTCMinutes in *.
  unfold msPerDay, msPerHour, msPerMinute, msPerSecond in *. lia.
Qed.

Lemma setUTCHours_day (t h m : Z) :
  setUTCHours t h m 0 0 = Day t * msPerDay + (h * 60 + m) * msPerMinute.
Proof. unfold setUTCHours, MakeDate, MakeTime, msPerHour, msPerMinute. lia. Qed.

(** An instant [x] minutes after midnight UTC of day [day], with
    [0 <= x < 1440], reads back hour [x / 60] and minute [x mod 60]. *)
Lemma utc_fields_of_minutes (day x : Z) :
  0 <= x < 1440 ->
  Day (day * msPerDay + x * msPerMinute) = day /\
  getUTCHours (day * msPerDay + x * msPerMinute) = x / 60 /\
  getUTCMinutes (day * msPerDay + x * msPerMinute) = x mod 60.
Proof.
  intros Hx. unfold Day, getUTCHours, getUTCMinutes, HourFromTime, MinFromTime,
    msPerDay, msPerMinute, msPerHour.
  replace (day * 86400000 + x * 60000) with (86400000 * day + x * 60000) by lia.
  split; [apply Z_div_add_mul_small; lia|].
  replace (86400000 * day + x * 60000) with (3600000 * (24 * day + x / 60) + 60000 * (x mod 60))
    by (pose proof (Z.div_mod x 60 ltac:(lia)); lia).
  pose proof (Z.mod_pos_bound x 60 ltac:(lia)).
  pose proof (Z.div_pos x 60 ltac:(lia)).
  assert (x / 60 < 24) by (apply Z.div_lt_upper_bound; lia).
  rewrite Z_div_add_mul_small by lia.
  split.
  - rewrite Z.add_comm, Z.mul_comm, Z.mod_add by lia. apply Z.mod_small; lia.
  - replace (3600000 * (24 * day + x / 60) + 60000 * (x mod 60))
      with ((60 * (24 * day + x / 60) + x mod 60) * 60000) by lia.
    rewrite Z.div_mul by lia.
    rewrite Z.add_comm, Z.mul_comm, Z.mod_add by lia. apply Z.mod_small; lia.
Qed.

End JsDate.
