(* ===== verification/TimeParse.v ===== *)
(** [AppointmentsService.parseTime] (AppointmentsService.ts, lines 365-378):
    a schedule's [time_from] / [time_to] string, such as ["08:00"],
    ["08:00:00"] (a MySQL TIME column) or ["1:30 pm"], read as an hour and a
    minute.  The JS builtins it calls are modelled here: [split] with a
    one-character separator, ASCII [toLowerCase], and [Number] on strings of
    decimal digits.  A JS number that may be [NaN] or [undefined] is an
    [option Z] ([None] for both: they behave alike in every later use). *)

From Stdlib Require Import ZArith List String Ascii Bool Lia.
From S2P Require Import Prelude.
Import ListNotations.
Open Scope Z_scope.
Open Scope string_scope.

Module TimeParse.

(** ** JS builtins *)

(** [s.split(sep)] for a one-character separator: never empty; ["" ] on the
    empty string; empty fields are kept. *)
Fixpoint split (sep : ascii) (s : string) : list string :=
  match s with
  | EmptyString => [EmptyString]
  | String c s' =>
      let r := split sep s' in
      if Ascii.eqb c sep then EmptyString :: r
      else match r with
           | x :: xs => String c x :: xs
           | [] => [String c EmptyString]
           end
  end.

Definition is_digit (c : ascii) : bool :=
  (48 <=? nat_of_ascii c)%nat && (nat_of_ascii c <=? 57)%nat.

Definition digit_value (c : ascii) : Z := Z.of_nat (nat_of_ascii c) - 48.

Fixpoint digits_value (s : string) (acc : Z) : option Z :=
  match s with
  | EmptyString => Some acc
  | String c s' => if is_digit c then digits_value s' (acc * 10 + digit_value c) else None
  end.

(** [Number(s)] on strings of ASCII digits ([Number("") = 0]); any other
    string is [NaN] here.  JS also accepts signs, a decimal point, exponents,
    surrounding blanks and hexadecimal: such time strings are outside the
    model. *)
Definition Number (s : string) : option Z := digits_value s 0.

Definition lower_ascii (c : ascii) : ascii :=
  let n := nat_of_ascii c in
  if ((65 <=? n)%nat && (n <=? 90)%nat)%bool then ascii_of_nat (n + 32) else c.

Fixpoint toLowerCase (s : string) : string :=
  match s with
  | EmptyString => EmptyString
  | String c s' => String (lower_ascii c) (toLowerCase s')
  end.

(** [x === n] for a possibly-NaN number: [NaN === n] is false. *)
Definition jsnum_eqb (x : option Z) (n : Z) : bool :=
  match x with Some h => Z.eqb h n | None => false end.

(** ** parseTime *)

Record ParsedTime := { hours : option Z; minutes : option Z }.

Definition parseTime (time : string) : ParsedTime :=
  let parts := split " " time in
  let hm := map Number (split ":" (nth 0 parts EmptyString)) in
  let hours0 := nth 0 hm None in
  let minutes0 := nth 1 hm None in
  let isPM := match nth_error parts 1 with
              | Some p => negb (String.eqb p EmptyString) && String.eqb (toLowerCase p) "pm"
              | None => false
              end in
  let hours1 :=
    if isPM && negb (jsnum_eqb hours0 12) then option_map (fun h => h + 12) hours0
    else if negb isPM && jsnum_eqb hours0 12 then Some 0
    else hours0 in
  {| hours := hours1; minutes := minutes0 |}.

(** ** [parseInt(s, 10)]

    Leading white space, an optional sign, then the longest prefix of
    decimal digits; [None] is [NaN]. *)

Definition is_js_space (c : ascii) : bool :=
  let n := nat_of_ascii c in
  ((n =? 32) || ((9 <=? n) && (n <=? 13)))%nat.

Fixpoint trim_start (s : string) : string :=
  match s with
  | String c s' => if is_js_space c then trim_start s' else s
  | EmptyString => EmptyString
  end.

(** The longest prefix of decimal digits, as a number ([None] if empty). *)
Fixpoint digits_prefix (s : string) (acc : option Z) : option Z :=
  match s with
  | String c s' =>
      if is_digit c then
        digits_prefix s' (Some (match acc with Some v => v | None => 0 end * 10 + digit_value c))
      else acc
  | EmptyString => acc
  end.

Definition parseInt10 (s : string) : option Z :=
  match trim_start s with
  | String "-" s' => option_map Z.opp (digits_prefix s' None)
  | String "+" s' => digits_prefix s' None
  | t => digits_prefix t None
  end.

(** ** Lemmas on the builtins *)

Fixpoint has_char (c : ascii) (s : string) : bool :=
  match s with
  | EmptyString => false
  | String d s' => Ascii.eqb d c || has_char c s'
  end.

Lemma split_no_sep (sep : ascii) (s : string) :
  has_char sep s = false -> split sep s = [s].
Proof.
  induction s as [|c s IH]; simpl; [reflexivity|].
  intros H. apply orb_false_elim in H as [Hc Hs].
  rewrite Hc, (IH Hs). reflexivity.
Qed.

Lemma split_app_sep (sep : ascii) (a b : string) :
  has_char sep a = false -> split sep (a ++ String sep b) = a :: split sep b.
Proof.
  induction a as [|c a IH]; simpl; intros H.
  - rewrite Ascii.eqb_refl. reflexivity.
  - apply orb_false_elim in H as [Hc Ha]. rewrite Hc, (IH Ha). reflexivity.
Qed.

Lemma digits_value_no_char (c : ascii) (s : string) acc v :
  is_digit c = false -> digits_value s acc = Some v -> has_char c s = false.
Proof.
  revert acc. induction s as [|d s IH]; simpl; intros acc Hc Hs; [reflexivity|].
  destruct (is_digit d) eqn:Hd; [|discriminate].
  destruct (Ascii.eqb d c) eqn:Edc.
  - apply Ascii.eqb_eq in Edc. congruence.
  - simpl. eapply IH; eauto.
Qed.

Lemma Number_no_colon s v : Number s = Some v -> has_char ":" s = false.
Proof. apply digits_value_no_char. reflexivity. Qed.

Lemma Number_no_space s v : Number s = Some v -> has_char " " s = false.
Proof. apply digits_value_no_char. reflexivity. Qed.

Lemma split_not_nil (sep : ascii) (s : string) : split sep s <> [].
Proof.
  destruct s as [|c s]; simpl; [discriminate|].
  destruct (Ascii.eqb c sep); [discriminate|]. destruct (split sep s); discriminate.
Qed.

Lemma split_no_sep_inv (sep : ascii) (s : string) :
  split sep s = [s] -> has_char sep s = false.
Proof.
  induction s as [|c s IH]; simpl; [reflexivity|].
  destruct (Ascii.eqb c sep) eqn:Hc; [intros H; discriminate H|].
  destruct (split sep s) as [|x xs] eqn:Hs; [exfalso; exact (split_not_nil sep s Hs)|].
  cbn. intros H. injection H as Hx Hxs. subst.
  apply IH. reflexivity.
Qed.

Lemma has_char_app c a b : has_char c (a ++ b) = has_char c a || has_char c b.
Proof. induction a as [|d a IH]; simpl; [reflexivity|]. rewrite IH. apply orb_assoc. Qed.

Lemma string_app_assoc (a b c : string) : a ++ b ++ c = (a ++ b) ++ c.
Proof. induction a as [|x a IH]; simpl; [reflexivity|]. rewrite IH. reflexivity. Qed.

Lemma string_app_nil_r (a : string) : a ++ EmptyString = a.
Proof. induction a as [|x a IH]; simpl; [reflexivity|]. rewrite IH. reflexivity. Qed.

(** [s] contains [p]. *)
Definition contains (p s : string) : Prop := exists x y, s = x ++ p ++ y.

Lemma contains_here p b : contains p (p ++ b).
Proof. exists EmptyString, b. reflexivity. Qed.

Lemma contains_app_l p a s : contains p s -> contains p (a ++ s).
Proof. intros (x & y & ->). exists (a ++ x), y. rewrite <- string_app_assoc. reflexivity. Qed.

(** Find [p] in a concatenation that mentions it. *)
Ltac solve_contains := repeat first [apply contains_here | apply contains_app_l].

#[export] Hint Resolve Number_no_colon Number_no_space : sched.

(** Splitting ["<a>:<b>"] when [a] and [b] are digit strings. *)
Lemma split_fields a b h m :
  Number a = Some h -> Number b = Some m ->
  split " " (a ++ ":" ++ b) = [a ++ ":" ++ b] /\ split ":" (a ++ ":" ++ b) = [a; b].
Proof.
  intros Ha Hb. split.
  - apply split_no_sep. rewrite has_char_app. simpl.
    rewrite (Number_no_space a h Ha), (Number_no_space b m Hb). reflexivity.
  - simpl. rewrite split_app_sep by eauto with sched.
    rewrite split_no_sep by eauto with sched. reflexivity.
Qed.

(** ** Properties of parseTime *)

Lemma parseTime_hm (a b : string) (h m : Z) :
  Number a = Some h -> Number b = Some m ->
  parseTime (a ++ ":" ++ b) =
    {| hours := Some (if Z.eqb h 12 then 0 else h); minutes := Some m |}.
Proof.
  intros Ha Hb. destruct (split_fields a b h m Ha Hb) as [Hs Hc].
  unfold parseTime. rewrite Hs. cbn [nth]. rewrite Hc. simpl.
  rewrite Ha, Hb. simpl. destruct (Z.eqb h 12); reflexivity.
Qed.

(** A 24-hour time ["H:M"] with decimal digits
    reads as hour [H] and minute [M], except that hour 12 without an am/pm
    suffix reads as hour 0: ["12:30"] is half past midnight. *)
Theorem parseTime_24h (a b : string) (h m : Z) :
  Number a = Some h -> Number b = Some m ->
  parseTime (a ++ ":" ++ b) =
    {| hours := Some (if Z.eqb h 12 then 0 else h); minutes := Some m |}.
Proof. apply parseTime_hm. Qed.

Lemma parseTime_24h_witness :
  Number "12" = Some 12 /\ Number "30" = Some 30 /\
  parseTime "12:30" = {| hours := Some 0; minutes := Some 30 |}.
Proof.
  split; [reflexivity|]. split; [reflexivity|].
  exact (parseTime_24h "12" "30" 12 30 eq_refl eq_refl).
Defined.

(** With a blank-separated suffix, ["H:M pm"] (any case)
    reads as hour [H + 12], or 12 when [H] is 12; any other suffix
    (["am"] included) reads as the 24-hour form, 12 becoming 0. *)
Theorem parseTime_12h (a b p : string) (h m : Z) :
  Number a = Some h -> Number b = Some m -> has_char " " p = false ->
  parseTime (a ++ ":" ++ b ++ " " ++ p) =
    {| hours := Some (if String.eqb (toLowerCase p) "pm"
                      then (if Z.eqb h 12 then 12 else h + 12)
                      else (if Z.eqb h 12 then 0 else h));
       minutes := Some m |}.
Proof.
  intros Ha Hb Hp. destruct (split_fields a b h m Ha Hb) as [Hs Hc].
  assert (Hsp : split " " (a ++ ":" ++ b ++ " " ++ p) = [a ++ ":" ++ b; p]).
  { replace (a ++ ":" ++ b ++ " " ++ p) with ((a ++ ":" ++ b) ++ String " " p)
      by (rewrite <- !string_app_assoc; reflexivity).
    rewrite split_app_sep by (apply split_no_sep_inv; exact Hs).
    rewrite (split_no_sep " " p Hp). reflexivity. }
  unfold parseTime. rewrite Hsp. cbn [nth nth_error]. rewrite Hc. simpl. rewrite Ha, Hb.
  unfold jsnum_eqb. destruct p as [|c p']; simpl; case_ifs; simpl in *; bool_to_prop; subst; congruence.
Qed.

Lemma parseTime_12h_witness :
  Number "1" = Some 1 /\ Number "30" = Some 30 /\ has_char " " "PM" = false /\
  parseTime "1:30 PM" = {| hours := Some 13; minutes := Some 30 |}.
Proof.
  split; [reflexivity|]. split; [reflexivity|]. split; [reflexivity|].
  exact (parseTime_12h "1" "30" "PM" 1 30 eq_refl eq_refl eq_refl).
Defined.

End TimeParse.
