(* ===== verification/Schedule.v ===== *)
(** The rule selector: [ScheduleDaoMySql.getScheduleByDate] and
    [mapExtendedScheduleRow] (ScheduleDaoMySql.ts, lines 251-294 and
    344-356).  The [schedules] and [calendars] tables are lists of rows; the
    SQL query is an inner join of the two filtered by its WHERE clause, with
    MySQL's NULL semantics (a comparison with NULL is not true) and its
    case-insensitive string comparison.  The class [ScheduleDao] is the
    interface the availability engine calls; [ScheduleDaoMySql] is its
    implementation over the tables. *)

From Stdlib Require Import ZArith List String Ascii Bool Lia Decimal DecimalString DecimalPos.
From S2P Require Import Prelude JsDate TimeParse.
Import ListNotations.
Open Scope Z_scope.

Module Schedule.

(** [ScheduleType.Weekly] and [ScheduleType.Certain], the values of the
    [working_hours_type] column. *)
Definition ScheduleType_Weekly : string := "weekly".
Definition ScheduleType_Certain : string := "certain".

(** A row of [schedules] (every column but [updated_at]).  Dates are day
    numbers since the epoch (a DATE column); NULL is [None]; the JSON
    column [restricted_to_services] is a list of service ids. *)
Record ScheduleRow := {
  s_id : Z;
  s_calendar_id : Z;
  s_working_hours_type : string;
  s_weekday : option string;
  s_date_from : option Z;
  s_date_to : option Z;
  s_time_from : string;
  s_time_to : string;
  s_reason : option string;
  s_deactivate_working_hours : bool;
  s_one_time_appointment_link : option string;
  s_only_internally : bool;
  s_restricted_to_services : option (list string);
  s_possible_appointment : option string;
  s_active : bool;
  s_created_at : Z
}.

(** A row of [calendars]: one technician.  The JSON columns
    [assignments_services] and [certain_services] hold lists of service ids
    (NULL is [None]); [advanced_settings], [skills] and [paired_calendars]
    are read by no code path of the backend and are left out. *)
Record CalendarRow := {
  c_id : Z;
  c_employee_name : string;
  c_description : option string;
  c_show_description : string;
  c_appointment_scheduling : option string;
  c_employee_image : option string;
  c_email : option string;
  c_password : option string;
  c_online_booked : bool;
  c_assignment_of_services : string;
  c_assignments_services : option (list string);
  c_link_calendar : bool;
  c_priority_link : option string;
  c_insert_appointments : option string;
  c_coupling_on_certain_services : bool;
  c_certain_services : option (list string);
  c_active : bool;
  c_created_at : Z
}.

(** [ExtendedSchedule]: what [getScheduleByDate] returns.  The TypeScript
    type also has [date_from] / [date_to] (read by [calculateTimeSlots]);
    [None] is [undefined]. *)
Record ExtendedSchedule := {
  es_id : string;
  es_calendar_id : string;
  es_time_from : string;
  es_time_to : string;
  es_working_hours_type : string;
  es_restricted_to_services : option (list string);
  es_weekday : option string;
  es_employee_name : string;
  es_assignments_services : list string;
  es_date_from : option Z;
  es_date_to : option Z
}.

(** [n.toString()] of an integer id. *)
Definition id_toString (n : Z) : string := NilZero.string_of_int (Z.to_int n).

(** MySQL [=] on strings under the default case-insensitive collation,
    on ASCII text. *)
Definition sql_str_eq (a b : string) : bool :=
  String.eqb (TimeParse.toLowerCase a) (TimeParse.toLowerCase b).

Definition sql_opt_str_eq (a : option string) (b : string) : bool :=
  match a with Some x => sql_str_eq x b | None => false end.

Definition sql_opt_le (a : option Z) (b : Z) : bool :=
  match a with Some x => x <=? b | None => false end.

Definition sql_opt_ge (a : option Z) (b : Z) : bool :=
  match a with Some x => b <=? x | None => false end.

(** A string parameter compared with an integer column: MySQL converts the
    string to a number (decimal digit strings here). *)
Definition sql_id_eq (param : string) (col : Z) : bool :=
  match TimeParse.Number param with Some n => Z.eqb n col | None => false end.

(** [mapExtendedScheduleRow]: the SELECT list of the query, which does not
    read [date_from] / [date_to]. *)
Definition mapExtendedScheduleRow (s : ScheduleRow) (c : CalendarRow) : ExtendedSchedule := {|
  es_id := id_toString (s_id s);
  es_calendar_id := id_toString (s_calendar_id s);
  es_time_from := s_time_from s;
  es_time_to := s_time_to s;
  es_working_hours_type := s_working_hours_type s;
  es_restricted_to_services := s_restricted_to_services s;
  es_weekday := s_weekday s;
  es_employee_name := c_employee_name c;
  es_assignments_services := match c_assignments_services c with Some l => l | None => [] end;
  es_date_from := None;
  es_date_to := None
|}.

(** The WHERE clause, for the weekday name and UTC date of the request. *)
Definition schedule_where (weekdayName : string) (dateStr : Z)
    (s : ScheduleRow) (c : CalendarRow) : bool :=
  c_active c &&
  ((sql_str_eq (s_working_hours_type s) ScheduleType_Weekly
    && sql_opt_str_eq (s_weekday s) weekdayName)
   || (sql_str_eq (s_working_hours_type s) ScheduleType_Certain
       && sql_opt_le (s_date_from s) dateStr && sql_opt_ge (s_date_to s) dateStr)).

(** [FROM schedules s INNER JOIN calendars c ON s.calendar_id = c.id]. *)
Definition join (ss : list ScheduleRow) (cs : list CalendarRow) : list (ScheduleRow * CalendarRow) :=
  flat_map (fun s => map (fun c => (s, c)) (List.filter (fun c => Z.eqb (s_calendar_id s) (c_id c)) cs)) ss.

(** [getScheduleByDate(date)] on a host whose local time is [date + offset]:
    the weekday is local ([toLocaleDateString]), the date is UTC
    ([toISOString().split('T')[0]]). *)
Definition getScheduleByDate (ss : list ScheduleRow) (cs : list CalendarRow)
    (offset date : Z) : list ExtendedSchedule :=
  let weekdayName := JsDate.toLocaleWeekday offset date in
  let dateStr := JsDate.Day date in
  map (fun '(s, c) => mapExtendedScheduleRow s c)
      (List.filter (fun '(s, c) => schedule_where weekdayName dateStr s c) (join ss cs)).

(** The interface the services call: [ScheduleDao.getScheduleByDate]. *)
Class ScheduleDao := { dao_getScheduleByDate : Z -> list ExtendedSchedule }.

#[export] Instance ScheduleDaoMySql (ss : list ScheduleRow) (cs : list CalendarRow) (offset : Z)
  : ScheduleDao := { dao_getScheduleByDate := getScheduleByDate ss cs offset }.

(** An active calendar with only a name and its services, as the examples
    use it. *)
Definition calendar_row (id : Z) (name : string) (services : option (list string)) : CalendarRow := {|
  c_id := id; c_employee_name := name; c_description := None; c_show_description := "None";
  c_appointment_scheduling := None; c_employee_image := None; c_email := None; c_password := None;
  c_online_booked := false; c_assignment_of_services := "All"; c_assignments_services := services;
  c_link_calendar := false; c_priority_link := None; c_insert_appointments := None;
  c_coupling_on_certain_services := false; c_certain_services := None; c_active := true;
  c_created_at := 0 |}.

(** ** Lemmas *)

Lemma In_join ss cs s c :
  In (s, c) (join ss cs) <-> In s ss /\ In c cs /\ s_calendar_id s = c_id c.
Proof.
  unfold join. rewrite in_flat_map. split.
  - intros [s' [Hs' Hin]]. apply in_map_iff in Hin as [c' [Heq Hc']].
    inversion Heq; subst. apply In_filter_iff in Hc' as [Hc Heqb].
    apply Z.eqb_eq in Heqb. auto.
  - intros [Hs [Hc Heq]]. exists s. split; [exact Hs|].
    apply in_map_iff. exists c. split; [reflexivity|].
    apply In_filter_iff. split; [exact Hc|]. apply Z.eqb_eq, Heq.
Qed.

Lemma In_getScheduleByDate ss cs offset date e :
  In e (getScheduleByDate ss cs offset date) <->
  exists s c, In s ss /\ In c cs /\ s_calendar_id s = c_id c /\
    schedule_where (JsDate.toLocaleWeekday offset date) (JsDate.Day date) s c = true /\
    e = mapExtendedScheduleRow s c.
Proof.
  unfold getScheduleByDate. rewrite in_map_iff. split.
  - intros [[s c] [He Hin]]. apply In_filter_iff in Hin as [Hj Hw].
    apply In_join in Hj as (Hs & Hc & Hid). exists s, c. auto 6.
  - intros (s & c & Hs & Hc & Hid & Hw & He). exists (s, c). split; [auto|].
    apply In_filter_iff. split; [apply In_join; auto | exact Hw].
Qed.


(** ** [n.toString()] read back by MySQL

    An id printed by [toString] and compared with an integer column (the
    [getAppointmentById(result.insertId.toString())] pattern) finds that
    id again. *)

Fixpoint uint_value (d : uint) (acc : Z) : Z :=
  match d with
  | Nil => acc
  | D0 l => uint_value l (acc * 10 + 0) | D1 l => uint_value l (acc * 10 + 1)
  | D2 l => uint_value l (acc * 10 + 2) | D3 l => uint_value l (acc * 10 + 3)
  | D4 l => uint_value l (acc * 10 + 4) | D5 l => uint_value l (acc * 10 + 5)
  | D6 l => uint_value l (acc * 10 + 6) | D7 l => uint_value l (acc * 10 + 7)
  | D8 l => uint_value l (acc * 10 + 8) | D9 l => uint_value l (acc * 10 + 9)
  end.

Lemma digits_value_string_of_uint d acc :
  TimeParse.digits_value (NilEmpty.string_of_uint d) acc = Some (uint_value d acc).
Proof. revert acc. induction d; intros acc; simpl; auto. Qed.

Lemma of_uint_acc_value d acc : Z.pos (Pos.of_uint_acc d acc) = uint_value d (Z.pos acc).
Proof.
  revert acc. induction d; intros acc; cbn [Pos.of_uint_acc uint_value]; try reflexivity;
    rewrite IHd; f_equal; rewrite ?Pos2Z.inj_add, ?Pos2Z.inj_mul; lia.
Qed.

Lemma of_uint_value d : Z.of_N (Pos.of_uint d) = uint_value d 0.
Proof.
  induction d; simpl; try reflexivity; [exact IHd|..]; apply of_uint_acc_value.
Qed.

Lemma Number_id_toString (n : Z) : 0 <= n -> TimeParse.Number (id_toString n) = Some n.
Proof.
  intros Hn. unfold id_toString, TimeParse.Number. destruct n as [|p|p]; [reflexivity| |lia].
  simpl. unfold NilZero.string_of_uint.
  destruct (Pos.to_uint p) eqn:E;
    [exfalso; apply (DecimalPos.Unsigned.to_uint_nonnil p E)|..];
    rewrite <- E, digits_value_string_of_uint, <- of_uint_value, DecimalPos.Unsigned.of_to; reflexivity.
Qed.

Lemma sql_id_eq_toString (n m : Z) : 0 <= n -> sql_id_eq (id_toString n) m = Z.eqb n m.
Proof. intros Hn. unfold sql_id_eq. rewrite Number_id_toString by exact Hn. reflexivity. Qed.

Lemma id_toString_inj (a b : Z) : 0 <= a -> 0 <= b -> id_toString a = id_toString b -> a = b.
Proof.
  intros Ha Hb H. apply (f_equal TimeParse.Number) in H.
  rewrite !Number_id_toString in H by assumption. congruence.
Qed.

(** A parameter names at most one id. *)
Lemma sql_id_eq_inj (p : string) (x y : Z) :
  sql_id_eq p x = true -> sql_id_eq p y = true -> x = y.
Proof. unfold sql_id_eq. destruct (TimeParse.Number p); [|discriminate]. rewrite !Z.eqb_eq. congruence. Qed.

Lemma id_toString_nonempty (n : Z) : String.eqb (id_toString n) EmptyString = false.
Proof. unfold id_toString. destruct (Z.to_int n) as [u|u]; simpl; [destruct u|]; reflexivity. Qed.

#[export] Hint Rewrite sql_id_eq_toString using lia : sched_rw.

End Schedule.
