(* ===== verification/RowDocuments.v ===== *)
(** The generic helpers of [database-client/src/mysqlClient.ts] (lines
    170-211): [mapRowToDocument], [mapRowsToDocuments] and the exported
    [parseJSON].  A row and a document are JS objects: lists of keys with
    their values, in insertion order; setting a key that is present
    replaces its value in place, as JS does.  A value is a column value of
    any type [V] (with its [toString] and its truthiness), a string, or
    [undefined].  The DAOs map their rows with their own functions; these
    helpers are exported for other clients. *)

From Stdlib Require Import ZArith List String Bool Lia.
From S2P Require Import Prelude TimeParse Json Schedule.
Import ListNotations.

Module RowDocuments.
Local Open Scope string_scope.

(** A property value of the document. *)
Inductive DocValue (V : Type) :=
| DVal (v : V)
| DStr (s : string)
| DUndefined.
Arguments DVal {V} v.
Arguments DStr {V} s.
Arguments DUndefined {V}.

(** A JS object: its keys in insertion order. *)
Definition obj (A : Type) := list (string * A).

Fixpoint obj_get {A} (k : string) (o : obj A) : option A :=
  match o with
  | [] => None
  | (k', v) :: o' => if String.eqb k k' then Some v else obj_get k o'
  end.

(** [o[k] = v]: in place when [k] is present, at the end otherwise. *)
Fixpoint obj_set {A} (k : string) (v : A) (o : obj A) : obj A :=
  match o with
  | [] => [(k, v)]
  | (k', v') :: o' => if String.eqb k k' then (k', v) :: o' else (k', v') :: obj_set k v o'
  end.

(** [{ ...src }] into [o]: the keys of [src] in order. *)
Definition obj_spread {A} (src o : obj A) : obj A := fold_left (fun acc kv => obj_set (fst kv) (snd kv) acc) src o.

(** [const { a, b, c, ...rest } = row]: [rest] without those keys. *)
Definition obj_rest {A} (ks : list string) (o : obj A) : obj A :=
  filter (fun kv => negb (existsb (String.eqb (fst kv)) ks)) o.

Section Mapping.
Context {V : Type}.
(** [x.toString()] and [x ? ... : ...] on a column value. *)
Variable toString : V -> string.
Variable truthy : V -> bool.

(** A property read from the row: [undefined] when absent. *)
Definition read (k : string) (row : obj V) : DocValue V :=
  match obj_get k row with Some v => DVal v | None => DUndefined end.

(** [mapRowToDocument] (lines 170-181); [None] is a [null] row. *)
Definition mapRowToDocument (row : option (obj V)) : option (obj (DocValue V)) :=
  match row with
  | None => None
  | Some r =>
      let rest := obj_rest ["id"; "created_at"; "updated_at"] r in
      let id_value := match obj_get "id" r with
                      | Some v => if truthy v then DStr (toString v) else DUndefined
                      | None => DUndefined
                      end in
      let o1 := obj_spread (map (fun kv => (fst kv, DVal (snd kv))) rest) [("_id", id_value)] in
      Some (obj_set "updatedAt" (read "updated_at" r) (obj_set "createdAt" (read "created_at" r) o1))
  end.

(** [mapRowsToDocuments] (lines 189-191). *)
Definition mapRowsToDocuments (rows : list (obj V)) : list (option (obj (DocValue V))) :=
  map (fun r => mapRowToDocument (Some r)) rows.
End Mapping.

(** The exported [parseJSON] (lines 200-209): unlike the DAOs' copy it
    has no [if (!value) return value]. *)
Definition client_parseJSON (value : option string) : Json.JsValue :=
  match value with
  | None => Json.VNull
  | Some s => match Json.JSON_parse s with Some v => Json.VJson v | None => Json.VString s end
  end.

(** ** Lemmas *)

Lemma obj_get_set {A} k k' (v : A) o :
  obj_get k (obj_set k' v o) = if String.eqb k k' then Some v else obj_get k o.
Proof.
  induction o as [|[k0 v0] o IH]; cbn.
  - destruct (String.eqb k k'); reflexivity.
  - destruct (String.eqb_spec k' k0) as [-> | Hne]; cbn.
    + destruct (String.eqb k k0); reflexivity.
    + rewrite IH. destruct (String.eqb_spec k k'), (String.eqb_spec k k0); congruence.
Qed.

Lemma obj_get_none {A} k (o : obj A) : ~ In k (map fst o) -> obj_get k o = None.
Proof.
  induction o as [|[k0 v0] o IH]; cbn; intros H; [reflexivity|].
  destruct (String.eqb_spec k k0) as [-> | _]; [exfalso; apply H; left; reflexivity|].
  apply IH. intros Hin. apply H. right. exact Hin.
Qed.

(** Spreading an object with distinct keys: its keys win. *)
Lemma obj_get_spread {A} k (src o : obj A) :
  NoDup (map fst src) ->
  obj_get k (obj_spread src o) = match obj_get k src with Some v => Some v | None => obj_get k o end.
Proof.
  unfold obj_spread. revert o. induction src as [|[k0 v0] src IH]; intros o Hnd; cbn; [reflexivity|].
  inversion Hnd as [|? ? Hnin Hnd']; subst. rewrite IH by exact Hnd'. rewrite obj_get_set.
  destruct (String.eqb_spec k k0) as [-> | _]; [|reflexivity].
  rewrite (obj_get_none k0 src Hnin). reflexivity.
Qed.

Lemma obj_get_map {A B} (f : A -> B) k (o : obj A) :
  obj_get k (map (fun kv => (fst kv, f (snd kv))) o) = option_map f (obj_get k o).
Proof. induction o as [|[k0 v0] o IH]; cbn; [reflexivity|]. destruct (String.eqb k k0); [reflexivity | exact IH]. Qed.

Lemma obj_get_rest_kept {A} ks k (o : obj A) :
  existsb (String.eqb k) ks = false -> obj_get k (obj_rest ks o) = obj_get k o.
Proof.
  intros E. unfold obj_rest. induction o as [|[k0 v0] o IH]; cbn; [reflexivity|].
  destruct (String.eqb_spec k k0) as [-> | Hne].
  - rewrite E. cbn. rewrite String.eqb_refl. reflexivity.
  - destruct (negb _); cbn; [|exact IH]. apply String.eqb_neq in Hne. rewrite Hne. exact IH.
Qed.

Lemma obj_get_rest_dropped {A} ks k (o : obj A) :
  existsb (String.eqb k) ks = true -> obj_get k (obj_rest ks o) = None.
Proof.
  intros E. unfold obj_rest. induction o as [|[k0 v0] o IH]; cbn; [reflexivity|].
  destruct (String.eqb_spec k k0) as [-> | Hne]; [rewrite E; exact IH|].
  destruct (negb _); cbn; [|exact IH]. apply String.eqb_neq in Hne. rewrite Hne. exact IH.
Qed.

Lemma NoDup_rest {A} ks (o : obj A) : NoDup (map fst o) -> NoDup (map fst (obj_rest ks o)).
Proof.
  induction o as [|[k0 v0] o IH]; cbn; intros H; [constructor|].
  inversion H as [|? ? Hnin Hnd]; subst. destruct (negb _); cbn; [|exact (IH Hnd)].
  constructor; [|exact (IH Hnd)]. intros Hin. apply Hnin.
  unfold obj_rest in Hin. apply in_map_iff in Hin as (kv & <- & Hkv). apply filter_In in Hkv as [Hkv _].
  apply in_map. exact Hkv.
Qed.

(** The exported [parseJSON] and the DAOs' agree: the empty string is not
    JSON either. *)
Lemma JSON_parse_empty : Json.JSON_parse "" = None.
Proof. reflexivity. Qed.

(** ** Theorems *)

(** [client_parseJSON] computes the DAOs' [parseJSON] on every column
    value: the missing [!value] test makes no difference. *)
Theorem client_parseJSON_equiv v : client_parseJSON v = Json.parseJSON v.
Proof.
  destruct v as [s|]; [|reflexivity]. unfold client_parseJSON, Json.parseJSON.
  destruct (String.eqb_spec s "") as [-> | _]; [rewrite JSON_parse_empty|]; reflexivity.
Qed.

(** [mapRowToDocument] on a row with distinct column names, none of them
    [_id], [createdAt] or [updatedAt]: every other column keeps its value,
    [_id] is the string of a truthy [id] (else [undefined]), [createdAt]
    and [updatedAt] are the two timestamps, and [id], [created_at],
    [updated_at] are gone. *)
Theorem mapRowToDocument_spec {V} (toString : V -> string) (truthy : V -> bool) (r : obj V) doc :
  NoDup (map fst r) -> ~ In "_id" (map fst r) -> ~ In "createdAt" (map fst r) -> ~ In "updatedAt" (map fst r) ->
  mapRowToDocument toString truthy (Some r) = Some doc ->
  (forall k, existsb (String.eqb k) ["id"; "created_at"; "updated_at"; "_id"; "createdAt"; "updatedAt"] = false ->
             obj_get k doc = option_map DVal (obj_get k r)) /\
  obj_get "_id" doc = Some (match obj_get "id" r with
                            | Some v => if truthy v then DStr (toString v) else DUndefined
                            | None => DUndefined end) /\
  obj_get "createdAt" doc = Some (read "created_at" r) /\
  obj_get "updatedAt" doc = Some (read "updated_at" r) /\
  obj_get "id" doc = None /\ obj_get "created_at" doc = None /\ obj_get "updated_at" doc = None.
Proof.
  intros Hnd Hid Hca Hua H. cbn in H. injection H as <-.
  pose (ks := ["id"; "created_at"; "updated_at"]).
  assert (Hnd' : NoDup (map fst (map (fun kv => (fst kv, @DVal V (snd kv))) (obj_rest ks r)))).
  { rewrite map_map. cbn. apply NoDup_rest. exact Hnd. }
  assert (Hsp : forall k (x : DocValue V), existsb (String.eqb k) ks = false -> k <> "_id" ->
                 obj_get k (obj_spread (map (fun kv => (fst kv, DVal (snd kv))) (obj_rest ks r)) [("_id", x)]) =
                 option_map DVal (obj_get k r)).
  { intros k x Hk Hne. rewrite obj_get_spread by exact Hnd'. rewrite obj_get_map, obj_get_rest_kept by exact Hk.
    destruct (obj_get k r); [reflexivity|]. cbn. apply String.eqb_neq in Hne. rewrite Hne. reflexivity. }
  assert (Hdrop : forall k (x : DocValue V), existsb (String.eqb k) ks = true -> k <> "_id" ->
                   obj_get k (obj_spread (map (fun kv => (fst kv, DVal (snd kv))) (obj_rest ks r)) [("_id", x)]) = None).
  { intros k x Hk Hne. rewrite obj_get_spread by exact Hnd'. rewrite obj_get_map, obj_get_rest_dropped by exact Hk.
    cbn. apply String.eqb_neq in Hne. rewrite Hne. reflexivity. }
  repeat split.
  - intros k Hk. cbn in Hk. rewrite !obj_get_set.
    destruct (String.eqb_spec k "updatedAt"); [subst; discriminate|].
    destruct (String.eqb_spec k "createdAt"); [subst; discriminate|].
    apply Hsp; [|intros ->; discriminate]. cbn. destruct (String.eqb k "id"), (String.eqb k "created_at");
      cbn in Hk |- *; try discriminate; destruct (String.eqb k "updated_at"); [discriminate|reflexivity].
  - rewrite !obj_get_set. cbn. rewrite obj_get_spread by exact Hnd'.
    rewrite obj_get_map, obj_get_rest_kept by reflexivity. rewrite (obj_get_none "_id" r Hid). reflexivity.
  - rewrite !obj_get_set. reflexivity.
  - rewrite !obj_get_set. reflexivity.
  - rewrite !obj_get_set. cbn. apply Hdrop; [reflexivity | discriminate].
  - rewrite !obj_get_set. cbn. apply Hdrop; [reflexivity | discriminate].
  - rewrite !obj_get_set. cbn. apply Hdrop; [reflexivity | discriminate].
Qed.

(** ** Concrete runs *)

Definition calendar_row (id : Z) : obj Z := [("id", id); ("employee_name", 3%Z); ("created_at", 100%Z)].

(** A row becomes [_id], its other columns, [createdAt] and [updatedAt]
    ([undefined] when the row has no [updated_at]); an [id] of 0 is falsy
    and gives no [_id]. *)
Example map_row_runs :
  mapRowToDocument Schedule.id_toString (fun z => negb (Z.eqb z 0)) (Some (calendar_row 7)) =
    Some [("_id", DStr "7"); ("employee_name", DVal 3%Z); ("createdAt", DVal 100%Z); ("updatedAt", DUndefined)] /\
  obj_get "_id" (match mapRowToDocument Schedule.id_toString (fun z => negb (Z.eqb z 0)) (Some (calendar_row 0))
                 with Some d => d | None => [] end) = Some DUndefined /\
  client_parseJSON (Some "true") = Json.VJson (Json.JBool true) /\
  client_parseJSON (Some "tru") = Json.VString "tru".
Proof. vm_compute. repeat split. Qed.

End RowDocuments.
