(* ===== verification/Table.v ===== *)
(** A MySQL table with an [AUTO_INCREMENT] primary key, as the CRUD
    methods of the DAOs use it: its rows in insertion order and the next
    id.  The operations are the statements the DAOs send: [INSERT] (the
    row gets the next id), [SELECT * ... WHERE id = ? LIMIT 1], [UPDATE
    ... WHERE id = ?] and [DELETE ... WHERE id = ?], the id parameter being
    a string that MySQL converts to a number ([sql_id_eq]).  The invariant
    [table_wf] says the primary keys are positive, below the counter and
    distinct.  The abstraction [abs] reads a table as a finite map from ids
    to rows ([gmap]); the refinement lemmas show each statement is the
    map operation it stands for. *)

From Stdlib Require Import ZArith List String Bool Lia.
From stdpp Require Import base gmap.
From S2P Require Import Prelude TimeParse Schedule.
Import ListNotations.
Open Scope Z_scope.

Module Table.
Import Schedule.

(** The primary key of a row type. *)
Class HasId (R : Type) := row_id : R -> Z.

Record table (R : Type) := mk_table { rows : list R; next_id : Z }.
Arguments mk_table {R} _ _.
Arguments rows {R} _.
Arguments next_id {R} _.

(** [mapXRow(rows[0])] of an empty result: reading [id] of [undefined]. *)
Definition missing_row_error : string := "Cannot read properties of undefined (reading 'id')".

Section Ops.
  Context {R : Type} `{HasId R}.

(** [WHERE id = ?] with the id parameter as a string. *)
Definition id_match (id : string) (r : R) : bool := sql_id_eq id (row_id r).

Definition table_wf (t : table R) : Prop :=
  Forall (fun r => 0 < row_id r < next_id t) (rows t) /\
  List.NoDup (map row_id (rows t)) /\ 0 < next_id t.

(** [INSERT INTO ...]: the row built from the next id; [insertId] is that id. *)
Definition insert_row (mk : Z -> R) (t : table R) : Z * table R :=
  (next_id t, mk_table (rows t ++ [mk (next_id t)]) (next_id t + 1)).

(** [SELECT * FROM ... WHERE id = ? LIMIT 1]. *)
Definition find_row (id : string) (t : table R) : option R :=
  hd_error (List.filter (id_match id) (rows t)).

(** [UPDATE ... SET ... WHERE id = ?]. *)
Definition update_where (id : string) (f : R -> R) (t : table R) : table R :=
  mk_table (map (fun r => if id_match id r then f r else r) (rows t)) (next_id t).

(** [DELETE FROM ... WHERE id = ?]. *)
Definition delete_where (id : string) (t : table R) : table R :=
  mk_table (List.filter (fun r => negb (id_match id r)) (rows t)) (next_id t).

(** [ORDER BY created_at DESC LIMIT ? OFFSET ?] with [limit * (page - 1)]
    as the offset; MySQL rejects a negative one. *)
Definition select_page (created : R -> Z) (page limit : Z) (l : list R) : option (list R) :=
  let offset := limit * (page - 1) in
  if (limit <? 0) || (offset <? 0) then None
  else Some (firstn (Z.to_nat limit) (skipn (Z.to_nat offset) (sort_by created true l))).

(** The abstraction: the table as a map from ids to rows.  The first row
    of an id wins, as for [find_row]; under [table_wf] there is one. *)
Fixpoint abs_rows (l : list R) : gmap Z R :=
  match l with
  | [] => ∅
  | r :: l' => <[row_id r := r]> (delete (row_id r) (abs_rows l'))
  end.

Definition abs (t : table R) : gmap Z R := abs_rows (rows t).

(** The map operation a [WHERE id = ?] statement stands for: nothing when
    the parameter is not a number. *)
Definition on_id {A} (id : string) (f : Z -> A) (dflt : A) : A :=
  match TimeParse.Number id with Some n => f n | None => dflt end.

(** ** Lemmas *)

Lemma abs_rows_lookup (l : list R) (k : Z) :
  abs_rows l !! k = List.find (fun r => Z.eqb (row_id r) k) l.
Proof.
  induction l as [|r l IH]; simpl; [apply lookup_empty|].
  destruct (Z.eqb_spec (row_id r) k) as [<-|Hne].
  - apply lookup_insert_eq.
  - rewrite lookup_insert_ne by congruence. rewrite lookup_delete_ne by congruence. exact IH.
Qed.

Lemma id_match_Number (id : string) (r : R) :
  id_match id r = match TimeParse.Number id with Some n => Z.eqb n (row_id r) | None => false end.
Proof. reflexivity. Qed.

Lemma find_filter_hd (p : R -> bool) (l : list R) : hd_error (List.filter p l) = List.find p l.
Proof. induction l as [|r l IH]; simpl; [reflexivity|]. destruct (p r); [reflexivity | exact IH]. Qed.

Lemma find_ext (p q : R -> bool) (l : list R) :
  (forall r, p r = q r) -> List.find p l = List.find q l.
Proof. intros Hpq. induction l as [|r l IH]; simpl; [reflexivity|]. rewrite Hpq, IH. reflexivity. Qed.

(** Refinement of the read: [find_row] is the map lookup. *)
Lemma find_row_abs (id : string) (t : table R) :
  find_row id t = on_id id (fun n => abs t !! n) None.
Proof.
  unfold find_row, on_id, abs. rewrite find_filter_hd.
  destruct (TimeParse.Number id) as [n|] eqn:En.
  - rewrite abs_rows_lookup. apply find_ext. intros r. rewrite id_match_Number, En. apply Z.eqb_sym.
  - rewrite (find_ext _ (fun _ => false)) by (intros r; rewrite id_match_Number, En; reflexivity).
    induction (rows t); simpl; auto.
Qed.

Lemma find_app_fresh (k : Z) (l : list R) (x : R) :
  Forall (fun r => row_id r < row_id x) l ->
  List.find (fun r => Z.eqb (row_id r) k) (l ++ [x]) =
  if Z.eqb (row_id x) k then Some x else List.find (fun r => Z.eqb (row_id r) k) l.
Proof.
  induction l as [|r l IH]; simpl; intros Hb; [destruct (Z.eqb _ _); reflexivity|].
  inversion Hb as [|? ? Hr Hl]; subst. destruct (Z.eqb_spec (row_id r) k) as [<-|]; [|apply IH, Hl].
  destruct (Z.eqb_spec (row_id x) (row_id r)); [lia | reflexivity].
Qed.

(** Refinement of [INSERT]: the map gets the new id. *)
Lemma insert_row_abs (mk : Z -> R) (t : table R) :
  table_wf t -> row_id (mk (next_id t)) = next_id t ->
  abs (snd (insert_row mk t)) = <[next_id t := mk (next_id t)]> (abs t).
Proof.
  intros (Hb & _ & _) Hid. apply map_eq. intros k. unfold abs. simpl.
  rewrite !abs_rows_lookup, find_app_fresh.
  - rewrite Hid. destruct (Z.eqb_spec (next_id t) k) as [<-|Hne].
    + rewrite lookup_insert_eq. reflexivity.
    + rewrite lookup_insert_ne by exact Hne. rewrite abs_rows_lookup. reflexivity.
  - rewrite Hid. eapply List.Forall_impl; [|exact Hb]. simpl. intros r Hr. lia.
Qed.

Lemma find_filter_out (p : R -> bool) (k : Z) (l : list R) :
  (forall r, Z.eqb (row_id r) k = true -> p r = true) ->
  List.find (fun r => Z.eqb (row_id r) k) (List.filter p l) = List.find (fun r => Z.eqb (row_id r) k) l.
Proof.
  intros Hp. induction l as [|r l IH]; simpl; [reflexivity|].
  destruct (Z.eqb (row_id r) k) eqn:E; [rewrite (Hp r E); simpl; rewrite E; reflexivity|].
  destruct (p r); simpl; [rewrite E|]; exact IH.
Qed.

Lemma find_filter_none (p : R -> bool) (k : Z) (l : list R) :
  (forall r, Z.eqb (row_id r) k = true -> p r = false) ->
  List.find (fun r => Z.eqb (row_id r) k) (List.filter p l) = None.
Proof.
  intros Hp. induction l as [|r l IH]; simpl; [reflexivity|].
  destruct (Z.eqb (row_id r) k) eqn:E; [rewrite (Hp r E); exact IH|].
  destruct (p r); simpl; [rewrite E|]; exact IH.
Qed.

(** Refinement of [DELETE]: the map loses the id. *)
Lemma delete_where_abs (id : string) (t : table R) :
  abs (delete_where id t) = on_id id (fun n => delete n (abs t)) (abs t).
Proof.
  unfold abs, delete_where, on_id. simpl.
  destruct (TimeParse.Number id) as [n|] eqn:En.
  - apply map_eq. intros k. rewrite !abs_rows_lookup. destruct (Z.eqb_spec n k) as [<-|Hne].
    + rewrite lookup_delete_eq. apply find_filter_none. intros r Hr.
      rewrite id_match_Number, En, Z.eqb_sym, Hr. reflexivity.
    + rewrite lookup_delete_ne by exact Hne. rewrite abs_rows_lookup. apply find_filter_out.
      intros r Hr. rewrite id_match_Number, En. apply Z.eqb_eq in Hr. subst k.
      apply negb_true_iff, Z.eqb_neq. exact Hne.
  - rewrite filter_all_true; [reflexivity|]. intros r _. rewrite id_match_Number, En. reflexivity.
Qed.

Lemma find_map_update (f : R -> R) (n k : Z) (l : list R) :
  (forall r, row_id (f r) = row_id r) ->
  List.find (fun r => Z.eqb (row_id r) k) (map (fun r => if Z.eqb n (row_id r) then f r else r) l) =
  if Z.eqb n k then option_map f (List.find (fun r => Z.eqb (row_id r) k) l)
  else List.find (fun r => Z.eqb (row_id r) k) l.
Proof.
  intros Hf. induction l as [|r l IH]; simpl; [destruct (Z.eqb n k); reflexivity|].
  destruct (Z.eqb_spec n (row_id r)) as [Hn|Hn]; simpl; rewrite ?Hf;
    destruct (Z.eqb_spec (row_id r) k) as [Hk|Hk]; rewrite ?IH;
    destruct (Z.eqb_spec n k); try reflexivity; lia.
Qed.

(** Refinement of [UPDATE]: the map's entry for the id is changed, when
    the change keeps the primary key. *)
Lemma update_where_abs (id : string) (f : R -> R) (t : table R) :
  (forall r, row_id (f r) = row_id r) ->
  abs (update_where id f t) = on_id id (fun n => alter f n (abs t)) (abs t).
Proof.
  intros Hf. unfold abs, update_where, on_id. simpl.
  destruct (TimeParse.Number id) as [n|] eqn:En.
  - apply map_eq. intros k. rewrite !abs_rows_lookup.
    rewrite (map_ext_in _ (fun r => if Z.eqb n (row_id r) then f r else r))
      by (intros r _; rewrite id_match_Number, En; reflexivity).
    rewrite find_map_update by exact Hf. destruct (Z.eqb_spec n k) as [<-|Hne].
    + rewrite lookup_alter_eq, abs_rows_lookup. reflexivity.
    + rewrite lookup_alter_ne by exact Hne. rewrite abs_rows_lookup. reflexivity.
  - rewrite (map_ext_in _ (fun r => r)) by (intros r _; rewrite id_match_Number, En; reflexivity).
    rewrite map_id. reflexivity.
Qed.

(** ** The invariant *)

Lemma insert_row_wf (mk : Z -> R) (t : table R) :
  table_wf t -> row_id (mk (next_id t)) = next_id t -> table_wf (snd (insert_row mk t)).
Proof.
  intros (Hb & Hnd & Hp) Hid. unfold table_wf. simpl. repeat split; [| |lia].
  - apply Forall_app; split; [eapply List.Forall_impl; [|exact Hb]; simpl; intros r Hr; lia|].
    constructor; [rewrite Hid; lia | constructor].
  - rewrite map_app. apply List.NoDup_app; [exact Hnd | repeat constructor; auto |].
    intros z Hz [<-|[]]. apply in_map_iff in Hz as [r [Hr Hin]].
    rewrite List.Forall_forall in Hb. specialize (Hb r Hin). lia.
Qed.

Lemma delete_where_wf (id : string) (t : table R) : table_wf t -> table_wf (delete_where id t).
Proof.
  intros (Hb & Hnd & Hp). unfold table_wf, delete_where. simpl.
  repeat split; [apply Forall_filter, Hb | apply NoDup_map_filter, Hnd | exact Hp].
Qed.

Lemma map_keys_update (id : string) (f : R -> R) (l : list R) :
  (forall r, row_id (f r) = row_id r) ->
  map row_id (map (fun r => if id_match id r then f r else r) l) = map row_id l.
Proof. intros Hf. rewrite map_map. apply map_ext. intros r. destruct (id_match id r); auto. Qed.

Lemma update_where_wf (id : string) (f : R -> R) (t : table R) :
  (forall r, row_id (f r) = row_id r) -> table_wf t -> table_wf (update_where id f t).
Proof.
  intros Hf (Hb & Hnd & Hp). unfold table_wf, update_where. simpl.
  rewrite map_keys_update by exact Hf. repeat split; [|exact Hnd|exact Hp].
  apply Forall_map. eapply List.Forall_impl; [|exact Hb]. simpl. intros r Hr.
  destruct (id_match id r); rewrite ?Hf; exact Hr.
Qed.

Lemma find_row_In (id : string) (t : table R) (r : R) :
  find_row id t = Some r -> In r (rows t) /\ id_match id r = true.
Proof.
  unfold find_row. destruct (List.filter (id_match id) (rows t)) as [|x l] eqn:E; simpl; [discriminate|].
  intros Hx. injection Hx as <-. apply (In_filter_iff (id_match id)). rewrite E. left. reflexivity.
Qed.

(** A decision procedure for [table_wf], for concrete tables. *)
Definition table_wfb (t : table R) : bool :=
  forallb (fun r => (0 <? row_id r) && (row_id r <? next_id t)) (rows t) &&
  nodupb (map row_id (rows t)) && (0 <? next_id t).

Lemma table_wfb_sound (t : table R) : table_wfb t = true -> table_wf t.
Proof.
  unfold table_wfb. intros Hb. bool_to_prop.
  refine (conj _ (conj _ _)); [apply forallb_bounds | apply nodupb_NoDup | lia]; assumption.
Qed.

(** Reading back an inserted row by its id ([insertId.toString()]). *)
Lemma find_row_insert (mk : Z -> R) (t : table R) :
  table_wf t -> row_id (mk (next_id t)) = next_id t ->
  find_row (id_toString (next_id t)) (snd (insert_row mk t)) = Some (mk (next_id t)).
Proof.
  intros Hwf Hid. rewrite find_row_abs. unfold on_id.
  rewrite Number_id_toString by (destruct Hwf as (_ & _ & Hp); lia).
  rewrite insert_row_abs by assumption. apply lookup_insert_eq.
Qed.

Lemma find_row_none_all (id : string) (t : table R) :
  find_row id t = None -> forall r, In r (rows t) -> id_match id r = false.
Proof.
  unfold find_row. intros Hn r Hr. destruct (id_match id r) eqn:E; [|reflexivity].
  assert (Hin : In r (List.filter (id_match id) (rows t))) by (apply In_filter_iff; auto).
  destruct (List.filter _ _); [contradiction | discriminate].
Qed.

(** A statement whose id names no row changes nothing. *)
Lemma delete_where_none (id : string) (t : table R) :
  find_row id t = None -> delete_where id t = t.
Proof.
  intros Hn. destruct t as [l n]. unfold delete_where. simpl. f_equal.
  apply filter_all_true. intros r Hr. rewrite (find_row_none_all id _ Hn r Hr). reflexivity.
Qed.

Lemma update_where_none (id : string) (f : R -> R) (t : table R) :
  find_row id t = None -> update_where id f t = t.
Proof.
  intros Hn. destruct t as [l n]. unfold update_where. simpl. f_equal.
  rewrite (map_ext_in _ (fun r => r)); [apply map_id|].
  intros r Hr. rewrite (find_row_none_all id _ Hn r Hr). reflexivity.
Qed.

(** The UPDATE keeps the ids, so the read after it finds the updated row. *)
Lemma find_row_update (id : string) (f : R -> R) (t : table R) :
  (forall r, row_id (f r) = row_id r) -> find_row id (update_where id f t) = option_map f (find_row id t).
Proof.
  intros Hf. unfold find_row, update_where. simpl. induction (rows t) as [|r l IH]; [reflexivity|].
  simpl. destruct (id_match id r) eqn:E; simpl.
  - unfold id_match in *. rewrite Hf, E. reflexivity.
  - rewrite E. exact IH.
Qed.

(** A property of every row survives each statement that keeps it. *)
Lemma insert_row_Forall (P : R -> Prop) (mk : Z -> R) (t : table R) :
  Forall P (rows t) -> P (mk (next_id t)) -> Forall P (rows (snd (insert_row mk t))).
Proof. intros Hl Hm. simpl. apply Forall_app. split; [exact Hl | repeat constructor; exact Hm]. Qed.

Lemma update_where_Forall (P : R -> Prop) (id : string) (f : R -> R) (t : table R) :
  Forall P (rows t) -> (forall r, P r -> P (f r)) -> Forall P (rows (update_where id f t)).
Proof.
  intros Hl Hf. simpl. apply Forall_map. eapply List.Forall_impl; [|exact Hl].
  intros r Hr. destruct (id_match id r); auto.
Qed.

Lemma delete_where_Forall (P : R -> Prop) (id : string) (t : table R) :
  Forall P (rows t) -> Forall P (rows (delete_where id t)).
Proof. intros Hl. apply Forall_filter, Hl. Qed.

End Ops.

End Table.
