(* ===== verification/Slots.v ===== *)
(** The slot generator: [AppointmentsService.calculateTimeSlots]
    (AppointmentsService.ts, lines 257-363).  For each selected rule the
    code parses [time_from] / [time_to], sets a [Date] to [time_from] on the
    UTC day of the request and steps it by the service duration in a
    [while] loop whose guard and whose acceptance test compare UTC hour and
    minute fields with the parsed end time.  The loop is modelled with fuel
    ([slot_loop]); weekly rules are processed before date-range ("certain")
    rules, as in the code. *)

From Stdlib Require Import ZArith List String Ascii Bool Lia.
From S2P Require Import Prelude JsDate TimeParse Schedule.
Import ListNotations.
Open Scope Z_scope.

Module Slots.
Import JsDate TimeParse Schedule.

(** The objects pushed to [timeSlots]; [start] / [end] are instants. *)
Record TimeSlot := {
  slot_start : Z;
  slot_end : Z;
  slot_calendar_id : string;
  slot_employee_name : string
}.

(** [a < b] and [a === b] when [b] may be [NaN] / [undefined]. *)
Definition js_lt (a : Z) (b : option Z) : bool :=
  match b with Some b => a <? b | None => false end.
Definition js_le (a : Z) (b : option Z) : bool :=
  match b with Some b => a <=? b | None => false end.
Definition js_eq (a : Z) (b : option Z) : bool :=
  match b with Some b => a =? b | None => false end.

(** The loop guard (lines 295-298) and the acceptance test (lines
    305-308). *)
Definition before_end (t : Z) (eh em : option Z) : bool :=
  js_lt (getUTCHours t) eh || (js_eq (getUTCHours t) eh && js_lt (getUTCMinutes t) em).
Definition not_after_end (t : Z) (eh em : option Z) : bool :=
  js_lt (getUTCHours t) eh || (js_eq (getUTCHours t) eh && js_le (getUTCMinutes t) em).

(** The [while] loop from the instant [cur], with fuel. *)
Fixpoint slot_loop (fuel : nat) (cur d : Z) (eh em : option Z) (cal emp : string)
    : option (list TimeSlot) :=
  match fuel with
  | O => None
  | S fuel' =>
      if before_end cur eh em then
        let slotEndTime := setUTCMinutes cur (getUTCMinutes cur + d) in
        let rest := slot_loop fuel' (setUTCMinutes cur (getUTCMinutes cur + d)) d eh em cal emp in
        if not_after_end slotEndTime eh em then
          option_map (cons {| slot_start := cur; slot_end := slotEndTime;
                              slot_calendar_id := cal; slot_employee_name := emp |}) rest
        else rest
      else Some []
  end.

(** One rule: parse its times, start at [time_from] on the UTC day of
    [selectedDate].  A [NaN] start hour or minute makes the [Date] invalid,
    and every comparison with it is false: no slot. *)
Definition schedule_slots (fuel : nat) (selectedDate d : Z) (s : ExtendedSchedule)
    : option (list TimeSlot) :=
  let startTime := parseTime (es_time_from s) in
  let endTime := parseTime (es_time_to s) in
  match hours startTime, minutes startTime with
  | Some sh, Some sm =>
      slot_loop fuel (setUTCHours selectedDate sh sm 0 0) d (hours endTime) (minutes endTime)
                (es_calendar_id s) (es_employee_name s)
  | _, _ => Some []
  end.

(** The two filters of lines 268-284. *)
Definition is_weekly_for (selectedDay : string) (s : ExtendedSchedule) : bool :=
  String.eqb (es_working_hours_type s) "weekly" &&
  match es_weekday s with Some w => String.eqb w selectedDay | None => false end.

Definition is_certain_for (selectedDate : Z) (s : ExtendedSchedule) : bool :=
  String.eqb (es_working_hours_type s) "certain" &&
  match es_date_from s, es_date_to s with
  | Some f, Some t => (f <=? selectedDate) && (selectedDate <=? t)
  | _, _ => false
  end.

(** The [for] loops, in order; a loop that does not stop stops them all. *)
Fixpoint collect_slots (fuel : nat) (selectedDate d : Z) (ss : list ExtendedSchedule)
    : option (list TimeSlot) :=
  match ss with
  | [] => Some []
  | s :: ss' =>
      match schedule_slots fuel selectedDate d s with
      | None => None
      | Some l => option_map (app l) (collect_slots fuel selectedDate d ss')
      end
  end.

Definition calculateTimeSlots (fuel : nat) (offset : Z) (schedules : list ExtendedSchedule)
    (selectedDate serviceDuration : Z) : option (list TimeSlot) :=
  let selectedDay := toLocaleWeekday offset selectedDate in
  let weeklySchedules := List.filter (is_weekly_for selectedDay) schedules in
  let certainDateSchedules := List.filter (is_certain_for selectedDate) schedules in
  collect_slots fuel selectedDate serviceDuration (weeklySchedules ++ certainDateSchedules).

(** ** Reference enumeration

    In minutes after midnight: [n] slots starting at [x], [x + d], ...  *)
Fixpoint ref_starts (n : nat) (x d : Z) : list Z :=
  match n with O => [] | S n' => x :: ref_starts n' (x + d) d end.

(** How many whole slots of [d] minutes fit between [x] and [E]. *)
Definition slot_count (x E d : Z) : nat := Z.to_nat ((E - x) / d).

Definition mk_slot (day d : Z) (cal emp : string) (x : Z) : TimeSlot := {|
  slot_start := day * msPerDay + x * msPerMinute;
  slot_end := day * msPerDay + (x + d) * msPerMinute;
  slot_calendar_id := cal;
  slot_employee_name := emp |}.

(** ** Lemmas on the loop *)

Lemma lex_lt_minutes (x eh em : Z) :
  0 <= x -> 0 <= em < 60 ->
  ((x / 60 <? eh) || ((x / 60 =? eh) && (x mod 60 <? em)))%bool = (x <? eh * 60 + em).
Proof.
  intros Hx Hem. pose proof (Z_div_mod_split x 60 ltac:(lia)) as [Hd Hm].
  solve_cmps.
Qed.

Lemma lex_le_minutes (x eh em : Z) :
  0 <= x -> 0 <= em < 60 ->
  ((x / 60 <? eh) || ((x / 60 =? eh) && (x mod 60 <=? em)))%bool = (x <=? eh * 60 + em).
Proof.
  intros Hx Hem. pose proof (Z_div_mod_split x 60 ltac:(lia)) as [Hd Hm].
  solve_cmps.
Qed.

(** Within one UTC day the guard and the test compare minutes of the day. *)
Lemma before_end_in_day (day x eh em : Z) :
  0 <= x < 1440 -> 0 <= em < 60 ->
  before_end (day * msPerDay + x * msPerMinute) (Some eh) (Some em) = (x <? eh * 60 + em).
Proof.
  intros Hx Hem. destruct (utc_fields_of_minutes day x Hx) as (_ & Hh & Hm).
  unfold before_end, js_lt, js_eq. rewrite Hh, Hm. apply lex_lt_minutes; lia.
Qed.

Lemma not_after_end_in_day (day x eh em : Z) :
  0 <= x < 1440 -> 0 <= em < 60 ->
  not_after_end (day * msPerDay + x * msPerMinute) (Some eh) (Some em) = (x <=? eh * 60 + em).
Proof.
  intros Hx Hem. destruct (utc_fields_of_minutes day x Hx) as (_ & Hh & Hm).
  unfold not_after_end, js_lt, js_le, js_eq. rewrite Hh, Hm. apply lex_le_minutes; lia.
Qed.

Lemma advance_in_day (day x d : Z) :
  setUTCMinutes (day * msPerDay + x * msPerMinute)
                (getUTCMinutes (day * msPerDay + x * msPerMinute) + d)
  = day * msPerDay + (x + d) * msPerMinute.
Proof. rewrite setUTCMinutes_advance. lia. Qed.

Lemma slot_count_step (x E d : Z) :
  0 < d -> x + d <= E -> slot_count x E d = S (slot_count (x + d) E d).
Proof.
  intros Hd Hle. unfold slot_count.
  replace (E - x) with ((E - (x + d)) + 1 * d) by lia.
  rewrite Z.div_add by lia.
  assert (0 <= (E - (x + d)) / d) by (apply Z.div_pos; lia).
  rewrite Z2Nat.inj_add by lia. simpl. lia.
Qed.

Lemma slot_count_zero (x E d : Z) : 0 < d -> E < x + d -> slot_count x E d = O.
Proof.
  intros Hd Hlt. unfold slot_count.
  assert ((E - x) / d <= 0).
  { apply Z.lt_succ_r, Z.div_lt_upper_bound; lia. }
  lia.
Qed.

#[export] Hint Rewrite before_end_in_day not_after_end_in_day using lia : sched_rw.
#[export] Hint Rewrite advance_in_day : sched_rw.

Section Loop.
  Context (day d eh em : Z) (cal emp : string).
  Hypothesis Hd : 0 < d.
  Hypothesis Hem : 0 <= em < 60.
  Hypothesis Hend : eh * 60 + em + d <= 1440.

  (** The loop from a start [x] at or after the end stops at once. *)
Lemma slot_loop_stop (fuel : nat) (x : Z) :
    0 <= x < 1440 -> eh * 60 + em <= x ->
    slot_loop (S fuel) (day * msPerDay + x * msPerMinute) d (Some eh) (Some em) cal emp = Some [].
  Proof.
    intros Hx Hge. simpl. autorewrite with sched_rw.
    replace (x <? eh * 60 + em) with false by (symmetry; apply Z.ltb_ge; lia). reflexivity.
  Qed.

  (** From minute [x] of the day the loop returns exactly the reference
      slots, given [slot_count + 2] rounds of fuel. *)
Lemma slot_loop_ref (fuel : nat) (x : Z) :
    0 <= x < 1440 -> (slot_count x (eh * 60 + em) d + 2 <= fuel)%nat ->
    slot_loop fuel (day * msPerDay + x * msPerMinute) d (Some eh) (Some em) cal emp
    = Some (map (mk_slot day d cal emp) (ref_starts (slot_count x (eh * 60 + em) d) x d)).
  Proof.
    revert x. induction fuel as [|fuel IH]; intros x Hx Hf; [lia|].
    destruct (Z_lt_le_dec x (eh * 60 + em)) as [Hlt|Hge].
    - simpl. autorewrite with sched_rw.
      replace (x <? eh * 60 + em) with true by (symmetry; apply Z.ltb_lt; lia).
      destruct (Z_le_gt_dec (x + d) (eh * 60 + em)) as [Hle|Hgt].
      + replace (x + d <=? eh * 60 + em) with true by (symmetry; apply Z.leb_le; lia).
        rewrite slot_count_step in * by lia.
        rewrite IH by lia. reflexivity.
      + replace (x + d <=? eh * 60 + em) with false by (symmetry; apply Z.leb_gt; lia).
        rewrite slot_count_zero in * by lia.
        destruct fuel as [|fuel]; [lia|]. apply slot_loop_stop; lia.
    - rewrite slot_count_zero by lia. destruct fuel as [|fuel]; [lia|].
      apply slot_loop_stop; lia.
  Qed.
End Loop.

(** ** Lemmas on the reference enumeration and on collect_slots *)

Lemma In_ref_starts (n : nat) (x d y : Z) :
  In y (ref_starts n x d) -> exists k, 0 <= k < Z.of_nat n /\ y = x + k * d.
Proof.
  revert x. induction n as [|n IH]; simpl; intros x Hy; [contradiction|].
  destruct Hy as [<-|Hy].
  - exists 0. lia.
  - destruct (IH (x + d) Hy) as [k [Hk ->]]. exists (k + 1). lia.
Qed.

Lemma slot_count_fits (x E d : Z) :
  0 < d -> (0 < slot_count x E d)%nat -> Z.of_nat (slot_count x E d) * d <= E - x.
Proof.
  intros Hd Hpos. unfold slot_count in *.
  assert (0 < (E - x) / d) by lia.
  rewrite Z2Nat.id by lia. rewrite Z.mul_comm. apply Z.mul_div_le. lia.
Qed.

(** Every reference slot starts at or after [x] and ends by [E]. *)
Lemma ref_slot_bounds (x E d y : Z) :
  0 < d -> In y (ref_starts (slot_count x E d) x d) -> x <= y /\ y + d <= E.
Proof.
  intros Hd Hy. destruct (In_ref_starts _ _ _ _ Hy) as [k [Hk ->]].
  pose proof (slot_count_fits x E d Hd ltac:(lia)). nia.
Qed.

Lemma collect_slots_Forall (P : TimeSlot -> Prop) (fuel : nat) (date d : Z) ss l :
  (forall s l', In s ss -> schedule_slots fuel date d s = Some l' -> Forall P l') ->
  collect_slots fuel date d ss = Some l -> Forall P l.
Proof.
  revert l. induction ss as [|s ss IH]; simpl; intros l Hs Hc.
  - inversion Hc. constructor.
  - destruct (schedule_slots fuel date d s) as [l1|] eqn:E1; [|discriminate].
    destruct (collect_slots fuel date d ss) as [l2|] eqn:E2; [|discriminate].
    inversion Hc; subst. apply Forall_app. split; eauto.
Qed.

Lemma slot_loop_Forall_duration (fuel : nat) (cur d : Z) eh em cal emp l :
  slot_loop fuel cur d eh em cal emp = Some l ->
  Forall (fun sl => slot_end sl = slot_start sl + d * msPerMinute) l.
Proof.
  revert cur l. induction fuel as [|fuel IH]; simpl; intros cur l H; [discriminate|].
  destruct (before_end cur eh em); [|inversion H; constructor].
  rewrite setUTCMinutes_advance in H.
  destruct (not_after_end (cur + d * msPerMinute) eh em); [|eauto].
  apply option_map_cons_Some in H as [l' [Hl' ->]].
  constructor; [reflexivity | eauto].
Qed.

(** ** Properties of the slot generator *)

Lemma schedule_slots_eq_ref (fuel : nat) (date d : Z) (s : ExtendedSchedule) (sh sm eh em : Z) :
  parseTime (es_time_from s) = {| hours := Some sh; minutes := Some sm |} ->
  parseTime (es_time_to s) = {| hours := Some eh; minutes := Some em |} ->
  0 <= sh * 60 + sm < 1440 -> 0 <= em < 60 -> 0 < d -> eh * 60 + em + d <= 1440 ->
  (slot_count (sh * 60 + sm) (eh * 60 + em) d + 2 <= fuel)%nat ->
  schedule_slots fuel date d s =
    Some (map (mk_slot (Day date) d (es_calendar_id s) (es_employee_name s))
              (ref_starts (slot_count (sh * 60 + sm) (eh * 60 + em) d) (sh * 60 + sm) d)).
Proof.
  intros Hf Ht Hx Hem Hd Hend Hfuel. unfold schedule_slots. rewrite Hf, Ht. simpl.
  rewrite setUTCHours_day. apply slot_loop_ref; lia.
Qed.

(** C2 (refinement): for a rule whose times parse to [sh:sm] and [eh:em],
    starting inside the day, with [em < 60] and the end at least one
    service duration before midnight, the loop stops (with [slot_count + 2]
    rounds of fuel) and returns exactly the slots [[x, x + d]] for
    [x = sh:sm, sh:sm + d, ...] as long as [x + d <= eh:em], on the UTC day
    of the request. *)
Theorem schedule_slots_ref (fuel : nat) (date d : Z) (s : ExtendedSchedule) (sh sm eh em : Z) :
  parseTime (es_time_from s) = {| hours := Some sh; minutes := Some sm |} ->
  parseTime (es_time_to s) = {| hours := Some eh; minutes := Some em |} ->
  0 <= sh * 60 + sm < 1440 -> 0 <= em < 60 -> 0 < d -> eh * 60 + em + d <= 1440 ->
  (slot_count (sh * 60 + sm) (eh * 60 + em) d + 2 <= fuel)%nat ->
  schedule_slots fuel date d s =
    Some (map (mk_slot (Day date) d (es_calendar_id s) (es_employee_name s))
              (ref_starts (slot_count (sh * 60 + sm) (eh * 60 + em) d) (sh * 60 + sm) d)).
Proof. apply schedule_slots_eq_ref. Qed.

Lemma calculateTimeSlots_durations (fuel : nat) (offset : Z) ss (date d : Z) l :
  calculateTimeSlots fuel offset ss date d = Some l ->
  Forall (fun sl => slot_end sl = slot_start sl + d * msPerMinute) l.
Proof.
  unfold calculateTimeSlots. apply collect_slots_Forall. intros s l' _.
  unfold schedule_slots. destruct (hours (parseTime (es_time_from s))), (minutes (parseTime (es_time_from s)));
    try (intros H; inversion H; constructor).
  apply slot_loop_Forall_duration.
Qed.

(** Every slot the generator returns lasts exactly the
    service duration, whatever the rules. *)
Theorem calculateTimeSlots_duration (fuel : nat) (offset : Z) ss (date d : Z) l :
  calculateTimeSlots fuel offset ss date d = Some l ->
  Forall (fun sl => slot_end sl = slot_start sl + d * msPerMinute) l.
Proof. apply calculateTimeSlots_durations. Qed.

(** C5 (bounds): under the hypotheses of [schedule_slots_ref], the loop
    returns, and every slot starts at or after [time_from] and ends at or
    before [time_to] on the UTC day of the request. *)
Theorem schedule_slots_within_rule (fuel : nat) (date d : Z) (s : ExtendedSchedule) (sh sm eh em : Z) :
  parseTime (es_time_from s) = {| hours := Some sh; minutes := Some sm |} ->
  parseTime (es_time_to s) = {| hours := Some eh; minutes := Some em |} ->
  0 <= sh * 60 + sm < 1440 -> 0 <= em < 60 -> 0 < d -> eh * 60 + em + d <= 1440 ->
  (slot_count (sh * 60 + sm) (eh * 60 + em) d + 2 <= fuel)%nat ->
  exists l, schedule_slots fuel date d s = Some l /\
    Forall (fun sl => Day date * msPerDay + (sh * 60 + sm) * msPerMinute <= slot_start sl /\
                      slot_end sl <= Day date * msPerDay + (eh * 60 + em) * msPerMinute) l.
Proof.
  intros Hf Ht Hx Hem Hd Hend Hfuel.
  eexists. split; [eapply schedule_slots_eq_ref; eauto|].
  apply Forall_map, Forall_forall. intros y Hy.
  destruct (ref_slot_bounds _ _ _ _ Hd Hy). simpl. unfold msPerMinute. lia.
Qed.

(** An instant [x >= 0] minutes after midnight of [day], possibly on a later
    day: the guard compares the minute of its own day. *)
Lemma before_end_any (day x eh em : Z) :
  0 <= x -> 0 <= em < 60 ->
  before_end (day * msPerDay + x * msPerMinute) (Some eh) (Some em) = (x mod 1440 <? eh * 60 + em).
Proof.
  intros Hx Hem. pose proof (Z_div_mod_split x 1440 ltac:(lia)) as [Hxd Hxm].
  replace (day * msPerDay + x * msPerMinute)
    with ((day + x / 1440) * msPerDay + (x mod 1440) * msPerMinute)
    by (unfold msPerDay, msPerMinute; lia).
  apply before_end_in_day; lia.
Qed.

(** When [d] divides a day, the minutes of the day the loop visits from [x]
    are [x mod d] plus multiples of [d]; the largest is
    [1440 - d + x mod d]. *)
Lemma minute_of_day_bound (x d : Z) :
  0 < d -> 1440 mod d = 0 -> 0 <= x -> x mod 1440 <= 1440 - d + x mod d.
Proof.
  intros Hd Hdiv Hx. set (y := x mod 1440).
  assert (Hy : 0 <= y < 1440) by (apply Z.mod_pos_bound; lia).
  assert (Hym : y mod d = x mod d).
  { unfold y. apply Z.mod_mod_divide. apply Z.mod_divide; lia. }
  pose proof (Z.div_mod 1440 d ltac:(lia)) as Hq. rewrite Hdiv, Z.add_0_r in Hq.
  pose proof (Z_div_mod_split y d Hd) as [Hyd Hyr].
  assert (y / d < 1440 / d) by (apply Z.div_lt_upper_bound; lia).
  rewrite <- Hym. nia.
Qed.

Lemma slot_loop_diverges (fuel : nat) (day x d eh em : Z) (cal emp : string) :
  0 < d -> 1440 mod d = 0 -> 0 <= em < 60 -> 0 <= x ->
  1440 - d + x mod d < eh * 60 + em ->
  slot_loop fuel (day * msPerDay + x * msPerMinute) d (Some eh) (Some em) cal emp = None.
Proof.
  revert x. induction fuel as [|fuel IH]; intros x Hd Hdiv Hem Hx Hlt; [reflexivity|].
  simpl. rewrite before_end_any by lia.
  pose proof (minute_of_day_bound x d Hd Hdiv Hx).
  replace (x mod 1440 <? eh * 60 + em) with true by (symmetry; apply Z.ltb_lt; lia).
  rewrite setUTCMinutes_advance.
  replace (day * msPerDay + x * msPerMinute + d * msPerMinute)
    with (day * msPerDay + (x + d) * msPerMinute) by lia.
  assert (Hxd : (x + d) mod d = x mod d).
  { replace (x + d) with (x + 1 * d) by lia. apply Z_mod_plus_full. }
  rewrite IH by lia. destruct (not_after_end _ _ _); reflexivity.
Qed.

(** C6 (termination, finding): when the service duration divides a day and
    every minute of the day the loop can reach lies before [time_to] (for
    instance a rule 22:00-23:30 with 60-minute services), the [while] loop
    of [calculateTimeSlots] never stops: the slot instant wraps past
    midnight and the guard only compares hours and minutes. *)
Theorem schedule_slots_diverges (fuel : nat) (date d : Z) (s : ExtendedSchedule) (sh sm eh em : Z) :
  parseTime (es_time_from s) = {| hours := Some sh; minutes := Some sm |} ->
  parseTime (es_time_to s) = {| hours := Some eh; minutes := Some em |} ->
  0 <= sh * 60 + sm -> 0 <= em < 60 -> 0 < d -> 1440 mod d = 0 ->
  1440 - d + (sh * 60 + sm) mod d < eh * 60 + em ->
  schedule_slots fuel date d s = None.
Proof.
  intros Hf Ht Hx Hem Hd Hdiv Hlt. unfold schedule_slots. rewrite Hf, Ht. simpl.
  rewrite setUTCHours_day. apply slot_loop_diverges; lia.
Qed.

(** C10 (functional, finding): a rule whose [time_to] is written ["12:MM"]
    without a suffix ends at 00:MM, so a rule starting at or after 00:MM
    (e.g. the seeded Friday hours 08:00-12:00 of calendar 3) yields no
    slot at all. *)
Theorem noon_end_no_slots (fuel : nat) (date d : Z) (s : ExtendedSchedule) (b : string) (sh sm m : Z) :
  es_time_to s = ("12:" ++ b)%string -> Number b = Some m -> 0 <= m < 60 ->
  parseTime (es_time_from s) = {| hours := Some sh; minutes := Some sm |} ->
  m <= sh * 60 + sm < 1440 ->
  schedule_slots (S fuel) date d s = Some [].
Proof.
  intros Hto Hb Hm Hf Hx. unfold schedule_slots. rewrite Hf, Hto.
  change ("12:" ++ b)%string with ("12" ++ ":" ++ b)%string.
  rewrite (parseTime_hm "12" b 12 m eq_refl Hb). simpl.
  rewrite setUTCHours_day. apply slot_loop_stop; lia.
Qed.

(** ** Concrete rules *)

(** A weekly rule row as [getScheduleByDate] returns it. *)
Definition weekly_rule (cal emp wd from to : string) : ExtendedSchedule := {|
  es_id := "1"; es_calendar_id := cal; es_time_from := from; es_time_to := to;
  es_working_hours_type := "weekly"; es_restricted_to_services := None;
  es_weekday := Some wd; es_employee_name := emp; es_assignments_services := [];
  es_date_from := None; es_date_to := None |}.

(** 2024-05-13T00:00:00Z, a Monday, and 2024-05-17, a Friday. *)
Definition monday_2024_05_13 : Z := 1715558400000.
Definition friday_2024_05_17 : Z := 1715904000000.

Lemma schedule_slots_ref_witness :
  let r := weekly_rule "1" "Tech" "Monday" "08:00" "17:00" in
  schedule_slots 11 monday_2024_05_13 60 r =
    Some (map (mk_slot (Day monday_2024_05_13) 60 "1" "Tech") (ref_starts 9 480 60)).
Proof.
  intros r. exact (schedule_slots_ref 11 monday_2024_05_13 60 r 8 0 17 0
    eq_refl eq_refl ltac:(lia) ltac:(lia) ltac:(lia) ltac:(lia) ltac:(vm_compute; lia)).
Defined.

Lemma schedule_slots_within_rule_witness :
  exists l, schedule_slots 7 monday_2024_05_13 45 (weekly_rule "1" "Tech" "Monday" "09:00" "13:00") = Some l /\
    Forall (fun sl => Day monday_2024_05_13 * msPerDay + 540 * msPerMinute <= slot_start sl /\
                      slot_end sl <= Day monday_2024_05_13 * msPerDay + 780 * msPerMinute) l.
Proof.
  exact (schedule_slots_within_rule 7 monday_2024_05_13 45
    (weekly_rule "1" "Tech" "Monday" "09:00" "13:00") 9 0 13 0
    eq_refl eq_refl ltac:(lia) ltac:(lia) ltac:(lia) ltac:(lia) ltac:(vm_compute; lia)).
Defined.

Lemma schedule_slots_diverges_witness :
  schedule_slots 1000 monday_2024_05_13 60
    (weekly_rule "1" "Tech" "Monday" "22:00" "23:30") = None.
Proof.
  exact (schedule_slots_diverges 1000 monday_2024_05_13 60
    (weekly_rule "1" "Tech" "Monday" "22:00" "23:30") 22 0 23 30
    eq_refl eq_refl ltac:(lia) ltac:(lia) ltac:(lia) ltac:(reflexivity) ltac:(vm_compute; reflexivity)).
Defined.

Lemma noon_end_no_slots_witness :
  schedule_slots 10 friday_2024_05_17 60 (weekly_rule "3" "Tech" "Friday" "08:00" "12:00") = Some [].
Proof.
  exact (noon_end_no_slots 9 friday_2024_05_17 60 (weekly_rule "3" "Tech" "Friday" "08:00" "12:00")
    "00" 8 0 0 eq_refl eq_refl ltac:(lia) eq_refl ltac:(lia)).
Defined.

Lemma calculateTimeSlots_duration_witness :
  exists l, calculateTimeSlots 20 0 [weekly_rule "1" "Tech" "Monday" "09:00" "13:00"]
              monday_2024_05_13 45 = Some l /\
    Forall (fun sl => slot_end sl = slot_start sl + 45 * msPerMinute) l.
Proof.
  eexists. split; [vm_compute; reflexivity|].
  exact (calculateTimeSlots_duration 20 0 [weekly_rule "1" "Tech" "Monday" "09:00" "13:00"]
           monday_2024_05_13 45 _ ltac:(vm_compute; reflexivity)).
Defined.

(** The examples of the specification's section 8, items 6 and 7. *)
Example spec_example_6 :
  option_map (map (fun sl => ((slot_start sl - monday_2024_05_13) / msPerMinute,
                              (slot_end sl - monday_2024_05_13) / msPerMinute)))
    (calculateTimeSlots 20 0 [weekly_rule "1" "Tech" "Monday" "08:00" "17:00"] monday_2024_05_13 60)
  = Some [(480, 540); (540, 600); (600, 660); (660, 720); (720, 780);
          (780, 840); (840, 900); (900, 960); (960, 1020)].
Proof. vm_compute. reflexivity. Qed.

Example spec_example_7 :
  option_map (map (fun sl => ((slot_start sl - monday_2024_05_13) / msPerMinute,
                              (slot_end sl - monday_2024_05_13) / msPerMinute)))
    (calculateTimeSlots 20 0 [weekly_rule "1" "Tech" "Monday" "09:00" "13:00"] monday_2024_05_13 45)
  = Some [(540, 585); (585, 630); (630, 675); (675, 720); (720, 765)].
Proof. vm_compute. reflexivity. Qed.

(** A service longer than a day is not "longer than the rule window": the
    fields compared are those of the next day. *)
Example long_service_slots :
  option_map (@List.length TimeSlot)
    (calculateTimeSlots 20 0 [weekly_rule "1" "Tech" "Monday" "08:00" "17:00"] monday_2024_05_13 1500)
  = Some 9%nat.
Proof. vm_compute. reflexivity. Qed.

End Slots.
