(* ===== verification/Appointment.v ===== *)
(** The appointment and contact rows of the database and the read queries
    of [AppointmentDaoMySql] (database-client/src/Appointment): the row
    mapping [mapAppointmentWithContact] (lines 640-701), [getAppointmentById]
    (154-200), [getAppointments] (208-250), [getAppointmentsByContactId]
    (257-299), [getAppointmentsByDateCalendarIdId] (308-354) and
    [getAppointmentsByCalendarIdId] (361-403).  Each is an inner join of
    [appointments] with [contacts] filtered by its WHERE clause and sorted
    by its ORDER BY.  [mapContactRow] of [ContactDaoMySql] (lines 436-470)
    is here too, since both DAOs read the [contacts] row.  Instants are [Z]
    milliseconds; coordinates are reals.  The class [AppointmentDao] is the
    part of the interface the availability services call; [AppointmentDaoMySql]
    implements it over the tables.  The columns no code path of the model
    reads (device data, attachments, control points, ...) are left out. *)

From Stdlib Require Import ZArith List String Bool Lia Reals Sorted.
From S2P Require Import Prelude Schedule.
Import ListNotations.
Open Scope Z_scope.

Module Appointment.
Import Schedule.

(** The [Contact] object.  Optional columns are [option] ([None] is
    [undefined] or SQL NULL). *)
Record Contact := {
  ct_id : string;
  ct_salutation : option string;
  ct_first_name : option string;
  ct_last_name : option string;
  ct_address : option string;
  ct_zip_code : option string;
  ct_location : option string;
  ct_telephone : option string;
  ct_phone_numbber_2 : option string;
  ct_phone_numbber_3 : option string;
  ct_email : option string;
  ct_password : option string;
  ct_archived : bool;
  ct_note_on_address : option string;
  ct_district : option Z;
  ct_lat : option R;
  ct_lng : option R
}.

(** A row of [contacts]. *)
Record ContactRow := {
  cr_id : Z;
  cr_salutation : option string;
  cr_first_name : option string;
  cr_last_name : option string;
  cr_address : option string;
  cr_zip_code : option string;
  cr_location : option string;
  cr_telephone : option string;
  cr_phone_numbber_2 : option string;
  cr_phone_numbber_3 : option string;
  cr_email : option string;
  cr_password : option string;
  cr_archived : bool;
  cr_note_on_address : option string;
  cr_district : option Z;
  cr_lat : option R;
  cr_lng : option R;
  cr_remarks : option string;
  cr_created_at : Z
}.

(** A row of [appointments]. *)
Record AppointmentRow := {
  ar_id : Z;
  ar_category_id : Z;
  ar_service_id : Z;
  ar_calendar_id : Z;
  ar_contact_id : Z;
  ar_new_user : bool;
  ar_start_date : Z;
  ar_end_date : Z;
  ar_appointment_status : string;
  ar_archived : bool;
  ar_remarks : option string;
  ar_brand_of_device : option string;
  ar_model : option string;
  ar_year : option string
}.

(** The [Appointment] object returned by the DAO. *)
Record Appointment := {
  ap_id : string;
  ap_category_id : string;
  ap_service_id : string;
  ap_calendar_id : string;
  ap_contact_id : string;
  ap_new_user : bool;
  ap_start_date : Z;
  ap_end_date : Z;
  ap_appointment_status : string;
  ap_archived : bool;
  ap_remarks : option string;
  ap_brand_of_device : option string;
  ap_model : option string;
  ap_year : option string;
  ap_contact : option Contact
}.

(** [ContactDaoMySql.mapContactRow]. *)
Definition mapContactRow (r : ContactRow) : Contact := {|
  ct_id := id_toString (cr_id r);
  ct_salutation := cr_salutation r; ct_first_name := cr_first_name r;
  ct_last_name := cr_last_name r; ct_address := cr_address r;
  ct_zip_code := cr_zip_code r; ct_location := cr_location r;
  ct_telephone := cr_telephone r; ct_phone_numbber_2 := cr_phone_numbber_2 r;
  ct_phone_numbber_3 := cr_phone_numbber_3 r; ct_email := cr_email r;
  ct_password := cr_password r; ct_archived := cr_archived r;
  ct_note_on_address := cr_note_on_address r; ct_district := cr_district r; ct_lat := cr_lat r; ct_lng := cr_lng r
|}.

(** [mapAppointmentWithContact]: the contact object is built from the
    [contact_*] columns of the SELECT list, which has no [district], [lat]
    or [lng]. *)
Definition mapAppointmentWithContact (a : AppointmentRow) (c : ContactRow) : Appointment := {|
  ap_id := id_toString (ar_id a);
  ap_category_id := id_toString (ar_category_id a);
  ap_service_id := id_toString (ar_service_id a);
  ap_calendar_id := id_toString (ar_calendar_id a);
  ap_contact_id := id_toString (ar_contact_id a);
  ap_new_user := ar_new_user a;
  ap_start_date := ar_start_date a;
  ap_end_date := ar_end_date a;
  ap_appointment_status := ar_appointment_status a;
  ap_archived := ar_archived a;
  ap_remarks := ar_remarks a;
  ap_brand_of_device := ar_brand_of_device a;
  ap_model := ar_model a;
  ap_year := ar_year a;
  ap_contact := Some {| ct_id := id_toString (cr_id c);
                        ct_salutation := cr_salutation c; ct_first_name := cr_first_name c;
                        ct_last_name := cr_last_name c; ct_address := cr_address c;
                        ct_zip_code := cr_zip_code c; ct_location := cr_location c;
                        ct_telephone := cr_telephone c; ct_phone_numbber_2 := cr_phone_numbber_2 c;
                        ct_phone_numbber_3 := cr_phone_numbber_3 c; ct_email := cr_email c;
                        ct_password := cr_password c; ct_archived := cr_archived c;
                        ct_note_on_address := cr_note_on_address c; ct_district := None; ct_lat := None; ct_lng := None |}
|}.

(** [FROM appointments a INNER JOIN contacts c ON a.contact_id = c.id]. *)
Definition join_contacts (as_ : list AppointmentRow) (cs : list ContactRow)
    : list (AppointmentRow * ContactRow) :=
  flat_map (fun a => map (fun c => (a, c))
                         (List.filter (fun c => Z.eqb (ar_contact_id a) (cr_id c)) cs)) as_.

(** [SELECT ... WHERE cond ORDER BY a.start_date [DESC]] over the join,
    mapped by [mapAppointmentWithContact]. *)
Definition select_appointments (cond : AppointmentRow -> bool) (desc : bool)
    (as_ : list AppointmentRow) (cs : list ContactRow) : list Appointment :=
  map (fun '(a, c) => mapAppointmentWithContact a c)
      (sort_by (fun p => ar_start_date (fst p)) desc
               (List.filter (fun '(a, _) => cond a) (join_contacts as_ cs))).

(** [WHERE a.start_date >= ? AND a.end_date <= ?]: only appointments lying
    entirely inside the range. *)
Definition in_range (start end_ : Z) (a : AppointmentRow) : bool :=
  (start <=? ar_start_date a) && (ar_end_date a <=? end_).

Definition getAppointments (as_ : list AppointmentRow) (cs : list ContactRow) (start end_ : Z)
    : list Appointment :=
  select_appointments (in_range start end_) false as_ cs.

Definition getAppointmentsByDateCalendarIdId (as_ : list AppointmentRow) (cs : list ContactRow)
    (calendar_id : string) (start end_ : Z) : list Appointment :=
  select_appointments (fun a => sql_id_eq calendar_id (ar_calendar_id a) && in_range start end_ a)
                      false as_ cs.

Definition getAppointmentsByContactId (as_ : list AppointmentRow) (cs : list ContactRow)
    (contactId : string) : list Appointment :=
  select_appointments (fun a => sql_id_eq contactId (ar_contact_id a)) true as_ cs.

Definition getAppointmentsByCalendarIdId (as_ : list AppointmentRow) (cs : list ContactRow)
    (calendarId : string) : list Appointment :=
  select_appointments (fun a => sql_id_eq calendarId (ar_calendar_id a)) true as_ cs.

(** [WHERE a.id = ? LIMIT 1]; [None] is [null]. *)
Definition getAppointmentById (as_ : list AppointmentRow) (cs : list ContactRow) (id : string)
    : option Appointment :=
  hd_error (map (fun '(a, c) => mapAppointmentWithContact a c)
                (List.filter (fun '(a, _) => sql_id_eq id (ar_id a)) (join_contacts as_ cs))).

(** The interface the availability services call. *)
Class AppointmentDao := {
  dao_getAppointments : Z -> Z -> list Appointment;
  dao_getAppointmentsByDateCalendarIdId : string -> Z -> Z -> list Appointment
}.

#[export] Instance AppointmentDaoMySql (as_ : list AppointmentRow) (cs : list ContactRow)
  : AppointmentDao := {
  dao_getAppointments := getAppointments as_ cs;
  dao_getAppointmentsByDateCalendarIdId := getAppointmentsByDateCalendarIdId as_ cs
}.

(** ** Rows for concrete examples *)

(** A contact row with only an address and a district. *)
Definition contact_row (id : Z) (address : option string) (district : option Z) : ContactRow := {|
  cr_id := id; cr_salutation := None; cr_first_name := None; cr_last_name := None;
  cr_address := address; cr_zip_code := None; cr_location := None; cr_telephone := None;
  cr_phone_numbber_2 := None; cr_phone_numbber_3 := None;
  cr_email := None; cr_password := None; cr_archived := false; cr_note_on_address := None;
  cr_district := district;
  cr_lat := None; cr_lng := None; cr_remarks := None; cr_created_at := 0 |}.

(** An appointment row of calendar 1 and contact 1. *)
Definition appt_row (id start end_ : Z) (status : string) : AppointmentRow := {|
  ar_id := id; ar_category_id := 1; ar_service_id := 1; ar_calendar_id := 1; ar_contact_id := 1;
  ar_new_user := false; ar_start_date := start; ar_end_date := end_;
  ar_appointment_status := status; ar_archived := false; ar_remarks := None;
  ar_brand_of_device := None; ar_model := None; ar_year := None |}.

(** ** Lemmas *)

Lemma In_join_contacts as_ cs a c :
  In (a, c) (join_contacts as_ cs) <-> In a as_ /\ In c cs /\ ar_contact_id a = cr_id c.
Proof.
  unfold join_contacts. rewrite in_flat_map. split.
  - intros [a' [Ha' Hin]]. apply in_map_iff in Hin as [c' [Heq Hc']].
    inversion Heq; subst. apply In_filter_iff in Hc' as [Hc Heqb].
    apply Z.eqb_eq in Heqb. auto.
  - intros [Ha [Hc Heq]]. exists a. split; [exact Ha|].
    apply in_map_iff. exists c. split; [reflexivity|].
    apply In_filter_iff. split; [exact Hc|]. apply Z.eqb_eq, Heq.
Qed.

(** Membership in a SELECT over the join. *)
Lemma In_select_appointments cond desc as_ cs x :
  In x (select_appointments cond desc as_ cs) <->
  exists a c, In a as_ /\ In c cs /\ ar_contact_id a = cr_id c /\ cond a = true /\
    x = mapAppointmentWithContact a c.
Proof.
  unfold select_appointments. rewrite in_map_iff. split.
  - intros [[a c] [Hx Hin]]. apply In_sort_by, In_filter_iff in Hin as [Hj Hc].
    apply In_join_contacts in Hj as (Ha & Hcs & Hid). exists a, c. auto 7.
  - intros (a & c & Ha & Hc & Hid & Hcond & Hx). exists (a, c). split; [auto|].
    apply In_sort_by, In_filter_iff. split; [apply In_join_contacts; auto | exact Hcond].
Qed.

(** When every selected row has exactly one contact, the query answers one
    appointment per selected row. *)
Lemma length_select_appointments cond desc as_ cs :
  (forall a, In a as_ -> cond a = true ->
     List.length (List.filter (fun c => Z.eqb (ar_contact_id a) (cr_id c)) cs) = 1%nat) ->
  List.length (select_appointments cond desc as_ cs) = List.length (List.filter cond as_).
Proof.
  intros H. unfold select_appointments. rewrite length_map, length_sort_by.
  unfold join_contacts. induction as_ as [|a as_ IH]; [reflexivity|]. simpl.
  rewrite filter_app, length_app, IH by (intros; apply H; simpl; auto).
  assert (Hp : forall l : list ContactRow,
                 List.filter (fun '(x, _) => cond x) (map (fun c => (a, c)) l) =
                         if cond a then map (fun c => (a, c)) l else []).
  { induction l as [|c l IHl]; simpl; [destruct (cond a); reflexivity|].
    rewrite IHl. destruct (cond a); reflexivity. }
  rewrite Hp. destruct (cond a) eqn:Ec; simpl; [|reflexivity].
  rewrite length_map, (H a (or_introl eq_refl) Ec). reflexivity.
Qed.

Lemma In_getAppointments as_ cs start end_ x :
  In x (getAppointments as_ cs start end_) <->
  exists a c, In a as_ /\ In c cs /\ ar_contact_id a = cr_id c /\
    start <= ar_start_date a /\ ar_end_date a <= end_ /\ x = mapAppointmentWithContact a c.
Proof.
  unfold getAppointments. rewrite In_select_appointments. unfold in_range.
  split.
  - intros (a & c & Ha & Hc & Hid & H & Hx). bool_to_prop. exists a, c. auto 7.
  - intros (a & c & Ha & Hc & Hid & Hs & He & Hx). exists a, c. repeat split; auto.
    apply andb_true_intro; split; apply Z.leb_le; lia.
Qed.

(** The ORDER BY holds on the start dates of the result. *)
Lemma select_appointments_sorted (cond : AppointmentRow -> bool) (desc : bool) as_ cs :
  Sorted (fun x y => (if desc then ap_start_date y <=? ap_start_date x
                      else ap_start_date x <=? ap_start_date y) = true)
         (select_appointments cond desc as_ cs).
Proof.
  unfold select_appointments. apply Sorted_map with (R := fun p q : AppointmentRow * ContactRow => key_le (fun p => ar_start_date (fst p)) desc p q = true); [|apply Sorted_sort_by].
  intros [a c] [a' c']. unfold key_le. simpl. destruct desc; auto.
Qed.

(** Every appointment the DAO returns carries a contact without district
    or coordinates. *)
Lemma mapAppointmentWithContact_contact a c :
  exists ct, ap_contact (mapAppointmentWithContact a c) = Some ct /\
    ct_district ct = None /\ ct_lat ct = None /\ ct_lng ct = None.
Proof. eexists. repeat split. Qed.

End Appointment.
