(* ===== verification/Database.v ===== *)
(** The database as the DAOs see it: the [appointments] and [contacts]
    tables as lists of rows in insertion order, and the [AUTO_INCREMENT]
    counter of each table.  The DAO methods of [AppointmentStore] and
    [ContactStore] are computations in the state-and-error monad [ST Db] of
    the prelude.  The schema is not part of the repository; the model has no
    foreign keys and no UNIQUE constraint besides the primary keys, which
    the auto-increment counters keep distinct (the invariant [db_wf]). *)

From Stdlib Require Import ZArith List String Bool Lia.
From S2P Require Import Prelude Schedule Appointment.
Import ListNotations.
Open Scope Z_scope.

Module Database.
Import Appointment.

Record Db := {
  db_appointments : list AppointmentRow;
  db_contacts : list ContactRow;
  db_ai_appointments : Z;
  db_ai_contacts : Z
}.

Definition set_appointments (db : Db) (rows : list AppointmentRow) : Db :=
  {| db_appointments := rows; db_contacts := db_contacts db;
     db_ai_appointments := db_ai_appointments db; db_ai_contacts := db_ai_contacts db |}.

Definition set_contacts (db : Db) (rows : list ContactRow) : Db :=
  {| db_appointments := db_appointments db; db_contacts := rows;
     db_ai_appointments := db_ai_appointments db; db_ai_contacts := db_ai_contacts db |}.

(** [INSERT INTO appointments]: the row gets the next auto-increment id,
    which [result.insertId] reports. *)
Definition insert_appointment (mk : Z -> AppointmentRow) : ST Db Z :=
  fun db =>
    let id := db_ai_appointments db in
    (Ok id, {| db_appointments := db_appointments db ++ [mk id]; db_contacts := db_contacts db;
               db_ai_appointments := id + 1; db_ai_contacts := db_ai_contacts db |}).

(** [INSERT INTO contacts]. *)
Definition insert_contact (mk : Z -> ContactRow) : ST Db Z :=
  fun db =>
    let id := db_ai_contacts db in
    (Ok id, {| db_appointments := db_appointments db; db_contacts := db_contacts db ++ [mk id];
               db_ai_appointments := db_ai_appointments db; db_ai_contacts := id + 1 |}).

(** The primary keys: every id is positive and below its table's counter,
    and no two rows share one. *)
Definition db_wf (db : Db) : Prop :=
  Forall (fun r => 0 < ar_id r < db_ai_appointments db) (db_appointments db) /\
  NoDup (map ar_id (db_appointments db)) /\
  Forall (fun r => 0 < cr_id r < db_ai_contacts db) (db_contacts db) /\
  NoDup (map cr_id (db_contacts db)) /\
  0 < db_ai_appointments db /\ 0 < db_ai_contacts db.

(** A decision procedure for [db_wf], for concrete databases. *)
Definition db_wfb (db : Db) : bool :=
  forallb (fun r => (0 <? ar_id r) && (ar_id r <? db_ai_appointments db)) (db_appointments db) &&
  nodupb (map ar_id (db_appointments db)) &&
  forallb (fun r => (0 <? cr_id r) && (cr_id r <? db_ai_contacts db)) (db_contacts db) &&
  nodupb (map cr_id (db_contacts db)) &&
  (0 <? db_ai_appointments db) && (0 <? db_ai_contacts db).

Definition empty_db : Db :=
  {| db_appointments := []; db_contacts := []; db_ai_appointments := 1; db_ai_contacts := 1 |}.

(** ** Lemmas *)

Lemma empty_db_wf : db_wf empty_db.
Proof. repeat split; try constructor; simpl; lia. Qed.

(** Appending a fresh key keeps the keys distinct. *)
Lemma NoDup_map_app_fresh {A} (key : A -> Z) (l : list A) (x : A) (bound : Z) :
  Forall (fun r => key r < bound) l -> NoDup (map key l) -> key x = bound ->
  NoDup (map key (l ++ [x])).
Proof.
  intros Hb Hnd Hx. rewrite map_app. apply NoDup_app; [exact Hnd | repeat constructor; auto |].
  intros z Hz [<-|[]]. apply in_map_iff in Hz as [r [Hr Hin]].
  rewrite Forall_forall in Hb. specialize (Hb r Hin). lia.
Qed.

Lemma Forall_app_fresh {A} (P : A -> Prop) (l : list A) (x : A) :
  Forall P l -> P x -> Forall P (l ++ [x]).
Proof. intros H Hx. apply Forall_app; auto. Qed.

Lemma Forall_weaken_bound {A} (key : A -> Z) (l : list A) (b b' : Z) :
  b <= b' -> Forall (fun r => 0 < key r < b) l -> Forall (fun r => 0 < key r < b') l.
Proof. intros Hb. apply Forall_impl. intros r Hr. lia. Qed.

Lemma db_wfb_sound db : db_wfb db = true -> db_wf db.
Proof.
  unfold db_wfb. intros H. bool_to_prop.
  repeat split; auto using nodupb_NoDup, forallb_bounds.
Qed.

Lemma set_appointments_same db : set_appointments db (db_appointments db) = db.
Proof. destruct db; reflexivity. Qed.

Lemma set_contacts_same db : set_contacts db (db_contacts db) = db.
Proof. destruct db; reflexivity. Qed.

#[export] Hint Resolve empty_db_wf Forall_app_fresh : sched.

Lemma insert_appointment_wf mk db id db' :
  db_wf db -> insert_appointment mk db = (Ok id, db') -> ar_id (mk id) = id -> db_wf db'.
Proof.
  intros (Ha & Hna & Hc & Hnc & Hpa & Hpc) H Hid. injection H as <- <-.
  unfold db_wf; simpl. repeat split; auto; try lia.
  - apply Forall_app_fresh; [apply (Forall_weaken_bound ar_id _ (db_ai_appointments db)); auto; lia|].
    rewrite Hid. lia.
  - apply (NoDup_map_app_fresh ar_id _ _ (db_ai_appointments db)); auto.
    eapply Forall_impl; [|exact Ha]. simpl. intros r Hr. lia.
Qed.

Lemma insert_contact_wf mk db id db' :
  db_wf db -> insert_contact mk db = (Ok id, db') -> cr_id (mk id) = id -> db_wf db'.
Proof.
  intros (Ha & Hna & Hc & Hnc & Hpa & Hpc) H Hid. injection H as <- <-.
  unfold db_wf; simpl. repeat split; auto; try lia.
  - apply Forall_app_fresh; [apply (Forall_weaken_bound cr_id _ (db_ai_contacts db)); auto; lia|].
    rewrite Hid. lia.
  - apply (NoDup_map_app_fresh cr_id _ _ (db_ai_contacts db)); auto.
    eapply Forall_impl; [|exact Hc]. simpl. intros r Hr. lia.
Qed.

End Database.
