(* ===== verification/Conflict.v ===== *)
(** The conflict filter and the past-time filter of
    [AppointmentsService]: [filterBookedAppointments] (lines 380-412) and
    the filter on [minAllowedTime] inside [getTimeSlots] (lines 243-249).
    A slot is blocked by an appointment whose status is exactly
    ["Confirmed"] and whose interval overlaps the slot's as open intervals;
    the code does not compare calendars. *)

From Stdlib Require Import ZArith List String Bool Lia.
From S2P Require Import Prelude JsDate Schedule Slots Appointment.
Import ListNotations.
Open Scope Z_scope.

(** Open-interval overlap of [[s1, e1]] and [[s2, e2]]. *)
Notation "⟦ s1 , e1 ⟧ ⋈ ⟦ s2 , e2 ⟧" := (s1 < e2 /\ e1 > s2)
  (at level 0, format "⟦ s1 ,  e1 ⟧  ⋈  ⟦ s2 ,  e2 ⟧") : sched_scope.
Open Scope sched_scope.

Module Conflict.
Import JsDate Slots Appointment.

(** [AppointmentStatus.Confirmed]. *)
Definition AppointmentStatus_Confirmed : string := "Confirmed".

(** The test of line 400. *)
Definition blocks (a : Appointment) (sl : TimeSlot) : bool :=
  String.eqb (ap_appointment_status a) AppointmentStatus_Confirmed &&
  (slot_start sl <? ap_end_date a) && (ap_start_date a <? slot_end sl).

(** The inner [for] loop with its [break]: is some appointment blocking? *)
Fixpoint isBooked (appts : list Appointment) (sl : TimeSlot) : bool :=
  match appts with
  | [] => false
  | a :: appts' => if blocks a sl then true else isBooked appts' sl
  end.

Fixpoint filterBookedAppointments (timeSlots : list TimeSlot) (booked : list Appointment)
    : list TimeSlot :=
  match timeSlots with
  | [] => []
  | sl :: rest =>
      if isBooked booked sl then filterBookedAppointments rest booked
      else sl :: filterBookedAppointments rest booked
  end.

(** [slotStart >= minAllowedTime] with [minAllowedTime = now - 5 min]. *)
Definition pastTolerance : Z := 5 * msPerMinute.

Definition filterPast (now : Z) (slots : list TimeSlot) : list TimeSlot :=
  List.filter (fun sl => now - pastTolerance <=? slot_start sl) slots.

(** ** Lemmas *)

Lemma blocks_true a sl :
  blocks a sl = true <->
  ap_appointment_status a = AppointmentStatus_Confirmed /\
  ⟦ slot_start sl, slot_end sl ⟧ ⋈ ⟦ ap_start_date a, ap_end_date a ⟧.
Proof.
  unfold blocks. rewrite !andb_true_iff, String.eqb_eq, !Z.ltb_lt.
  split; intros; intuition lia.
Qed.

Lemma isBooked_existsb appts sl : isBooked appts sl = existsb (fun a => blocks a sl) appts.
Proof. induction appts as [|a appts IH]; simpl; [reflexivity|]. now destruct (blocks a sl). Qed.

Lemma filterBookedAppointments_filter slots appts :
  filterBookedAppointments slots appts = List.filter (fun sl => negb (isBooked appts sl)) slots.
Proof. induction slots as [|sl slots IH]; simpl; [reflexivity|]. now destruct (isBooked appts sl); rewrite IH. Qed.

#[export] Hint Rewrite isBooked_existsb filterBookedAppointments_filter : sched_rw.

(** ** Properties *)

(** The conflict filter: a slot survives the conflict filter iff it was a
    candidate and no appointment with status ["Confirmed"] overlaps it as
    open intervals (touching end points do not conflict). *)
Lemma filterBookedAppointments_spec slots appts sl :
  In sl (filterBookedAppointments slots appts) <->
  In sl slots /\
  forall a, In a appts -> ap_appointment_status a = AppointmentStatus_Confirmed ->
    ~ ⟦ slot_start sl, slot_end sl ⟧ ⋈ ⟦ ap_start_date a, ap_end_date a ⟧.
Proof.
  rewrite filterBookedAppointments_filter, In_filter_iff, negb_true_iff, isBooked_existsb,
    existsb_false_forall.
  split; intros [Hin H]; split; auto.
  - intros a Ha Hc Hov. assert (blocks a sl = true) by (apply blocks_true; auto).
    rewrite H in *; auto; discriminate.
  - intros a Ha. destruct (blocks a sl) eqn:Hb; [|reflexivity].
    apply blocks_true in Hb as [Hc Hov]. exfalso. eapply H; eauto.
Qed.

(** C3 (functional): a slot survives the conflict filter iff it was a
    candidate and no appointment with status ["Confirmed"] overlaps it as
    open intervals (touching end points do not conflict). *)
Theorem conflict_filter_correct slots appts sl :
  In sl (filterBookedAppointments slots appts) <->
  In sl slots /\
  forall a, In a appts -> ap_appointment_status a = AppointmentStatus_Confirmed ->
    ~ ⟦ slot_start sl, slot_end sl ⟧ ⋈ ⟦ ap_start_date a, ap_end_date a ⟧.
Proof. apply filterBookedAppointments_spec. Qed.

(** the filter does not look at calendars: a
    confirmed appointment of one technician removes an overlapping slot of
    any other technician. *)
Theorem other_calendar_blocks slots appts sl a :
  In a appts -> ap_appointment_status a = AppointmentStatus_Confirmed ->
  ap_calendar_id a <> slot_calendar_id sl ->
  ⟦ slot_start sl, slot_end sl ⟧ ⋈ ⟦ ap_start_date a, ap_end_date a ⟧ ->
  ~ In sl (filterBookedAppointments slots appts).
Proof.
  intros Ha Hc _ Hov Hin. apply filterBookedAppointments_spec in Hin as [_ H].
  exact (H a Ha Hc Hov).
Qed.

Lemma filterPast_spec now slots sl :
  In sl (filterPast now slots) <-> In sl slots /\ now - 5 * msPerMinute <= slot_start sl.
Proof. unfold filterPast. rewrite In_filter_iff, Z.leb_le. reflexivity. Qed.

(** The past-time filter keeps exactly the slots that
    start no earlier than five minutes before [now]. *)
Theorem past_filter_correct now slots sl :
  In sl (filterPast now slots) <-> In sl slots /\ now - 5 * msPerMinute <= slot_start sl.
Proof. apply filterPast_spec. Qed.

(** ** Witnesses *)

Definition slot_at (cal : string) (s e : Z) : TimeSlot :=
  {| slot_start := s; slot_end := e; slot_calendar_id := cal; slot_employee_name := "Tech" |}.

Definition appt_at (cal status : string) (s e : Z) : Appointment :=
  {| ap_id := "1"; ap_category_id := "1"; ap_service_id := "1"; ap_calendar_id := cal;
     ap_contact_id := "1"; ap_new_user := false; ap_start_date := s; ap_end_date := e;
     ap_appointment_status := status; ap_archived := false; ap_remarks := None;
     ap_brand_of_device := None; ap_model := None; ap_year := None; ap_contact := None |}.

Lemma other_calendar_blocks_witness :
  ~ In (slot_at "1" 0 3600000)
       (filterBookedAppointments [slot_at "1" 0 3600000] [appt_at "2" "Confirmed" 1800000 5400000]).
Proof.
  apply (other_calendar_blocks _ _ _ (appt_at "2" "Confirmed" 1800000 5400000));
    [left; reflexivity | reflexivity | discriminate | simpl; lia].
Defined.

(** Section 8, item 10 of the specification: 10 minutes ago is dropped,
    2 minutes ago is kept. *)
Example spec_example_10 :
  let now := 1715587200000 in
  filterPast now [slot_at "1" (now - 10 * msPerMinute) now; slot_at "1" (now - 2 * msPerMinute) now]
  = [slot_at "1" (now - 2 * msPerMinute) now].
Proof. reflexivity. Qed.

(** A cancelled appointment and an appointment that only touches the slot
    do not block it. *)
Example non_blocking :
  filterBookedAppointments [slot_at "1" 0 3600000]
    [appt_at "1" "Cancelled" 0 3600000; appt_at "1" "Confirmed" 3600000 7200000]
  = [slot_at "1" 0 3600000].
Proof. reflexivity. Qed.

End Conflict.
