(* ===== verification/AppointmentStore.v ===== *)
(** The writing methods of [AppointmentDaoMySql]
    (database-client/src/Appointment/AppointmentDaoMySql.ts) as computations
    on the database state: [addAppointment] (lines 28-147),
    [updateAppointment] (411-556), [deleteAppointment] (563-579) and the
    reminder query [getDueReminderAppointments] (585-635).  A thrown
    [Error] is an [Err] of the monad; the statements executed before it
    stay executed, as in the code, which uses no transaction.  The
    request type [AddAppointmentRequest] keeps the fields these methods
    test; [None] is [undefined].  Dates are instants in milliseconds
    ([None] for a missing or empty date string). *)

From Stdlib Require Import ZArith List String Ascii Bool Lia.
From S2P Require Import Prelude JsDate TimeParse Schedule Appointment Database Conflict.
Import ListNotations.
Open Scope Z_scope.
Local Open Scope sched_scope.

Module AppointmentStore.
Import JsDate TimeParse Schedule Appointment Database Conflict.

Record AddAppointmentRequest := {
  rq_category_id : option string;
  rq_service_id : option string;
  rq_calendar_id : option string;
  rq_contact_id : option string;
  rq_new_user : option bool;
  rq_start_date : option Z;
  rq_end_date : option Z;
  rq_appointment_status : option string;
  rq_archived : option bool;
  rq_remarks : option string;
  rq_brand_of_device : option string;
  rq_model : option string;
  rq_year : option string
}.

(** ** [addAppointment] *)

(** [!x] on an optional string. *)
Definition falsy_str (o : option string) : bool :=
  match o with None => true | Some s => String.eqb s EmptyString end.

Definition falsy_date (o : option Z) : bool :=
  match o with None => true | Some _ => false end.

(** The [missing] arrays of the two validation blocks. *)
Definition missing_ids (r : AddAppointmentRequest) : list string :=
  (if falsy_str (rq_category_id r) then ["category_id"] else []) ++
  (if falsy_str (rq_service_id r) then ["service_id"] else []) ++
  (if falsy_str (rq_calendar_id r) then ["calendar_id"] else []) ++
  (if falsy_str (rq_contact_id r) then ["contact_id"] else []).

Definition missing_dates (r : AddAppointmentRequest) : list string :=
  (if falsy_date (rq_start_date r) then ["start_date"] else []) ++
  (if falsy_date (rq_end_date r) then ["end_date"] else []).

(** [x ?? d]. *)
Definition nullish {A} (o : option A) (d : A) : A :=
  match o with Some x => x | None => d end.

(** [parseInt(id, 10)]; [None] is [NaN]. *)
Definition parse_id (o : option string) : option Z :=
  match o with Some s => parseInt10 s | None => None end.

Definition str_of (o : option string) : string :=
  match o with Some s => s | None => "undefined" end.

(** The row the INSERT writes: the [values] array with its defaults. *)
Definition new_row (r : AddAppointmentRequest) (cat svc cal con sd ed : Z) (id : Z)
    : AppointmentRow := {|
  ar_id := id; ar_category_id := cat; ar_service_id := svc; ar_calendar_id := cal;
  ar_contact_id := con; ar_new_user := nullish (rq_new_user r) false;
  ar_start_date := sd; ar_end_date := ed;
  ar_appointment_status := nullish (rq_appointment_status r) AppointmentStatus_Confirmed;
  ar_archived := nullish (rq_archived r) false; ar_remarks := rq_remarks r;
  ar_brand_of_device := rq_brand_of_device r; ar_model := rq_model r; ar_year := rq_year r
|}.

(** [getAppointmentById] as a step of the monad (it only reads). *)
Definition getAppointmentById_st (id : string) : ST Db (option Appointment) :=
  fun db => (Ok (getAppointmentById (db_appointments db) (db_contacts db) id), db).

(** The column, placeholder and value counts of the INSERT are all 30, so
    the mismatch check never throws and is not modelled. *)
Definition addAppointment (r : AddAppointmentRequest) : ST Db Appointment :=
  match missing_ids r with
  | _ :: _ => st_err ("Missing required fields: " ++ String.concat ", " (missing_ids r))
  | [] =>
      match rq_start_date r, rq_end_date r with
      | Some sd, Some ed =>
          match parse_id (rq_category_id r), parse_id (rq_service_id r),
                parse_id (rq_calendar_id r), parse_id (rq_contact_id r) with
          | Some cat, Some svc, Some cal, Some con =>
              insertId <- insert_appointment (new_row r cat svc cal con sd ed) ;;
              created <- getAppointmentById_st (id_toString insertId) ;;
              match created with
              | Some a => st_ret a
              | None => st_err "Failed to fetch created appointment"
              end
          | _, _, _, _ =>
              st_err ("Invalid ID format: category_id=" ++ str_of (rq_category_id r) ++
                      ", service_id=" ++ str_of (rq_service_id r) ++
                      ", calendar_id=" ++ str_of (rq_calendar_id r) ++
                      ", contact_id=" ++ str_of (rq_contact_id r))
          end
      | _, _ => st_err ("Missing required fields: " ++ String.concat ", " (missing_dates r))
      end
  end.

(** ** [updateAppointment] *)

(** The SET list: one entry per field that is not [undefined], in the
    order of the code (the columns outside the model are left out: a
    request that only sets them changes nothing the model sees). *)
Definition update_columns (r : AddAppointmentRequest) : list string :=
  (if defined (rq_category_id r) then ["category_id"] else []) ++
  (if defined (rq_service_id r) then ["service_id"] else []) ++
  (if defined (rq_calendar_id r) then ["calendar_id"] else []) ++
  (if defined (rq_contact_id r) then ["contact_id"] else []) ++
  (if defined (rq_new_user r) then ["new_user"] else []) ++
  (if defined (rq_start_date r) then ["start_date"] else []) ++
  (if defined (rq_end_date r) then ["end_date"] else []) ++
  (if defined (rq_brand_of_device r) then ["brand_of_device"] else []) ++
  (if defined (rq_model r) then ["model"] else []) ++
  (if defined (rq_year r) then ["year"] else []) ++
  (if defined (rq_appointment_status r) then ["appointment_status"] else []) ++
  (if defined (rq_archived r) then ["archived"] else []) ++
  (if defined (rq_remarks r) then ["remarks"] else []).

(** A string bound to an integer column: MySQL (strict mode) converts a
    decimal digit string and rejects anything else. *)
Definition set_int (o : option string) (cur : Z) : option Z :=
  match o with None => Some cur | Some s => Number s end.

(** [UPDATE appointments SET ...] on one row. *)
Definition apply_update (r : AddAppointmentRequest) (x : AppointmentRow) : option AppointmentRow :=
  match set_int (rq_category_id r) (ar_category_id x), set_int (rq_service_id r) (ar_service_id x),
        set_int (rq_calendar_id r) (ar_calendar_id x), set_int (rq_contact_id r) (ar_contact_id x) with
  | Some cat, Some svc, Some cal, Some con =>
      Some {| ar_id := ar_id x; ar_category_id := cat; ar_service_id := svc;
              ar_calendar_id := cal; ar_contact_id := con;
              ar_new_user := nullish (rq_new_user r) (ar_new_user x);
              ar_start_date := nullish (rq_start_date r) (ar_start_date x);
              ar_end_date := nullish (rq_end_date r) (ar_end_date x);
              ar_appointment_status := nullish (rq_appointment_status r) (ar_appointment_status x);
              ar_archived := nullish (rq_archived r) (ar_archived x);
              ar_remarks := upd_opt (rq_remarks r) (ar_remarks x);
              ar_brand_of_device := upd_opt (rq_brand_of_device r) (ar_brand_of_device x);
              ar_model := upd_opt (rq_model r) (ar_model x);
              ar_year := upd_opt (rq_year r) (ar_year x) |}
  | _, _, _, _ => None
  end.

(** [... WHERE id = ?]: the statement fails as a whole on a bad value. *)
Fixpoint update_rows (id : string) (r : AddAppointmentRequest) (rows : list AppointmentRow)
    : option (list AppointmentRow) :=
  match rows with
  | [] => Some []
  | x :: xs =>
      if sql_id_eq id (ar_id x) then
        match apply_update r x, update_rows id r xs with
        | Some x', Some xs' => Some (x' :: xs')
        | _, _ => None
        end
      else option_map (cons x) (update_rows id r xs)
  end.

(** The result is [updated as Appointment]: [null] when the row is gone
    or has no contact. *)
Definition updateAppointment (id : string) (r : AddAppointmentRequest)
    : ST Db (option Appointment) :=
  match update_columns r with
  | [] => getAppointmentById_st id
  | _ :: _ =>
      fun db =>
        match update_rows id r (db_appointments db) with
        | Some rows => getAppointmentById_st id (set_appointments db rows)
        | None => (Err "Incorrect integer value", db)
        end
  end.

(** ** [deleteAppointment] *)

Definition deleteAppointment (id : string) : ST Db (option Appointment) :=
  appointment <- getAppointmentById_st id ;;
  match appointment with
  | None => st_ret None
  | Some a =>
      fun db => (Ok (Some a),
                 set_appointments db (List.filter (fun x => negb (sql_id_eq id (ar_id x)))
                                                  (db_appointments db)))
  end.

(** ** [getDueReminderAppointments]

    [WHERE DAY(a.start_date) = ? AND MONTH(a.start_date) = ? AND
    YEAR(a.start_date) != ?] with tomorrow's day and month and today's year
    ([moment()] at [now], local time [t + offset]). *)
Definition due_for_reminder (offset now : Z) (a : AppointmentRow) : bool :=
  let today := Day (now + offset) in
  let tomorrow := today + 1 in
  let d := Day (ar_start_date a + offset) in
  (DateFromDay d =? DateFromDay tomorrow) && (MonthFromDay d =? MonthFromDay tomorrow) &&
  negb (YearFromDay d =? YearFromDay today).

Definition getDueReminderAppointments (offset now : Z) : ST Db (list Appointment) :=
  fun db => (Ok (map (fun '(a, c) => mapAppointmentWithContact a c)
                     (List.filter (fun '(a, _) => due_for_reminder offset now a)
                                  (join_contacts (db_appointments db) (db_contacts db)))), db).

(** Two confirmed appointments of one calendar that overlap. *)
Definition double_booked (rows : list AppointmentRow) : Prop :=
  exists x y, In x rows /\ In y rows /\ ar_id x <> ar_id y /\
    ar_calendar_id x = ar_calendar_id y /\
    ar_appointment_status x = AppointmentStatus_Confirmed /\
    ar_appointment_status y = AppointmentStatus_Confirmed /\
    ar_start_date x < ar_end_date y /\ ar_start_date y < ar_end_date x.

(** ** Lemmas *)

Lemma join_contacts_app l1 l2 cs :
  join_contacts (l1 ++ l2)%list cs = (join_contacts l1 cs ++ join_contacts l2 cs)%list.
Proof. unfold join_contacts. apply flat_map_app. Qed.

(** Reading a row back by its id, when no other row has that id. *)
Lemma getAppointmentById_fresh rows cs x n :
  0 <= n -> Forall (fun r => ar_id r <> n) rows -> ar_id x = n ->
  getAppointmentById (rows ++ [x])%list cs (id_toString n) =
  option_map (mapAppointmentWithContact x) (find (fun c => Z.eqb (ar_contact_id x) (cr_id c)) cs).
Proof.
  intros Hn Hne Hx. unfold getAppointmentById. rewrite join_contacts_app, filter_app.
  rewrite (filter_all_false _ (join_contacts rows cs)).
  2:{ intros [a c] Hin. apply In_join_contacts in Hin as [Ha _].
      rewrite sql_id_eq_toString by exact Hn. apply Z.eqb_neq.
      rewrite Forall_forall in Hne. specialize (Hne a Ha). congruence. }
  simpl. rewrite app_nil_r. induction cs as [|c cs IH]; [reflexivity|]. simpl.
  destruct (Z.eqb (ar_contact_id x) (cr_id c)); simpl; [|exact IH].
  rewrite sql_id_eq_toString, Hx, Z.eqb_refl by exact Hn. reflexivity.
Qed.

(** The run of [addAppointment] on a valid request: the row is inserted
    with the next id, then read back through its contact. *)
Lemma addAppointment_run r db sd ed cat svc cal con :
  missing_ids r = [] -> rq_start_date r = Some sd -> rq_end_date r = Some ed ->
  parse_id (rq_category_id r) = Some cat -> parse_id (rq_service_id r) = Some svc ->
  parse_id (rq_calendar_id r) = Some cal -> parse_id (rq_contact_id r) = Some con ->
  db_wf db ->
  let row := new_row r cat svc cal con sd ed (db_ai_appointments db) in
  let db' := {| db_appointments := (db_appointments db ++ [row])%list; db_contacts := db_contacts db;
                db_ai_appointments := db_ai_appointments db + 1;
                db_ai_contacts := db_ai_contacts db |} in
  addAppointment r db =
    (match find (fun c => Z.eqb con (cr_id c)) (db_contacts db) with
     | Some c => Ok (mapAppointmentWithContact row c)
     | None => Err "Failed to fetch created appointment"
     end, db').
Proof.
  intros Hm Hs He Hc1 Hc2 Hc3 Hc4 Hwf row db'. unfold addAppointment.
  rewrite Hm, Hs, He, Hc1, Hc2, Hc3, Hc4.
  unfold st_bind, insert_appointment, getAppointmentById_st. cbn [db_appointments db_contacts].
  destruct Hwf as (Ha & _ & _ & _ & Hpa & _).
  rewrite getAppointmentById_fresh; [| lia | | reflexivity].
  - simpl. destruct (find _ _); reflexivity.
  - eapply Forall_impl; [|exact Ha]. simpl. intros x Hx. lia.
Qed.

Lemma addAppointment_wf r db res db' :
  db_wf db -> addAppointment r db = (res, db') -> db_wf db'.
Proof.
  intros Hwf. unfold addAppointment.
  destruct (missing_ids r); [|intros H; injection H as _ <-; exact Hwf].
  destruct (rq_start_date r), (rq_end_date r); try (intros H; injection H as _ <-; exact Hwf).
  destruct (parse_id (rq_category_id r)), (parse_id (rq_service_id r)),
    (parse_id (rq_calendar_id r)), (parse_id (rq_contact_id r));
    try (intros H; injection H as _ <-; exact Hwf).
  unfold st_bind. destruct (insert_appointment _ db) as [[id|e] db1] eqn:Ei;
    [|unfold insert_appointment in Ei; congruence].
  pose proof (insert_appointment_wf _ _ _ _ Hwf Ei) as Hwf1.
  unfold getAppointmentById_st. destruct (getAppointmentById _ _ _);
    intros H; injection H as _ <-; apply Hwf1; injection Ei as <- <-; reflexivity.
Qed.

Lemma apply_update_id r x x' : apply_update r x = Some x' -> ar_id x' = ar_id x.
Proof.
  unfold apply_update. destruct_matches; intros H; try discriminate; injection H as <-; reflexivity.
Qed.

(** [UPDATE ... WHERE id = ?] keeps the ids and the order of the rows. *)
Lemma update_rows_ids id r rows rows' :
  update_rows id r rows = Some rows' -> map ar_id rows' = map ar_id rows.
Proof.
  revert rows'. induction rows as [|x xs IH]; simpl; intros rows' H.
  - injection H as <-. reflexivity.
  - destruct (sql_id_eq id (ar_id x)).
    + destruct (apply_update r x) as [x'|] eqn:Ea, (update_rows id r xs) as [xs'|];
        try discriminate. injection H as <-. simpl. rewrite (apply_update_id _ _ _ Ea), (IH xs'); auto.
    + destruct (update_rows id r xs) as [xs'|]; [|discriminate]. injection H as <-.
      simpl. rewrite (IH xs'); auto.
Qed.

(** Rows with another id are left as they are. *)
Lemma update_rows_frame id r rows rows' y :
  update_rows id r rows = Some rows' -> In y rows -> sql_id_eq id (ar_id y) = false -> In y rows'.
Proof.
  revert rows'. induction rows as [|x xs IH]; simpl; intros rows' H Hy Hne; [contradiction|].
  destruct (sql_id_eq id (ar_id x)) eqn:Ex.
  - destruct (apply_update r x), (update_rows id r xs) as [xs'|]; try discriminate.
    injection H as <-. destruct Hy as [->|Hy]; [congruence|]. right. apply IH; auto.
  - destruct (update_rows id r xs) as [xs'|]; [|discriminate]. injection H as <-.
    destruct Hy as [->|Hy]; [left; reflexivity | right; apply IH; auto].
Qed.

(** The row with the id is replaced by its update. *)
Lemma update_rows_hit id r rows rows' x :
  update_rows id r rows = Some rows' -> In x rows -> sql_id_eq id (ar_id x) = true ->
  exists x', apply_update r x = Some x' /\ In x' rows'.
Proof.
  revert rows'. induction rows as [|y ys IH]; simpl; intros rows' H Hx Heq; [contradiction|].
  destruct (sql_id_eq id (ar_id y)) eqn:Ey.
  - destruct (apply_update r y) as [y'|] eqn:Ea, (update_rows id r ys) as [ys'|]; try discriminate.
    injection H as <-. destruct Hx as [->|Hx]; [exists y'; simpl; auto|].
    destruct (IH ys' eq_refl Hx Heq) as [x' [Hx' Hin]]. exists x'. simpl; auto.
  - destruct (update_rows id r ys) as [ys'|]; [|discriminate]. injection H as <-.
    destruct Hx as [->|Hx]; [congruence|].
    destruct (IH ys' eq_refl Hx Heq) as [x' [Hx' Hin]]. exists x'. simpl; auto.
Qed.

Lemma Forall_key_map {A} (key : A -> Z) (P : Z -> Prop) (l l' : list A) :
  map key l' = map key l -> Forall (fun r => P (key r)) l -> Forall (fun r => P (key r)) l'.
Proof.
  intros Hm H. apply (Forall_map key P) in H. apply (Forall_map key P). rewrite Hm. exact H.
Qed.

Lemma set_appointments_wf db rows :
  db_wf db -> map ar_id rows = map ar_id (db_appointments db) -> db_wf (set_appointments db rows).
Proof.
  intros (Ha & Hna & Hc & Hnc & Hpa & Hpc) Hm. unfold db_wf, set_appointments; simpl.
  repeat split; auto; [eapply (Forall_key_map ar_id (fun z => 0 < z < _)); eauto | rewrite Hm; exact Hna].
Qed.

Lemma filter_appointments_wf db p :
  db_wf db -> db_wf (set_appointments db (List.filter p (db_appointments db))).
Proof.
  intros (Ha & Hna & Hc & Hnc & Hpa & Hpc). unfold db_wf, set_appointments; simpl.
  repeat split; auto using Forall_filter, NoDup_map_filter.
Qed.

(** No row with the id: [getAppointmentById] is [null]. *)
Lemma getAppointmentById_none rows cs id :
  (forall x, In x rows -> sql_id_eq id (ar_id x) = false) -> getAppointmentById rows cs id = None.
Proof.
  intros H. unfold getAppointmentById. rewrite filter_all_false; [reflexivity|].
  intros [a c] Hin. apply In_join_contacts in Hin as [Ha _]. apply H, Ha.
Qed.

(** When every row the id names has its contact, [deleteAppointment]
    removes exactly the rows the id names (none if there is none). *)
Lemma deleteAppointment_filter id db :
  (forall y, In y (db_appointments db) -> sql_id_eq id (ar_id y) = true ->
     exists c, In c (db_contacts db) /\ ar_contact_id y = cr_id c) ->
  exists res, deleteAppointment id db =
    (Ok res, set_appointments db (List.filter (fun x => negb (sql_id_eq id (ar_id x))) (db_appointments db))).
Proof.
  intros Hj. unfold deleteAppointment, st_bind, getAppointmentById_st.
  destruct (getAppointmentById _ _ id) as [a|] eqn:Hg; [eauto|].
  exists None. rewrite filter_all_true, set_appointments_same; [reflexivity|].
  intros y Hy. apply negb_true_iff. destruct (sql_id_eq id (ar_id y)) eqn:E; [|reflexivity].
  destruct (Hj y Hy E) as [c [Hc Hyc]]. unfold getAppointmentById in Hg.
  assert (Hin : In (y, c) (List.filter (fun '(a, _) => sql_id_eq id (ar_id a)) (join_contacts (db_appointments db) (db_contacts db))))
    by (apply In_filter_iff; split; [apply In_join_contacts; auto | exact E]).
  destruct (List.filter _ _); [contradiction | discriminate].
Qed.

Lemma updateAppointment_wf id r db res db' :
  db_wf db -> updateAppointment id r db = (res, db') -> db_wf db'.
Proof.
  intros Hwf. unfold updateAppointment, getAppointmentById_st.
  destruct (update_columns r); [intros H; injection H as _ <-; exact Hwf|].
  destruct (update_rows id r (db_appointments db)) as [rows|] eqn:Eu; intros H; injection H as _ <-;
    [apply set_appointments_wf; [exact Hwf | eapply update_rows_ids; eauto] | exact Hwf].
Qed.

Lemma deleteAppointment_wf id db res db' :
  db_wf db -> deleteAppointment id db = (res, db') -> db_wf db'.
Proof.
  intros Hwf. unfold deleteAppointment, st_bind, getAppointmentById_st.
  destruct (getAppointmentById _ _ _); intros H; injection H as _ <-;
    [apply filter_appointments_wf, Hwf | exact Hwf].
Qed.

(** [addAppointment] never writes the [contacts] table. *)
Lemma addAppointment_contacts r db res db' :
  addAppointment r db = (res, db') -> db_contacts db' = db_contacts db.
Proof.
  unfold addAppointment. destruct (missing_ids r); [|intros H; injection H as _ <-; reflexivity].
  destruct (rq_start_date r), (rq_end_date r); try (intros H; injection H as _ <-; reflexivity).
  destruct (parse_id (rq_category_id r)), (parse_id (rq_service_id r)),
    (parse_id (rq_calendar_id r)), (parse_id (rq_contact_id r));
    try (intros H; injection H as _ <-; reflexivity).
  unfold st_bind, insert_appointment, getAppointmentById_st. simpl.
  destruct (getAppointmentById _ _ _); intros H; injection H as _ <-; reflexivity.
Qed.

(** ** Properties *)

(** the DAO's writing methods keep the primary keys of
    [appointments] and [contacts] positive, below the auto-increment
    counters and distinct, on every path, errors included. *)
Theorem appointment_store_wf (db : Db) :
  db_wf db ->
  (forall r res db', addAppointment r db = (res, db') -> db_wf db') /\
  (forall id r res db', updateAppointment id r db = (res, db') -> db_wf db') /\
  (forall id res db', deleteAppointment id db = (res, db') -> db_wf db').
Proof.
  intros Hwf. split; [|split]; intros *;
    [apply addAppointment_wf | apply updateAppointment_wf | apply deleteAppointment_wf]; exact Hwf.
Qed.

(** C14 (roundtrip): a valid request whose contact exists is inserted with
    the next id, and reading that id back gives exactly the appointment
    [addAppointment] returned. *)
Theorem addAppointment_roundtrip r db sd ed cat svc cal con c :
  missing_ids r = [] -> rq_start_date r = Some sd -> rq_end_date r = Some ed ->
  parse_id (rq_category_id r) = Some cat -> parse_id (rq_service_id r) = Some svc ->
  parse_id (rq_calendar_id r) = Some cal -> parse_id (rq_contact_id r) = Some con ->
  db_wf db -> find (fun c => Z.eqb con (cr_id c)) (db_contacts db) = Some c ->
  exists a db', addAppointment r db = (Ok a, db') /\
    a = mapAppointmentWithContact (new_row r cat svc cal con sd ed (db_ai_appointments db)) c /\
    getAppointmentById (db_appointments db') (db_contacts db') (ap_id a) = Some a /\
    db_wf db'.
Proof.
  intros Hm Hs He H1 H2 H3 H4 Hwf Hc.
  pose proof (addAppointment_run r db sd ed cat svc cal con Hm Hs He H1 H2 H3 H4 Hwf) as Hrun.
  simpl in Hrun. rewrite Hc in Hrun. do 2 eexists. split; [exact Hrun|]. split; [reflexivity|].
  split; [|eapply addAppointment_wf; eauto].
  destruct Hwf as (Ha & _ & _ & _ & Hpa & _). simpl.
  rewrite getAppointmentById_fresh; [simpl; rewrite Hc; reflexivity | lia | | reflexivity].
  eapply Forall_impl; [|exact Ha]. simpl. intros x Hx. lia.
Qed.

(** C15 (safety, finding): [addAppointment] checks no conflict: a valid
    confirmed request overlapping a confirmed appointment of the same
    calendar is stored, and the table then holds a double booking. *)
Theorem addAppointment_double_booking r db sd ed cat svc cal con c b :
  missing_ids r = [] -> rq_start_date r = Some sd -> rq_end_date r = Some ed ->
  parse_id (rq_category_id r) = Some cat -> parse_id (rq_service_id r) = Some svc ->
  parse_id (rq_calendar_id r) = Some cal -> parse_id (rq_contact_id r) = Some con ->
  rq_appointment_status r = None ->
  db_wf db -> find (fun c => Z.eqb con (cr_id c)) (db_contacts db) = Some c ->
  In b (db_appointments db) -> ar_calendar_id b = cal ->
  ar_appointment_status b = AppointmentStatus_Confirmed ->
  ar_start_date b < ed -> sd < ar_end_date b ->
  exists a db', addAppointment r db = (Ok a, db') /\ double_booked (db_appointments db').
Proof.
  intros Hm Hs He H1 H2 H3 H4 Hst Hwf Hc Hb Hcal Hconf Hlt1 Hlt2.
  pose proof (addAppointment_run r db sd ed cat svc cal con Hm Hs He H1 H2 H3 H4 Hwf) as Hrun.
  simpl in Hrun. rewrite Hc in Hrun. do 2 eexists. split; [exact Hrun|]. simpl.
  destruct Hwf as (Ha & _). rewrite Forall_forall in Ha. specialize (Ha b Hb).
  exists b, (new_row r cat svc cal con sd ed (db_ai_appointments db)). unfold new_row; simpl.
  rewrite Hst. repeat split; auto using in_or_app; [apply in_or_app; right; left; reflexivity | lia].
Qed.

(** C16 (error, finding): when no contact has the request's [contact_id],
    [addAppointment] throws "Failed to fetch created appointment" after the
    INSERT, and the row stays in the table (no transaction; the schema, not
    in the repository, may forbid it with a foreign key). *)
Theorem addAppointment_unknown_contact r db sd ed cat svc cal con :
  missing_ids r = [] -> rq_start_date r = Some sd -> rq_end_date r = Some ed ->
  parse_id (rq_category_id r) = Some cat -> parse_id (rq_service_id r) = Some svc ->
  parse_id (rq_calendar_id r) = Some cal -> parse_id (rq_contact_id r) = Some con ->
  db_wf db -> find (fun c => Z.eqb con (cr_id c)) (db_contacts db) = None ->
  exists db', addAppointment r db = (Err "Failed to fetch created appointment", db') /\
    In (new_row r cat svc cal con sd ed (db_ai_appointments db)) (db_appointments db').
Proof.
  intros Hm Hs He H1 H2 H3 H4 Hwf Hc.
  pose proof (addAppointment_run r db sd ed cat svc cal con Hm Hs He H1 H2 H3 H4 Hwf) as Hrun.
  simpl in Hrun. rewrite Hc in Hrun. eexists. split; [exact Hrun|]. simpl.
  apply in_or_app. right. left. reflexivity.
Qed.

(** C17 (functional): [deleteAppointment id] returns what
    [getAppointmentById id] returned; when that is an appointment, every
    row with the id is deleted and only those; when it is [null] nothing
    changes.  Afterwards [getAppointmentById id] is [null]. *)
Theorem deleteAppointment_spec (id : string) (db : Db) :
  let found := getAppointmentById (db_appointments db) (db_contacts db) id in
  exists db', deleteAppointment id db = (Ok found, db') /\ db_contacts db' = db_contacts db /\
    (forall x, In x (db_appointments db') <->
               In x (db_appointments db) /\ (found = None \/ sql_id_eq id (ar_id x) = false)) /\
    (found <> None -> getAppointmentById (db_appointments db') (db_contacts db') id = None).
Proof.
  intros found. unfold deleteAppointment, st_bind, getAppointmentById_st. fold found.
  destruct found as [a|] eqn:Ef.
  - eexists. split; [reflexivity|]. simpl. split; [reflexivity|]. split.
    + intros x. rewrite In_filter_iff, negb_true_iff. intuition congruence.
    + intros _. apply getAppointmentById_none. intros x Hx.
      apply In_filter_iff in Hx as [_ Hx]. apply negb_true_iff, Hx.
  - eexists. split; [reflexivity|]. split; [reflexivity|]. split; [|congruence]. intuition.
Qed.

(** C18 (functional, finding): the reminder query, documented as
    "tomorrow's appointments", returns only appointments whose start lies
    in another year than today: it compares YEAR with [!=]. *)
Theorem due_reminders_other_year (offset now : Z) (db : Db) (l : list Appointment) x :
  fst (getDueReminderAppointments offset now db) = Ok l -> In x l ->
  YearFromDay (Day (ap_start_date x + offset)) <> YearFromDay (Day (now + offset)).
Proof.
  unfold getDueReminderAppointments. simpl. intros H Hx. injection H as <-.
  apply in_map_iff in Hx as [[a c] [<- Hin]]. apply In_filter_iff in Hin as [_ Hd].
  unfold due_for_reminder in Hd. bool_to_prop. assumption.
Qed.

(** ** Concrete runs *)

(** Monday 2024-05-13 00:00 UTC and one hour, in milliseconds. *)
Definition monday_0h : Z := 1715558400000.
Definition one_hour : Z := 3600000.

(** One confirmed booking 10:00-11:00 of calendar 1 for contact 1. *)
Definition demo_db : Db := {|
  db_appointments := [appt_row 1 (monday_0h + 10 * one_hour) (monday_0h + 11 * one_hour) "Confirmed"];
  db_contacts := [contact_row 1 None None];
  db_ai_appointments := 2; db_ai_contacts := 2 |}.

Definition demo_request (contact : string) (sd ed : Z) : AddAppointmentRequest := {|
  rq_category_id := Some "1"; rq_service_id := Some "1"; rq_calendar_id := Some "1";
  rq_contact_id := Some contact; rq_new_user := None; rq_start_date := Some sd;
  rq_end_date := Some ed; rq_appointment_status := None; rq_archived := None; rq_remarks := None;
  rq_brand_of_device := None; rq_model := None; rq_year := None |}.

Lemma demo_db_wf : db_wf demo_db.
Proof. apply db_wfb_sound. vm_compute. reflexivity. Qed.

Lemma appointment_store_wf_witness :
  (forall r res db', addAppointment r empty_db = (res, db') -> db_wf db') /\
  (forall id r res db', updateAppointment id r empty_db = (res, db') -> db_wf db') /\
  (forall id res db', deleteAppointment id empty_db = (res, db') -> db_wf db').
Proof. exact (appointment_store_wf empty_db empty_db_wf). Defined.

Lemma addAppointment_roundtrip_witness :
  exists a db', addAppointment (demo_request "1" (monday_0h + 12 * one_hour) (monday_0h + 13 * one_hour))
                  demo_db = (Ok a, db') /\
    a = mapAppointmentWithContact
          (new_row (demo_request "1" (monday_0h + 12 * one_hour) (monday_0h + 13 * one_hour))
                   1 1 1 1 (monday_0h + 12 * one_hour) (monday_0h + 13 * one_hour) 2)
          (contact_row 1 None None) /\
    getAppointmentById (db_appointments db') (db_contacts db') (ap_id a) = Some a /\ db_wf db'.
Proof.
  exact (addAppointment_roundtrip (demo_request "1" (monday_0h + 12 * one_hour) (monday_0h + 13 * one_hour))
           demo_db (monday_0h + 12 * one_hour) (monday_0h + 13 * one_hour) 1 1 1 1 (contact_row 1 None None)
           eq_refl eq_refl eq_refl eq_refl eq_refl eq_refl eq_refl demo_db_wf eq_refl).
Defined.

Lemma addAppointment_double_booking_witness :
  exists a db', addAppointment (demo_request "1" (monday_0h + 10 * one_hour + one_hour / 2)
                                             (monday_0h + 11 * one_hour + one_hour / 2))
                  demo_db = (Ok a, db') /\ double_booked (db_appointments db').
Proof.
  exact (addAppointment_double_booking
           (demo_request "1" (monday_0h + 10 * one_hour + one_hour / 2) (monday_0h + 11 * one_hour + one_hour / 2))
           demo_db (monday_0h + 10 * one_hour + one_hour / 2) (monday_0h + 11 * one_hour + one_hour / 2) 1 1 1 1 (contact_row 1 None None)
           (appt_row 1 (monday_0h + 10 * one_hour) (monday_0h + 11 * one_hour) "Confirmed")
           eq_refl eq_refl eq_refl eq_refl eq_refl eq_refl eq_refl eq_refl demo_db_wf eq_refl
           (or_introl eq_refl) eq_refl eq_refl ltac:(vm_compute; reflexivity)
           ltac:(vm_compute; reflexivity)).
Defined.

Lemma addAppointment_unknown_contact_witness :
  exists db', addAppointment (demo_request "7" (monday_0h + 12 * one_hour) (monday_0h + 13 * one_hour))
                demo_db = (Err "Failed to fetch created appointment", db') /\
    In (new_row (demo_request "7" (monday_0h + 12 * one_hour) (monday_0h + 13 * one_hour))
                1 1 1 7 (monday_0h + 12 * one_hour) (monday_0h + 13 * one_hour) 2)
       (db_appointments db').
Proof.
  exact (addAppointment_unknown_contact
           (demo_request "7" (monday_0h + 12 * one_hour) (monday_0h + 13 * one_hour))
           demo_db (monday_0h + 12 * one_hour) (monday_0h + 13 * one_hour) 1 1 1 7
           eq_refl eq_refl eq_refl eq_refl eq_refl eq_refl eq_refl demo_db_wf eq_refl).
Defined.

(** Day 19856 is 2024-05-13; day 19491 is 2023-05-14. *)
Definition reminder_db : Db := {|
  db_appointments := [appt_row 1 (19857 * msPerDay + 9 * one_hour) (19857 * msPerDay + 10 * one_hour) "Confirmed";
                      appt_row 2 (19491 * msPerDay + 9 * one_hour) (19491 * msPerDay + 10 * one_hour) "Confirmed"];
  db_contacts := [contact_row 1 None None];
  db_ai_appointments := 3; db_ai_contacts := 2 |}.

Lemma due_reminders_other_year_witness :
  exists l x, fst (getDueReminderAppointments 0 (monday_0h + 10 * one_hour) reminder_db) = Ok l /\
    In x l /\
    YearFromDay (Day (ap_start_date x + 0)) <> YearFromDay (Day (monday_0h + 10 * one_hour + 0)).
Proof.
  set (a2 := mapAppointmentWithContact
               (appt_row 2 (19491 * msPerDay + 9 * one_hour) (19491 * msPerDay + 10 * one_hour) "Confirmed")
               (contact_row 1 None None)).
  assert (H : fst (getDueReminderAppointments 0 (monday_0h + 10 * one_hour) reminder_db) = Ok [a2])
    by (vm_compute; reflexivity).
  exists [a2], a2. split; [exact H|]. split; [left; reflexivity|].
  exact (due_reminders_other_year 0 (monday_0h + 10 * one_hour) reminder_db [a2] a2 H (or_introl eq_refl)).
Defined.

(** On Monday 2024-05-13 the reminder query returns the booking of
    2023-05-14 and not the one of Tuesday 2024-05-14. *)
Example reminders_skip_tomorrow :
  map ap_id (match fst (getDueReminderAppointments 0 (monday_0h + 10 * one_hour) reminder_db) with
             | Ok l => l | Err _ => [] end) = ["2"].
Proof. vm_compute. reflexivity. Qed.

(** C23 (error, finding): an appointment whose contact row is gone can
    never be deleted: [deleteAppointment] first reads it through the join
    with [contacts], finds nothing, answers [null] and deletes nothing.
    Such rows arise from [addAppointment] with an unknown contact (C16) or
    from [ContactDaoMySql.deleteContact], which leaves the contact's
    appointments in place. *)
Theorem deleteAppointment_orphan (db : Db) (x : AppointmentRow) :
  db_wf db -> In x (db_appointments db) ->
  (forall c, In c (db_contacts db) -> cr_id c <> ar_contact_id x) ->
  deleteAppointment (id_toString (ar_id x)) db = (Ok None, db).
Proof.
  intros (Ha & Hnd & _) Hx Hnc. unfold deleteAppointment, st_bind, getAppointmentById_st.
  rewrite Forall_forall in Ha. pose proof (Ha x Hx) as Hpos.
  unfold getAppointmentById. rewrite filter_all_false; [reflexivity|].
  intros [a c] Hin. apply In_join_contacts in Hin as (Ha' & Hc & Hac).
  rewrite sql_id_eq_toString by lia. apply Z.eqb_neq. intros Heq.
  rewrite (NoDup_map_eq ar_id _ x a Hnd Hx Ha' Heq) in Hnc. apply (Hnc c Hc). congruence.
Qed.

Lemma deleteAppointment_orphan_witness :
  deleteAppointment (id_toString (ar_id (appt_row 1 (monday_0h + 10 * one_hour) (monday_0h + 11 * one_hour) "Confirmed")))
    (set_contacts demo_db []) = (Ok None, set_contacts demo_db []).
Proof.
  apply deleteAppointment_orphan;
    [apply db_wfb_sound; vm_compute; reflexivity | simpl; left; reflexivity | intros c []].
Defined.

End AppointmentStore.
