(* ===== verification/ContactStore.v ===== *)
(** [ContactDaoMySql] (database-client/src/Contact/ContactDaoMySql.ts) on
    the database state: [addContact] (lines 25-106), [getContactById]
    (113-130), [getContactByEmail] (137-154), [getContacts] with its search
    and pagination (163-204), [getContactsWithAppointments] (211-240),
    [getContactsCount] (247-280), [updateContact] (289-405) and
    [deleteContact] (413-429).  The search is MySQL's [LIKE] with the
    pattern ['%' + search + '%'] under a case-insensitive collation; the
    search string's own [%], [_] and [\] keep their [LIKE] meaning, as in
    the code, which does not escape them.  [Partial<Contact>] is
    [ContactRequest]: [None] is [undefined] (an explicit [null] is not
    modelled).  The creation time of a row is the [now] of the call.
    [getContacts] takes the order MySQL returns the matching rows in,
    which [ORDER BY created_at DESC] leaves open among equal instants
    ([server_order]); [getContactsWithAppointments] receives the
    [JSON_ARRAYAGG] column parsed, as mysql2 hands JSON columns over. *)

From Stdlib Require Import ZArith List String Ascii Bool Lia Reals Sorted Permutation.
From S2P Require Import Prelude Json TimeParse Schedule Appointment Database.
Import ListNotations.
Open Scope Z_scope.
Local Open Scope sched_scope.

Module ContactStore.
Import TimeParse Schedule Appointment Database.

(** ** [LIKE] *)

(** MySQL's [LIKE] on ASCII text, case-insensitive: [%] matches any
    sequence, [_] one character, [\] escapes the next character. *)
Fixpoint like (p s : string) : bool :=
  match p with
  | EmptyString => match s with EmptyString => true | String _ _ => false end
  | String c p' =>
      if Ascii.eqb c "%" then
        (fix any (s : string) : bool :=
           like p' s || match s with String _ s' => any s' | EmptyString => false end) s
      else if Ascii.eqb c "_" then
        match s with String _ s' => like p' s' | EmptyString => false end
      else if Ascii.eqb c "\" then
        match p' with
        | String d p'' =>
            match s with
            | String e s' => Ascii.eqb (lower_ascii d) (lower_ascii e) && like p'' s'
            | EmptyString => false
            end
        | EmptyString =>
            match s with
            | String e s' => Ascii.eqb c e && like p' s'
            | EmptyString => false
            end
        end
      else
        match s with
        | String e s' => Ascii.eqb (lower_ascii c) (lower_ascii e) && like p' s'
        | EmptyString => false
        end
  end.

(** [col LIKE ?]; a NULL column never matches. *)
Definition sql_like (col : option string) (pat : string) : bool :=
  match col with Some v => like pat v | None => false end.

(** The eight columns of the search condition. *)
Definition contact_search_columns (r : ContactRow) : list (option string) :=
  [cr_first_name r; cr_last_name r; cr_telephone r; cr_phone_numbber_2 r;
   cr_phone_numbber_3 r; cr_email r; cr_note_on_address r; cr_remarks r].

(** [if (search) query += ' WHERE (' + conditions.join(' OR ') + ')']. *)
Definition search_where (search : option string) (r : ContactRow) : bool :=
  match search with
  | Some t =>
      if String.eqb t EmptyString then true
      else existsb (fun col => sql_like col ("%" ++ t ++ "%")) (contact_search_columns r)
  | None => true
  end.

(** ** Reads *)

(** [SELECT * FROM contacts WHERE id = ? LIMIT 1]. *)
Definition contact_by_id (rows : list ContactRow) (id : string) : option ContactRow :=
  hd_error (List.filter (fun r => sql_id_eq id (cr_id r)) rows).

Definition getContactById (id : string) : ST Db (option Contact) :=
  fun db => (Ok (option_map mapContactRow (contact_by_id (db_contacts db) id)), db).

(** [WHERE email = ? LIMIT 1]; mysql2 refuses an [undefined] parameter. *)
Definition getContactByEmail (email : option string) : ST Db (option Contact) :=
  match email with
  | None => st_err "Bind parameters must not contain undefined. To pass SQL NULL specify JS null"
  | Some e =>
      fun db => (Ok (option_map mapContactRow
                       (hd_error (List.filter (fun r => sql_opt_str_eq (cr_email r) e) (db_contacts db)))),
                 db)
  end.

(** The orders the server may return the matching rows in for
    [ORDER BY created_at DESC]: newest first, contacts created at the same
    instant in any order, which may differ from one query to the next. *)
Definition server_order (ord : list ContactRow -> list ContactRow) : Prop :=
  forall rows, order_by cr_created_at true rows (ord rows).

(** One of them: the table order among equal [created_at]. *)
Definition table_order (rows : list ContactRow) : list ContactRow := sort_by cr_created_at true rows.

(** [... ORDER BY created_at DESC LIMIT ? OFFSET ?] with [limit] and
    [limit * (page - 1)], the matching rows in the order [ord] the server
    uses for this query; MySQL rejects a negative [LIMIT] or [OFFSET]
    (the message is not modelled). *)
Definition getContacts (ord : list ContactRow -> list ContactRow) (page limit : Z) (search : option string)
    : ST Db (list Contact) :=
  fun db =>
    let offset := limit * (page - 1) in
    if (limit <? 0) || (offset <? 0) then (Err "negative LIMIT or OFFSET", db)
    else (Ok (map mapContactRow
                  (firstn (Z.to_nat limit)
                     (skipn (Z.to_nat offset) (ord (List.filter (search_where search) (db_contacts db)))))),
          db).

(** [SELECT COUNT( * ) as count FROM contacts WHERE ...]. *)
Definition getContactsCount (search : option string) : ST Db Z :=
  fun db => (Ok (Z.of_nat (List.length (List.filter (search_where search) (db_contacts db)))), db).

(** One element of the [JSON_ARRAYAGG] of [getContactsWithAppointments];
    the columns of a missing appointment are NULL. *)
Record ApptEntry := {
  ae_id : option Z;
  ae_start_date : option Z;
  ae_end_date : option Z;
  ae_appointment_status : option string
}.

Definition entry_of (a : AppointmentRow) : ApptEntry :=
  {| ae_id := Some (ar_id a); ae_start_date := Some (ar_start_date a);
     ae_end_date := Some (ar_end_date a); ae_appointment_status := Some (ar_appointment_status a) |}.

Definition null_entry : ApptEntry :=
  {| ae_id := None; ae_start_date := None; ae_end_date := None; ae_appointment_status := None |}.

(** [LEFT JOIN appointments a ON c.id = a.contact_id GROUP BY c.id]: a
    contact without appointment still has one joined row, all NULL, which
    [JSON_ARRAYAGG] turns into an array of one object. *)
Definition contact_appointments (as_ : list AppointmentRow) (c : ContactRow) : list ApptEntry :=
  match List.filter (fun a => Z.eqb (cr_id c) (ar_contact_id a)) as_ with
  | [] => [null_entry]
  | l => map entry_of l
  end.

(** [row.appointments ? JSON.parse(row.appointments) : []]: mysql2 hands
    the JSON column over parsed, here an array of objects, which is
    truthy; [JSON.parse] converts it to a string first (an array prints as
    its elements joined by commas, an object as [[object Object]]) and
    throws a [SyntaxError] on a text that is not JSON. *)
Definition parse_appointments (l : list ApptEntry) : Result Json.json :=
  match Json.JSON_parse (String.concat "," (map (fun _ => "[object Object]") l)) with
  | Some v => Ok v
  | None => Err "SyntaxError"
  end.

(** [rows.map(row => ({ ...this.mapContactRow(row), appointments }))]: the
    first row whose [JSON.parse] throws rejects the whole call. *)
Fixpoint with_appointments (as_ : list AppointmentRow) (cs : list ContactRow)
    : Result (list (Contact * Json.json)) :=
  match cs with
  | [] => Ok []
  | c :: cs' =>
      match parse_appointments (contact_appointments as_ c) with
      | Err e => Err e
      | Ok v => match with_appointments as_ cs' with
                | Ok l => Ok ((mapContactRow c, v) :: l)
                | Err e => Err e
                end
      end
  end.

Definition getContactsWithAppointments : ST Db (list (Contact * Json.json)) :=
  fun db => (with_appointments (db_appointments db) (db_contacts db), db).

(** ** Writes *)

Record ContactRequest := {
  cq_salutation : option string;
  cq_first_name : option string;
  cq_last_name : option string;
  cq_address : option string;
  cq_zip_code : option string;
  cq_location : option string;
  cq_telephone : option string;
  cq_phone_numbber_2 : option string;
  cq_phone_numbber_3 : option string;
  cq_email : option string;
  cq_password : option string;
  cq_archived : option bool;
  cq_note_on_address : option string;
  cq_remarks : option string;
  cq_district : option Z;
  cq_lat : option R;
  cq_lng : option R
}.

(** The row of the INSERT: [contact.x ?? null], [archived ?? false]. *)
Definition new_contact_row (now : Z) (c : ContactRequest) (id : Z) : ContactRow := {|
  cr_id := id; cr_salutation := cq_salutation c; cr_first_name := cq_first_name c;
  cr_last_name := cq_last_name c; cr_address := cq_address c; cr_zip_code := cq_zip_code c;
  cr_location := cq_location c; cr_telephone := cq_telephone c;
  cr_phone_numbber_2 := cq_phone_numbber_2 c; cr_phone_numbber_3 := cq_phone_numbber_3 c;
  cr_email := cq_email c; cr_password := cq_password c;
  cr_archived := match cq_archived c with Some b => b | None => false end;
  cr_note_on_address := cq_note_on_address c; cr_district := cq_district c;
  cr_lat := cq_lat c; cr_lng := cq_lng c; cr_remarks := cq_remarks c; cr_created_at := now
|}.

(** [addContact]: INSERT, then [SELECT * FROM contacts WHERE id = ?] on
    the insert id and [mapContactRow(rows[0])]. *)
Definition addContact (now : Z) (c : ContactRequest) : ST Db Contact :=
  insertId <- insert_contact (new_contact_row now c) ;;
  fun db =>
    match List.filter (fun r => Z.eqb (cr_id r) insertId) (db_contacts db) with
    | r :: _ => (Ok (mapContactRow r), db)
    | [] => (Err "Cannot read properties of undefined (reading 'id')", db)
    end.

(** [x !== undefined ? x : current]. *)
Definition upd {A} (o : option A) (cur : A) : A := match o with Some x => x | None => cur end.

(** The number of entries of the SET list. *)
Definition contact_update_count (c : ContactRequest) : nat :=
  List.length (List.filter (fun b : bool => b)
    [defined (cq_salutation c); defined (cq_first_name c); defined (cq_last_name c);
     defined (cq_address c); defined (cq_zip_code c); defined (cq_location c);
     defined (cq_telephone c); defined (cq_phone_numbber_2 c); defined (cq_phone_numbber_3 c);
     defined (cq_email c); defined (cq_password c); defined (cq_archived c);
     defined (cq_note_on_address c); defined (cq_remarks c); defined (cq_district c);
     defined (cq_lat c); defined (cq_lng c)]).

Definition apply_contact_update (c : ContactRequest) (r : ContactRow) : ContactRow := {|
  cr_id := cr_id r; cr_salutation := upd_opt (cq_salutation c) (cr_salutation r);
  cr_first_name := upd_opt (cq_first_name c) (cr_first_name r);
  cr_last_name := upd_opt (cq_last_name c) (cr_last_name r);
  cr_address := upd_opt (cq_address c) (cr_address r);
  cr_zip_code := upd_opt (cq_zip_code c) (cr_zip_code r);
  cr_location := upd_opt (cq_location c) (cr_location r);
  cr_telephone := upd_opt (cq_telephone c) (cr_telephone r);
  cr_phone_numbber_2 := upd_opt (cq_phone_numbber_2 c) (cr_phone_numbber_2 r);
  cr_phone_numbber_3 := upd_opt (cq_phone_numbber_3 c) (cr_phone_numbber_3 r);
  cr_email := upd_opt (cq_email c) (cr_email r);
  cr_password := upd_opt (cq_password c) (cr_password r);
  cr_archived := upd (cq_archived c) (cr_archived r);
  cr_note_on_address := upd_opt (cq_note_on_address c) (cr_note_on_address r);
  cr_district := upd_opt (cq_district c) (cr_district r);
  cr_lat := upd_opt (cq_lat c) (cr_lat r); cr_lng := upd_opt (cq_lng c) (cr_lng r);
  cr_remarks := upd_opt (cq_remarks c) (cr_remarks r); cr_created_at := cr_created_at r
|}.

(** [updateContact]: the UPDATE when some field is given, then
    [getContactById]; [updated as Contact] may be [null]. *)
Definition updateContact (id : string) (c : ContactRequest) : ST Db (option Contact) :=
  match contact_update_count c with
  | O => getContactById id
  | S _ =>
      fun db =>
        getContactById id
          (set_contacts db (map (fun r => if sql_id_eq id (cr_id r) then apply_contact_update c r else r)
                                (db_contacts db)))
  end.

(** [deleteContact]: read the contact, then DELETE; [null] if absent.
    The contact's appointments are not touched. *)
Definition deleteContact (id : string) : ST Db (option Contact) :=
  contact <- getContactById id ;;
  match contact with
  | None => st_ret None
  | Some ct =>
      fun db => (Ok (Some ct),
                 set_contacts db (List.filter (fun r => negb (sql_id_eq id (cr_id r))) (db_contacts db)))
  end.

(** ** Lemmas on [LIKE] *)

(** The characters that [LIKE] does not take literally. *)
Definition is_wildcard (c : ascii) : bool :=
  Ascii.eqb c "%" || Ascii.eqb c "_" || Ascii.eqb c "\".

Fixpoint no_wildcards (t : string) : bool :=
  match t with
  | EmptyString => true
  | String c t' => negb (is_wildcard c) && no_wildcards t'
  end.

Lemma like_percent p s :
  like (String "%" p) s = like p s || match s with String _ s' => like (String "%" p) s' | EmptyString => false end.
Proof. destruct s; reflexivity. Qed.

(** [%p] matches [s] iff [p] matches a suffix of [s]. *)
Lemma like_percent_iff p s :
  like (String "%" p) s = true <-> exists s1 s2, s = (s1 ++ s2)%string /\ like p s2 = true.
Proof.
  induction s as [|c s IH]; rewrite like_percent, orb_true_iff.
  - split; [intros [H|H]; [exists EmptyString, EmptyString; auto | discriminate]|].
    intros (s1 & s2 & Hs & Hp). destruct s1, s2; try discriminate. auto.
  - rewrite IH. split.
    + intros [H | (s1 & s2 & -> & Hp)]; [exists EmptyString, (String c s); auto|].
      exists (String c s1), s2. auto.
    + intros (s1 & s2 & Hs & Hp). destruct s1 as [|d s1]; [left; simpl in Hs; subst; exact Hp|].
      injection Hs as -> ->. right. eauto.
Qed.

Lemma like_percent_any s : like "%" s = true.
Proof. apply like_percent_iff. exists s, EmptyString. rewrite string_app_nil_r. auto. Qed.

Lemma like_literal c p s :
  is_wildcard c = false ->
  like (String c p) s = match s with
                        | String e s' => Ascii.eqb (lower_ascii c) (lower_ascii e) && like p s'
                        | EmptyString => false
                        end.
Proof.
  unfold is_wildcard. intros H. bool_to_prop. simpl.
  repeat match goal with H : (_ || _)%bool = false |- _ => apply orb_false_elim in H as [? ?] end.
  repeat match goal with H : Ascii.eqb _ _ = false |- _ => rewrite H end. reflexivity.
Qed.

Lemma lower_ascii_eqb c e : Ascii.eqb (lower_ascii c) (lower_ascii e) = true <-> lower_ascii c = lower_ascii e.
Proof. apply Ascii.eqb_eq. Qed.

(** A pattern without wildcards matches the prefixes equal to it up to
    case. *)
Lemma like_literal_iff t p s :
  no_wildcards t = true ->
  like (t ++ p) s = true <->
  exists s1 s2, s = (s1 ++ s2)%string /\ toLowerCase s1 = toLowerCase t /\ like p s2 = true.
Proof.
  revert s. induction t as [|c t IH]; intros s Ht; cbn [append no_wildcards] in *.
  - split; [intros H; exists EmptyString, s; auto | intros (s1 & s2 & -> & H1 & H2)].
    destruct s1; [exact H2 | discriminate].
  - bool_to_prop. rewrite like_literal by assumption.
    destruct s as [|e s].
    + split; [discriminate|]. intros (s1 & s2 & Hs & H1 & _). destruct s1; discriminate.
    + rewrite andb_true_iff, lower_ascii_eqb, IH by assumption. split.
      * intros [He (s1 & s2 & -> & H1 & H2)]. exists (String e s1), s2. simpl. rewrite He, H1. auto.
      * intros (s1 & s2 & Hs & H1 & H2). destruct s1 as [|d s1]; [discriminate|].
        injection Hs as -> ->. simpl in H1. injection H1 as H1a H1b. split; [symmetry; exact H1a | eauto].
Qed.

(** ** Other lemmas *)

Lemma firstn_add_skipn {A} (a b : nat) (l : list A) :
  firstn (a + b) l = (firstn a l ++ firstn b (skipn a l))%list.
Proof.
  revert l. induction a as [|a IH]; intros l; [reflexivity|].
  destruct l as [|x l]; simpl; [destruct b; reflexivity | rewrite IH; reflexivity].
Qed.

(** The rows of one page of [getContacts]. *)
Definition page_rows (ord : list ContactRow -> list ContactRow) (db : Db) (search : option string)
    (limit : Z) (p : nat) : list Contact :=
  match fst (getContacts ord (Z.of_nat p) limit search db) with Ok l => l | Err _ => [] end.

Lemma page_rows_eq ord db search limit p :
  0 < limit -> (1 <= p)%nat ->
  page_rows ord db search limit p =
  map mapContactRow (firstn (Z.to_nat limit)
                       (skipn ((p - 1) * Z.to_nat limit) (ord (List.filter (search_where search) (db_contacts db))))).
Proof.
  intros Hl Hp. unfold page_rows, getContacts. simpl.
  replace (limit <? 0) with false by (symmetry; apply Z.ltb_ge; lia).
  replace (limit * (Z.of_nat p - 1) <? 0) with false by (symmetry; apply Z.ltb_ge; nia).
  simpl. do 3 f_equal. rewrite Z2Nat.inj_mul by lia. rewrite Nat.mul_comm. f_equal. lia.
Qed.

Lemma pages_prefix ord db search limit n :
  0 < limit ->
  flat_map (page_rows ord db search limit) (seq 1 n) =
  map mapContactRow (firstn (n * Z.to_nat limit) (ord (List.filter (search_where search) (db_contacts db)))).
Proof.
  intros Hl. induction n as [|n IH]; [reflexivity|].
  replace (S n * Z.to_nat limit)%nat with (n * Z.to_nat limit + Z.to_nat limit)%nat by lia.
  rewrite seq_S, flat_map_app, IH, firstn_add_skipn, map_app. cbn [flat_map].
  rewrite app_nil_r, page_rows_eq by lia. replace (1 + n - 1)%nat with n by lia. reflexivity.
Qed.

(** A contact without appointments still has one element in its
    [JSON_ARRAYAGG], with every field null. *)
Lemma contact_appointments_null_entry as_ c :
  (forall a, In a as_ -> ar_contact_id a <> cr_id c) -> contact_appointments as_ c = [null_entry].
Proof.
  intros Hna. unfold contact_appointments. rewrite filter_all_false; [reflexivity|].
  intros a Ha. apply Z.eqb_neq. intros Heq. apply (Hna a Ha). congruence.
Qed.

Lemma contact_appointments_nonempty as_ c : contact_appointments as_ c <> [].
Proof.
  unfold contact_appointments. destruct (List.filter _ as_) as [|a l]; discriminate.
Qed.

(** [JSON.parse] stops at the [o] after the opening bracket. *)
Lemma JSON_parse_object_text rest : Json.JSON_parse ("[object Object]" ++ rest) = None.
Proof. reflexivity. Qed.

Lemma parse_appointments_throws l : l <> [] -> parse_appointments l = Err "SyntaxError".
Proof.
  intros Hl. unfold parse_appointments. destruct l as [|e l]; [contradiction|].
  cbn [map String.concat]. destruct (map _ l) as [|x xs].
  - rewrite <- (Json.str_app_empty_r "[object Object]"), JSON_parse_object_text. reflexivity.
  - rewrite JSON_parse_object_text. reflexivity.
Qed.

Lemma contact_by_id_none rows id :
  (forall r, In r rows -> sql_id_eq id (cr_id r) = false) -> contact_by_id rows id = None.
Proof. intros H. unfold contact_by_id. rewrite filter_all_false; auto. Qed.

Lemma contact_by_id_Some rows id r :
  contact_by_id rows id = Some r -> In r rows /\ sql_id_eq id (cr_id r) = true.
Proof.
  unfold contact_by_id. destruct (List.filter _ rows) as [|x l] eqn:E; simpl; [discriminate|].
  intros H. injection H as <-. apply (In_filter_iff (fun r => sql_id_eq id (cr_id r))).
  rewrite E. left. reflexivity.
Qed.

Lemma set_contacts_wf db rows :
  db_wf db -> map cr_id rows = map cr_id (db_contacts db) -> db_wf (set_contacts db rows).
Proof.
  intros (Ha & Hna & Hc & Hnc & Hpa & Hpc) Hm. unfold db_wf, set_contacts; simpl.
  repeat split; auto; [|rewrite Hm; exact Hnc].
  apply (Forall_map cr_id (fun z => 0 < z < db_ai_contacts db)). rewrite Hm.
  apply (Forall_map cr_id (fun z => 0 < z < db_ai_contacts db)). exact Hc.
Qed.

Lemma filter_contacts_wf db p : db_wf db -> db_wf (set_contacts db (List.filter p (db_contacts db))).
Proof.
  intros (Ha & Hna & Hc & Hnc & Hpa & Hpc). unfold db_wf, set_contacts; simpl.
  repeat split; auto using Forall_filter, NoDup_map_filter.
Qed.

Lemma addContact_wf now c db res db' : db_wf db -> addContact now c db = (res, db') -> db_wf db'.
Proof.
  intros Hwf. unfold addContact, st_bind.
  destruct (insert_contact _ db) as [[id|e] db1] eqn:Ei; [|unfold insert_contact in Ei; congruence].
  pose proof (insert_contact_wf _ _ _ _ Hwf Ei) as Hwf1.
  assert (db_wf db1) as Hw by (apply Hwf1; injection Ei as <- _; reflexivity).
  destruct (List.filter _ _); intros H; injection H as _ <-; exact Hw.
Qed.

Lemma updateContact_wf id c db res db' : db_wf db -> updateContact id c db = (res, db') -> db_wf db'.
Proof.
  intros Hwf. unfold updateContact, getContactById.
  destruct (contact_update_count c); intros H; injection H as _ <-; [exact Hwf|].
  apply set_contacts_wf; [exact Hwf|]. rewrite map_map. apply map_ext.
  intros r. destruct (sql_id_eq id (cr_id r)); reflexivity.
Qed.

Lemma deleteContact_wf id db res db' : db_wf db -> deleteContact id db = (res, db') -> db_wf db'.
Proof.
  intros Hwf. unfold deleteContact, st_bind, getContactById.
  destruct (option_map _ _); intros H; injection H as _ <-; [apply filter_contacts_wf, Hwf | exact Hwf].
Qed.

(** ** Runs of the DAO methods *)

Lemma getContactByEmail_run (e : string) (db : Db) :
  getContactByEmail (Some e) db =
  (Ok (option_map mapContactRow
         (hd_error (List.filter (fun r => sql_opt_str_eq (cr_email r) e) (db_contacts db)))), db).
Proof. reflexivity. Qed.

(** [addContact] inserts the row with the next id and returns it. *)
Lemma addContact_run now c db :
  db_wf db ->
  addContact now c db =
  (Ok (mapContactRow (new_contact_row now c (db_ai_contacts db))),
   {| db_appointments := db_appointments db;
      db_contacts := (db_contacts db ++ [new_contact_row now c (db_ai_contacts db)])%list;
      db_ai_appointments := db_ai_appointments db; db_ai_contacts := db_ai_contacts db + 1 |}).
Proof.
  intros (_ & _ & Hc & _). unfold addContact, st_bind, insert_contact. simpl.
  rewrite filter_app, (filter_all_false _ (db_contacts db)).
  - simpl. rewrite Z.eqb_refl. reflexivity.
  - intros r Hr. rewrite Forall_forall in Hc. specialize (Hc r Hr). apply Z.eqb_neq. lia.
Qed.

Lemma length_filter_true (l : list bool) : In true l -> (1 <= List.length (List.filter (fun b : bool => b) l))%nat.
Proof.
  induction l as [|b l IH]; simpl; [contradiction|]. intros [->|H]; simpl; [lia|].
  destruct b; simpl; [lia | auto].
Qed.

(** A request that sets [archived] has a non-empty SET list. *)
Lemma contact_update_count_archived c :
  defined (cq_archived c) = true -> (1 <= contact_update_count c)%nat.
Proof.
  intros H. unfold contact_update_count. apply length_filter_true. rewrite H.
  do 11 right. left. reflexivity.
Qed.

(** [updateContact] on the rows: the rows with the id get the update. *)
Lemma updateContact_rows id c db res db' :
  updateContact id c db = (res, db') ->
  db_contacts db' = db_contacts db \/
  db_contacts db' = map (fun r => if sql_id_eq id (cr_id r) then apply_contact_update c r else r)
                        (db_contacts db).
Proof.
  unfold updateContact, getContactById. destruct (contact_update_count c); intros H;
    injection H as _ <-; [left | right]; reflexivity.
Qed.

(** ** Properties *)

(** C19 (equivalence): for a non-empty search text without [LIKE]
    wildcards, a contact matches iff one of the eight searched columns
    contains the text, ignoring case. *)
Theorem search_where_substring (t : string) (r : ContactRow) :
  t <> EmptyString -> no_wildcards t = true ->
  search_where (Some t) r = true <->
  exists v, In (Some v) (contact_search_columns r) /\
    exists a b c, v = (a ++ b ++ c)%string /\ toLowerCase b = toLowerCase t.
Proof.
  intros Hne Hw. unfold search_where. destruct (String.eqb t EmptyString) eqn:E;
    [apply String.eqb_eq in E; contradiction|].
  rewrite existsb_exists. split.
  - intros [[v|] [Hin Hl]]; [|discriminate]. exists v. split; [exact Hin|].
    unfold sql_like in Hl. apply like_percent_iff in Hl as (a & s2 & -> & Hl).
    apply like_literal_iff in Hl as (b & c & -> & Hb & _); [|exact Hw]. eauto.
  - intros (v & Hin & a & b & c & Hv & Hb). exists (Some v). split; [exact Hin|].
    unfold sql_like. rewrite Hv. apply like_percent_iff. exists a, (b ++ c)%string. split; [reflexivity|].
    apply like_literal_iff; [exact Hw|]. exists b, c. split; [reflexivity|].
    split; [exact Hb | apply like_percent_any].
Qed.

(** C20 (functional): paging is complete and has no overlap when no two
    matching contacts share [created_at]: with a positive [limit], pages
    1..n of [getContacts], each read in whatever order the server picks
    for its query, list exactly the matching contacts newest first once
    [n * limit] reaches the [getContactsCount] of the same search. *)
Theorem getContacts_pages_cover (ords : nat -> list ContactRow -> list ContactRow) (db : Db)
    (search : option string) (limit cnt : Z) (n : nat) :
  (forall p, server_order (ords p)) ->
  List.NoDup (map cr_created_at (List.filter (search_where search) (db_contacts db))) ->
  0 < limit -> fst (getContactsCount search db) = Ok cnt -> cnt <= Z.of_nat n * limit ->
  flat_map (fun p => page_rows (ords p) db search limit p) (seq 1 n) =
  map mapContactRow (table_order (List.filter (search_where search) (db_contacts db))).
Proof.
  intros Hord Hnd Hl Hc Hn.
  assert (Hp : forall p, page_rows (ords p) db search limit p = page_rows table_order db search limit p).
  { intros p. unfold page_rows, getContacts.
    rewrite (order_by_unique cr_created_at true _ _ _ Hnd (Hord p _) (order_by_sort_by _ _ _)). reflexivity. }
  rewrite (flat_map_ext _ _ Hp), pages_prefix by exact Hl. f_equal. apply firstn_all2.
  unfold getContactsCount in Hc. simpl in Hc. injection Hc as <-.
  unfold table_order. rewrite length_sort_by. nia.
Qed.

(** C21 (error, finding): [getContactsWithAppointments] rejects with a
    [SyntaxError] whenever the [contacts] table has a row, and answers [[]]
    only for an empty table: every contact's [JSON_ARRAYAGG] is an array
    (a contact without appointments gets one object of NULLs), which
    mysql2 hands over parsed, and [JSON.parse] of its string
    [[object Object],...] throws. *)
Theorem getContactsWithAppointments_throws (db : Db) :
  fst (getContactsWithAppointments db) =
  match db_contacts db with [] => Ok [] | _ :: _ => Err "SyntaxError" end.
Proof.
  unfold getContactsWithAppointments. simpl. destruct (db_contacts db) as [|c cs]; [reflexivity|].
  simpl. rewrite parse_appointments_throws by apply contact_appointments_nonempty. reflexivity.
Qed.

(** [addContact], [updateContact] and [deleteContact] keep the primary
    keys positive, below the counters and distinct. *)
Lemma contact_store_wf (db : Db) :
  db_wf db ->
  (forall now c res db', addContact now c db = (res, db') -> db_wf db') /\
  (forall id c res db', updateContact id c db = (res, db') -> db_wf db') /\
  (forall id res db', deleteContact id db = (res, db') -> db_wf db').
Proof.
  intros Hwf. split; [|split]; intros *;
    [apply addContact_wf | apply updateContact_wf | apply deleteContact_wf]; exact Hwf.
Qed.

(** ** Concrete runs *)

Definition named_contact (id : Z) (first : string) (created : Z) : ContactRow := {|
  cr_id := id; cr_salutation := None; cr_first_name := Some first; cr_last_name := None;
  cr_address := None; cr_zip_code := None; cr_location := None; cr_telephone := None;
  cr_phone_numbber_2 := None; cr_phone_numbber_3 := None; cr_email := None; cr_password := None;
  cr_archived := false; cr_note_on_address := None; cr_district := None; cr_lat := None;
  cr_lng := None; cr_remarks := None; cr_created_at := created |}.

Definition people_db : Db := {|
  db_appointments := [appt_row 1 0 1 "Confirmed"];
  db_contacts := [named_contact 1 "Anna" 10; named_contact 2 "Jo" 20; named_contact 3 "Johanna" 30];
  db_ai_appointments := 2; db_ai_contacts := 4 |}.

Lemma search_where_substring_witness :
  search_where (Some "ANN") (named_contact 3 "Johanna" 30) = true <->
  exists v, In (Some v) (contact_search_columns (named_contact 3 "Johanna" 30)) /\
    exists a b c, v = (a ++ b ++ c)%string /\ toLowerCase b = toLowerCase "ANN".
Proof. apply search_where_substring; [discriminate | reflexivity]. Defined.

Lemma getContacts_pages_cover_witness :
  flat_map (fun p => page_rows table_order people_db None 2 p) (seq 1 2) =
  map mapContactRow (table_order (List.filter (search_where None) (db_contacts people_db))).
Proof.
  exact (getContacts_pages_cover (fun _ => table_order) people_db None 2 3 2
           (fun _ => order_by_sort_by cr_created_at true)
           ltac:(cbn; repeat constructor; cbn; intuition discriminate) ltac:(lia) eq_refl ltac:(lia)).
Defined.

(** Two contacts created at the same instant: MySQL may put either first,
    and with one contact per page the first page of one query and the
    second page of the next can both show Jo, while Anna is on neither. *)
Definition twins_db : Db := {|
  db_appointments := [];
  db_contacts := [named_contact 1 "Anna" 10; named_contact 2 "Jo" 10];
  db_ai_appointments := 1; db_ai_contacts := 3 |}.

Example pages_repeat_on_ties :
  let rows := db_contacts twins_db in
  let o1 := [named_contact 2 "Jo" 10; named_contact 1 "Anna" 10] in
  order_by cr_created_at true rows o1 /\ order_by cr_created_at true rows rows /\
  flat_map (fun p => page_rows (fun _ => if Nat.eqb p 1 then o1 else rows) twins_db None 1 p) (seq 1 2) =
    map mapContactRow [named_contact 2 "Jo" 10; named_contact 2 "Jo" 10].
Proof.
  cbn zeta. split; [|split].
  - split; [apply perm_swap | repeat constructor].
  - split; [reflexivity | repeat constructor].
  - reflexivity.
Qed.

(** The search text is not escaped: ["_"] matches every contact with a
    non-empty name, and ["n_"] matches "Anna" and "Johanna". *)
Example search_wildcards :
  map (fun r => search_where (Some "_") r) (db_contacts people_db) = [true; true; true] /\
  map (fun r => search_where (Some "n_") r) (db_contacts people_db) = [true; false; true].
Proof. split; reflexivity. Qed.

End ContactStore.
