(* ===== verification/Availability.v ===== *)
(** The plain availability query: [AppointmentsService.getTimeSlots]
    (AppointmentsService.ts, lines 204-255).  It reads the service duration
    (default 60 minutes), selects the day's rules through [ScheduleDao],
    keeps the rules of calendars assigned to the service, generates slots,
    fetches the day's appointments of all calendars through
    [AppointmentDao] between local midnight and 23:59:59.999, and applies the
    conflict filter and the past-time filter.  The query is written against
    the DAO classes; the findings instantiate them with the MySQL models. *)

From Stdlib Require Import ZArith List String Bool Lia.
From S2P Require Import Prelude JsDate TimeParse Schedule Slots Appointment Conflict.
Import ListNotations.
Open Scope Z_scope.

Module Availability.
Import JsDate TimeParse Schedule Slots Appointment Conflict.

(** The [Service] object: [duration] in minutes, possibly absent. *)
Record Service := { sv_id : Z; sv_category_id : Z; sv_duration : option Z }.

(** [CategoryDao.getServiceByCategoryIdAndServiceId]. *)
Class CategoryDao := { dao_getServiceByCategoryIdAndServiceId : string -> string -> option Service }.

(** [SELECT * FROM services WHERE category_id = ? AND id = ? LIMIT 1]. *)
Definition getServiceByCategoryIdAndServiceId (services : list Service) (categoryId serviceId : string)
    : option Service :=
  List.find (fun sv => sql_id_eq categoryId (sv_category_id sv) && sql_id_eq serviceId (sv_id sv)) services.

#[export] Instance CategoryDaoMySql (services : list Service) : CategoryDao :=
  { dao_getServiceByCategoryIdAndServiceId := getServiceByCategoryIdAndServiceId services }.

(** JS truthiness of a query parameter (absent or [""] is false). *)
Definition truthy_str (o : option string) : bool :=
  match o with Some s => negb (String.eqb s EmptyString) | None => false end.

Section Query.
  Context `{SD : ScheduleDao} `{AD : AppointmentDao} `{CD : CategoryDao}.

  (** [serviseDuration]: 60 unless both ids are given and the service has a
      truthy [duration]. *)
Definition serviceDuration (category_id service_id : option string) : Z :=
    match category_id, service_id with
    | Some c, Some s =>
        if truthy_str category_id && truthy_str service_id then
          match dao_getServiceByCategoryIdAndServiceId c s with
          | Some sv => match sv_duration sv with
                       | Some dur => if Z.eqb dur 0 then 60 else dur
                       | None => 60
                       end
          | None => 60
          end
        else 60
    | _, _ => 60
    end.

  (** The service filter of lines 220-224: on the calendar's
      [assignments_services]. *)
Definition assigned_to (service_id : string) (s : ExtendedSchedule) : bool :=
    match es_assignments_services s with
    | [] => true
    | l => existsb (String.eqb service_id) l
    end.

Definition service_filter (category_id service_id : option string) (ss : list ExtendedSchedule)
      : list ExtendedSchedule :=
    match service_id with
    | Some sid => if truthy_str category_id && truthy_str service_id
                  then List.filter (assigned_to sid) ss else ss
    | None => ss
    end.

Definition getTimeSlots (fuel : nat) (offset now date : Z) (category_id service_id : option string)
      : option (list TimeSlot) :=
    let dur := serviceDuration category_id service_id in
    match dao_getScheduleByDate date with
    | [] => Some []
    | schedules =>
        match calculateTimeSlots fuel offset (service_filter category_id service_id schedules) date dur with
        | None => None
        | Some timeSlots =>
            let booked := dao_getAppointments (local_start_of_day offset date)
                                              (local_end_of_day offset date) in
            Some (filterPast now (filterBookedAppointments timeSlots booked))
        end
    end.

  (** ** Properties of the query *)

  (** C1 (safety): every slot the query returns lasts the service
      duration, starts no earlier than five minutes before [now], and is
      not overlapped (as open intervals) by any confirmed appointment the
      appointment DAO returns for the request's local day. *)
Theorem getTimeSlots_sound (fuel : nat) (offset now date : Z) (cid sid : option string) l sl :
    getTimeSlots fuel offset now date cid sid = Some l -> In sl l ->
    slot_end sl = slot_start sl + serviceDuration cid sid * msPerMinute /\
    now - 5 * msPerMinute <= slot_start sl /\
    forall a, In a (dao_getAppointments (local_start_of_day offset date) (local_end_of_day offset date)) ->
      ap_appointment_status a = AppointmentStatus_Confirmed ->
      ~ ⟦ slot_start sl, slot_end sl ⟧ ⋈ ⟦ ap_start_date a, ap_end_date a ⟧.
  Proof.
    unfold getTimeSlots. intros Hq Hin.
    destruct (dao_getScheduleByDate date) as [|s0 ss0] eqn:Hs; [inversion Hq; subst; contradiction|].
    destruct (calculateTimeSlots _ _ _ _ _) as [ts|] eqn:Hc; [|discriminate].
    inversion Hq; subst l. apply filterPast_spec in Hin as [Hin Hnow].
    apply filterBookedAppointments_spec in Hin as [Hin Hfree].
    split; [|split; assumption].
    pose proof (calculateTimeSlots_durations _ _ _ _ _ _ Hc) as Hd.
    rewrite Forall_forall in Hd. apply Hd, Hin.
  Qed.
End Query.

(** ** The MySQL rule selector drops every date-range rule *)

Lemma calculateTimeSlots_undated (fuel : nat) (offset : Z) (ss : list ExtendedSchedule) (date d : Z) :
  (forall s, In s ss -> es_date_from s = None) ->
  calculateTimeSlots fuel offset ss date d =
  collect_slots fuel date d (List.filter (is_weekly_for (toLocaleWeekday offset date)) ss).
Proof.
  intros H. unfold calculateTimeSlots.
  rewrite (filter_all_false (is_certain_for date)), app_nil_r; [reflexivity|].
  intros s Hs. unfold is_certain_for. rewrite (H s Hs). apply andb_false_r.
Qed.

Lemma getScheduleByDate_undated ss cs offset date s :
  In s (getScheduleByDate ss cs offset date) -> es_date_from s = None.
Proof. intros Hs. apply In_getScheduleByDate in Hs as (r & c & _ & _ & _ & _ & ->). reflexivity. Qed.

(** C7 (functional, finding): with the MySQL rule selector, slot
    generation only ever uses the weekly rules: [getScheduleByDate] selects
    matching "certain" rows but [mapExtendedScheduleRow] leaves out
    [date_from] / [date_to], so [calculateTimeSlots] discards every
    date-range rule (whatever service filter is applied first). *)
Theorem mysql_certain_rules_ignored (fuel : nat) (offset date d : Z) ss cs
    (cid sid : option string) :
  calculateTimeSlots fuel offset (service_filter cid sid (getScheduleByDate ss cs offset date)) date d =
  collect_slots fuel date d
    (List.filter (is_weekly_for (toLocaleWeekday offset date))
                 (service_filter cid sid (getScheduleByDate ss cs offset date))).
Proof.
  apply calculateTimeSlots_undated. intros s Hs. unfold service_filter in Hs.
  destruct sid; [destruct (_ && _)%bool; [apply In_filter_iff in Hs as [Hs _]|]|];
    eapply getScheduleByDate_undated; eauto.
Qed.

(** ** A concrete database *)

Definition demo_calendars : list CalendarRow :=
  [calendar_row 1 "Tech" None].

Definition weekly_row (id : Z) (wd from to : string) : ScheduleRow := {|
  s_id := id; s_calendar_id := 1; s_working_hours_type := "weekly"; s_weekday := Some wd;
  s_date_from := None; s_date_to := None; s_time_from := from; s_time_to := to;
  s_reason := None; s_deactivate_working_hours := false; s_one_time_appointment_link := None;
  s_only_internally := false; s_restricted_to_services := None; s_possible_appointment := None;
  s_active := true; s_created_at := 0 |}.

Definition certain_row (id day_from day_to : Z) (from to : string) : ScheduleRow := {|
  s_id := id; s_calendar_id := 1; s_working_hours_type := "certain"; s_weekday := None;
  s_date_from := Some day_from; s_date_to := Some day_to; s_time_from := from; s_time_to := to;
  s_reason := None; s_deactivate_working_hours := false; s_one_time_appointment_link := None;
  s_only_internally := false; s_restricted_to_services := None; s_possible_appointment := None;
  s_active := true; s_created_at := 0 |}.

Definition demo_contacts : list ContactRow :=
  [contact_row 1 None (Some 1)].

Definition hour : Z := 60 * msPerMinute.

(** [getTimeSlots] on the tables, for a host at UTC, at [now]. *)
Definition mysql_getTimeSlots (ss : list ScheduleRow) (as_ : list AppointmentRow) (now date : Z) :=
  @getTimeSlots (ScheduleDaoMySql ss demo_calendars 0) (AppointmentDaoMySql as_ demo_contacts)
    (CategoryDaoMySql []) 40 0 now date None None.

Lemma getTimeSlots_sound_witness :
  exists l, mysql_getTimeSlots [weekly_row 1 "Monday" "08:00" "17:00"]
              [appt_row 1 (monday_2024_05_13 + 10 * hour) (monday_2024_05_13 + 11 * hour) "Confirmed"]
              monday_2024_05_13 monday_2024_05_13 = Some l /\
  forall sl, In sl l ->
    slot_end sl = slot_start sl + 60 * msPerMinute /\
    monday_2024_05_13 - 5 * msPerMinute <= slot_start sl /\
    forall a, In a (getAppointments
                      [appt_row 1 (monday_2024_05_13 + 10 * hour) (monday_2024_05_13 + 11 * hour) "Confirmed"]
                      demo_contacts (local_start_of_day 0 monday_2024_05_13)
                      (local_end_of_day 0 monday_2024_05_13)) ->
      ap_appointment_status a = AppointmentStatus_Confirmed ->
      ~ ⟦ slot_start sl, slot_end sl ⟧ ⋈ ⟦ ap_start_date a, ap_end_date a ⟧.
Proof.
  eexists. split; [vm_compute; reflexivity|]. intros sl Hin.
  exact (@getTimeSlots_sound
           (ScheduleDaoMySql [weekly_row 1 "Monday" "08:00" "17:00"] demo_calendars 0)
           (AppointmentDaoMySql [appt_row 1 (monday_2024_05_13 + 10 * hour)
                                   (monday_2024_05_13 + 11 * hour) "Confirmed"] demo_contacts)
           (CategoryDaoMySql []) 40 0 monday_2024_05_13 monday_2024_05_13 None None _ sl
           ltac:(vm_compute; reflexivity) Hin).
Defined.

(** the day's appointments are fetched with
    [start_date >= local midnight AND end_date <= 23:59:59.999], so a
    confirmed appointment that began the evening before (here 22:00 Sunday
    to 09:00 Monday) is never seen, and the query offers the overlapping
    Monday 08:00-09:00 slot of the same technician. *)
Theorem overnight_appointment_not_blocking :
  let booked := [appt_row 1 (monday_2024_05_13 - 2 * hour) (monday_2024_05_13 + 9 * hour) "Confirmed"] in
  exists l sl, mysql_getTimeSlots [weekly_row 1 "Monday" "08:00" "17:00"] booked
                 monday_2024_05_13 monday_2024_05_13 = Some l /\
    In sl l /\
    slot_start sl = monday_2024_05_13 + 8 * hour /\
    ⟦ slot_start sl, slot_end sl ⟧ ⋈ ⟦ monday_2024_05_13 - 2 * hour, monday_2024_05_13 + 9 * hour ⟧.
Proof.
  intros booked. eexists. exists (mk_slot (Day monday_2024_05_13) 60 "1" "Tech" 480).
  split; [vm_compute; reflexivity|]. split; [simpl; left; reflexivity|].
  split; vm_compute; [reflexivity | split; reflexivity].
Qed.

(** A calendar whose only rule for the day is a date-range rule covering it
    gets no slot. *)
Example certain_rule_no_slots :
  mysql_getTimeSlots [certain_row 1 (Day monday_2024_05_13 - 3) (Day monday_2024_05_13 + 3) "08:00" "17:00"]
    [] monday_2024_05_13 monday_2024_05_13 = Some [].
Proof. vm_compute. reflexivity. Qed.

End Availability.
