(* ===== verification/Catalog.v ===== *)
(** The catalog tables the CRUD DAOs of the back office write: [calendars]
    (CalendarDaoMySql.ts), [schedules] (ScheduleDaoMySql.ts), and
    [categories] with their [services] (CategoryDaoMySql.ts), each a
    [Table.table] with its [AUTO_INCREMENT] counter.  The DAO methods are
    computations in the state-and-error monad [ST Catalog] of the prelude.
    [CategoryDaoMySql] runs its writes in a transaction: on an error the
    rows are rolled back, while InnoDB keeps the auto-increment counters
    advanced ([rollback]).  The schema is not in the repository; the row
    types keep the columns the DAOs write and read. *)

From Stdlib Require Import ZArith List String Bool Lia QArith.
From stdpp Require Import base.
From S2P Require Import Prelude TimeParse Schedule Table Availability.
Import ListNotations.
Open Scope Z_scope.

Module Catalog.
Import Schedule Table Availability.

(** A row of [categories]; NULL is [None]. *)
Record CategoryRow := {
  cat_id : Z;
  cat_name : string;
  cat_category : string;
  cat_choices : string;
  cat_selection_is_optional : bool;
  cat_show_price : bool;
  cat_show_appointment_duration : bool;
  cat_no_columns_of_services : Z;
  cat_full_screen : bool;
  cat_folded : bool;
  cat_online_booking : bool;
  cat_remarks : string;
  cat_unique_id : Z;
  cat_display_status : string;
  cat_created_at : Z
}.

(** A row of [services].  The [attachment] JSON column is read by no code
    path of the backend and is left out; [price] is a DECIMAL, a rational
    here. *)
Record ServiceRow := {
  srv_id : Z;
  srv_category_id : Z;
  srv_name : string;
  srv_description : string;
  srv_duration : option Z;
  srv_price : Q;
  srv_abbreviation_id : Z
}.

#[export] Instance calendar_id : HasId CalendarRow := c_id.
#[export] Instance schedule_id : HasId ScheduleRow := s_id.
#[export] Instance category_id : HasId CategoryRow := cat_id.
#[export] Instance service_id : HasId ServiceRow := srv_id.

Record Catalog := {
  calendars : table CalendarRow;
  schedules : table ScheduleRow;
  categories : table CategoryRow;
  services : table ServiceRow
}.

Definition set_calendars (c : Catalog) (t : table CalendarRow) : Catalog :=
  {| calendars := t; schedules := schedules c; categories := categories c; services := services c |}.
Definition set_schedules (c : Catalog) (t : table ScheduleRow) : Catalog :=
  {| calendars := calendars c; schedules := t; categories := categories c; services := services c |}.
Definition set_categories (c : Catalog) (t : table CategoryRow) : Catalog :=
  {| calendars := calendars c; schedules := schedules c; categories := t; services := services c |}.
Definition set_services (c : Catalog) (t : table ServiceRow) : Catalog :=
  {| calendars := calendars c; schedules := schedules c; categories := categories c; services := t |}.

Definition catalog_wf (c : Catalog) : Prop :=
  table_wf (calendars c) /\ table_wf (schedules c) /\ table_wf (categories c) /\ table_wf (services c).

Definition catalog_wfb (c : Catalog) : bool :=
  table_wfb (calendars c) && table_wfb (schedules c) && table_wfb (categories c) && table_wfb (services c).

Definition empty_table {R} : table R := mk_table [] 1.

Definition empty_catalog : Catalog :=
  {| calendars := empty_table; schedules := empty_table; categories := empty_table;
     services := empty_table |}.

(** [connection.rollback()]: the rows as they were, the counters as they
    are. *)
Definition rollback_table {R} (before after : table R) : table R := mk_table (rows before) (next_id after).

Definition rollback (before after : Catalog) : Catalog := {|
  calendars := rollback_table (calendars before) (calendars after);
  schedules := rollback_table (schedules before) (schedules after);
  categories := rollback_table (categories before) (categories after);
  services := rollback_table (services before) (services after) |}.

(** [beginTransaction]; the body; [commit], or [rollback] and rethrow. *)
Definition transaction {A} (m : ST Catalog A) : ST Catalog A :=
  fun c => match m c with
           | (Ok a, c') => (Ok a, c')
           | (Err e, c') => (Err e, rollback c c')
           end.

(** The [Service] the availability query reads (see [Availability]). *)
Definition service_of_row (r : ServiceRow) : Service :=
  {| sv_id := srv_id r; sv_category_id := srv_category_id r; sv_duration := srv_duration r |}.

(** The availability query's DAOs on the catalog. *)
Definition catalog_services (c : Catalog) : list Service := map service_of_row (rows (services c)).

(** [x || null] on an optional string: [""] is falsy. *)
Definition or_null (o : option string) : option string :=
  match o with Some s => if String.eqb s EmptyString then None else o | None => None end.

(** [x || dflt]. *)
Definition or_default {A} (o : option A) (dflt : A) (truthy : A -> bool) : A :=
  match o with Some x => if truthy x then x else dflt | None => dflt end.

Definition str_truthy (s : string) : bool := negb (String.eqb s EmptyString).

(** ** Lemmas *)

Lemma empty_table_wf {R} `{HasId R} : table_wf (@empty_table R).
Proof. unfold table_wf; simpl. refine (conj _ (conj _ _)); [constructor | constructor | lia]. Qed.

Lemma empty_catalog_wf : catalog_wf empty_catalog.
Proof. refine (conj _ (conj _ (conj _ _))); apply empty_table_wf. Qed.

Lemma catalog_wfb_sound c : catalog_wfb c = true -> catalog_wf c.
Proof.
  unfold catalog_wfb. intros H. repeat rewrite andb_true_iff in H. destruct H as [[[H1 H2] H3] H4].
  exact (conj (table_wfb_sound _ H1) (conj (table_wfb_sound _ H2) (conj (table_wfb_sound _ H3) (table_wfb_sound _ H4)))).
Qed.

(** The counters never go back. *)
Definition counters_le (c c' : Catalog) : Prop :=
  next_id (calendars c) <= next_id (calendars c') /\ next_id (schedules c) <= next_id (schedules c') /\
  next_id (categories c) <= next_id (categories c') /\ next_id (services c) <= next_id (services c').

Lemma rollback_table_wf {R} `{HasId R} (before after : table R) :
  table_wf before -> next_id before <= next_id after -> table_wf (rollback_table before after).
Proof.
  intros (Hb & Hnd & Hp) Hle. unfold table_wf, rollback_table. simpl. repeat split; [| exact Hnd | lia].
  eapply List.Forall_impl; [|exact Hb]. simpl. intros r Hr. lia.
Qed.

Lemma calendars_set c t : calendars (set_calendars c t) = t.
Proof. reflexivity. Qed.
Lemma schedules_set c t : schedules (set_schedules c t) = t.
Proof. reflexivity. Qed.
Lemma schedules_set_calendars c t : schedules (set_calendars c t) = schedules c.
Proof. reflexivity. Qed.
Lemma calendars_set_schedules c t : calendars (set_schedules c t) = calendars c.
Proof. reflexivity. Qed.

#[export] Hint Rewrite calendars_set schedules_set schedules_set_calendars calendars_set_schedules : sched_rw.

Lemma services_set c t : services (set_services c t) = t.
Proof. reflexivity. Qed.
Lemma categories_set c t : categories (set_categories c t) = t.
Proof. reflexivity. Qed.

Lemma set_calendars_same c : set_calendars c (calendars c) = c.
Proof. destruct c; reflexivity. Qed.
Lemma set_schedules_same c : set_schedules c (schedules c) = c.
Proof. destruct c; reflexivity. Qed.

Lemma set_calendars_wf c t : catalog_wf c -> table_wf t -> catalog_wf (set_calendars c t).
Proof. intros (_ & Hs & Hc & Hv) Ht. exact (conj Ht (conj Hs (conj Hc Hv))). Qed.
Lemma set_schedules_wf c t : catalog_wf c -> table_wf t -> catalog_wf (set_schedules c t).
Proof. intros (Hk & _ & Hc & Hv) Ht. exact (conj Hk (conj Ht (conj Hc Hv))). Qed.

Lemma rollback_wf (c c' : Catalog) : catalog_wf c -> counters_le c c' -> catalog_wf (rollback c c').
Proof.
  unfold counters_le. intros (H1 & H2 & H3 & H4) [L1 [L2 [L3 L4]]].
  exact (conj (rollback_table_wf _ _ H1 L1) (conj (rollback_table_wf _ _ H2 L2)
          (conj (rollback_table_wf _ _ H3 L3) (rollback_table_wf _ _ H4 L4)))).
Qed.

#[export] Hint Resolve empty_table_wf empty_catalog_wf set_calendars_wf set_schedules_wf : sched.

End Catalog.
