(* ===== verification/CalendarStore.v ===== *)
(** [CalendarDaoMySql] (database-client/src/Calendar/CalendarDaoMySql.ts)
    on the catalog: [addCalendar] (lines 24-70), [getCalendarById]
    (77-94), [getCalendarByEmail] (101-118), [getCalendarsByIds] (125-142),
    [getActiveCalendarsByIds] (149-166), [getCalendars] with its search and
    pagination (175-201), [getCalendarsCount] (208-226), [updateCalendar]
    (234-333), [deleteCalendar] (340-356) and [mapCalendarRow] (362-387).
    The JSON columns [advanced_settings], [skills] and [paired_calendars],
    which no modelled code reads, are left out.
    [Partial<Calendar>] is [CalendarRequest]: [None] is [undefined] (an
    explicit [null] is not modelled).  The JSON columns hold lists of
    service ids; [JSON.stringify] and [parseJSON] are taken to be inverse
    on them.  A missing [employee_name] is an [undefined] bind parameter,
    which mysql2 refuses. *)

From Stdlib Require Import ZArith List String Bool Lia.
From stdpp Require Import base gmap.
From S2P Require Import Prelude TimeParse Schedule Table ContactStore Catalog.
Import ListNotations.
Open Scope Z_scope.
Open Scope sched_scope.

Module CalendarStore.
Import Schedule Table ContactStore Catalog.
Local Open Scope string_scope.

(** mysql2's refusal of an [undefined] bind parameter. *)
Definition bind_undefined : string :=
  "Bind parameters must not contain undefined. To pass SQL NULL specify JS null".

(** The [Calendar] object of [mapCalendarRow]. *)
Record Calendar := {
  cl_id : string;
  cl_employee_name : string;
  cl_description : option string;
  cl_show_description : string;
  cl_appointment_scheduling : option string;
  cl_employee_image : option string;
  cl_email : option string;
  cl_password : option string;
  cl_online_booked : bool;
  cl_assignment_of_services : string;
  cl_assignments_services : option (list string);
  cl_link_calendar : bool;
  cl_priority_link : option string;
  cl_insert_appointments : option string;
  cl_coupling_on_certain_services : bool;
  cl_certain_services : option (list string);
  cl_active : bool;
  cl_createdAt : Z
}.

Definition mapCalendarRow (r : CalendarRow) : Calendar := {|
  cl_id := id_toString (c_id r); cl_employee_name := c_employee_name r;
  cl_description := c_description r; cl_show_description := c_show_description r;
  cl_appointment_scheduling := c_appointment_scheduling r; cl_employee_image := c_employee_image r;
  cl_email := c_email r; cl_password := c_password r; cl_online_booked := c_online_booked r;
  cl_assignment_of_services := c_assignment_of_services r;
  cl_assignments_services := c_assignments_services r; cl_link_calendar := c_link_calendar r;
  cl_priority_link := c_priority_link r; cl_insert_appointments := c_insert_appointments r;
  cl_coupling_on_certain_services := c_coupling_on_certain_services r;
  cl_certain_services := c_certain_services r; cl_active := c_active r; cl_createdAt := c_created_at r |}.

(** [Partial<Calendar>] as the request body. *)
Record CalendarRequest := {
  cq_employee_name : option string;
  cq_description : option string;
  cq_show_description : option string;
  cq_appointment_scheduling : option string;
  cq_employee_image : option string;
  cq_email : option string;
  cq_password : option string;
  cq_online_booked : option bool;
  cq_assignment_of_services : option string;
  cq_assignments_services : option (list string);
  cq_link_calendar : option bool;
  cq_priority_link : option string;
  cq_insert_appointments : option string;
  cq_coupling_on_certain_services : option bool;
  cq_certain_services : option (list string);
  cq_active : option bool
}.

Definition bool_or_false (o : option bool) : bool := match o with Some b => b | None => false end.

(** The values of the INSERT (lines 38-57). *)
Definition new_calendar_row (now : Z) (name : string) (c : CalendarRequest) (id : Z) : CalendarRow := {|
  c_id := id; c_employee_name := name;
  c_description := or_null (cq_description c);
  c_show_description := or_default (cq_show_description c) "None" str_truthy;
  c_appointment_scheduling := or_null (cq_appointment_scheduling c);
  c_employee_image := or_null (cq_employee_image c);
  c_email := or_null (cq_email c); c_password := or_null (cq_password c);
  c_online_booked := bool_or_false (cq_online_booked c);
  c_assignment_of_services := or_default (cq_assignment_of_services c) "All" str_truthy;
  c_assignments_services := cq_assignments_services c;
  c_link_calendar := bool_or_false (cq_link_calendar c);
  c_priority_link := or_null (cq_priority_link c);
  c_insert_appointments := or_null (cq_insert_appointments c);
  c_coupling_on_certain_services := bool_or_false (cq_coupling_on_certain_services c);
  c_certain_services := cq_certain_services c;
  c_active := match cq_active c with Some b => b | None => true end;
  c_created_at := now |}.

(** [SELECT * FROM calendars WHERE id = ? LIMIT 1]. *)
Definition getCalendarById (id : string) : ST Catalog (option Calendar) :=
  fun cat => (Ok (option_map mapCalendarRow (find_row id (calendars cat))), cat).

(** [addCalendar]: the INSERT, then [mapCalendarRow(rows[0])] of the row
    read back by the insert id. *)
Definition addCalendar (now : Z) (c : CalendarRequest) : ST Catalog Calendar :=
  match cq_employee_name c with
  | None => st_err bind_undefined
  | Some name =>
      fun cat =>
        let '(insertId, t) := insert_row (new_calendar_row now name c) (calendars cat) in
        let cat1 := set_calendars cat t in
        match find_row (id_toString insertId) t with
        | Some r => (Ok (mapCalendarRow r), cat1)
        | None => (Err "Cannot read properties of undefined (reading 'id')", cat1)
        end
  end.

(** [SELECT * FROM calendars WHERE email = ? LIMIT 1]. *)
Definition getCalendarByEmail (email : option string) : ST Catalog (option Calendar) :=
  match email with
  | None => st_err bind_undefined
  | Some e =>
      fun cat => (Ok (option_map mapCalendarRow
                        (hd_error (List.filter (fun r => sql_opt_str_eq (c_email r) e) (rows (calendars cat))))),
                  cat)
  end.

(** [WHERE id IN (?, ..., ?)], in the table's order; [[]] for no ids. *)
Definition in_ids (ids : list string) (r : CalendarRow) : bool :=
  existsb (fun id => sql_id_eq id (c_id r)) ids.

Definition getCalendarsByIds (ids : list string) : ST Catalog (list Calendar) :=
  fun cat => match ids with
             | [] => (Ok [], cat)
             | _ => (Ok (map mapCalendarRow (List.filter (in_ids ids) (rows (calendars cat)))), cat)
             end.

(** [... AND active = true]. *)
Definition getActiveCalendarsByIds (ids : list string) : ST Catalog (list Calendar) :=
  fun cat => match ids with
             | [] => (Ok [], cat)
             | _ => (Ok (map mapCalendarRow
                           (List.filter (fun r => in_ids ids r && c_active r) (rows (calendars cat)))), cat)
             end.

(** [WHERE (employee_name LIKE ? OR email LIKE ? OR description LIKE ?)]
    when [search] is truthy. *)
Definition calendar_search (search : option string) (r : CalendarRow) : bool :=
  match search with
  | Some t =>
      if String.eqb t EmptyString then true
      else let pat := "%" ++ t ++ "%" in
           sql_like (Some (c_employee_name r)) pat || sql_like (c_email r) pat || sql_like (c_description r) pat
  | None => true
  end.

Definition getCalendars (page limit : Z) (search : option string) : ST Catalog (list Calendar) :=
  fun cat =>
    match select_page c_created_at page limit (List.filter (calendar_search search) (rows (calendars cat))) with
    | Some l => (Ok (map mapCalendarRow l), cat)
    | None => (Err "negative LIMIT or OFFSET", cat)
    end.

Definition getCalendarsCount (search : option string) : ST Catalog Z :=
  fun cat => (Ok (Z.of_nat (List.length (List.filter (calendar_search search) (rows (calendars cat))))), cat).

(** The SET list of [updateCalendar] (lines 241-317): a column for each
    field that is not [undefined]. *)
Definition calendar_update_count (c : CalendarRequest) : nat :=
  List.length (List.filter (fun b : bool => b)
    [defined (cq_employee_name c); defined (cq_description c); defined (cq_show_description c);
     defined (cq_appointment_scheduling c); defined (cq_employee_image c); defined (cq_email c);
     defined (cq_password c); defined (cq_online_booked c); defined (cq_assignment_of_services c);
     defined (cq_assignments_services c); defined (cq_link_calendar c); defined (cq_priority_link c);
     defined (cq_insert_appointments c); defined (cq_coupling_on_certain_services c);
     defined (cq_certain_services c); defined (cq_active c)]).

Definition apply_calendar_update (c : CalendarRequest) (r : CalendarRow) : CalendarRow := {|
  c_id := c_id r; c_employee_name := upd (cq_employee_name c) (c_employee_name r);
  c_description := upd_opt (cq_description c) (c_description r);
  c_show_description := upd (cq_show_description c) (c_show_description r);
  c_appointment_scheduling := upd_opt (cq_appointment_scheduling c) (c_appointment_scheduling r);
  c_employee_image := upd_opt (cq_employee_image c) (c_employee_image r);
  c_email := upd_opt (cq_email c) (c_email r); c_password := upd_opt (cq_password c) (c_password r);
  c_online_booked := upd (cq_online_booked c) (c_online_booked r);
  c_assignment_of_services := upd (cq_assignment_of_services c) (c_assignment_of_services r);
  c_assignments_services := upd_opt (cq_assignments_services c) (c_assignments_services r);
  c_link_calendar := upd (cq_link_calendar c) (c_link_calendar r);
  c_priority_link := upd_opt (cq_priority_link c) (c_priority_link r);
  c_insert_appointments := upd_opt (cq_insert_appointments c) (c_insert_appointments r);
  c_coupling_on_certain_services := upd (cq_coupling_on_certain_services c) (c_coupling_on_certain_services r);
  c_certain_services := upd_opt (cq_certain_services c) (c_certain_services r);
  c_active := upd (cq_active c) (c_active r); c_created_at := c_created_at r |}.

(** [updateCalendar]: without a column, the read; otherwise the UPDATE and
    the read ([null] when the id names no calendar). *)
Definition updateCalendar (id : string) (c : CalendarRequest) : ST Catalog (option Calendar) :=
  match calendar_update_count c with
  | O => getCalendarById id
  | S _ => fun cat => getCalendarById id (set_calendars cat (update_where id (apply_calendar_update c) (calendars cat)))
  end.

(** [deleteCalendar]: the read, then [DELETE FROM calendars WHERE id = ?];
    the calendar's schedules and appointments are not touched. *)
Definition deleteCalendar (id : string) : ST Catalog (option Calendar) :=
  calendar <- getCalendarById id ;;
  match calendar with
  | None => st_ret None
  | Some cal => fun cat => (Ok (Some cal), set_calendars cat (delete_where id (calendars cat)))
  end.

(** ** The DAO as a map machine

    A sequence of calendar writes, and the abstract machine it implements:
    a finite map from ids to rows with the next id. *)
Inductive CalendarOp :=
  | OpAdd (c : CalendarRequest)
  | OpUpdate (id : string) (c : CalendarRequest)
  | OpDelete (id : string).

Definition run_calendar_op (now : Z) (op : CalendarOp) : ST Catalog unit :=
  match op with
  | OpAdd c => addCalendar now c ;;; st_ret tt
  | OpUpdate id c => updateCalendar id c ;;; st_ret tt
  | OpDelete id => deleteCalendar id ;;; st_ret tt
  end.

Fixpoint run_calendar_ops (now : Z) (ops : list CalendarOp) : ST Catalog unit :=
  match ops with
  | [] => st_ret tt
  | op :: rest => run_calendar_op now op ;;; run_calendar_ops now rest
  end.

Definition spec_step (now : Z) (op : CalendarOp) (m : gmap Z CalendarRow) (next : Z)
    : option (gmap Z CalendarRow * Z) :=
  match op with
  | OpAdd c =>
      match cq_employee_name c with
      | Some name => Some (<[next := new_calendar_row now name c next]> m, next + 1)
      | None => None
      end
  | OpUpdate id c =>
      Some (match calendar_update_count c with
            | O => m
            | S _ => on_id id (fun n => alter (apply_calendar_update c) n m) m
            end, next)
  | OpDelete id => Some (on_id id (fun n => delete n m) m, next)
  end.

Fixpoint spec_run (now : Z) (ops : list CalendarOp) (m : gmap Z CalendarRow) (next : Z)
    : option (gmap Z CalendarRow * Z) :=
  match ops with
  | [] => Some (m, next)
  | op :: rest =>
      match spec_step now op m next with
      | Some (m', next') => spec_run now rest m' next'
      | None => None
      end
  end.

(** ** Lemmas *)

Lemma addCalendar_run now c name cat :
  catalog_wf cat -> cq_employee_name c = Some name ->
  addCalendar now c cat =
    (Ok (mapCalendarRow (new_calendar_row now name c (next_id (calendars cat)))),
     set_calendars cat (snd (insert_row (new_calendar_row now name c) (calendars cat)))).
Proof.
  intros (Hw & _) Hn. unfold addCalendar. rewrite Hn.
  pose proof (find_row_insert (new_calendar_row now name c) (calendars cat) Hw eq_refl) as Hf.
  unfold insert_row in *. cbn -[find_row] in *. rewrite Hf. reflexivity.
Qed.

(** Whatever [updateCalendar] answers, the table becomes the UPDATE's. *)
Lemma updateCalendar_state id c cat :
  exists res, updateCalendar id c cat =
    (Ok res, match calendar_update_count c with
             | O => cat
             | S _ => set_calendars cat (update_where id (apply_calendar_update c) (calendars cat))
             end).
Proof. unfold updateCalendar, getCalendarById. destruct (calendar_update_count c); eauto. Qed.

(** Whatever [deleteCalendar] answers, the table becomes the DELETE's. *)
Lemma deleteCalendar_state id cat :
  deleteCalendar id cat =
    (Ok (option_map mapCalendarRow (find_row id (calendars cat))),
     set_calendars cat (delete_where id (calendars cat))).
Proof.
  unfold deleteCalendar, st_bind, getCalendarById. destruct (find_row id (calendars cat)) eqn:Hf;
    [reflexivity|]. simpl. rewrite delete_where_none, set_calendars_same by exact Hf. reflexivity.
Qed.

Lemma calendar_op_step now op cat :
  catalog_wf cat ->
  match run_calendar_op now op cat with
  | (Ok _, cat') =>
      catalog_wf cat' /\
      spec_step now op (abs (calendars cat)) (next_id (calendars cat)) =
        Some (abs (calendars cat'), next_id (calendars cat'))
  | (Err _, _) => spec_step now op (abs (calendars cat)) (next_id (calendars cat)) = None
  end.
Proof.
  intros Hwf. destruct op as [c|id c|id]; unfold run_calendar_op, st_bind; simpl.
  - destruct (cq_employee_name c) as [name|] eqn:Hn; [|unfold addCalendar; rewrite Hn; reflexivity].
    rewrite (addCalendar_run now c name cat Hwf Hn). cbn beta iota. rewrite ?calendars_set. split.
    + apply set_calendars_wf; [exact Hwf|]. apply insert_row_wf; [apply Hwf | reflexivity].
    + rewrite !calendars_set, insert_row_abs by (apply Hwf || reflexivity). reflexivity.
  - destruct (updateCalendar_state id c cat) as [res ->]. simpl. rewrite ?calendars_set.
    destruct (calendar_update_count c); simpl; [split; [exact Hwf | reflexivity]|].
    split; [apply set_calendars_wf; [exact Hwf|]; apply update_where_wf; [reflexivity | apply Hwf]|].
    rewrite ?calendars_set, update_where_abs by reflexivity. reflexivity.
  - rewrite deleteCalendar_state. cbn beta iota. rewrite ?calendars_set. split.
    + apply set_calendars_wf; [exact Hwf|]. apply delete_where_wf, Hwf.
    + rewrite !calendars_set, delete_where_abs. reflexivity.
Qed.

(** [updateCalendar] is declared to return a [Calendar], and
    casts the read after the UPDATE with [as Calendar]; it answers [null]
    exactly when no calendar has the id. *)
Theorem updateCalendar_null_iff_unknown (id : string) (c : CalendarRequest) (cat : Catalog) :
  fst (updateCalendar id c cat) = Ok None <-> find_row id (calendars cat) = None.
Proof.
  unfold updateCalendar, getCalendarById. destruct (calendar_update_count c); simpl.
  - destruct (find_row id (calendars cat)); simpl; split; congruence.
  - rewrite find_row_update by reflexivity.
    destruct (find_row id (calendars cat)); simpl; split; congruence.
Qed.

(** from a well-formed catalog, every sequence of calendar
    writes ([addCalendar], [updateCalendar], [deleteCalendar]) runs as the
    map machine [spec_run]: it throws exactly when the machine fails (an
    [addCalendar] without [employee_name]), and otherwise the [calendars]
    table, read as a map from ids to rows, and its counter are the
    machine's, and the catalog stays well formed. *)
Theorem calendar_dao_refines_map (now : Z) (ops : list CalendarOp) (cat : Catalog) :
  catalog_wf cat ->
  match run_calendar_ops now ops cat with
  | (Ok _, cat') =>
      spec_run now ops (abs (calendars cat)) (next_id (calendars cat)) =
        Some (abs (calendars cat'), next_id (calendars cat')) /\ catalog_wf cat'
  | (Err _, _) => spec_run now ops (abs (calendars cat)) (next_id (calendars cat)) = None
  end.
Proof.
  revert cat. induction ops as [|op ops IH]; intros cat Hwf; simpl; [auto|].
  pose proof (calendar_op_step now op cat Hwf) as Hs. unfold st_bind at 1.
  destruct (run_calendar_op now op cat) as [[u|e] cat1]; [|rewrite Hs; reflexivity].
  destruct Hs as [Hwf1 ->]. apply IH, Hwf1.
Qed.

(** ** Concrete runs *)

Definition no_calendar_fields : CalendarRequest := {|
  cq_employee_name := None; cq_description := None; cq_show_description := None;
  cq_appointment_scheduling := None; cq_employee_image := None; cq_email := None; cq_password := None;
  cq_online_booked := None; cq_assignment_of_services := None; cq_assignments_services := None;
  cq_link_calendar := None; cq_priority_link := None; cq_insert_appointments := None;
  cq_coupling_on_certain_services := None; cq_certain_services := None; cq_active := None |}.

Definition named (name : string) : CalendarRequest := {|
  cq_employee_name := Some name; cq_description := Some ""; cq_show_description := None;
  cq_appointment_scheduling := None; cq_employee_image := None; cq_email := Some "anna@example.com";
  cq_password := None; cq_online_booked := None; cq_assignment_of_services := Some "";
  cq_assignments_services := Some ["3"]; cq_link_calendar := None; cq_priority_link := None;
  cq_insert_appointments := None; cq_coupling_on_certain_services := None; cq_certain_services := None;
  cq_active := None |}.

Definition deactivate : CalendarRequest := {|
  cq_employee_name := None; cq_description := None; cq_show_description := None;
  cq_appointment_scheduling := None; cq_employee_image := None; cq_email := None; cq_password := None;
  cq_online_booked := None; cq_assignment_of_services := None; cq_assignments_services := None;
  cq_link_calendar := None; cq_priority_link := None; cq_insert_appointments := None;
  cq_coupling_on_certain_services := None; cq_certain_services := None; cq_active := Some false |}.

(** Two technicians added, the first deactivated, an unknown id deleted. *)
Definition demo_ops : list CalendarOp := [OpAdd (named "Anna"); OpAdd (named "Ben"); OpUpdate "1" deactivate; OpDelete "7"].

Lemma calendar_dao_refines_map_witness :
  match run_calendar_ops 5 demo_ops empty_catalog with
  | (Ok _, cat') =>
      spec_run 5 demo_ops (abs (calendars empty_catalog)) (next_id (calendars empty_catalog)) =
        Some (abs (calendars cat'), next_id (calendars cat')) /\ catalog_wf cat'
  | (Err _, _) => spec_run 5 demo_ops (abs (calendars empty_catalog)) (next_id (calendars empty_catalog)) = None
  end.
Proof. apply calendar_dao_refines_map. apply empty_catalog_wf. Defined.

(** The defaults of the INSERT: [""] for [description] is NULL,
    [assignment_of_services] [""] becomes ["All"], [active] is true; the
    update deactivates only calendar 1. *)
Example demo_ops_rows :
  map (fun r => (c_id r, c_description r, c_assignment_of_services r, c_active r))
      (rows (calendars (snd (run_calendar_ops 5 demo_ops empty_catalog)))) =
  [(1, None, "All", false); (2, None, "All", true)].
Proof. reflexivity. Qed.

(** An [addCalendar] without [employee_name] throws and adds nothing. *)
Example addCalendar_unnamed :
  addCalendar 5 no_calendar_fields empty_catalog = (Err bind_undefined, empty_catalog).
Proof. reflexivity. Qed.

(** The update of an unknown id answers [null] and leaves the table. *)
Example updateCalendar_unknown :
  let cat := snd (run_calendar_ops 5 demo_ops empty_catalog) in
  updateCalendar "7" deactivate cat = (Ok None, set_calendars cat (calendars cat)).
Proof. vm_compute. reflexivity. Qed.

End CalendarStore.
