(* ===== verification/ScheduleStore.v ===== *)
(** [ScheduleDaoMySql] (database-client/src/Schedule/ScheduleDaoMySql.ts)
    on the catalog, besides [getScheduleByDate] (which [Schedule] models):
    [addSchedule] (lines 25-65), [getScheduleById] (72-89), [getSchedules]
    (98-116), [getSchedulesCount] (122-134), [updateSchedule] (142-220),
    [deleteSchedule] (227-243), [getSchedulesByCalendarId] (301-314) and
    [mapScheduleRow] (319-339).  [Partial<Schedule>] is [ScheduleRequest]:
    [None] is [undefined].  The [calendar_id] parameter is a string that
    MySQL stores in an integer column; a string that is not a number is
    refused ("Incorrect integer value"), by an INSERT always and by an
    UPDATE when it reaches a row. *)

From Stdlib Require Import ZArith List String Bool Lia.
From stdpp Require Import base gmap.
From S2P Require Import Prelude JsDate TimeParse Schedule Table ContactStore Catalog CalendarStore.
Import ListNotations.
Open Scope Z_scope.
Open Scope sched_scope.

Module ScheduleStore.
Import Schedule Table ContactStore Catalog CalendarStore.
Local Open Scope string_scope.

(** The [Schedule] object of [mapScheduleRow]. *)
Record ScheduleObj := {
  sc_id : string;
  sc_calendar_id : string;
  sc_working_hours_type : string;
  sc_weekday : option string;
  sc_date_from : option Z;
  sc_date_to : option Z;
  sc_time_from : string;
  sc_time_to : string;
  sc_reason : option string;
  sc_deactivate_working_hours : bool;
  sc_one_time_appointment_link : option string;
  sc_only_internally : bool;
  sc_restricted_to_services : option (list string);
  sc_possible_appointment : option string;
  sc_active : bool;
  sc_createdAt : Z
}.

Definition mapScheduleRow (r : ScheduleRow) : ScheduleObj := {|
  sc_id := id_toString (s_id r); sc_calendar_id := id_toString (s_calendar_id r);
  sc_working_hours_type := s_working_hours_type r; sc_weekday := s_weekday r;
  sc_date_from := s_date_from r; sc_date_to := s_date_to r;
  sc_time_from := s_time_from r; sc_time_to := s_time_to r; sc_reason := s_reason r;
  sc_deactivate_working_hours := s_deactivate_working_hours r;
  sc_one_time_appointment_link := s_one_time_appointment_link r;
  sc_only_internally := s_only_internally r; sc_restricted_to_services := s_restricted_to_services r;
  sc_possible_appointment := s_possible_appointment r; sc_active := s_active r;
  sc_createdAt := s_created_at r |}.

(** [Partial<Schedule>] as the request body; dates are day numbers. *)
Record ScheduleRequest := {
  sq_calendar_id : option string;
  sq_working_hours_type : option string;
  sq_weekday : option string;
  sq_date_from : option Z;
  sq_date_to : option Z;
  sq_time_from : option string;
  sq_time_to : option string;
  sq_reason : option string;
  sq_deactivate_working_hours : option bool;
  sq_one_time_appointment_link : option string;
  sq_only_internally : option bool;
  sq_restricted_to_services : option (list string);
  sq_possible_appointment : option string;
  sq_active : option bool
}.

(** The values of the INSERT (lines 38-53). *)
Definition new_schedule_row (now cal : Z) (wht from to : string) (s : ScheduleRequest) (id : Z)
    : ScheduleRow := {|
  s_id := id; s_calendar_id := cal; s_working_hours_type := wht;
  s_weekday := or_null (sq_weekday s); s_date_from := sq_date_from s; s_date_to := sq_date_to s;
  s_time_from := from; s_time_to := to; s_reason := or_null (sq_reason s);
  s_deactivate_working_hours := bool_or_false (sq_deactivate_working_hours s);
  s_one_time_appointment_link := or_null (sq_one_time_appointment_link s);
  s_only_internally := bool_or_false (sq_only_internally s);
  s_restricted_to_services := sq_restricted_to_services s;
  s_possible_appointment := or_null (sq_possible_appointment s);
  s_active := match sq_active s with Some b => b | None => true end;
  s_created_at := now |}.

(** [SELECT * FROM schedules WHERE id = ? LIMIT 1]. *)
Definition getScheduleById (id : string) : ST Catalog (option ScheduleObj) :=
  fun cat => (Ok (option_map mapScheduleRow (find_row id (schedules cat))), cat).

(** [addSchedule]: the four columns without default must be bound. *)
Definition addSchedule (now : Z) (s : ScheduleRequest) : ST Catalog ScheduleObj :=
  match sq_calendar_id s, sq_working_hours_type s, sq_time_from s, sq_time_to s with
  | Some cal, Some wht, Some from, Some to =>
      match TimeParse.Number cal with
      | None => st_err "Incorrect integer value"
      | Some calId =>
          fun cat =>
            let '(insertId, t) := insert_row (new_schedule_row now calId wht from to s) (schedules cat) in
            let cat1 := set_schedules cat t in
            match find_row (id_toString insertId) t with
            | Some r => (Ok (mapScheduleRow r), cat1)
            | None => (Err "Cannot read properties of undefined (reading 'id')", cat1)
            end
      end
  | _, _, _, _ => st_err bind_undefined
  end.

(** [SELECT * FROM schedules ORDER BY created_at DESC LIMIT ? OFFSET ?]. *)
Definition getSchedules (page limit : Z) : ST Catalog (list ScheduleObj) :=
  fun cat => match select_page s_created_at page limit (rows (schedules cat)) with
             | Some l => (Ok (map mapScheduleRow l), cat)
             | None => (Err "negative LIMIT or OFFSET", cat)
             end.

Definition getSchedulesCount : ST Catalog Z :=
  fun cat => (Ok (Z.of_nat (List.length (rows (schedules cat)))), cat).

(** The SET list of [updateSchedule] (lines 149-204). *)
Definition schedule_update_count (s : ScheduleRequest) : nat :=
  List.length (List.filter (fun b : bool => b)
    [defined (sq_calendar_id s); defined (sq_working_hours_type s); defined (sq_weekday s);
     defined (sq_date_from s); defined (sq_date_to s); defined (sq_time_from s);
     defined (sq_time_to s); defined (sq_reason s); defined (sq_deactivate_working_hours s);
     defined (sq_one_time_appointment_link s); defined (sq_only_internally s);
     defined (sq_restricted_to_services s); defined (sq_possible_appointment s); defined (sq_active s)]).

(** The SET list applied to a row, the [calendar_id] already converted. *)
Definition apply_schedule_update (cal : option Z) (s : ScheduleRequest) (r : ScheduleRow) : ScheduleRow := {|
  s_id := s_id r; s_calendar_id := upd cal (s_calendar_id r);
  s_working_hours_type := upd (sq_working_hours_type s) (s_working_hours_type r);
  s_weekday := upd_opt (sq_weekday s) (s_weekday r);
  s_date_from := upd_opt (sq_date_from s) (s_date_from r);
  s_date_to := upd_opt (sq_date_to s) (s_date_to r);
  s_time_from := upd (sq_time_from s) (s_time_from r);
  s_time_to := upd (sq_time_to s) (s_time_to r);
  s_reason := upd_opt (sq_reason s) (s_reason r);
  s_deactivate_working_hours := upd (sq_deactivate_working_hours s) (s_deactivate_working_hours r);
  s_one_time_appointment_link := upd_opt (sq_one_time_appointment_link s) (s_one_time_appointment_link r);
  s_only_internally := upd (sq_only_internally s) (s_only_internally r);
  s_restricted_to_services := upd_opt (sq_restricted_to_services s) (s_restricted_to_services r);
  s_possible_appointment := upd_opt (sq_possible_appointment s) (s_possible_appointment r);
  s_active := upd (sq_active s) (s_active r); s_created_at := s_created_at r |}.

(** [updateSchedule]: without a column, the read; otherwise the UPDATE
    (refused when it would store a non-numeric [calendar_id] in a row) and
    the read. *)
Definition updateSchedule (id : string) (s : ScheduleRequest) : ST Catalog (option ScheduleObj) :=
  match schedule_update_count s with
  | O => getScheduleById id
  | S _ =>
      fun cat =>
        match find_row id (schedules cat), sq_calendar_id s with
        | None, _ => getScheduleById id cat
        | Some _, Some c =>
            match TimeParse.Number c with
            | Some n => getScheduleById id (set_schedules cat
                          (update_where id (apply_schedule_update (Some n) s) (schedules cat)))
            | None => (Err "Incorrect integer value", cat)
            end
        | Some _, None =>
            getScheduleById id (set_schedules cat (update_where id (apply_schedule_update None s) (schedules cat)))
        end
  end.

(** [deleteSchedule]: the read, then the DELETE. *)
Definition deleteSchedule (id : string) : ST Catalog (option ScheduleObj) :=
  schedule <- getScheduleById id ;;
  match schedule with
  | None => st_ret None
  | Some sc => fun cat => (Ok (Some sc), set_schedules cat (delete_where id (schedules cat)))
  end.

(** [WHERE calendar_id = ? ORDER BY created_at DESC]. *)
Definition getSchedulesByCalendarId (calendarId : string) : ST Catalog (list ScheduleObj) :=
  fun cat => (Ok (map mapScheduleRow
                   (sort_by s_created_at true
                      (List.filter (fun r => sql_id_eq calendarId (s_calendar_id r)) (rows (schedules cat))))),
              cat).

(** ** Lemmas *)

Lemma addSchedule_run now s cat cal wht from to calId :
  catalog_wf cat -> sq_calendar_id s = Some cal -> sq_working_hours_type s = Some wht ->
  sq_time_from s = Some from -> sq_time_to s = Some to -> TimeParse.Number cal = Some calId ->
  addSchedule now s cat =
    (Ok (mapScheduleRow (new_schedule_row now calId wht from to s (next_id (schedules cat)))),
     set_schedules cat (snd (insert_row (new_schedule_row now calId wht from to s) (schedules cat)))).
Proof.
  intros (_ & Hw & _) Hc Hw' Hf Ht Hn. unfold addSchedule. rewrite Hc, Hw', Hf, Ht, Hn.
  pose proof (find_row_insert (new_schedule_row now calId wht from to s) (schedules cat) Hw eq_refl) as Hr.
  unfold insert_row in *. cbn -[find_row] in *. rewrite Hr. reflexivity.
Qed.

(** The required fields and the calendar id of a successful [addSchedule]. *)
Lemma addSchedule_ok now s cat sc cat' :
  addSchedule now s cat = (Ok sc, cat') ->
  exists cal wht from to calId, sq_calendar_id s = Some cal /\ sq_working_hours_type s = Some wht /\
    sq_time_from s = Some from /\ sq_time_to s = Some to /\ TimeParse.Number cal = Some calId.
Proof.
  unfold addSchedule, st_err. destruct (sq_calendar_id s) as [cal|] eqn:Hc,
    (sq_working_hours_type s) as [wht|] eqn:Hw, (sq_time_from s) as [from|] eqn:Hf,
    (sq_time_to s) as [to|] eqn:Ht; try discriminate.
  destruct (TimeParse.Number cal) as [calId|] eqn:Hn; [|discriminate]. intros _.
  exists cal, wht, from, to, calId. auto.
Qed.

Lemma addSchedule_wf now s cat sc cat' :
  catalog_wf cat -> addSchedule now s cat = (Ok sc, cat') -> catalog_wf cat'.
Proof.
  intros Hwf H. destruct (addSchedule_ok _ _ _ _ _ H) as (cal & wht & from & to & calId & Hc & Hw & Hf & Ht & Hn).
  rewrite (addSchedule_run now s cat cal wht from to calId) in H by assumption.
  injection H as _ <-. apply set_schedules_wf; [exact Hwf|]. apply insert_row_wf; [apply Hwf | reflexivity].
Qed.

(** A weekly rule added for an active calendar is selected by
    [getScheduleByDate] on every date of its weekday. *)
Lemma addSchedule_selected now s cat sc cat' offset date cal wht wd c :
  catalog_wf cat -> addSchedule now s cat = (Ok sc, cat') ->
  sq_calendar_id s = Some cal -> sql_id_eq cal (c_id c) = true ->
  In c (rows (calendars cat)) -> c_active c = true ->
  sq_working_hours_type s = Some wht -> sql_str_eq wht ScheduleType_Weekly = true ->
  sq_weekday s = Some wd -> wd <> EmptyString -> sql_str_eq wd (JsDate.toLocaleWeekday offset date) = true ->
  exists e, In e (getScheduleByDate (rows (schedules cat')) (rows (calendars cat')) offset date) /\
            es_id e = sc_id sc /\ es_calendar_id e = sc_calendar_id sc.
Proof.
  intros Hwf H Hc Hcal Hin Hact Hw Hweekly Hwd Hne Hday.
  destruct (addSchedule_ok _ _ _ _ _ H) as (cal' & wht' & from & to & calId & Hc' & Hw' & Hf & Ht & Hn).
  rewrite Hc in Hc'. injection Hc' as <-. rewrite Hw in Hw'. injection Hw' as <-.
  unfold sql_id_eq in Hcal. rewrite Hn in Hcal. apply Z.eqb_eq in Hcal.
  rewrite (addSchedule_run now s cat cal wht from to calId) in H by assumption. injection H as <- <-.
  exists (mapExtendedScheduleRow (new_schedule_row now calId wht from to s (next_id (schedules cat))) c).
  split; [|split; reflexivity]. apply In_getScheduleByDate.
  exists (new_schedule_row now calId wht from to s (next_id (schedules cat))), c.
  repeat split; [simpl; apply in_or_app; right; left; reflexivity | exact Hin | exact Hcal| ].
  unfold schedule_where. simpl. rewrite Hact, Hweekly, Hwd. simpl.
  destruct wd as [|a wd']; [congruence|]. simpl in Hday |- *. rewrite Hday. reflexivity.
Qed.

(** C31 (safety): [deleteCalendar] (CalendarDaoMySql) keeps the
    [schedules] rows of the calendar, and the rule selector
    [getScheduleByDate] (ScheduleDaoMySql) no longer selects any of them
    for any date: its inner join drops the rows whose calendar is gone, so
    no slot is offered for a deleted technician. *)
Theorem deleteCalendar_hides_schedules id cat cal cat' offset date :
  catalog_wf cat -> deleteCalendar id cat = (Ok (Some cal), cat') ->
  schedules cat' = schedules cat /\
  forall e, In e (getScheduleByDate (rows (schedules cat')) (rows (calendars cat')) offset date) ->
            es_calendar_id e <> cl_id cal.
Proof.
  intros ((Hb & _) & _) H. rewrite deleteCalendar_state in H.
  destruct (find_row id (calendars cat)) as [r|] eqn:Hr; [|discriminate]. injection H as <- <-.
  split; [reflexivity|]. intros e He Heq.
  apply In_getScheduleByDate in He as (s & c & _ & Hc & Hsc & _ & ->).
  simpl in Hc. apply In_filter_iff in Hc as [Hc Hkeep].
  apply find_row_In in Hr as [Hr Hm]. rewrite List.Forall_forall in Hb.
  simpl in Heq. rewrite Hsc in Heq.
  apply id_toString_inj in Heq; [|pose proof (Hb c Hc) as Hp; unfold row_id, calendar_id in Hp; lia | pose proof (Hb r Hr) as Hp; unfold row_id, calendar_id in Hp; lia].
  unfold id_match, row_id, calendar_id in Hkeep, Hm. rewrite Heq, Hm in Hkeep. discriminate.
Qed.

(** ** Concrete runs *)

Definition weekly_request (cal wd from to : string) : ScheduleRequest := {|
  sq_calendar_id := Some cal; sq_working_hours_type := Some "weekly"; sq_weekday := Some wd;
  sq_date_from := None; sq_date_to := None; sq_time_from := Some from; sq_time_to := Some to;
  sq_reason := Some ""; sq_deactivate_working_hours := None; sq_one_time_appointment_link := None;
  sq_only_internally := None; sq_restricted_to_services := None; sq_possible_appointment := None;
  sq_active := None |}.

(** A calendar, a Monday rule for it, then the calendar deleted. *)
Definition one_rule_catalog : Catalog :=
  snd ((addCalendar 1 (named "Anna") ;;; addSchedule 2 (weekly_request "1" "Monday" "08:00" "12:00")) empty_catalog).

(** 2024-05-13, a Monday, at UTC. *)
Definition monday : Z := 1715558400000.

Example rule_selected_on_monday :
  map es_time_from (getScheduleByDate (rows (schedules one_rule_catalog)) (rows (calendars one_rule_catalog)) 0 monday)
  = ["08:00"].
Proof. vm_compute. reflexivity. Qed.

Example rule_hidden_after_deleteCalendar :
  let cat' := snd (deleteCalendar "1" one_rule_catalog) in
  List.length (rows (schedules cat')) = 1%nat /\
  getScheduleByDate (rows (schedules cat')) (rows (calendars cat')) 0 monday = [].
Proof. vm_compute. split; reflexivity. Qed.

(** A [calendar_id] that is not a number is refused by the INSERT. *)
Example addSchedule_bad_calendar :
  fst (addSchedule 2 (weekly_request "x1" "Monday" "08:00" "12:00") one_rule_catalog) =
  Err "Incorrect integer value".
Proof. reflexivity. Qed.

Definition anna : Calendar := mapCalendarRow (new_calendar_row 1 "Anna" (named "Anna") 1).

Definition anna_deleted : Catalog := snd (deleteCalendar "1" one_rule_catalog).

Lemma deleteCalendar_hides_schedules_witness :
  schedules anna_deleted = schedules one_rule_catalog /\
  forall e, In e (getScheduleByDate (rows (schedules anna_deleted)) (rows (calendars anna_deleted)) 0 monday) ->
            es_calendar_id e <> cl_id anna.
Proof.
  apply (deleteCalendar_hides_schedules "1" one_rule_catalog anna anna_deleted 0 monday).
  - apply catalog_wfb_sound. vm_compute. reflexivity.
  - vm_compute. reflexivity.
Defined.

(** The orphaned rule is still listed for the deleted calendar. *)
Example orphan_rule_listed :
  fst (getSchedulesByCalendarId "1" anna_deleted) = Ok (map mapScheduleRow (rows (schedules anna_deleted))) /\
  map s_time_from (rows (schedules anna_deleted)) = ["08:00"].
Proof. vm_compute. split; reflexivity. Qed.

End ScheduleStore.
