(* ===== verification/CategoryStore.v ===== *)
(** [CategoryDaoMySql] (database-client/src/Category/CategoryDaoMySql.ts)
    on the catalog: [addCategory] (lines 28-96), [getCategoryById]
    (103-127), [getCategories] with its search and pagination (164-220),
    [getCategoriesCount] (227-264), [updateCategory] (272-383),
    [deleteCategory] (390-407), [getServices] (413-440), and the mappings
    [mapCategoryWithServices] (445-466) and [mapServiceRow] (471-481);
    [getServiceByCategoryIdAndServiceId] is in [Availability].  The writes
    of [addCategory] and [updateCategory] run in a transaction
    ([Catalog.transaction]).  The schema is not in the repository: the
    foreign key [services.category_id -> categories.id ON DELETE CASCADE]
    is the one the comment of [deleteCategory] states; an insert of a
    service whose category does not exist violates it.  [isValidNumber]
    (database-client/src/utils, not in the repository) is a section
    variable. *)

From Stdlib Require Import ZArith List String Bool Lia QArith.
From stdpp Require Import base gmap.
From S2P Require Import Prelude TimeParse Schedule Table ContactStore Availability Catalog CalendarStore.
Import ListNotations.
Open Scope Z_scope.
Open Scope sched_scope.

Module CategoryStore.
Import Schedule Table ContactStore Availability Catalog CalendarStore.
Local Open Scope string_scope.

(** The [Service] object of [mapServiceRow]; [price] is
    [parseFloat(row.price)] of the DECIMAL, the number itself. *)
Record ServiceObj := {
  so_id : string;
  so_name : string;
  so_description : string;
  so_duration : option Z;
  so_price : Q;
  so_abbreviation_id : Z
}.

Definition mapServiceRow (r : ServiceRow) : ServiceObj := {|
  so_id := id_toString (srv_id r); so_name := srv_name r; so_description := srv_description r;
  so_duration := srv_duration r; so_price := srv_price r; so_abbreviation_id := srv_abbreviation_id r |}.

(** The [Category] object of [mapCategoryWithServices]. *)
Record CategoryObj := {
  co_id : string;
  co_name : string;
  co_category : string;
  co_choices : string;
  co_selection_is_optional : bool;
  co_show_price : bool;
  co_show_appointment_duration : bool;
  co_no_columns_of_services : Z;
  co_full_screen : bool;
  co_folded : bool;
  co_online_booking : bool;
  co_remarks : string;
  co_unique_id : Z;
  co_display_status : string;
  co_services : list ServiceObj;
  co_createdAt : Z
}.

Definition mapCategoryWithServices (r : CategoryRow) (services : list ServiceRow) : CategoryObj := {|
  co_id := id_toString (cat_id r); co_name := cat_name r; co_category := cat_category r;
  co_choices := cat_choices r; co_selection_is_optional := cat_selection_is_optional r;
  co_show_price := cat_show_price r; co_show_appointment_duration := cat_show_appointment_duration r;
  co_no_columns_of_services := cat_no_columns_of_services r; co_full_screen := cat_full_screen r;
  co_folded := cat_folded r; co_online_booking := cat_online_booking r; co_remarks := cat_remarks r;
  co_unique_id := cat_unique_id r; co_display_status := cat_display_status r;
  co_services := map mapServiceRow services; co_createdAt := cat_created_at r |}.

(** A service of the request body. *)
Record ServiceRequest := {
  vq_name : option string;
  vq_description : option string;
  vq_duration : option Z;
  vq_price : option Q;
  vq_abbreviation_id : option Z
}.

(** [Partial<Category>] as the request body. *)
Record CategoryRequest := {
  gq_name : option string;
  gq_category : option string;
  gq_choices : option string;
  gq_selection_is_optional : option bool;
  gq_show_price : option bool;
  gq_show_appointment_duration : option bool;
  gq_no_columns_of_services : option Z;
  gq_full_screen : option bool;
  gq_folded : option bool;
  gq_online_booking : option bool;
  gq_remarks : option string;
  gq_unique_id : option Z;
  gq_display_status : option string;
  gq_services : option (list ServiceRequest)
}.

(** The values of the category INSERT (lines 44-59). *)
Definition new_category_row (now : Z) (name category choices : string) (unique : Z) (c : CategoryRequest)
    (id : Z) : CategoryRow := {|
  cat_id := id; cat_name := name; cat_category := category; cat_choices := choices;
  cat_selection_is_optional := bool_or_false (gq_selection_is_optional c);
  cat_show_price := bool_or_false (gq_show_price c);
  cat_show_appointment_duration := bool_or_false (gq_show_appointment_duration c);
  cat_no_columns_of_services := or_default (gq_no_columns_of_services c) 1 (fun n => negb (Z.eqb n 0));
  cat_full_screen := bool_or_false (gq_full_screen c); cat_folded := bool_or_false (gq_folded c);
  cat_online_booking := bool_or_false (gq_online_booking c);
  cat_remarks := or_default (gq_remarks c) "" str_truthy; cat_unique_id := unique;
  cat_display_status := or_default (gq_display_status c) "show" str_truthy;
  cat_created_at := now |}.

(** The foreign key violation of a service whose category is missing. *)
Definition fk_error : string :=
  "Cannot add or update a child row: a foreign key constraint fails".

(** One service INSERT (lines 73-81 and 360-368): every value is bound,
    and the category must exist. *)
Definition insert_service (catId : Z) (v : ServiceRequest) : ST Catalog unit :=
  match vq_name v, vq_description v, vq_duration v, vq_price v, vq_abbreviation_id v with
  | Some n, Some d, Some du, Some p, Some a =>
      fun cat =>
        if existsb (fun r => Z.eqb (cat_id r) catId) (rows (categories cat)) then
          (Ok tt, set_services cat (snd (insert_row (fun id =>
             {| srv_id := id; srv_category_id := catId; srv_name := n; srv_description := d;
                srv_duration := Some du; srv_price := p; srv_abbreviation_id := a |}) (services cat))))
        else (Err fk_error, cat)
  | _, _, _, _, _ => st_err bind_undefined
  end.

(** The [for] loop over the services. *)
Fixpoint insert_services (catId : Z) (l : list ServiceRequest) : ST Catalog unit :=
  match l with
  | [] => st_ret tt
  | v :: rest => insert_service catId v ;;; insert_services catId rest
  end.

(** [SELECT * FROM services WHERE category_id = ? ORDER BY id]. *)
Definition services_of (id : string) (cat : Catalog) : list ServiceRow :=
  sort_by srv_id false (List.filter (fun s => sql_id_eq id (srv_category_id s)) (rows (services cat))).

(** [getCategoryById]: the category row, then its services. *)
Definition getCategoryById (id : string) : ST Catalog (option CategoryObj) :=
  fun cat => (Ok (option_map (fun r => mapCategoryWithServices r (services_of id cat))
                             (find_row id (categories cat))), cat).

(** [addCategory]: in a transaction, the category INSERT, the service
    INSERTs, the commit, and the category read back (lines 32-89). *)
Definition addCategory_body (now : Z) (c : CategoryRequest) : ST Catalog (option CategoryObj) :=
  match gq_name c, gq_category c, gq_choices c, gq_unique_id c with
  | Some name, Some category, Some choices, Some unique =>
      fun cat =>
        let '(categoryId, t) := insert_row (new_category_row now name category choices unique c)
                                          (categories cat) in
        ((match gq_services c with
          | Some ((_ :: _) as l) => insert_services categoryId l
          | _ => st_ret tt
          end ;;;
          getCategoryById (id_toString categoryId)) (set_categories cat t))
  | _, _, _, _ => st_err bind_undefined
  end.

Definition addCategory (now : Z) (c : CategoryRequest) : ST Catalog (option CategoryObj) :=
  transaction (addCategory_body now c).

(** The SET list of the category UPDATE (lines 282-343). *)
Definition category_update_count (c : CategoryRequest) : nat :=
  List.length (List.filter (fun b : bool => b)
    [defined (gq_name c); defined (gq_category c); defined (gq_choices c);
     defined (gq_selection_is_optional c); defined (gq_show_price c);
     defined (gq_show_appointment_duration c); defined (gq_no_columns_of_services c);
     defined (gq_full_screen c); defined (gq_folded c); defined (gq_online_booking c);
     defined (gq_remarks c); defined (gq_unique_id c); defined (gq_display_status c)]).

Definition apply_category_update (c : CategoryRequest) (r : CategoryRow) : CategoryRow := {|
  cat_id := cat_id r; cat_name := upd (gq_name c) (cat_name r);
  cat_category := upd (gq_category c) (cat_category r); cat_choices := upd (gq_choices c) (cat_choices r);
  cat_selection_is_optional := upd (gq_selection_is_optional c) (cat_selection_is_optional r);
  cat_show_price := upd (gq_show_price c) (cat_show_price r);
  cat_show_appointment_duration := upd (gq_show_appointment_duration c) (cat_show_appointment_duration r);
  cat_no_columns_of_services := upd (gq_no_columns_of_services c) (cat_no_columns_of_services r);
  cat_full_screen := upd (gq_full_screen c) (cat_full_screen r); cat_folded := upd (gq_folded c) (cat_folded r);
  cat_online_booking := upd (gq_online_booking c) (cat_online_booking r);
  cat_remarks := upd (gq_remarks c) (cat_remarks r); cat_unique_id := upd (gq_unique_id c) (cat_unique_id r);
  cat_display_status := upd (gq_display_status c) (cat_display_status r);
  cat_created_at := cat_created_at r |}.

(** [DELETE FROM services WHERE category_id = ?]. *)
Definition delete_services_of (id : string) : ST Catalog unit :=
  fun cat => (Ok tt, set_services cat (mk_table (List.filter (fun s => negb (sql_id_eq id (srv_category_id s)))
                                                             (rows (services cat))) (next_id (services cat)))).

(** [updateCategory]: in a transaction, the category UPDATE when a column
    is given, and when [services] is given the category's services
    deleted and the new ones inserted (with [id] as their [category_id]);
    the commit; then the read. *)
Definition updateCategory (id : string) (c : CategoryRequest) : ST Catalog (option CategoryObj) :=
  transaction
    ((match category_update_count c with
      | O => st_ret tt
      | S _ => fun cat => (Ok tt, set_categories cat (update_where id (apply_category_update c) (categories cat)))
      end ;;;
      match gq_services c with
      | Some l =>
          delete_services_of id ;;;
          match l with
          | [] => st_ret tt
          | _ :: _ =>
              match TimeParse.Number id with
              | Some n => insert_services n l
              | None => st_err "Incorrect integer value"
              end
          end
      | None => st_ret tt
      end) ;;;
     getCategoryById id).

(** [deleteCategory]: the read, then the DELETE; the services go with the
    category by the cascade. *)
Definition deleteCategory (id : string) : ST Catalog (option CategoryObj) :=
  category <- getCategoryById id ;;
  match category with
  | None => st_ret None
  | Some co =>
      fun cat => (Ok (Some co),
                  snd (delete_services_of id (set_categories cat (delete_where id (categories cat)))))
  end.

(** The [ExtendedService] objects of [getServices]: the row's columns,
    with [price] as the driver returns the DECIMAL (a string in the code,
    not [parseFloat]ed as in [mapServiceRow]; its value here). *)
Record ExtendedService := {
  xs_id : string;
  xs_category_id : string;
  xs_name : string;
  xs_description : string;
  xs_duration : option Z;
  xs_price : Q;
  xs_abbreviation_id : Z
}.

(** [SELECT s.* FROM services s ORDER BY s.category_id, s.id]. *)
Definition getServices : ST Catalog (list ExtendedService) :=
  fun cat => (Ok (map (fun r => {| xs_id := id_toString (srv_id r); xs_category_id := id_toString (srv_category_id r);
                                   xs_name := srv_name r; xs_description := srv_description r;
                                   xs_duration := srv_duration r; xs_price := srv_price r;
                                   xs_abbreviation_id := srv_abbreviation_id r |})
                      (sort_by srv_category_id false (sort_by srv_id false (rows (services cat))))), cat).

Section Search.
  (** [isValidNumber] of database-client/src/utils. *)
  Variable isValidNumber : string -> bool.

(** The WHERE clause of [getCategories] and [getCategoriesCount] (lines
    175-198): over the LEFT JOIN with [services], a category matches by
    its name or [unique_id], or by one of its services. *)
Definition category_search (search : option string) (cat : Catalog) (r : CategoryRow) : bool :=
  match search with
  | Some t =>
      if String.eqb t EmptyString then true
      else
        let pat := "%" ++ t ++ "%" in
        let num := if isValidNumber t then TimeParse.Number t else None in
        let num_eq z := match num with Some n => Z.eqb n z | None => false end in
        like pat (cat_name r) || num_eq (cat_unique_id r) ||
        existsb (fun s => Z.eqb (srv_category_id s) (cat_id r) &&
                          (like pat (srv_name s) || like pat (srv_description s) || num_eq (srv_abbreviation_id s)))
                (rows (services cat))
  | None => true
  end.

(** [getCategories]: the page of matching categories, each with its
    services. *)
Definition getCategories (page limit : Z) (search : option string) : ST Catalog (list CategoryObj) :=
  fun cat =>
    match select_page cat_created_at page limit (List.filter (category_search search cat) (rows (categories cat))) with
    | Some l => (Ok (map (fun r => mapCategoryWithServices r (services_of (id_toString (cat_id r)) cat)) l), cat)
    | None => (Err "negative LIMIT or OFFSET", cat)
    end.

(** [SELECT COUNT(DISTINCT c.id) ...]. *)
Definition getCategoriesCount (search : option string) : ST Catalog Z :=
  fun cat => (Ok (Z.of_nat (List.length (List.filter (category_search search cat) (rows (categories cat))))), cat).
End Search.

(** ** Lemmas *)

(** Only the [services] table changed, by rows appended with ids from its
    counter on. *)
Definition services_grew (cat cat' : Catalog) : Prop :=
  calendars cat' = calendars cat /\ schedules cat' = schedules cat /\ categories cat' = categories cat /\
  next_id (services cat) <= next_id (services cat') /\
  (table_wf (services cat) -> table_wf (services cat')) /\
  exists extra, rows (services cat') = (rows (services cat) ++ extra)%list /\
    Forall (fun s => next_id (services cat) <= srv_id s) extra.

Lemma services_grew_refl cat : services_grew cat cat.
Proof.
  refine (conj eq_refl (conj eq_refl (conj eq_refl (conj (Z.le_refl _) (conj (fun H => H) _))))).
  exists []. rewrite app_nil_r. auto.
Qed.

Lemma services_grew_trans c1 c2 c3 : services_grew c1 c2 -> services_grew c2 c3 -> services_grew c1 c3.
Proof.
  intros (Ha1 & Hb1 & Hc1 & Hn1 & Hw1 & e1 & Hr1 & He1) (Ha2 & Hb2 & Hc2 & Hn2 & Hw2 & e2 & Hr2 & He2).
  refine (conj (eq_trans Ha2 Ha1) (conj (eq_trans Hb2 Hb1) (conj (eq_trans Hc2 Hc1) (conj _ (conj _ _))))); [lia | auto |].
  exists (e1 ++ e2)%list. rewrite Hr2, Hr1, app_assoc. split; [reflexivity|].
  apply Forall_app. split; [exact He1|]. eapply List.Forall_impl; [|exact He2]. simpl. intros s Hs. lia.
Qed.

Lemma insert_service_grew catId v cat : services_grew cat (snd (insert_service catId v cat)).
Proof.
  unfold insert_service. destruct (vq_name v), (vq_description v), (vq_duration v), (vq_price v),
    (vq_abbreviation_id v); try apply services_grew_refl.
  destruct (existsb _ _); [|apply services_grew_refl]. cbn [snd].
  refine (conj eq_refl (conj eq_refl (conj eq_refl (conj _ (conj _ _))))).
  - simpl. lia.
  - intros Hw. rewrite services_set. apply insert_row_wf; [exact Hw | reflexivity].
  - eexists. split; [reflexivity|]. repeat constructor. simpl. lia.
Qed.

Lemma insert_services_grew catId l cat : services_grew cat (snd (insert_services catId l cat)).
Proof.
  revert cat. induction l as [|v l IH]; intros cat; simpl; [apply services_grew_refl|].
  unfold st_bind at 1. pose proof (insert_service_grew catId v cat) as Hg.
  destruct (insert_service catId v cat) as [[u|e] cat1]; simpl in *; [|exact Hg].
  exact (services_grew_trans _ _ _ Hg (IH cat1)).
Qed.

Lemma transaction_Err {A} (m : ST Catalog A) cat e cat' :
  transaction m cat = (Err e, cat') -> exists c1, m cat = (Err e, c1) /\ cat' = rollback cat c1.
Proof. unfold transaction. destruct (m cat) as [[a|e'] c1]; intros H; inversion H; eauto. Qed.

Lemma transaction_Ok {A} (m : ST Catalog A) cat a cat' :
  transaction m cat = (Ok a, cat') -> m cat = (Ok a, cat').
Proof. unfold transaction. destruct (m cat) as [[a'|e'] c1]; intros H; inversion H; subst; reflexivity. Qed.

(** The rows after a rollback are the rows before. *)
Lemma rollback_rows cat c1 :
  rows (calendars (rollback cat c1)) = rows (calendars cat) /\
  rows (schedules (rollback cat c1)) = rows (schedules cat) /\
  rows (categories (rollback cat c1)) = rows (categories cat) /\
  rows (services (rollback cat c1)) = rows (services cat).
Proof. repeat split. Qed.

(** The services after [updateCategory] with a service list: the other
    categories' services, then the new ones. *)
Lemma updateCategory_services id c l cat res cat' :
  gq_services c = Some l -> updateCategory id c cat = (Ok res, cat') ->
  exists extra, rows (services cat') =
    (List.filter (fun s => negb (sql_id_eq id (srv_category_id s))) (rows (services cat)) ++ extra)%list /\
    Forall (fun s => next_id (services cat) <= srv_id s) extra.
Proof.
  intros Hl H. apply transaction_Ok in H. unfold updateCategory, st_bind in H.
  set (c1 := match category_update_count c with
             | O => cat
             | S _ => set_categories cat (update_where id (apply_category_update c) (categories cat))
             end) in H.
  assert (Hc1 : (match category_update_count c with
                 | O => st_ret tt
                 | S _ => fun cat => (Ok tt, set_categories cat (update_where id (apply_category_update c) (categories cat)))
                 end : ST Catalog unit) cat = (Ok tt, c1)) by (subst c1; destruct (category_update_count c); reflexivity).
  rewrite Hc1, Hl in H. unfold delete_services_of at 1 in H. simpl in H.
  assert (Hs1 : services c1 = services cat) by (subst c1; destruct (category_update_count c); reflexivity).
  set (c2 := set_services c1 _) in H.
  assert (Hg : services_grew c2 (snd (match l with
                 | [] => st_ret tt
                 | _ :: _ => match TimeParse.Number id with
                             | Some n => insert_services n l
                             | None => st_err "Incorrect integer value"
                             end
                 end c2))).
  { destruct l; [apply services_grew_refl|]. destruct (TimeParse.Number id);
      [apply insert_services_grew | apply services_grew_refl]. }
  destruct (match l with
            | [] => st_ret tt
            | _ :: _ => _
            end c2) as [[u|e] c3] eqn:E; [|discriminate].
  unfold getCategoryById in H. injection H as _ <-.
  destruct Hg as (_ & _ & _ & _ & _ & extra & Hr & He). exists extra. simpl in Hr, He.
  subst c2. simpl in Hr, He. rewrite Hs1 in Hr, He. split; assumption.
Qed.

(** C32 (functional, finding): [updateCategory] with a [services] list
    deletes the category's service rows and inserts the list as new rows
    with new ids, even when it names the same services: afterwards no
    former service of the category is found by its category and id, and
    the slot length the availability query uses for a booking that still
    names it falls back to 60 minutes, whatever the service's duration. *)
Theorem updateCategory_renumbers_services (id : string) (c : CategoryRequest) (l : list ServiceRequest)
    (cat : Catalog) (res : option CategoryObj) (cat' : Catalog) (sv : ServiceRow) :
  catalog_wf cat -> gq_services c = Some l -> updateCategory id c cat = (Ok res, cat') ->
  In sv (rows (services cat)) -> sql_id_eq id (srv_category_id sv) = true ->
  getServiceByCategoryIdAndServiceId (catalog_services cat') id (id_toString (srv_id sv)) = None /\
  @serviceDuration (CategoryDaoMySql (catalog_services cat')) (Some id) (Some (id_toString (srv_id sv))) = 60.
Proof.
  intros (_ & _ & _ & Hb & _) Hl H Hsv Hcat.
  destruct (updateCategory_services id c l cat res cat' Hl H) as (extra & Hr & He).
  rewrite List.Forall_forall in Hb. pose proof (Hb sv Hsv) as Hbsv. unfold row_id, service_id in Hbsv.
  assert (Hnone : getServiceByCategoryIdAndServiceId (catalog_services cat') id (id_toString (srv_id sv)) = None).
  { unfold getServiceByCategoryIdAndServiceId, catalog_services. rewrite Hr, map_app.
    apply find_all_false. intros x Hx. apply in_app_or in Hx as [Hx|Hx];
      apply in_map_iff in Hx as [s [<- Hs]]; simpl.
    - apply In_filter_iff in Hs as [_ Hs]. apply negb_true_iff in Hs. rewrite Hs. reflexivity.
    - try rewrite List.Forall_forall in He. pose proof (He s Hs). rewrite sql_id_eq_toString by lia.
      replace (Z.eqb (srv_id sv) (srv_id s)) with false by (symmetry; apply Z.eqb_neq; lia). apply andb_false_r. }
  split; [exact Hnone|]. unfold serviceDuration. simpl. rewrite Hnone.
  destruct (_ && _)%bool; reflexivity.
Qed.

Lemma services_grew_counters c c' : services_grew c c' -> counters_le c c'.
Proof.
  intros (Ha & Hb & Hc & Hn & _). unfold counters_le. rewrite Ha, Hb, Hc. lia.
Qed.

Lemma counters_le_trans c1 c2 c3 : counters_le c1 c2 -> counters_le c2 c3 -> counters_le c1 c3.
Proof. unfold counters_le. lia. Qed.

Lemma counters_le_refl c : counters_le c c.
Proof. unfold counters_le. lia. Qed.

Lemma addCategory_body_counters now c cat : counters_le cat (snd (addCategory_body now c cat)).
Proof.
  unfold addCategory_body. destruct (gq_name c), (gq_category c), (gq_choices c), (gq_unique_id c);
    try apply counters_le_refl.
  unfold insert_row at 1. cbn beta iota zeta.
  eapply counters_le_trans; [| apply (st_bind_mono counters_le); [exact counters_le_trans | exact counters_le_refl | |]].
  - unfold counters_le; simpl; lia.
  - destruct (gq_services c) as [[|v l]|]; try apply counters_le_refl.
    apply services_grew_counters, insert_services_grew.
  - intros _ s'. apply counters_le_refl.
Qed.

(** C33 (error): a failing [addCategory] (an [undefined] value, or a
    service that cannot be inserted after the category was) is rolled
    back: every table has the rows it had, and the catalog stays well
    formed, although the counters may have moved on. *)
Theorem addCategory_rollback (now : Z) (c : CategoryRequest) (cat : Catalog) (e : string) (cat' : Catalog) :
  catalog_wf cat -> addCategory now c cat = (Err e, cat') ->
  rows (calendars cat') = rows (calendars cat) /\ rows (schedules cat') = rows (schedules cat) /\
  rows (categories cat') = rows (categories cat) /\ rows (services cat') = rows (services cat) /\
  catalog_wf cat'.
Proof.
  intros Hwf H. apply transaction_Err in H as (c1 & Hb & ->).
  pose proof (addCategory_body_counters now c cat) as Hc. rewrite Hb in Hc.
  destruct (rollback_rows cat c1) as (R1 & R2 & R3 & R4).
  refine (conj R1 (conj R2 (conj R3 (conj R4 _)))). apply rollback_wf; assumption.
Qed.

(** ** A workshop category *)

Definition no_category_fields : CategoryRequest := {|
  gq_name := None; gq_category := None; gq_choices := None; gq_selection_is_optional := None;
  gq_show_price := None; gq_show_appointment_duration := None; gq_no_columns_of_services := None;
  gq_full_screen := None; gq_folded := None; gq_online_booking := None; gq_remarks := None;
  gq_unique_id := None; gq_display_status := None; gq_services := None |}.

Definition service_request (name : string) (description : option string) (duration : Z) : ServiceRequest := {|
  vq_name := Some name; vq_description := description; vq_duration := Some duration;
  vq_price := Some (50 # 1)%Q; vq_abbreviation_id := Some 3 |}.

Definition oil_change : ServiceRequest := service_request "Oil change" (Some "") 90.

Definition workshop (services : list ServiceRequest) : CategoryRequest := {|
  gq_name := Some "Workshop"; gq_category := Some "Repairs"; gq_choices := Some "single";
  gq_selection_is_optional := None; gq_show_price := Some true; gq_show_appointment_duration := None;
  gq_no_columns_of_services := Some 0; gq_full_screen := None; gq_folded := None;
  gq_online_booking := None; gq_remarks := None; gq_unique_id := Some 7; gq_display_status := None;
  gq_services := Some services |}.

(** The catalog after [addCategory] of the workshop with its oil change. *)
Definition workshop_catalog : Catalog := snd (addCategory 0 (workshop [oil_change]) empty_catalog).

Definition oil_change_row : ServiceRow := {|
  srv_id := 1; srv_category_id := 1; srv_name := "Oil change"; srv_description := "";
  srv_duration := Some 90; srv_price := (50 # 1)%Q; srv_abbreviation_id := 3 |}.

(** The same service list sent again with [updateCategory]. *)
Definition resend : CategoryRequest := {| gq_name := None; gq_category := None; gq_choices := None;
  gq_selection_is_optional := None; gq_show_price := None; gq_show_appointment_duration := None;
  gq_no_columns_of_services := None; gq_full_screen := None; gq_folded := None;
  gq_online_booking := None; gq_remarks := None; gq_unique_id := None; gq_display_status := None;
  gq_services := Some [oil_change] |}.

Definition resent_result : option CategoryObj :=
  match fst (updateCategory "1" resend workshop_catalog) with Ok r => r | Err _ => None end.
Definition resent_catalog : Catalog := snd (updateCategory "1" resend workshop_catalog).

(** Before the update the oil change is found and lasts 90 minutes. *)
Example workshop_oil_change_90 :
  find_row "1" (services workshop_catalog) = Some oil_change_row /\
  @serviceDuration (CategoryDaoMySql (catalog_services workshop_catalog)) (Some "1") (Some "1") = 90.
Proof. split; vm_compute; reflexivity. Qed.

(** The stored [no_columns_of_services] of a request that asked for 0 is 1. *)
Example workshop_no_columns_is_1 :
  option_map cat_no_columns_of_services (find_row "1" (categories workshop_catalog)) = Some 1.
Proof. vm_compute. reflexivity. Qed.

Lemma updateCategory_renumbers_services_witness :
  getServiceByCategoryIdAndServiceId (catalog_services resent_catalog) "1" "1" = None /\
  @serviceDuration (CategoryDaoMySql (catalog_services resent_catalog)) (Some "1") (Some "1") = 60.
Proof.
  apply (updateCategory_renumbers_services "1" resend [oil_change] workshop_catalog resent_result
           resent_catalog oil_change_row).
  - apply catalog_wfb_sound. vm_compute. reflexivity.
  - reflexivity.
  - vm_compute. reflexivity.
  - vm_compute. left. reflexivity.
  - vm_compute. reflexivity.
Defined.

(** A second service without a description: [undefined] is refused after
    the category and the first service were inserted. *)
Definition broken_workshop : CategoryRequest := workshop [oil_change; service_request "Tyres" None 30].

Lemma addCategory_rollback_witness :
  addCategory 0 broken_workshop empty_catalog = (Err bind_undefined, snd (addCategory 0 broken_workshop empty_catalog)) /\
  rows (categories (snd (addCategory 0 broken_workshop empty_catalog))) = [] /\
  rows (services (snd (addCategory 0 broken_workshop empty_catalog))) = [] /\
  catalog_wf (snd (addCategory 0 broken_workshop empty_catalog)).
Proof.
  assert (H : addCategory 0 broken_workshop empty_catalog =
              (Err bind_undefined, snd (addCategory 0 broken_workshop empty_catalog)))
    by (vm_compute; reflexivity).
  destruct (addCategory_rollback 0 broken_workshop empty_catalog _ _ empty_catalog_wf H)
    as (_ & _ & H3 & H4 & H5).
  exact (conj H (conj H3 (conj H4 H5))).
Defined.

(** The counters moved on: the next category gets id 2. *)
Example addCategory_rollback_burns_id :
  next_id (categories (snd (addCategory 0 broken_workshop empty_catalog))) = 2 /\
  next_id (services (snd (addCategory 0 broken_workshop empty_catalog))) = 2.
Proof. split; vm_compute; reflexivity. Qed.

End CategoryStore.
