(* ===== verification/UserStore.v ===== *)
(** [UserDaoMySql] (database-client/src/User/UserDaoMySql.ts) on the
    [users] and [reset_tokens] tables: [addUser] (lines 25-62),
    [getUserByEmail] (69-86), [addToken] (93-106), [getToken] (113-130),
    [deleteToken] (136-147), and the mappings [mapUserRow] (153-169) and
    [mapResetTokenRow] (174-182).  The JSON columns [channels] and
    [internal] (objects whose shape the missing schema defines) are left
    out.  String comparisons ([email = ?], [token = ?]) are MySQL's
    case-insensitive ones ([Schedule.sql_str_eq]). *)

From Stdlib Require Import ZArith List String Bool Lia.
From stdpp Require Import base.
From S2P Require Import Prelude TimeParse Schedule Table Catalog CalendarStore.
Import ListNotations.
Open Scope Z_scope.
Open Scope sched_scope.

Module UserStore.
Import Schedule Table Catalog CalendarStore.
Local Open Scope string_scope.

(** A row of [users]; NULL is [None]. *)
Record UserRow := {
  u_id : Z;
  u_name : string;
  u_email : string;
  u_password : string;
  u_phone_number : string;
  u_remarks : option string;
  u_role : string;
  u_token : option string;
  u_refresh_token : option string;
  u_created_at : Z
}.

(** A row of [reset_tokens]. *)
Record ResetTokenRow := {
  rt_id : Z;
  rt_token : string;
  rt_email : string;
  rt_created_at : Z
}.

#[export] Instance user_id : HasId UserRow := u_id.
#[export] Instance reset_token_id : HasId ResetTokenRow := rt_id.

Record UserDb := {
  users : table UserRow;
  reset_tokens : table ResetTokenRow
}.

Definition set_users (db : UserDb) (t : table UserRow) : UserDb :=
  {| users := t; reset_tokens := reset_tokens db |}.
Definition set_reset_tokens (db : UserDb) (t : table ResetTokenRow) : UserDb :=
  {| users := users db; reset_tokens := t |}.

(** The [User] object of [mapUserRow]. *)
Record User := {
  us_id : string;
  us_name : string;
  us_email : string;
  us_password : string;
  us_phone_number : string;
  us_remarks : option string;
  us_role : string;
  us_token : option string;
  us_refreshToken : option string;
  us_createdAt : Z
}.

Definition mapUserRow (r : UserRow) : User := {|
  us_id := id_toString (u_id r); us_name := u_name r; us_email := u_email r; us_password := u_password r;
  us_phone_number := u_phone_number r; us_remarks := u_remarks r; us_role := u_role r;
  us_token := u_token r; us_refreshToken := u_refresh_token r; us_createdAt := u_created_at r |}.

(** The [ResetToken] object of [mapResetTokenRow]. *)
Record ResetToken := { tk_id : string; tk_token : string; tk_email : string; tk_createdAt : Z }.

Definition mapResetTokenRow (r : ResetTokenRow) : ResetToken :=
  {| tk_id := id_toString (rt_id r); tk_token := rt_token r; tk_email := rt_email r; tk_createdAt := rt_created_at r |}.

(** [Partial<User>] as [addUser] reads it; [None] is [undefined]. *)
Record UserRequest := {
  uq_name : option string;
  uq_email : option string;
  uq_password : option string;
  uq_phone_number : option string;
  uq_remarks : option string;
  uq_role : option string;
  uq_token : option string;
  uq_refreshToken : option string
}.

(** The values of the INSERT (lines 39-50). *)
Definition new_user_row (now : Z) (name email password phone : string) (u : UserRequest) (id : Z) : UserRow := {|
  u_id := id; u_name := name; u_email := email; u_password := password; u_phone_number := phone;
  u_remarks := or_null (uq_remarks u); u_role := or_default (uq_role u) "user" str_truthy;
  u_token := or_null (uq_token u); u_refresh_token := or_null (uq_refreshToken u); u_created_at := now |}.

(** [addUser]: the INSERT (mysql2 refuses an [undefined] name, e-mail,
    password or phone number), then [mapUserRow(rows[0])] of the row read
    back by the insert id. *)
Definition addUser (now : Z) (u : UserRequest) : ST UserDb User :=
  match uq_name u, uq_email u, uq_password u, uq_phone_number u with
  | Some name, Some email, Some password, Some phone =>
      fun db =>
        let '(insertId, t) := insert_row (new_user_row now name email password phone u) (users db) in
        let db1 := set_users db t in
        match find_row (id_toString insertId) t with
        | Some r => (Ok (mapUserRow r), db1)
        | None => (Err "Cannot read properties of undefined (reading 'id')", db1)
        end
  | _, _, _, _ => st_err bind_undefined
  end.

(** [SELECT * FROM users WHERE email = ? LIMIT 1]. *)
Definition user_by_email (email : string) (t : table UserRow) : option UserRow :=
  hd_error (List.filter (fun r => sql_str_eq (u_email r) email) (rows t)).

Definition getUserByEmail (email : string) : ST UserDb (option User) :=
  fun db => (Ok (option_map mapUserRow (user_by_email email (users db))), db).

(** [INSERT INTO reset_tokens (token, email) VALUES (?, ?)]. *)
Definition addToken (now : Z) (token email : string) : ST UserDb unit :=
  fun db => (Ok tt, set_reset_tokens db (snd (insert_row (fun id =>
               {| rt_id := id; rt_token := token; rt_email := email; rt_created_at := now |}) (reset_tokens db)))).

(** [SELECT * FROM reset_tokens WHERE token = ? LIMIT 1]. *)
Definition token_row (token : string) (t : table ResetTokenRow) : option ResetTokenRow :=
  hd_error (List.filter (fun r => sql_str_eq (rt_token r) token) (rows t)).

Definition getToken (token : string) : ST UserDb (option ResetToken) :=
  fun db => (Ok (option_map mapResetTokenRow (token_row token (reset_tokens db))), db).

(** [DELETE FROM reset_tokens WHERE token = ?]: every row with the token. *)
Definition deleteToken (token : string) : ST UserDb unit :=
  fun db => (Ok tt, set_reset_tokens db
               (mk_table (List.filter (fun r => negb (sql_str_eq (rt_token r) token)) (rows (reset_tokens db)))
                         (next_id (reset_tokens db)))).

(** ** The password-reset token machine

    The writes the reset flow issues, in order, and what a reader of
    [getToken] can see: per token, the e-mail of its oldest row since the
    last [deleteToken] of it.  Time does not appear: a token has no expiry. *)

Inductive TokenOp :=
  | TAdd (token email : string)
  | TDel (token : string).

Definition run_token_op (now : Z) (op : TokenOp) : ST UserDb unit :=
  match op with
  | TAdd token email => addToken now token email
  | TDel token => deleteToken token
  end.

Fixpoint run_token_ops (now : Z) (ops : list TokenOp) : ST UserDb unit :=
  match ops with
  | [] => st_ret tt
  | op :: rest => run_token_op now op ;;; run_token_ops now rest
  end.

Definition token_step (token : string) (seen : option string) (op : TokenOp) : option string :=
  match op with
  | TAdd t e => if sql_str_eq t token then match seen with Some x => Some x | None => Some e end else seen
  | TDel t => if sql_str_eq t token then None else seen
  end.

Definition token_spec (token : string) (ops : list TokenOp) (seen : option string) : option string :=
  fold_left (token_step token) ops seen.

(** ** Lemmas *)

Lemma sql_str_eq_sym a b : sql_str_eq a b = sql_str_eq b a.
Proof. unfold sql_str_eq. apply String.eqb_sym. Qed.

Lemma sql_str_eq_congr a b c : sql_str_eq a b = true -> sql_str_eq a c = sql_str_eq b c.
Proof.
  unfold sql_str_eq. intros H. apply String.eqb_eq in H. rewrite H. reflexivity.
Qed.

Lemma token_row_add now token email t tok :
  option_map rt_email (token_row tok (snd (insert_row (fun id =>
    {| rt_id := id; rt_token := token; rt_email := email; rt_created_at := now |}) t))) =
  token_step tok (option_map rt_email (token_row tok t)) (TAdd token email).
Proof.
  unfold token_row, insert_row. simpl. rewrite !find_filter_hd, find_app_first.
  destruct (List.find _ (rows t)); simpl; [destruct (sql_str_eq token tok); reflexivity|].
  destruct (sql_str_eq token tok); reflexivity.
Qed.

Lemma token_row_delete token t tok :
  option_map rt_email (token_row tok (mk_table (List.filter (fun r => negb (sql_str_eq (rt_token r) token)) (rows t))
                                                (next_id t))) =
  token_step tok (option_map rt_email (token_row tok t)) (TDel token).
Proof.
  unfold token_row. simpl. rewrite filter_filter_andb. rewrite sql_str_eq_sym.
  destruct (sql_str_eq tok token) eqn:Ht.
  - rewrite filter_all_false; [reflexivity|]. intros r _.
    destruct (sql_str_eq (rt_token r) tok) eqn:Hr; [|rewrite ?andb_false_r, ?andb_false_l; reflexivity].
    rewrite (sql_str_eq_congr _ _ token Hr), Ht. reflexivity.
  - f_equal. f_equal. apply filter_ext. intros r.
    destruct (sql_str_eq (rt_token r) tok) eqn:Hr; [|rewrite ?andb_false_r, ?andb_false_l; reflexivity].
    rewrite (sql_str_eq_congr _ _ token Hr), Ht. reflexivity.
Qed.

(** C35 (refinement, finding): a password-reset token read by [getToken]
    after any sequence of [addToken] and [deleteToken] calls carries the
    e-mail of the token machine [token_spec]: the oldest row of the token
    since its last deletion, whatever the time of the calls.  A token
    therefore never expires, and a second [addToken] of a live token does
    not change the address it resets. *)
Theorem getToken_refines_spec (now : Z) (ops : list TokenOp) (db : UserDb) (token : string) :
  exists tk, getToken token (snd (run_token_ops now ops db)) = (Ok tk, snd (run_token_ops now ops db)) /\
    option_map tk_email tk = token_spec token ops (option_map rt_email (token_row token (reset_tokens db))).
Proof.
  eexists. split; [reflexivity|].
  assert (Hrun : option_map rt_email (token_row token (reset_tokens (snd (run_token_ops now ops db)))) =
                 token_spec token ops (option_map rt_email (token_row token (reset_tokens db)))).
  { revert db. induction ops as [|op ops IH]; intros db; [reflexivity|].
    simpl. unfold st_bind. destruct op as [t e|t]; simpl; rewrite IH; simpl; f_equal.
    - apply token_row_add.
    - apply token_row_delete. }
  rewrite <- Hrun. destruct (token_row _ _); reflexivity.
Qed.

Lemma addUser_run now u db name email password phone :
  table_wf (users db) -> uq_name u = Some name -> uq_email u = Some email ->
  uq_password u = Some password -> uq_phone_number u = Some phone ->
  addUser now u db =
    (Ok (mapUserRow (new_user_row now name email password phone u (next_id (users db)))),
     set_users db (snd (insert_row (new_user_row now name email password phone u) (users db)))).
Proof.
  intros Hw Hn He Hp Hph. unfold addUser. rewrite Hn, He, Hp, Hph.
  pose proof (find_row_insert (new_user_row now name email password phone u) (users db) Hw eq_refl) as Hf.
  unfold insert_row in *. cbn -[find_row] in *. rewrite Hf. reflexivity.
Qed.

(** C36 (roundtrip, finding): [addUser] with the four bound fields stores
    the user under the next id and answers it; [getUserByEmail] of any
    address then finds the new user only when no earlier user has that
    address (compared case-insensitively): [addUser] does not check for a
    duplicate, and the older account shadows the new one. *)
Theorem addUser_getUserByEmail (now : Z) (u : UserRequest) (db : UserDb) (name email password phone e : string) :
  table_wf (users db) -> uq_name u = Some name -> uq_email u = Some email ->
  uq_password u = Some password -> uq_phone_number u = Some phone ->
  fst (addUser now u db) = Ok (mapUserRow (new_user_row now name email password phone u (next_id (users db)))) /\
  fst (getUserByEmail e (snd (addUser now u db))) =
    Ok (option_map mapUserRow
          (match user_by_email e (users db) with
           | Some r => Some r
           | None => if sql_str_eq email e then Some (new_user_row now name email password phone u (next_id (users db)))
                     else None
           end)).
Proof.
  intros Hw Hn He Hp Hph. rewrite (addUser_run now u db name email password phone Hw Hn He Hp Hph).
  split; [reflexivity|]. simpl. unfold user_by_email, insert_row. simpl.
  rewrite !find_filter_hd, find_app_first. reflexivity.
Qed.

(** ** Concrete runs *)

Definition empty_user_db : UserDb := {| users := empty_table; reset_tokens := empty_table |}.

Definition user_request (name email : string) : UserRequest := {|
  uq_name := Some name; uq_email := Some email; uq_password := Some "$2b$10$hash";
  uq_phone_number := Some "+43 660 1234567"; uq_remarks := Some ""; uq_role := None;
  uq_token := None; uq_refreshToken := None |}.

Definition anna_db : UserDb := snd (addUser 1 (user_request "Anna" "anna@example.com") empty_user_db).

Lemma addUser_getUserByEmail_witness :
  fst (addUser 2 (user_request "Anna B." "ANNA@example.com") anna_db) =
    Ok (mapUserRow (new_user_row 2 "Anna B." "ANNA@example.com" "$2b$10$hash" "+43 660 1234567"
                      (user_request "Anna B." "ANNA@example.com") (next_id (users anna_db)))) /\
  fst (getUserByEmail "anna@example.com" (snd (addUser 2 (user_request "Anna B." "ANNA@example.com") anna_db))) =
    Ok (option_map mapUserRow
          (match user_by_email "anna@example.com" (users anna_db) with
           | Some r => Some r
           | None => if sql_str_eq "ANNA@example.com" "anna@example.com"
                     then Some (new_user_row 2 "Anna B." "ANNA@example.com" "$2b$10$hash" "+43 660 1234567"
                                  (user_request "Anna B." "ANNA@example.com") (next_id (users anna_db)))
                     else None
           end)).
Proof.
  apply addUser_getUserByEmail; [apply table_wfb_sound; vm_compute | ..]; reflexivity.
Defined.

(** The second account's address finds the first account, with its
    default role ["user"] and its [remarks] [""] stored as NULL. *)
Example duplicate_email_shadowed :
  option_map (fun us => (us_id us, us_name us, us_role us, us_remarks us))
    (match fst (getUserByEmail "anna@example.com"
                  (snd (addUser 2 (user_request "Anna B." "ANNA@example.com") anna_db))) with
     | Ok o => o | Err _ => None end) = Some ("1", "Anna", "user", None).
Proof. vm_compute. reflexivity. Qed.

Example addUser_without_phone :
  fst (addUser 1 {| uq_name := Some "Ben"; uq_email := Some "ben@example.com"; uq_password := Some "x";
                    uq_phone_number := None; uq_remarks := None; uq_role := None; uq_token := None;
                    uq_refreshToken := None |} empty_user_db) = Err bind_undefined.
Proof. reflexivity. Qed.

(** A token issued, issued again for another address, then the lower-case
    spelling deleted. *)
Definition token_ops : list TokenOp := [TAdd "AbC123" "anna@example.com"; TAdd "abc123" "eve@example.com"].

Example second_token_keeps_first_address :
  option_map tk_email (match fst (getToken "abc123" (snd (run_token_ops 0 token_ops empty_user_db))) with
                       | Ok o => o | Err _ => None end) = Some "anna@example.com".
Proof. vm_compute. reflexivity. Qed.

Example deleted_token_gone :
  fst (getToken "ABC123" (snd (run_token_ops 0 (token_ops ++ [TDel "abc123"]) empty_user_db))) = Ok None.
Proof. vm_compute. reflexivity. Qed.

End UserStore.
