(* ===== verification/MailerStore.v ===== *)
(** [EmailConfigDaoMySql] (database-client/src/Mailer/MailerDaoMySql.ts) on
    the [email_configs] table: [getEmailConfig] (lines 23-35),
    [addEmailConfig] (42-83) with its validation of the fields and the
    port, [updateEmailConfig] (91-155), [deleteEmailConfig] (162-184) and
    [mapEmailConfigRow] (189-201); and [EmailService.sendMail]
    (server/app/email/EmailService.ts, lines 110-158), which sends with the
    newest configuration after [decrypt] (server/utils/encryption.ts, lines
    47-65) of its stored password.  The AES decipher and the SMTP transport
    are section variables; [decrypt]'s own checks are modelled.  The
    [port] of a request is a JSON number (an integer here) or a string. *)

From Stdlib Require Import ZArith List String Ascii Bool Lia.
From stdpp Require Import base.
From S2P Require Import Prelude TimeParse Schedule Table ContactStore Catalog CalendarStore.
Import ListNotations.
Open Scope Z_scope.
Open Scope sched_scope.

Module MailerStore.
Import Schedule Table ContactStore Catalog CalendarStore.
Local Open Scope string_scope.

(** A row of [email_configs]. *)
Record EmailConfigRow := {
  ec_id : Z;
  ec_sender : string;
  ec_server : string;
  ec_username : string;
  ec_password : string;
  ec_port : Z;
  ec_ssl_enabled : bool;
  ec_created_at : Z
}.

#[export] Instance email_config_id : HasId EmailConfigRow := ec_id.

(** The [EmailConfig] object of [mapEmailConfigRow]. *)
Record EmailConfig := {
  cf_id : string;
  cf_sender : string;
  cf_server : string;
  cf_username : string;
  cf_password : string;
  cf_port : Z;
  cf_ssl_enabled : bool;
  cf_createdAt : Z
}.

Definition mapEmailConfigRow (r : EmailConfigRow) : EmailConfig := {|
  cf_id := id_toString (ec_id r); cf_sender := ec_sender r; cf_server := ec_server r;
  cf_username := ec_username r; cf_password := ec_password r; cf_port := ec_port r;
  cf_ssl_enabled := ec_ssl_enabled r; cf_createdAt := ec_created_at r |}.

(** The [port] of a request body. *)
Inductive PortValue :=
  | PortNumber (n : Z)
  | PortString (s : string).

(** [typeof port === 'string' ? parseInt(port, 10) : port]; [None] is
    [NaN]. *)
Definition port_of (p : PortValue) : option Z :=
  match p with PortNumber n => Some n | PortString s => TimeParse.parseInt10 s end.

(** [${config.port}] in the error message. *)
Definition port_text (p : PortValue) : string :=
  match p with PortNumber n => id_toString n | PortString s => s end.

(** [isNaN(port) || port < 1 || port > 65535] fails. *)
Definition valid_port (n : option Z) : bool :=
  match n with Some k => Z.leb 1 k && Z.leb k 65535 | None => false end.

(** [Partial<EmailConfig>] as the DAO reads it; [None] is [undefined]. *)
Record EmailConfigRequest := {
  eq_sender : option string;
  eq_server : option string;
  eq_username : option string;
  eq_password : option string;
  eq_port : option PortValue;
  eq_ssl_enabled : option bool
}.

Definition missing_config_fields : string :=
  "Missing required fields: sender, server, username, password, or port".

(** [!x] of a string field. *)
Definition str_missing (o : option string) : bool :=
  match o with Some s => String.eqb s EmptyString | None => true end.

(** [!port]: undefined, [NaN] or 0. *)
Definition port_missing (n : option Z) : bool :=
  match n with Some k => Z.eqb k 0 | None => true end.

(** [SELECT * FROM email_configs ORDER BY created_at DESC]. *)
Definition getEmailConfig : ST (table EmailConfigRow) (list EmailConfig) :=
  fun t => (Ok (map mapEmailConfigRow (sort_by ec_created_at true (rows t))), t).

(** The values of the INSERT (lines 64-71). *)
Definition new_email_config_row (now : Z) (sender server username password : string) (port : Z)
    (c : EmailConfigRequest) (id : Z) : EmailConfigRow := {|
  ec_id := id; ec_sender := sender; ec_server := server; ec_username := username;
  ec_password := password; ec_port := port; ec_ssl_enabled := bool_or_false (eq_ssl_enabled c);
  ec_created_at := now |}.

(** [addEmailConfig]: the port converted, the required fields checked,
    the port range checked, the INSERT and the row read back. *)
Definition addEmailConfig (now : Z) (c : EmailConfigRequest) : ST (table EmailConfigRow) EmailConfig :=
  match eq_sender c, eq_server c, eq_username c, eq_password c, eq_port c with
  | Some sender, Some server, Some username, Some password, Some p =>
      match port_of p with
      | Some n =>
          if str_missing (Some sender) || str_missing (Some server) || str_missing (Some username) ||
             str_missing (Some password) || port_missing (Some n)
          then st_err missing_config_fields
          else if negb (valid_port (Some n))
          then st_err ("Invalid port number: " ++ port_text p)
          else fun t =>
            let '(insertId, t1) := insert_row (new_email_config_row now sender server username password n c) t in
            match find_row (id_toString insertId) t1 with
            | Some r => (Ok (mapEmailConfigRow r), t1)
            | None => (Err missing_row_error, t1)
            end
      | None => st_err missing_config_fields
      end
  | _, _, _, _, _ => st_err missing_config_fields
  end.

(** The SET list of [updateEmailConfig] (lines 101-129). *)
Definition email_config_update_count (c : EmailConfigRequest) : nat :=
  List.length (List.filter (fun b : bool => b)
    [defined (eq_sender c); defined (eq_server c); defined (eq_username c); defined (eq_password c);
     defined (eq_port c); defined (eq_ssl_enabled c)]).

Definition apply_email_config_update (c : EmailConfigRequest) (port : option Z) (r : EmailConfigRow)
    : EmailConfigRow := {|
  ec_id := ec_id r; ec_sender := upd (eq_sender c) (ec_sender r); ec_server := upd (eq_server c) (ec_server r);
  ec_username := upd (eq_username c) (ec_username r); ec_password := upd (eq_password c) (ec_password r);
  ec_port := upd port (ec_port r); ec_ssl_enabled := upd (eq_ssl_enabled c) (ec_ssl_enabled r);
  ec_created_at := ec_created_at r |}.

(** [SELECT * FROM email_configs WHERE id = ?] and [mapEmailConfigRow(rows[0])]:
    a missing row is a [TypeError]. *)
Definition read_config (id : string) : ST (table EmailConfigRow) EmailConfig :=
  fun t => match find_row id t with
           | Some r => (Ok (mapEmailConfigRow r), t)
           | None => (Err missing_row_error, t)
           end.

(** [updateEmailConfig]: a given port is converted and checked while the
    SET list is built (lines 117-125), before anything is sent; without a
    column, the read; otherwise the UPDATE and the read. *)
Definition port_update (c : EmailConfigRequest) : ST (table EmailConfigRow) (option Z) :=
  match eq_port c with
  | Some p => if valid_port (port_of p) then st_ret (port_of p)
              else st_err ("Invalid port number: " ++ port_text p)
  | None => st_ret None
  end.

Definition updateEmailConfig (id : string) (c : EmailConfigRequest) : ST (table EmailConfigRow) EmailConfig :=
  port <- port_update c ;;
  match email_config_update_count c with
  | O => read_config id
  | S _ => (fun t => (Ok tt, update_where id (apply_email_config_update c port) t)) ;;; read_config id
  end.

(** [deleteEmailConfig]: the read, then the DELETE. *)
Definition deleteEmailConfig (id : string) : ST (table EmailConfigRow) (option EmailConfig) :=
  fun t => match find_row id t with
           | None => (Ok None, t)
           | Some r => (Ok (Some (mapEmailConfigRow r)), delete_where id t)
           end.

(** ** [EmailService.sendMail] *)

(** The mail [sendMail] is asked to send. *)
Record SendEmailForm := { sf_to : string; sf_subject : string; sf_text : string }.

(** The transport and the options [transporter.sendMail] is called with. *)
Record MailOptions := {
  mo_host : string;
  mo_port : Z;
  mo_secure : bool;
  mo_user : string;
  mo_pass : string;
  mo_from : string;
  mo_to : string;
  mo_subject : string;
  mo_html : string
}.

Section SendMail.
  (** [createDecipheriv('aes-256-ctr', key, iv)] over the two hex parts;
      [None] when it throws. *)
  Variable aes_decipher : string -> string -> option string.
  (** Whether the SMTP server accepts the mail. *)
  Variable smtp_accepts : MailOptions -> bool.

(** [decrypt]: an empty text is returned as is; otherwise it must be
    [iv:ciphertext], else it throws ([None]). *)
Definition decrypt (text : string) : option string :=
  if String.eqb text EmptyString then Some text
  else match TimeParse.split ":"%char text with
       | [iv; enc] => aes_decipher iv enc
       | _ => None
       end.

Definition mail_options (cfg : EmailConfig) (pass : string) (f : SendEmailForm) : MailOptions := {|
  mo_host := cf_server cfg; mo_port := cf_port cfg; mo_secure := cf_ssl_enabled cfg;
  mo_user := cf_username cfg; mo_pass := pass; mo_from := cf_sender cfg; mo_to := sf_to f;
  mo_subject := sf_subject f; mo_html := sf_text f |}.

(** [sendMail]: the newest configuration, the password decrypted, the
    mail sent; every failure is caught and answered with [null]. *)
Definition sendMail (f : SendEmailForm) : ST (table EmailConfigRow) (option MailOptions) :=
  cfgs <- getEmailConfig ;;
  match cfgs with
  | [] => st_ret None
  | cfg :: _ =>
      match decrypt (cf_password cfg) with
      | None => st_ret None
      | Some pass =>
          let opts := mail_options cfg pass f in
          st_ret (if smtp_accepts opts then Some opts else None)
      end
  end.
End SendMail.

(** ** The configuration writes *)

Inductive MailerOp :=
  | MAdd (c : EmailConfigRequest)
  | MUpdate (id : string) (c : EmailConfigRequest)
  | MDelete (id : string).

Definition run_mailer_op (now : Z) (op : MailerOp) : ST (table EmailConfigRow) unit :=
  match op with
  | MAdd c => addEmailConfig now c ;;; st_ret tt
  | MUpdate id c => updateEmailConfig id c ;;; st_ret tt
  | MDelete id => deleteEmailConfig id ;;; st_ret tt
  end.

(** Independent requests: a failed call leaves the table as it found it
    or changed, and the next request runs on it. *)
Fixpoint run_mailer_ops (now : Z) (ops : list MailerOp) (t : table EmailConfigRow) : table EmailConfigRow :=
  match ops with
  | [] => t
  | op :: rest => run_mailer_ops now rest (snd (run_mailer_op now op t))
  end.

(** Every stored port is a TCP port. *)
Definition ports_ok (t : table EmailConfigRow) : Prop :=
  Forall (fun r => 1 <= ec_port r <= 65535) (rows t).

Definition mailer_wf (t : table EmailConfigRow) : Prop := table_wf t /\ ports_ok t.

(** ** Lemmas *)

Lemma valid_port_bounds n : valid_port (Some n) = true -> 1 <= n <= 65535.
Proof. simpl. intros H. apply andb_prop in H as [H1 H2]. apply Z.leb_le in H1, H2. lia. Qed.

Lemma read_config_state id t : snd (read_config id t) = t.
Proof. unfold read_config. destruct (find_row id t); reflexivity. Qed.

Lemma addEmailConfig_wf now c t : mailer_wf t -> mailer_wf (snd (addEmailConfig now c t)).
Proof.
  intros [Hw Hp]. unfold addEmailConfig.
  destruct (eq_sender c) as [sender|], (eq_server c) as [server|], (eq_username c) as [username|],
    (eq_password c) as [password|], (eq_port c) as [p|]; try (split; assumption).
  destruct (port_of p) as [n|]; [|split; assumption].
  destruct (_ || _)%bool; [split; assumption|].
  destruct (valid_port (Some n)) eqn:Hv; [|split; assumption]. simpl negb. cbv iota.
  assert (Hi : mailer_wf (snd (insert_row (new_email_config_row now sender server username password n c) t))).
  { split; [apply insert_row_wf; [exact Hw | reflexivity]|].
    apply insert_row_Forall; [exact Hp|]. apply valid_port_bounds, Hv. }
  unfold insert_row in *. cbn -[find_row] in *. destruct (find_row _ _); exact Hi.
Qed.

Lemma port_update_ok c t port t' :
  port_update c t = (Ok port, t') -> t' = t /\ forall n, port = Some n -> 1 <= n <= 65535.
Proof.
  unfold port_update. destruct (eq_port c) as [p|].
  - destruct (valid_port (port_of p)) eqn:Hv; intros H; inversion H; subst; split; auto.
    intros n Hn. rewrite Hn in Hv. apply valid_port_bounds, Hv.
  - intros H; inversion H; subst. split; [reflexivity | discriminate].
Qed.

Lemma updateEmailConfig_wf id c t : mailer_wf t -> mailer_wf (snd (updateEmailConfig id c t)).
Proof.
  intros [Hw Hp]. unfold updateEmailConfig, st_bind at 1.
  destruct (port_update c t) as [[port|e] t1] eqn:E;
    [|unfold port_update in E; destruct (eq_port c) as [p|]; [destruct (valid_port _)|];
      inversion E; subst; split; assumption].
  apply port_update_ok in E as [-> Hport].
  destruct (email_config_update_count c); [rewrite read_config_state; split; assumption|].
  unfold st_bind. simpl. rewrite read_config_state. split.
  - apply update_where_wf; [reflexivity | exact Hw].
  - apply update_where_Forall; [exact Hp|]. intros r Hr. simpl.
    destruct port as [k|]; simpl; [apply Hport; reflexivity | exact Hr].
Qed.

Lemma deleteEmailConfig_wf id t : mailer_wf t -> mailer_wf (snd (deleteEmailConfig id t)).
Proof.
  intros [Hw Hp]. unfold deleteEmailConfig. destruct (find_row id t); [|split; assumption].
  split; [apply delete_where_wf, Hw | apply delete_where_Forall, Hp].
Qed.

(** C37 (bounds): from a well-formed [email_configs] table, every sequence
    of [addEmailConfig], [updateEmailConfig] and [deleteEmailConfig] calls,
    failing or not, keeps the table well formed and every stored port in
    1..65535: both writes reject a port outside that range (or [NaN])
    before anything is sent. *)
Theorem mailer_ops_keep_ports (now : Z) (ops : list MailerOp) (t : table EmailConfigRow) :
  mailer_wf t -> mailer_wf (run_mailer_ops now ops t).
Proof.
  revert t. induction ops as [|op ops IH]; intros t Ht; [exact Ht|]. apply IH.
  destruct op; simpl; apply (st_bind_inv mailer_wf); try (intros _ s' Hs'; exact Hs'); auto;
    intros _; [apply addEmailConfig_wf | apply updateEmailConfig_wf | apply deleteEmailConfig_wf]; exact Ht.
Qed.

(** What a successful [addEmailConfig] stored. *)
Lemma addEmailConfig_ok now c t cfg t' :
  addEmailConfig now c t = (Ok cfg, t') ->
  exists sender server username password n,
    eq_sender c = Some sender /\ eq_password c = Some password /\ password <> EmptyString /\
    t' = snd (insert_row (new_email_config_row now sender server username password n c) t).
Proof.
  unfold addEmailConfig.
  destruct (eq_sender c) as [sender|], (eq_server c) as [server|], (eq_username c) as [username|],
    (eq_password c) as [password|], (eq_port c) as [p|]; try discriminate.
  destruct (port_of p) as [n|]; [|discriminate].
  destruct (str_missing (Some password)) eqn:Hpw; [rewrite !orb_true_r; discriminate|].
  destruct (_ || _)%bool; [discriminate|]. destruct (negb _); [discriminate|].
  unfold insert_row. cbn -[find_row]. intros H.
  exists sender, server, username, password, n. split; [reflexivity|]. split; [reflexivity|]. split.
  - intros ->. discriminate Hpw.
  - destruct (find_row _ _); inversion H; reflexivity.
Qed.

(** The newest configuration is the one stored last, when it is the
    newest by [created_at]. *)
Lemma newest_config_inserted (mk : Z -> EmailConfigRow) (t : table EmailConfigRow) now :
  (forall r, In r (rows t) -> ec_created_at r < now) -> ec_created_at (mk (next_id t)) = now ->
  exists rest, sort_by ec_created_at true (rows (snd (insert_row mk t))) = mk (next_id t) :: rest.
Proof.
  intros Hold Hnew. set (l := rows (snd (insert_row mk t))).
  assert (Hin : In (mk (next_id t)) l) by (apply in_or_app; right; left; reflexivity).
  destruct (sort_by ec_created_at true l) as [|h rest] eqn:Hs.
  - apply (f_equal (@List.length _)) in Hs. rewrite length_sort_by in Hs.
    destruct l; [contradiction | discriminate].
  - exists rest. pose proof (sort_by_head_le ec_created_at true l h rest Hs _ Hin) as Hle.
    unfold key_le in Hle. apply Z.leb_le in Hle.
    assert (Hh : In h l) by (apply (In_sort_by ec_created_at true); rewrite Hs; left; reflexivity).
    apply in_app_or in Hh as [Hh|[<-|[]]]; [|reflexivity].
    specialize (Hold h Hh). lia.
Qed.

(** [sendMail] right after a successful [addEmailConfig] whose row is the
    newest: it uses the stored password as the request gave it. *)
Lemma sendMail_after_add (aes_decipher : string -> string -> option string)
    (smtp_accepts : MailOptions -> bool) now c t cfg t' f :
  (forall r, In r (rows t) -> ec_created_at r < now) ->
  addEmailConfig now c t = (Ok cfg, t') ->
  exists sender server username password n,
    eq_password c = Some password /\ password <> EmptyString /\
    sendMail aes_decipher smtp_accepts f t' =
      (Ok (match decrypt aes_decipher password with
           | None => None
           | Some pass =>
               let opts := mail_options (mapEmailConfigRow
                             (new_email_config_row now sender server username password n c (next_id t))) pass f in
               if smtp_accepts opts then Some opts else None
           end), t').
Proof.
  intros Hold Hadd.
  destruct (addEmailConfig_ok _ _ _ _ _ Hadd) as (sender & server & username & password & n & _ & Hp & Hne & ->).
  destruct (newest_config_inserted (new_email_config_row now sender server username password n c) t now Hold eq_refl)
    as [rest Hs].
  exists sender, server, username, password, n. split; [exact Hp | split; [exact Hne|]].
  unfold sendMail, st_bind, getEmailConfig. rewrite Hs. simpl. destruct (decrypt aes_decipher password); reflexivity.
Qed.

(** A password saved as typed (without a [:]) by the newest
    [addEmailConfig] makes every later [sendMail] answer [null]. *)
Lemma sendMail_typed_password (aes_decipher : string -> string -> option string)
    (smtp_accepts : MailOptions -> bool) (now : Z) (c : EmailConfigRequest) (t : table EmailConfigRow)
    (cfg : EmailConfig) (t' : table EmailConfigRow) (pw : string) (f : SendEmailForm) :
  (forall r, In r (rows t) -> ec_created_at r < now) ->
  eq_password c = Some pw -> TimeParse.has_char ":" pw = false ->
  addEmailConfig now c t = (Ok cfg, t') ->
  sendMail aes_decipher smtp_accepts f t' = (Ok None, t').
Proof.
  intros Hold Hpw Hcolon Hadd.
  destruct (sendMail_after_add aes_decipher smtp_accepts _ _ _ _ _ f Hold Hadd)
    as (sender & server & username & password & n & Hp & Hne & ->).
  rewrite Hpw in Hp. injection Hp as <-.
  unfold decrypt. destruct (String.eqb pw EmptyString) eqn:He; [apply String.eqb_eq in He; contradiction|].
  rewrite (TimeParse.split_no_sep _ _ Hcolon). reflexivity.
Qed.

(** C38 (safety, finding): [sendMail] decrypts the stored password of the
    newest configuration, but neither [addEmailConfig] nor
    [EmailService.addEmailConfig] encrypts it: once a configuration is
    saved with its password as typed (without a [:]), every [sendMail]
    sends nothing and answers [null], whatever the cipher and the SMTP
    server do. *)
Theorem plain_password_disables_mail (aes_decipher : string -> string -> option string)
    (smtp_accepts : MailOptions -> bool) (now : Z) (c : EmailConfigRequest) (t : table EmailConfigRow)
    (cfg : EmailConfig) (t' : table EmailConfigRow) (pw : string) (f : SendEmailForm) :
  (forall r, In r (rows t) -> ec_created_at r < now) ->
  eq_password c = Some pw -> TimeParse.has_char ":" pw = false ->
  addEmailConfig now c t = (Ok cfg, t') ->
  sendMail aes_decipher smtp_accepts f t' = (Ok None, t').
Proof. exact (sendMail_typed_password aes_decipher smtp_accepts now c t cfg t' pw f). Qed.

(** ** Concrete runs *)

Definition smtp_config (password : string) (port : PortValue) : EmailConfigRequest := {|
  eq_sender := Some "office@example.com"; eq_server := Some "smtp.example.com";
  eq_username := Some "office"; eq_password := Some password; eq_port := Some port;
  eq_ssl_enabled := None |}.

Definition port_only (port : PortValue) : EmailConfigRequest := {|
  eq_sender := None; eq_server := None; eq_username := None; eq_password := None;
  eq_port := Some port; eq_ssl_enabled := None |}.

Definition mailer_demo_ops : list MailerOp :=
  [MAdd (smtp_config "secret" (PortString "587")); MAdd (smtp_config "secret" (PortNumber 70000));
   MUpdate "1" (port_only (PortString "0")); MUpdate "1" (port_only (PortString "465")); MDelete "9"].

Lemma mailer_ops_keep_ports_witness :
  mailer_wf (run_mailer_ops 5 mailer_demo_ops empty_table).
Proof.
  apply mailer_ops_keep_ports. split; [apply empty_table_wf | constructor].
Defined.

(** The port [587] of the first configuration became [465]; the second
    configuration (port 70000) and the update to port 0 were refused. *)
Example mailer_demo_ports :
  map ec_port (rows (run_mailer_ops 5 mailer_demo_ops empty_table)) = [465].
Proof. vm_compute. reflexivity. Qed.

Definition cipher_ok (iv enc : string) : option string := Some "secret".
Definition smtp_up (o : MailOptions) : bool := true.
Definition welcome : SendEmailForm := {| sf_to := "anna@example.com"; sf_subject := "Hi"; sf_text := "Welcome" |}.

Definition typed_config : table EmailConfigRow := snd (addEmailConfig 5 (smtp_config "secret" (PortString "587")) empty_table).

Lemma plain_password_disables_mail_witness :
  sendMail cipher_ok smtp_up welcome typed_config = (Ok None, typed_config).
Proof.
  apply (plain_password_disables_mail cipher_ok smtp_up 5 (smtp_config "secret" (PortString "587")) empty_table
           (mapEmailConfigRow (new_email_config_row 5 "office@example.com" "smtp.example.com" "office" "secret" 587
                                 (smtp_config "secret" (PortString "587")) 1))
           typed_config "secret" welcome).
  - intros r [].
  - reflexivity.
  - reflexivity.
  - vm_compute. reflexivity.
Defined.

(** A password stored as [iv:ciphertext] is deciphered and the mail goes
    out from the configuration's sender. *)
Example encrypted_password_sends :
  option_map mo_from (match fst (sendMail cipher_ok smtp_up welcome
                                   (snd (addEmailConfig 5 (smtp_config "0a1b:9f8e" (PortString "587")) empty_table)))
                      with Ok o => o | Err _ => None end) = Some "office@example.com".
Proof. vm_compute. reflexivity. Qed.

(** A port that is not a number is reported as a missing field; a number
    out of range as an invalid port; a string is read by [parseInt]. *)
Example port_validation :
  fst (addEmailConfig 5 (smtp_config "s" (PortString "smtp")) empty_table) = Err missing_config_fields /\
  fst (addEmailConfig 5 (smtp_config "s" (PortNumber 70000)) empty_table) = Err "Invalid port number: 70000" /\
  option_map cf_port (match fst (addEmailConfig 5 (smtp_config "s" (PortString "25 (plain)")) empty_table)
                      with Ok c => Some c | Err _ => None end) = Some 25.
Proof. vm_compute. repeat split. Qed.

(** The update of an unknown id throws a [TypeError] rather than
    answering [null]. *)
Example updateEmailConfig_unknown_id :
  updateEmailConfig "9" (port_only (PortNumber 25)) typed_config = (Err missing_row_error, typed_config).
Proof. vm_compute. reflexivity. Qed.

End MailerStore.
