(* ===== verification/Encryption.v ===== *)
(** [server/utils/encryption.ts]: the key of [getEncryptionKey] (lines
    9-23), [encrypt] (27-42) and the decipher [decrypt] relies on (55-60),
    which [MailerStore] keeps abstract.  Bytes are [ascii]; a [Buffer] is
    a [string] of bytes.  AES-256 is a section variable: the keystream of
    the key and the initialization vector, which CTR mode XORs with the
    text in both directions; SHA-256 and [randomBytes] are variables too.
    [toString('utf8')] is taken to give the bytes back unchanged. *)

From Stdlib Require Import ZArith List String Ascii Bool Lia Arith.
From S2P Require Import Prelude TimeParse Json Schedule Table MailerStore.
Import ListNotations.

Module Encryption.
Local Open Scope string_scope.
Local Open Scope nat_scope.

(** ** Hexadecimal *)

(** [buf.toString('hex')]: two lower-case digits per byte. *)
Fixpoint hex_encode (s : string) : string :=
  match s with
  | EmptyString => EmptyString
  | String c s' =>
      let n := nat_of_ascii c in
      String (Json.hex_digit (n / 16)) (String (Json.hex_digit (n mod 16)) (hex_encode s'))
  end.

(** [Buffer.from(s, 'hex')]: Node decodes pairs of digits and stops at
    the first pair that is not one, or at a lone last digit. *)
Fixpoint hex_decode (s : string) : string :=
  match s with
  | String a (String b s') =>
      match Json.hex_value a, Json.hex_value b with
      | Some x, Some y => String (ascii_of_nat (x * 16 + y)) (hex_decode s')
      | _, _ => EmptyString
      end
  | _ => EmptyString
  end.

(** ** The key *)

(** [/^[0-9a-fA-F]{64}$/]. *)
Definition is_hex64 (s : string) : bool :=
  (String.length s =? 64) && forallb (fun c => match Json.hex_value c with Some _ => true | None => false end)
                                     (list_ascii_of_string s).

Section Cipher.
(** [crypto.createHash('sha256').update(raw).digest()]. *)
Variable sha256 : string -> string.
(** The AES-256-CTR keystream of a key and an initialization vector:
    its [i]-th byte. *)
Variable keystream : string -> string -> nat -> ascii.

(** [getEncryptionKey] on [getEnv().encryption_key]; [None] is the
    error thrown when the key is not configured. *)
Definition getEncryptionKey (raw : option string) : option string :=
  match raw with
  | None => None
  | Some r =>
      if String.eqb r EmptyString then None
      else if is_hex64 r then Some (hex_decode r) else Some (sha256 r)
  end.

(** Bitwise exclusive or of two bytes. *)
Definition xor_byte (a b : ascii) : ascii :=
  match a, b with
  | Ascii a0 a1 a2 a3 a4 a5 a6 a7, Ascii b0 b1 b2 b3 b4 b5 b6 b7 =>
      Ascii (xorb a0 b0) (xorb a1 b1) (xorb a2 b2) (xorb a3 b3)
            (xorb a4 b4) (xorb a5 b5) (xorb a6 b6) (xorb a7 b7)
  end.

(** [cipher.update(text)] and [cipher.final()] in CTR mode from byte [i]
    of the keystream on. *)
Fixpoint ctr_from (key iv : string) (i : nat) (s : string) : string :=
  match s with
  | EmptyString => EmptyString
  | String c s' => String (xor_byte c (keystream key iv i)) (ctr_from key iv (S i) s')
  end.

Definition ctr (key iv text : string) : string := ctr_from key iv 0 text.

Definition IV_LENGTH : nat := 16.

(** [encrypt] with the 16 bytes [iv] that [crypto.randomBytes] drew. *)
Definition encrypt (key iv text : string) : string :=
  if String.eqb text EmptyString then text
  else hex_encode iv ++ String ":"%char (hex_encode (ctr key iv text)).

(** Lines 55-60 of [decrypt]: [createDecipheriv] throws ([None]) unless
    the vector has 16 bytes.  This is [MailerStore]'s [aes_decipher]. *)
Definition aes_decipher (key : string) (ivHex encHex : string) : option string :=
  let iv := hex_decode ivHex in
  if String.length iv =? IV_LENGTH then Some (ctr key iv (hex_decode encHex)) else None.

End Cipher.

(** ** Lemmas *)

Lemma xorb_invol (x y : bool) : xorb (xorb x y) y = x.
Proof. destruct x, y; reflexivity. Qed.

Lemma xor_byte_invol a k : xor_byte (xor_byte a k) k = a.
Proof. destruct a, k. simpl. rewrite !xorb_invol. reflexivity. Qed.

(** CTR mode is its own inverse. *)
Lemma ctr_from_invol keystream key iv i s :
  ctr_from keystream key iv i (ctr_from keystream key iv i s) = s.
Proof.
  revert i. induction s as [|c s IH]; intros i; simpl; [reflexivity|].
  now rewrite xor_byte_invol, IH.
Qed.

(** The two digits of a byte read back as the byte, and neither is a
    colon: by cases on the 256 bytes. *)
Lemma hex_decode_byte c s : hex_decode (hex_encode (String c s)) = String c (hex_decode (hex_encode s)).
Proof. destruct c as [[] [] [] [] [] [] [] []]; reflexivity. Qed.

Lemma hex_encode_no_colon_byte c s :
  TimeParse.has_char ":"%char (hex_encode (String c s)) = TimeParse.has_char ":"%char (hex_encode s).
Proof. destruct c as [[] [] [] [] [] [] [] []]; reflexivity. Qed.

Lemma hex_decode_encode s : hex_decode (hex_encode s) = s.
Proof. induction s as [|c s IH]; [reflexivity|]. now rewrite hex_decode_byte, IH. Qed.

Lemma hex_encode_no_colon s : TimeParse.has_char ":"%char (hex_encode s) = false.
Proof. induction s as [|c s IH]; [reflexivity|]. now rewrite hex_encode_no_colon_byte. Qed.

(** ** Theorems *)

Lemma decrypt_of_encrypt keystream key iv text :
  String.length iv = IV_LENGTH ->
  MailerStore.decrypt (aes_decipher keystream key) (encrypt keystream key iv text) = Some text.
Proof.
  intros Hiv. unfold encrypt. destruct (String.eqb text EmptyString) eqn:E.
  - apply String.eqb_eq in E. subst. reflexivity.
  - unfold MailerStore.decrypt.
    destruct (String.eqb (hex_encode iv ++ _) EmptyString) eqn:E2.
    + apply String.eqb_eq in E2. destruct iv; discriminate.
    + rewrite (TimeParse.split_app_sep _ _ _ (hex_encode_no_colon iv)),
        (TimeParse.split_no_sep _ _ (hex_encode_no_colon _)).
      unfold aes_decipher. rewrite !hex_decode_encode, Hiv, Nat.eqb_refl.
      unfold ctr. now rewrite ctr_from_invol.
Qed.

(** C30 (roundtrip): [decrypt] inverts [encrypt] for every key, every text and every
    16-byte vector [randomBytes] may draw. *)
Theorem decrypt_encrypt keystream key iv text :
  String.length iv = IV_LENGTH ->
  MailerStore.decrypt (aes_decipher keystream key) (encrypt keystream key iv text) = Some text.
Proof. exact (decrypt_of_encrypt keystream key iv text). Qed.

(** Had the configuration's password been stored encrypted with the
    key the server uses, [EmailService.sendMail] would log in with the
    password as typed: [encrypt] is the one call [addEmailConfig] lacks
    (compare [MailerStore.plain_password_disables_mail]). *)
Theorem encrypted_config_sends keystream key iv now c t cfg t' pw f :
  String.length iv = IV_LENGTH ->
  (forall r, In r (Table.rows t) -> (MailerStore.ec_created_at r < now)%Z) ->
  MailerStore.eq_password c = Some (encrypt keystream key iv pw) ->
  MailerStore.addEmailConfig now c t = (Ok cfg, t') ->
  exists opts, MailerStore.sendMail (aes_decipher keystream key) (fun _ => true) f t' = (Ok (Some opts), t') /\
               MailerStore.mo_pass opts = pw.
Proof.
  intros Hiv Hold Hpw Hadd.
  destruct (MailerStore.sendMail_after_add (aes_decipher keystream key) (fun _ => true) _ _ _ _ _ f Hold Hadd)
    as (sender & server & username & password & n & Hp & _ & ->).
  rewrite Hpw in Hp. injection Hp as <-. rewrite decrypt_of_encrypt by exact Hiv.
  eexists. split; reflexivity.
Qed.

(** ** Concrete runs *)

(** A key of 64 hexadecimal digits is used as it is, any other is hashed,
    and a missing one throws. *)
Example key_forms :
  getEncryptionKey (fun _ => "H") (Some "00112233445566778899aabbccddeeff00112233445566778899aabbccddeeff") =
    Some (hex_decode "00112233445566778899aabbccddeeff00112233445566778899aabbccddeeff") /\
  getEncryptionKey (fun _ => "H") (Some "secret") = Some "H" /\
  getEncryptionKey (fun _ => "H") None = None /\
  String.length (hex_decode "00112233445566778899aabbccddeeff00112233445566778899aabbccddeeff") = 32.
Proof. vm_compute. repeat split. Qed.

Lemma decrypt_encrypt_witness :
  MailerStore.decrypt (aes_decipher (fun k iv i => ascii_of_nat (i * 7 mod 256)) "k")
    (encrypt (fun k iv i => ascii_of_nat (i * 7 mod 256)) "k" "0123456789abcdef" "geheim") = Some "geheim".
Proof. apply decrypt_encrypt. reflexivity. Defined.

(** [Buffer.from] stops at the first pair that is not hexadecimal, so a
    vector with a typo is shorter than 16 bytes and [decrypt] throws. *)
Example bad_vector_throws :
  hex_decode "0a0bzz0c" = String (ascii_of_nat 10) (String (ascii_of_nat 11) EmptyString) /\
  aes_decipher (fun _ _ _ => "000"%char) "k" "00112233445566778899aabbccddeezz" "41" = None.
Proof. vm_compute. split; reflexivity. Qed.

End Encryption.
