(* ===== verification/TemplateStore.v ===== *)
(** [EmailTemplateDaoMySql]
    (database-client/src/EmailTemplates/EmailTemplateDaoMySql.ts) on the
    [email_templates] table: [getEmailTemplates] (lines 24-37),
    [getEmailTemplatesByServiceId] (44-61), [addEmailTemplate] (68-95),
    [updateEmailTemplate] (103-154), [deleteEmailTemplate] (161-183) and
    [mapEmailTemplateRow] (188-198).  The schema is not in the repository;
    [service_id] is taken to be an integer column, as the mapping's
    [row.service_id.toString()] suggests, so a string that is not a number
    is refused ("Incorrect integer value"). *)

From Stdlib Require Import ZArith List String Bool Lia.
From stdpp Require Import base.
From S2P Require Import Prelude TimeParse Schedule Table ContactStore Catalog CalendarStore.
Import ListNotations.
Open Scope Z_scope.
Open Scope sched_scope.

Module TemplateStore.
Import Schedule Table ContactStore Catalog CalendarStore.
Local Open Scope string_scope.

(** A row of [email_templates]. *)
Record EmailTemplateRow := {
  et_id : Z;
  et_type : string;
  et_subject : string;
  et_template : string;
  et_service_id : option Z;
  et_created_at : Z
}.

#[export] Instance email_template_id : HasId EmailTemplateRow := et_id.

(** The [EmailTemplate] object of [mapEmailTemplateRow]. *)
Record EmailTemplate := {
  tp_id : string;
  tp_type : string;
  tp_subject : string;
  tp_template : string;
  tp_service_id : option string;
  tp_createdAt : Z
}.

(** [row.service_id ? row.service_id.toString() : undefined]: a service
    id of 0 is falsy. *)
Definition mapEmailTemplateRow (r : EmailTemplateRow) : EmailTemplate := {|
  tp_id := id_toString (et_id r); tp_type := et_type r; tp_subject := et_subject r;
  tp_template := et_template r;
  tp_service_id := match et_service_id r with
                   | Some n => if Z.eqb n 0 then None else Some (id_toString n)
                   | None => None
                   end;
  tp_createdAt := et_created_at r |}.

(** [Partial<EmailTemplate>]; [None] is [undefined]. *)
Record EmailTemplateRequest := {
  tq_type : option string;
  tq_subject : option string;
  tq_template : option string;
  tq_service_id : option string
}.

Definition incorrect_integer : string := "Incorrect integer value".

(** A string bound to the integer column [service_id]. *)
Definition service_id_column (s : string) : Result Z :=
  match TimeParse.Number s with Some n => Ok n | None => Err incorrect_integer end.

(** [SELECT * FROM email_templates WHERE type = ? ORDER BY created_at DESC]. *)
Definition getEmailTemplates (type : string) : ST (table EmailTemplateRow) (list EmailTemplate) :=
  fun t => (Ok (map mapEmailTemplateRow
                   (sort_by et_created_at true (List.filter (fun r => sql_str_eq (et_type r) type) (rows t)))), t).

(** [SELECT * FROM email_templates WHERE service_id = ? LIMIT 1]. *)
Definition template_by_service (serviceId : string) (t : table EmailTemplateRow) : option EmailTemplateRow :=
  hd_error (List.filter (fun r => match et_service_id r with Some n => sql_id_eq serviceId n | None => false end)
                        (rows t)).

Definition getEmailTemplatesByServiceId (serviceId : string) : ST (table EmailTemplateRow) (option EmailTemplate) :=
  fun t => (Ok (option_map mapEmailTemplateRow (template_by_service serviceId t)), t).

Definition new_template_row (now : Z) (type subject template : string) (sid : option Z) (id : Z)
    : EmailTemplateRow :=
  {| et_id := id; et_type := type; et_subject := subject; et_template := template;
     et_service_id := sid; et_created_at := now |}.

(** [addEmailTemplate]: the INSERT with [service_id || null], then the row
    read back. *)
Definition addEmailTemplate (now : Z) (c : EmailTemplateRequest) : ST (table EmailTemplateRow) EmailTemplate :=
  match tq_type c, tq_subject c, tq_template c with
  | Some type, Some subject, Some template =>
      let sid := match or_null (tq_service_id c) with
                 | Some s => match service_id_column s with Ok n => Ok (Some n) | Err e => Err e end
                 | None => Ok None
                 end in
      match sid with
      | Err e => st_err e
      | Ok sid =>
          fun t =>
            let '(insertId, t1) := insert_row (new_template_row now type subject template sid) t in
            match find_row (id_toString insertId) t1 with
            | Some r => (Ok (mapEmailTemplateRow r), t1)
            | None => (Err missing_row_error, t1)
            end
      end
  | _, _, _ => st_err bind_undefined
  end.

(** The SET list of [updateEmailTemplate] (lines 113-128). *)
Definition template_update_count (c : EmailTemplateRequest) : nat :=
  List.length (List.filter (fun b : bool => b)
    [defined (tq_type c); defined (tq_subject c); defined (tq_template c); defined (tq_service_id c)]).

Definition apply_template_update (c : EmailTemplateRequest) (sid : option Z) (r : EmailTemplateRow)
    : EmailTemplateRow := {|
  et_id := et_id r; et_type := upd (tq_type c) (et_type r); et_subject := upd (tq_subject c) (et_subject r);
  et_template := upd (tq_template c) (et_template r);
  et_service_id := match tq_service_id c with Some _ => sid | None => et_service_id r end;
  et_created_at := et_created_at r |}.

(** [SELECT * FROM email_templates WHERE id = ?] and
    [mapEmailTemplateRow(rows[0])]: a missing row is a [TypeError]. *)
Definition read_template (id : string) : ST (table EmailTemplateRow) EmailTemplate :=
  fun t => match find_row id t with
           | Some r => (Ok (mapEmailTemplateRow r), t)
           | None => (Err missing_row_error, t)
           end.

(** [updateEmailTemplate]: without a column, the read; otherwise the
    UPDATE (refused when it would store a string that is not a number in
    [service_id] of an existing row) and the read. *)
Definition updateEmailTemplate (id : string) (c : EmailTemplateRequest) : ST (table EmailTemplateRow) EmailTemplate :=
  match template_update_count c with
  | O => read_template id
  | S _ =>
      (fun t =>
         let sid := match tq_service_id c with
                    | Some s => match service_id_column s with Ok n => Ok (Some n) | Err e => Err e end
                    | None => Ok None
                    end in
         match sid, find_row id t with
         | Err e, Some _ => (Err e, t)
         | Ok sid, _ => (Ok tt, update_where id (apply_template_update c sid) t)
         | Err _, None => (Ok tt, t)
         end) ;;;
      read_template id
  end.

(** [deleteEmailTemplate]: the read, then the DELETE. *)
Definition deleteEmailTemplate (id : string) : ST (table EmailTemplateRow) (option EmailTemplate) :=
  fun t => match find_row id t with
           | None => (Ok None, t)
           | Some r => (Ok (Some (mapEmailTemplateRow r)), delete_where id t)
           end.

(** ** Lemmas *)

Lemma addEmailTemplate_run now c t type subject template sid :
  table_wf t -> tq_type c = Some type -> tq_subject c = Some subject -> tq_template c = Some template ->
  match or_null (tq_service_id c) with
  | Some s => match service_id_column s with Ok n => Ok (Some n) | Err e => Err e end
  | None => Ok None
  end = Ok sid ->
  addEmailTemplate now c t =
    (Ok (mapEmailTemplateRow (new_template_row now type subject template sid (next_id t))),
     snd (insert_row (new_template_row now type subject template sid) t)).
Proof.
  intros Hw Hty Hs Htp Hsid. unfold addEmailTemplate. rewrite Hty, Hs, Htp, Hsid.
  pose proof (find_row_insert (new_template_row now type subject template sid) t Hw eq_refl) as Hf.
  unfold insert_row in *. cbn -[find_row] in *. rewrite Hf. reflexivity.
Qed.

(** The booking mail's template lookup after a new template: an older
    template of the same service still wins, since the query has no
    [ORDER BY]; the new template is found only for a service that had
    none. *)
Lemma addEmailTemplate_lookup now c t type subject template sid serviceId :
  table_wf t -> tq_type c = Some type -> tq_subject c = Some subject -> tq_template c = Some template ->
  match or_null (tq_service_id c) with
  | Some s => match service_id_column s with Ok n => Ok (Some n) | Err e => Err e end
  | None => Ok None
  end = Ok sid ->
  template_by_service serviceId (snd (addEmailTemplate now c t)) =
    match template_by_service serviceId t with
    | Some r => Some r
    | None => match sid with
              | Some n => if sql_id_eq serviceId n then Some (new_template_row now type subject template sid (next_id t))
                          else None
              | None => None
              end
    end.
Proof.
  intros Hw Hty Hs Htp Hsid. rewrite (addEmailTemplate_run now c t type subject template sid Hw Hty Hs Htp Hsid).
  unfold template_by_service, insert_row. simpl. rewrite !find_filter_hd, find_app_first.
  destruct (List.find _ (rows t)); [reflexivity|]. simpl. destruct sid; reflexivity.
Qed.

(** [addEmailTemplate] leaves the table as it was or inserts one row. *)
Lemma addEmailTemplate_state now c t :
  snd (addEmailTemplate now c t) = t \/ exists mk, snd (addEmailTemplate now c t) = snd (insert_row mk t).
Proof.
  unfold addEmailTemplate.
  destruct (tq_type c), (tq_subject c), (tq_template c); try (left; reflexivity).
  destruct (match or_null (tq_service_id c) with
            | Some s => match service_id_column s with Ok n => Ok (Some n) | Err e => Err e end
            | None => Ok None end) as [sid|e]; [|left; reflexivity].
  right. eexists. unfold insert_row. cbn -[find_row]. destruct (find_row _ _); reflexivity.
Qed.

(** An insert never changes the template a service already has. *)
Lemma template_by_service_insert_keep serviceId mk t r :
  template_by_service serviceId t = Some r -> template_by_service serviceId (snd (insert_row mk t)) = Some r.
Proof.
  unfold template_by_service, insert_row. cbn. rewrite !find_filter_hd, find_app_first. intros ->. reflexivity.
Qed.

(** ** Concrete runs *)

Definition confirmation (serviceId : option string) (text : string) : EmailTemplateRequest :=
  {| tq_type := Some "Confirmation"; tq_subject := Some "Ihr Termin"; tq_template := Some text;
     tq_service_id := serviceId |}.

Definition two_templates : table EmailTemplateRow :=
  snd ((addEmailTemplate 1 (confirmation (Some "3") "old text") ;;;
        addEmailTemplate 2 (confirmation (Some "3") "new text")) empty_table).

Example older_template_wins :
  option_map tp_template (match fst (getEmailTemplatesByServiceId "3" two_templates) with
                          | Ok o => o | Err _ => None end) = Some "old text" /\
  map tp_template (match fst (getEmailTemplates "confirmation" two_templates) with
                   | Ok l => l | Err _ => [] end) = ["new text"; "old text"].
Proof. vm_compute. split; reflexivity. Qed.

Example template_service_checks :
  fst (addEmailTemplate 1 (confirmation (Some "oil") "x") empty_table) = Err incorrect_integer /\
  option_map tp_service_id (match fst (addEmailTemplate 1 (confirmation (Some "") "x") empty_table)
                            with Ok o => Some o | Err _ => None end) = Some None /\
  option_map tp_service_id (match fst (addEmailTemplate 1 (confirmation (Some "0") "x") empty_table)
                            with Ok o => Some o | Err _ => None end) = Some None.
Proof. vm_compute. repeat split. Qed.

Example updateEmailTemplate_unknown_id :
  updateEmailTemplate "9" (confirmation None "x") two_templates = (Err missing_row_error, two_templates).
Proof. vm_compute. reflexivity. Qed.

End TemplateStore.
