(* ===== verification/AppointmentController.v ===== *)
(** The HTTP handler [AppointmentsControllers.addAppointment]
    (server/app/appointment/controller.ts, lines 17-323) on the database
    state: the contract upload, the contact upsert by email through
    [ContactDaoMySql], the field check, the insert through
    [AppointmentDaoMySql.addAppointment], and the mails it sends; and the
    types the handlers of [AppointmentHandlers] share (the bodies and
    responses).  A thrown error ([next(error)]) is [Thrown].  The
    collaborators without logic of their own are section variables: the
    bcrypt hash, the outcome of the contract upload, the e-mail template of
    the service, the German date formatting of [toLocaleDateString] and
    [toLocaleString], and the HTML body of the company notification; the
    [email_configs] table, the AES decipher and the SMTP server are those
    of [MailerStore.sendMail], through which every mail goes.  The name of
    the service is [getServiceNameByCategory], which is always
    [undefined].  [EmailService.sendMail] catches its own failures and
    answers [null], so the handler goes on either way: a mail is in the
    output iff [sendMail] delivered it. *)

From Stdlib Require Import ZArith List String Ascii Bool Lia.
From S2P Require Import Prelude JsDate TimeParse Schedule Slots Appointment Database Conflict AppointmentStore ContactStore Availability Table Catalog MailerStore.
Import ListNotations.
Open Scope Z_scope.
Local Open Scope string_scope.

Module AppointmentController.
Import JsDate TimeParse Schedule Slots Appointment Database Conflict AppointmentStore ContactStore Availability Table.

Record Mail := { mail_to : string; mail_subject : string; mail_text : string }.

(** [ExtendedAppointment]: an appointment with its service, if any. *)
Definition ExtendedAppointment : Type := Appointment * option Service.

(** The bodies the handlers answer with. *)
Inductive Body :=
  | BMessage (message : string)
  | BError (error : string)
  | BStatus (status : string)
  | BAppointmentWithContact (appointment : Appointment) (contact : Contact)
  | BUpdated (appointment : option Appointment) (contact : Contact)
  | BAppointments (appointments : list ExtendedAppointment)
  | BSlots (slots : list TimeSlot)
  | BWorkbook (rows : list (list (string * string))).

(** [res.status(s).json(b)], an error passed to [next], or no answer at
    all (a promise that never settles). *)
Inductive Response :=
  | Json (status : Z) (body : Body)
  | Thrown (error : string)
  | Pending.

(** [AppointmentsService.getServiceNameByCategory] (lines 433-443): it
    returns [data?.services?.[0]?.name] of the [Service] found, and a
    [Service] has no [services] field: the result is [undefined] whether a
    service is found or not. *)
Definition getServiceNameByCategory (categoryId serviceId : option string) : option string := None.

(** The contact object of the request body, with its [sign_url]. *)
Record ContactForm := { cf_fields : ContactRequest; cf_sign_url : option string }.

(** [request.body as Appointment]: the fields the handler reads. *)
Record AppointmentForm := {
  af_contact : ContactForm;
  af_category_id : option string;
  af_service_id : option string;
  af_calendar_id : option string;
  af_start_date : option Z;
  af_end_date : option Z;
  af_appointment_status : option string;
  af_archived : option bool;
  af_remarks : option string;
  af_brand_of_device : option string;
  af_model : option string;
  af_year : option string
}.

(** JS truthiness of an optional string. *)
Definition truthy_s (o : option string) : bool := negb (falsy_str o).

(** [x || undefined] on an optional string. *)
Definition or_undefined (o : option string) : option string :=
  if truthy_s o then o else None.

(** [x || ''] on an optional string. *)
Definition or_empty (o : option string) : string :=
  match o with Some s => s | None => EmptyString end.

(** [${x}] of a value read from the database: SQL NULL prints as "null". *)
Definition show_db (o : option string) : string :=
  match o with Some s => s | None => "null" end.

(** [n.toString().padStart(2, '0')]. *)
Definition pad2 (n : Z) : string :=
  let s := id_toString n in if (String.length s <? 2)%nat then "0" ++ s else s.

(** [formatTime] (lines 102-107): the UTC hour and minute. *)
Definition formatTime (t : Z) : string := pad2 (getUTCHours t) ++ ":" ++ pad2 (getUTCMinutes t).

(** [s.replace(pat, rep)] with a string pattern: the first occurrence only. *)
Fixpoint replace_first (pat rep s : string) : string :=
  if String.prefix pat s then rep ++ substring (String.length pat) (String.length s - String.length pat) s
  else match s with
       | String c s' => String c (replace_first pat rep s')
       | EmptyString => EmptyString
       end.

Definition default_customer_email : string :=
  "Sehr geehrter Kunde, wir haben Ihre Bewerbung erhalten und werden uns bald mit Ihnen in Verbindung setzen!<p>beste grüße,</p><img src='https://firebasestorage.googleapis.com/v0/b/b-gas-13308.appspot.com/o/bgas-logo.png?alt=media&token=7ebf87ca-c995-4266-b660-a4c354460ace' alt='Company Signature Logo' width='150'>".

Definition default_customer_subject : string := "B-Gas Dienstleistungen - Terminbestätigung".

(** The text of the login credentials mail (lines 236-249). *)
Definition login_credentials_email (loginUrl email password : string) : string :=
  "
            <p>Liebe Kund*innen,</p>
            <br>
            <p>Ihr Konto wurde erfolgreich erstellt. Wir empfehlen Ihnen, sich auf unserer <a href='" ++ loginUrl ++ "'>Website</a> mit den folgenden Anmeldeinformationen anzumelden und aus Sicherheitsgründen Ihr Passwort zu ändern:</p>
            <br>
            <p><strong>E-Mail:</strong> " ++ email ++ "</p>
            <p><strong>Passwort:</strong> " ++ password ++ "</p>
            <br>
            <p><a href='" ++ loginUrl ++ "'>Zur Anmeldung</a></p>
            <br>
            <p>Vielen Dank, dass Sie unsere Dienste gewählt haben.</p>
            <p>Mit freundlichen Grüßen,</p>
            <img src='https://firebasestorage.googleapis.com/v0/b/b-gas-13308.appspot.com/o/bgas-logo.png?alt=media&token=7ebf87ca-c995-4266-b660-a4c354460ace' alt='Company Signature Logo' width='150'>
          ".

Section Handler.
  Variable hashPassword : string -> string.
  (** The outcome of [uploadCotract(contact, form)]: a link, nothing, or a
      thrown error. *)
  Variable uploadCotract : Result (option string).
  (** [getEmailTemplatesByServiceId(service_id)]: its [template] and
      [subject], when a template exists. *)
  Variable emailTemplate : option (string * option string).
  (** The [email_configs] table, and the decipher and SMTP server of
      [MailerStore.sendMail]. *)
  Variable mailer : table MailerStore.EmailConfigRow.
  Variable aes_decipher : string -> string -> option string.
  Variable smtp_accepts : MailerStore.MailOptions -> bool.
  Variable formatDateDE : Z -> string.
  Variable companyEmailHtml : Appointment -> Contact -> string.
  Variable frontendUrl : string.
  Variable now : Z.

(** [emailConfig[0].sender] of [getService().emailService.getEmailConfig()],
    when a configuration exists. *)
Definition emailSender : option string :=
  match fst (MailerStore.getEmailConfig mailer) with
  | Ok (cfg :: _) => Some (MailerStore.cf_sender cfg)
  | _ => None
  end.

(** [await getService().emailService.sendMail({ to, subject, text })]: the
    mail goes out when [sendMail] delivers it (it answers [null] on every
    failure, which the handler ignores). *)
Definition send_mail (m : Mail) : list Mail :=
  match fst (MailerStore.sendMail aes_decipher smtp_accepts
               {| MailerStore.sf_to := mail_to m; MailerStore.sf_subject := mail_subject m;
                  MailerStore.sf_text := mail_text m |} mailer) with
  | Ok (Some _) => [m]
  | _ => []
  end.

(** The sixteen [.replace] calls of lines 195-211, in order. *)
Definition template_fields (serviceName : option string) (a : Appointment) (c : Contact)
    : list (string * string) :=
  [("B_Performance", or_empty serviceName); ("B_Salutation", or_empty (ct_salutation c));
   ("B_First_Name", or_empty (ct_first_name c)); ("B_Last_Name", or_empty (ct_last_name c));
   ("B_Date", formatDateDE (ap_start_date a));
   ("B_Start_Time", formatTime (ap_start_date a)); ("B_End_Time", formatTime (ap_end_date a));
   ("B_Address", or_empty (ct_address c)); ("B_ZIP", or_empty (ct_zip_code c));
   ("B_Location", or_empty (ct_location c)); ("B_Telephone", or_empty (ct_telephone c));
   ("B_Email", or_empty (ct_email c)); ("B_Brand", or_empty (ap_brand_of_device a));
   ("B_Model", or_empty (ap_model a)); ("B_Year", or_empty (ap_year a));
   ("B_Notes", or_empty (ap_remarks a))].

Definition fill_template (serviceName : option string) (tpl : string) (a : Appointment) (c : Contact)
    : string :=
  fold_left (fun acc '(p, v) => replace_first p v acc) (template_fields serviceName a c) tpl.

(** The customer mail's text and subject (lines 175-213). *)
Definition customer_mail (serviceName : option string) (a : Appointment) (c : Contact) : string * string :=
  match emailTemplate with
  | Some (tpl, subj) =>
      if String.eqb tpl EmptyString then (default_customer_email, default_customer_subject)
      else (fill_template serviceName tpl a c, if truthy_s subj then or_empty subj else default_customer_subject)
  | None => (default_customer_email, default_customer_subject)
  end.

(** The three mails of lines 215-316. *)
Definition appointment_mails (serviceName : option string) (isNewContact : bool)
    (originalPassword : option string) (a : Appointment) (c : Contact) : list Mail :=
  let '(text, subject) := customer_mail serviceName a c in
  (if truthy_s (ct_email c)
   then send_mail {| mail_to := or_empty (ct_email c); mail_subject := subject; mail_text := text |}
   else []) ++
  (if isNewContact && truthy_s (ct_email c) && truthy_s originalPassword
   then send_mail {| mail_to := or_empty (ct_email c);
                    mail_subject := "B-Gas Kontoerstellung - Ihre Anmeldeinformationen";
                    mail_text := login_credentials_email (frontendUrl ++ "/login")
                                   (or_empty (ct_email c)) (or_empty originalPassword) |}
   else []) ++
  (match emailSender with
   | Some sender =>
       send_mail {| mail_to := sender;
                   mail_subject := "Neue Terminbuchung - " ++ show_db (ct_first_name c) ++ " " ++
                                   show_db (ct_last_name c);
                   mail_text := companyEmailHtml a c |}
   | None => []
   end).

(** [{ ...existingContact, ...contact, password: existingPassword }] as
    the request of [updateContact]. *)
Definition merge_contact (ex : Contact) (c : ContactRequest) : ContactRequest := {|
  cq_salutation := upd_opt (cq_salutation c) (ct_salutation ex);
  cq_first_name := upd_opt (cq_first_name c) (ct_first_name ex);
  cq_last_name := upd_opt (cq_last_name c) (ct_last_name ex);
  cq_address := upd_opt (cq_address c) (ct_address ex);
  cq_zip_code := upd_opt (cq_zip_code c) (ct_zip_code ex);
  cq_location := upd_opt (cq_location c) (ct_location ex);
  cq_telephone := upd_opt (cq_telephone c) (ct_telephone ex);
  cq_phone_numbber_2 := upd_opt (cq_phone_numbber_2 c) (ct_phone_numbber_2 ex);
  cq_phone_numbber_3 := upd_opt (cq_phone_numbber_3 c) (ct_phone_numbber_3 ex);
  cq_email := upd_opt (cq_email c) (ct_email ex);
  cq_password := ct_password ex;
  cq_archived := Some (upd (cq_archived c) (ct_archived ex));
  cq_note_on_address := upd_opt (cq_note_on_address c) (ct_note_on_address ex);
  cq_remarks := cq_remarks c;
  cq_district := upd_opt (cq_district c) (ct_district ex);
  cq_lat := upd_opt (cq_lat c) (ct_lat ex);
  cq_lng := upd_opt (cq_lng c) (ct_lng ex)
|}.

(** [{ ...contact, password: encryptedPassword }] of a new contact. *)
Definition with_password (c : ContactRequest) (pw : option string) : ContactRequest := {|
  cq_salutation := cq_salutation c; cq_first_name := cq_first_name c;
  cq_last_name := cq_last_name c; cq_address := cq_address c; cq_zip_code := cq_zip_code c;
  cq_location := cq_location c; cq_telephone := cq_telephone c;
  cq_phone_numbber_2 := cq_phone_numbber_2 c; cq_phone_numbber_3 := cq_phone_numbber_3 c;
  cq_email := cq_email c; cq_password := pw; cq_archived := cq_archived c;
  cq_note_on_address := cq_note_on_address c; cq_remarks := cq_remarks c;
  cq_district := cq_district c; cq_lat := cq_lat c; cq_lng := cq_lng c
|}.

(** Lines 67-100: update the contact with this e-mail, or insert a new one
    with the hashed password; the result is [conatctId] and [contactObg]. *)
Definition upsertContact (c : ContactRequest) (existing : option Contact)
    : ST Db (string * option Contact) :=
  match existing with
  | Some ex =>
      obg <- updateContact (ct_id ex) (merge_contact ex c) ;;
      st_ret (ct_id ex, obg)
  | None =>
      let encryptedPassword := if truthy_s (cq_password c) then option_map hashPassword (cq_password c)
                               else None in
      nc <- addContact now (with_password c encryptedPassword) ;;
      st_ret (ct_id nc, Some nc)
  end.

(** The [AddAppointmentRequest] of lines 117-148. *)
Definition newAppointment (form : AppointmentForm) (conatctId : string) : AddAppointmentRequest := {|
  rq_category_id := af_category_id form; rq_service_id := af_service_id form;
  rq_calendar_id := af_calendar_id form; rq_contact_id := Some conatctId;
  rq_new_user := Some false; rq_start_date := af_start_date form; rq_end_date := af_end_date form;
  rq_appointment_status := Some (if truthy_s (af_appointment_status form)
                                 then or_empty (af_appointment_status form)
                                 else AppointmentStatus_Confirmed);
  rq_archived := Some (match af_archived form with Some true => true | _ => false end);
  rq_remarks := or_undefined (af_remarks form);
  rq_brand_of_device := or_undefined (af_brand_of_device form);
  rq_model := or_undefined (af_model form); rq_year := or_undefined (af_year form)
|}.

(** [!form.category_id || ... || !form.end_date]. *)
Definition form_incomplete (form : AppointmentForm) : bool :=
  falsy_str (af_category_id form) || falsy_str (af_service_id form) ||
  falsy_str (af_calendar_id form) || falsy_date (af_start_date form) || falsy_date (af_end_date form).

(** The handler: the response, the database after it, the mails sent. *)
Definition addAppointmentHandler (form : AppointmentForm) (db0 : Db) : Response * Db * list Mail :=
  let contact := af_contact form in
  let upload := if truthy_s (cf_sign_url contact)
                then match uploadCotract with
                     | Ok None => Some (Json 409 (BMessage "Something went wrong while saving the contract file"))
                     | _ => None
                     end
                else None in
  match upload with
  | Some r => (r, db0, [])
  | None =>
      match getContactByEmail (cq_email (cf_fields contact)) db0 with
      | (Err e, db1) => (Thrown e, db1, [])
      | (Ok existing, db1) =>
          let isNewContact := negb (defined existing) in
          let originalPassword := cq_password (cf_fields contact) in
          match upsertContact (cf_fields contact) existing db1 with
          | (Err e, db2) => (Thrown e, db2, [])
          | (Ok (conatctId, contactObg), db2) =>
              if String.eqb conatctId EmptyString then
                (Json 409 (BMessage "Something went wrong while adding the conatct details"), db2, [])
              else if form_incomplete form then
                (Json 400 (BMessage "Missing required fields: category_id, service_id, calendar_id, start_date, or end_date"),
                 db2, [])
              else
                match AppointmentStore.addAppointment (newAppointment form conatctId) db2 with
                | (Err e, db3) => (Thrown e, db3, [])
                | (Ok data, db3) =>
                    match contactObg with
                    | None => (Thrown "Contact object is null", db3, [])
                    | Some co =>
                        (Json 200 (BAppointmentWithContact data co), db3,
                         appointment_mails
                           (getServiceNameByCategory (af_category_id form) (af_service_id form))
                           isNewContact originalPassword data co)
                    end
                end
          end
      end
  end.
(** ** Lemmas *)

(** After the contract check and the e-mail lookup, the handler writes
    [contacts] only through [upsertContact]. *)
Lemma handler_contacts form db existing cid obg db2 resp db' mails :
  truthy_s (cf_sign_url (af_contact form)) = false ->
  getContactByEmail (cq_email (cf_fields (af_contact form))) db = (Ok existing, db) ->
  upsertContact (cf_fields (af_contact form)) existing db = (Ok (cid, obg), db2) ->
  addAppointmentHandler form db = (resp, db', mails) -> db_contacts db' = db_contacts db2.
Proof.
  intros Hs Hg Hu H. unfold addAppointmentHandler in H. cbv zeta in H. rewrite Hs, Hg, Hu in H.
  destruct (String.eqb cid EmptyString); [injection H as _ <- _; reflexivity|].
  destruct (form_incomplete form); [injection H as _ <- _; reflexivity|].
  destruct (AppointmentStore.addAppointment _ db2) as [[data|e] db3] eqn:Ea; [destruct obg|];
    injection H as _ <- _; eapply addAppointment_contacts; eauto.
Qed.

(** A new contact: the row inserted carries the hashed password. *)
Lemma upsertContact_new c db :
  db_wf db ->
  let enc := if truthy_s (cq_password c) then option_map hashPassword (cq_password c) else None in
  let row := new_contact_row now (with_password c enc) (db_ai_contacts db) in
  exists db2, upsertContact c None db = (Ok (ct_id (mapContactRow row), Some (mapContactRow row)), db2) /\
    db_contacts db2 = (db_contacts db ++ [row])%list.
Proof.
  intros Hwf enc row. unfold upsertContact, st_bind. rewrite addContact_run by exact Hwf.
  eexists. split; reflexivity.
Qed.

(** An existing contact: its rows get the merged update. *)
Lemma upsertContact_existing c ex db :
  exists obg db2, upsertContact c (Some ex) db = (Ok (ct_id ex, obg), db2) /\
    db_contacts db2 = map (fun r => if sql_id_eq (ct_id ex) (cr_id r)
                                    then apply_contact_update (merge_contact ex c) r else r)
                          (db_contacts db).
Proof.
  unfold upsertContact, st_bind, updateContact, getContactById. simpl.
  destruct (contact_update_count (merge_contact ex c)) eqn:E.
  - exfalso. pose proof (contact_update_count_archived (merge_contact ex c) eq_refl). lia.
  - do 2 eexists. split; reflexivity.
Qed.

Lemma getContactByEmail_absent e db :
  (forall r, In r (db_contacts db) -> sql_opt_str_eq (cr_email r) e = false) ->
  getContactByEmail (Some e) db = (Ok None, db).
Proof. intros H. rewrite getContactByEmail_run, filter_all_false by exact H. reflexivity. Qed.

Lemma truthy_s_nonempty (p : string) : p <> EmptyString -> truthy_s (Some p) = true.
Proof.
  intros H. unfold truthy_s, falsy_str. destruct (String.eqb p EmptyString) eqn:E; [|reflexivity].
  apply String.eqb_eq in E. contradiction.
Qed.

Lemma login_credentials_email_contains url e p : contains p (login_credentials_email url e p).
Proof. unfold login_credentials_email. solve_contains. Qed.

(** ** Properties *)

(** C24 (safety): a booking by a new customer stores the customer's
    password only as its hash: the handler adds exactly one contact row,
    with the form's e-mail and [hashPassword] of the password, whatever it
    answers. *)
Theorem new_contact_password_hashed form db e p resp db' mails :
  truthy_s (cf_sign_url (af_contact form)) = false ->
  cq_email (cf_fields (af_contact form)) = Some e ->
  (forall r, In r (db_contacts db) -> sql_opt_str_eq (cr_email r) e = false) ->
  cq_password (cf_fields (af_contact form)) = Some p -> p <> EmptyString -> db_wf db ->
  addAppointmentHandler form db = (resp, db', mails) ->
  exists r, db_contacts db' = (db_contacts db ++ [r])%list /\ cr_email r = Some e /\
    cr_password r = Some (hashPassword p).
Proof.
  intros Hs He Hne Hp Hpne Hwf H.
  assert (Hg : getContactByEmail (cq_email (cf_fields (af_contact form))) db = (Ok None, db))
    by (rewrite He; apply getContactByEmail_absent, Hne).
  destruct (upsertContact_new (cf_fields (af_contact form)) db Hwf) as [db2 [Hu Hc]].
  rewrite (handler_contacts _ _ _ _ _ _ _ _ _ Hs Hg Hu H), Hc. eexists. split; [reflexivity|].
  cbn [new_contact_row with_password cr_email cr_password cq_email cq_password]. rewrite He, Hp, truthy_s_nonempty by exact Hpne.
  split; reflexivity.
Qed.

(** C25 (error, finding): the handler upserts the contact before it checks
    the appointment fields: a new customer's incomplete form is answered
    400 and sends no mail, yet the customer's contact row has been
    inserted. *)
Theorem incomplete_form_still_writes_contact form db e resp db' mails :
  truthy_s (cf_sign_url (af_contact form)) = false ->
  cq_email (cf_fields (af_contact form)) = Some e ->
  (forall r, In r (db_contacts db) -> sql_opt_str_eq (cr_email r) e = false) ->
  db_wf db -> form_incomplete form = true ->
  addAppointmentHandler form db = (resp, db', mails) ->
  resp = Json 400 (BMessage "Missing required fields: category_id, service_id, calendar_id, start_date, or end_date") /\
  mails = [] /\ exists r, db_contacts db' = (db_contacts db ++ [r])%list /\ cr_email r = Some e.
Proof.
  intros Hs He Hne Hwf Hinc H.
  assert (Hg : getContactByEmail (cq_email (cf_fields (af_contact form))) db = (Ok None, db))
    by (rewrite He; apply getContactByEmail_absent, Hne).
  destruct (upsertContact_new (cf_fields (af_contact form)) db Hwf) as [db2 [Hu Hc]].
  pose proof H as H'. unfold addAppointmentHandler in H'. cbv zeta in H'. rewrite Hs, Hg, Hu in H'.
  cbn [ct_id mapContactRow] in H'. rewrite id_toString_nonempty, Hinc in H'.
  injection H' as <- <- <-. split; [reflexivity|]. split; [reflexivity|].
  rewrite Hc. eexists. split; [reflexivity|]. cbn [new_contact_row with_password cr_email cq_email]. exact He.
Qed.

(** C26 (safety, finding): a booking that gives the e-mail of an existing
    contact overwrites that contact's data with the form's: after the
    handler, whatever it answers, the contact row has the form's address.
    The handler authenticates nothing about the e-mail. *)
Theorem existing_contact_overwritten form db e ex a resp db' mails :
  truthy_s (cf_sign_url (af_contact form)) = false ->
  cq_email (cf_fields (af_contact form)) = Some e ->
  hd_error (List.filter (fun r => sql_opt_str_eq (cr_email r) e) (db_contacts db)) = Some ex ->
  0 <= cr_id ex -> cq_address (cf_fields (af_contact form)) = Some a ->
  addAppointmentHandler form db = (resp, db', mails) ->
  exists r, In r (db_contacts db') /\ cr_id r = cr_id ex /\ cr_address r = Some a.
Proof.
  intros Hs He Hex Hid Ha H.
  assert (Hg : getContactByEmail (cq_email (cf_fields (af_contact form))) db =
               (Ok (Some (mapContactRow ex)), db))
    by (rewrite He, getContactByEmail_run, Hex; reflexivity).
  destruct (upsertContact_existing (cf_fields (af_contact form)) (mapContactRow ex) db)
    as (obg & db2 & Hu & Hc).
  rewrite (handler_contacts _ _ _ _ _ _ _ _ _ Hs Hg Hu H), Hc.
  assert (Hin : In ex (db_contacts db)).
  { destruct (List.filter _ _) as [|x l] eqn:E; [discriminate|]. injection Hex as ->.
    apply (In_filter_iff (fun r => sql_opt_str_eq (cr_email r) e)). rewrite E. left; reflexivity. }
  eexists. split; [apply in_map, Hin|].
  cbn [ct_id mapContactRow]. rewrite sql_id_eq_toString, Z.eqb_refl by exact Hid.
  cbn [apply_contact_update cr_id cr_address merge_contact cq_address]. rewrite Ha. auto.
Qed.

(** When the mailer delivers, a new customer's successful booking with a
    password mails the password in clear text to the customer's
    address. *)
Lemma login_mail_contains_password form db e p data co db' mails :
  truthy_s (cf_sign_url (af_contact form)) = false ->
  cq_email (cf_fields (af_contact form)) = Some e -> e <> EmptyString ->
  (forall r, In r (db_contacts db) -> sql_opt_str_eq (cr_email r) e = false) ->
  cq_password (cf_fields (af_contact form)) = Some p -> p <> EmptyString ->
  (forall m, send_mail m = [m]) -> db_wf db ->
  addAppointmentHandler form db = (Json 200 (BAppointmentWithContact data co), db', mails) ->
  exists m, In m mails /\ mail_to m = e /\ contains p (mail_text m).
Proof.
  intros Hs He Hene Hne Hp Hpne Hdeliver Hwf H.
  assert (Hg : getContactByEmail (cq_email (cf_fields (af_contact form))) db = (Ok None, db))
    by (rewrite He; apply getContactByEmail_absent, Hne).
  destruct (upsertContact_new (cf_fields (af_contact form)) db Hwf) as [db2 [Hu _]].
  unfold addAppointmentHandler in H. cbv zeta in H. rewrite Hs, Hg, Hu in H.
  cbn [ct_id mapContactRow] in H. rewrite id_toString_nonempty in H.
  destruct (form_incomplete form); [discriminate|].
  destruct (AppointmentStore.addAppointment _ db2) as [[d|err] db3]; [|discriminate].
  injection H as _ _ _ <-. unfold appointment_mails. destruct (customer_mail _ _) as [text subject].
  cbn [defined negb mapContactRow ct_email new_contact_row with_password cr_email cq_email].
  rewrite He, Hp, !truthy_s_nonempty by assumption. simpl andb. rewrite !Hdeliver.
  eexists. split; [apply in_or_app; right; apply in_or_app; left; left; reflexivity|].
  split; [reflexivity | apply login_credentials_email_contains].
Qed.




End Handler.

(** ** Concrete runs *)

(** A placeholder for bcrypt, and an environment whose mailer delivers:
    a configuration row with an empty password, which [decrypt] returns
    as it is. *)
Definition demo_hash (p : string) : string := "$2b$10$" ++ p.

Definition delivering_mailer : table MailerStore.EmailConfigRow := {|
  rows := [{| MailerStore.ec_id := 1; MailerStore.ec_sender := "office@example.com";
              MailerStore.ec_server := "smtp.example.com"; MailerStore.ec_username := "office";
              MailerStore.ec_password := ""; MailerStore.ec_port := 587; MailerStore.ec_ssl_enabled := false;
              MailerStore.ec_created_at := 0 |}];
  next_id := 2 |}.

Definition demo_run_with (mailer : table MailerStore.EmailConfigRow) (form : AppointmentForm) (db : Db)
    : Response * Db * list Mail :=
  addAppointmentHandler demo_hash (Ok None) None mailer MailerStore.cipher_ok MailerStore.smtp_up
    (fun _ => "Montag, 13. Mai 2024") (fun _ _ => "<h2>Neue Terminbuchung</h2>")
    "http://localhost:3000" 0 form db.

Definition demo_run : AppointmentForm -> Db -> Response * Db * list Mail := demo_run_with delivering_mailer.

Definition demo_contact_request (email pw address : option string) : ContactRequest := {|
  cq_salutation := None; cq_first_name := Some "Eva"; cq_last_name := Some "Huber";
  cq_address := address; cq_zip_code := None; cq_location := None; cq_telephone := None;
  cq_phone_numbber_2 := None; cq_phone_numbber_3 := None; cq_email := email; cq_password := pw;
  cq_archived := None; cq_note_on_address := None; cq_remarks := None; cq_district := None;
  cq_lat := None; cq_lng := None |}.

Definition demo_form (c : ContactRequest) (category : option string) : AppointmentForm := {|
  af_contact := {| cf_fields := c; cf_sign_url := None |};
  af_category_id := category; af_service_id := Some "1"; af_calendar_id := Some "1";
  af_start_date := Some (monday_0h + 12 * one_hour); af_end_date := Some (monday_0h + 13 * one_hour);
  af_appointment_status := None; af_archived := None; af_remarks := None;
  af_brand_of_device := None; af_model := None; af_year := None |}.

Definition new_customer : ContactRequest :=
  demo_contact_request (Some "kunde@example.com") (Some "geheim") None.

Lemma triple_eta {A B C} (x : A * B * C) : x = (fst (fst x), snd (fst x), snd x).
Proof. destruct x as [[a b] c]. reflexivity. Qed.

Lemma new_contact_password_hashed_witness :
  exists r, db_contacts (snd (fst (demo_run (demo_form new_customer (Some "1")) demo_db))) =
              (db_contacts demo_db ++ [r])%list /\
    cr_email r = Some "kunde@example.com" /\ cr_password r = Some (demo_hash "geheim").
Proof.
  eapply new_contact_password_hashed. 7: apply triple_eta.
  all: first [reflexivity | discriminate | exact demo_db_wf | intros r [<-|[]]; reflexivity].
Defined.

Lemma incomplete_form_still_writes_contact_witness :
  fst (fst (demo_run (demo_form new_customer None) demo_db)) =
    Json 400 (BMessage "Missing required fields: category_id, service_id, calendar_id, start_date, or end_date") /\
  snd (demo_run (demo_form new_customer None) demo_db) = [] /\
  exists r, db_contacts (snd (fst (demo_run (demo_form new_customer None) demo_db))) =
              (db_contacts demo_db ++ [r])%list /\ cr_email r = Some "kunde@example.com".
Proof.
  eapply incomplete_form_still_writes_contact. 6: apply triple_eta.
  all: first [reflexivity | exact demo_db_wf | intros r [<-|[]]; reflexivity].
Defined.

(** A database whose contact 1 has the customer's e-mail. *)
Definition known_row : ContactRow := {| cr_id := 1; cr_salutation := None; cr_first_name := Some "Eva";
                     cr_last_name := Some "Huber"; cr_address := Some "Ringstrasse 1";
                     cr_zip_code := None; cr_location := None; cr_telephone := None;
                     cr_phone_numbber_2 := None; cr_phone_numbber_3 := None;
                     cr_email := Some "Kunde@Example.com"; cr_password := Some "$2b$10$x";
                     cr_archived := false; cr_note_on_address := None; cr_district := None;
                     cr_lat := None; cr_lng := None; cr_remarks := None; cr_created_at := 0 |}.

Definition known_db : Db := {|
  db_appointments := db_appointments demo_db; db_contacts := [known_row];
  db_ai_appointments := 2; db_ai_contacts := 2 |}.

Lemma existing_contact_overwritten_witness :
  exists r, In r (db_contacts (snd (fst (demo_run
              (demo_form (demo_contact_request (Some "kunde@example.com") None (Some "Elsewhere 9")) None)
              known_db)))) /\ cr_id r = cr_id known_row /\ cr_address r = Some "Elsewhere 9".
Proof.
  eapply existing_contact_overwritten with (ex := known_row). 6: apply triple_eta.
  all: first [reflexivity | simpl; lia].
Defined.

Lemma login_mail_contains_password_witness :
  exists m, In m (snd (demo_run (demo_form new_customer (Some "1")) demo_db)) /\
    mail_to m = "kunde@example.com" /\ contains "geheim" (mail_text m).
Proof.
  assert (Hr : exists data co, fst (fst (demo_run (demo_form new_customer (Some "1")) demo_db)) =
                                Json 200 (BAppointmentWithContact data co))
    by (do 2 eexists; vm_compute; reflexivity).
  destruct Hr as (data & co & Hr).
  assert (H : demo_run (demo_form new_customer (Some "1")) demo_db =
              (Json 200 (BAppointmentWithContact data co),
               snd (fst (demo_run (demo_form new_customer (Some "1")) demo_db)),
               snd (demo_run (demo_form new_customer (Some "1")) demo_db)))
    by (rewrite (triple_eta (demo_run _ _)) at 1; rewrite Hr; reflexivity).
  eapply login_mail_contains_password.
  9: exact H.
  all: first [reflexivity | discriminate | exact demo_db_wf | intros r [<-|[]]; reflexivity | intros m; reflexivity].
Defined.


(** [replace] replaces the first occurrence only: a template that uses
    [B_Date] twice keeps the second placeholder in the mail. *)
Example template_second_placeholder_kept :
  replace_first "B_Date" "13.05.2024" "Am B_Date um 10:00 (B_Date)" = "Am 13.05.2024 um 10:00 (B_Date)".
Proof. reflexivity. Qed.

End AppointmentController.
