(* ===== verification/AppointmentPage.v ===== *)
(** The time-slot list of the booking page
    (booking-frontend-main/src/pages/Appointment/index.tsx): the slots
    fetched for the selected day are sorted by start, labelled
    ["HH:MM - HH:MM"] with the page's [formatTime] (lines 111-115, the UTC
    hour and minute), and reduced to one entry per label (lines 257-277);
    a click pre-fills the booking form with
    [new Date(`${YYYY-MM-DD}T${HH:MM}`)] (lines 305-309), a date-time
    without offset that JS reads in the browser's local time.  The slots
    reach the page as ISO strings, and [localeCompare] on two ISO strings
    of the same format orders them as their instants, so the sort is the
    sort on [slot_start].  [dayjs(currentDate).format('YYYY-MM-DD')] gives
    the local calendar day of [currentDate], which the parse reads back as
    that day; the browser's offset to UTC, [offset] in milliseconds, is
    taken as fixed over the day.  The redux store and the [Schema] module
    are not in the repository. *)

From Stdlib Require Import ZArith List String Ascii Bool Lia.
From S2P Require Import Prelude JsDate TimeParse Schedule Slots AppointmentController.
Import ListNotations.
Open Scope Z_scope.

Module AppointmentPage.
Import JsDate TimeParse Schedule Slots AppointmentController.
Local Open Scope string_scope.

(** An entry of [formattedSlots]; the plain slots carry no [isOptimal] and
    no [distanceKm], which stay [undefined]. *)
Record FormattedSlot := {
  fs_slot : string;
  fs_calendar_id : string;
  fs_employee_name : string
}.

(** The page's [formatTime] (lines 111-115): [new Date(time)] of the
    slot's ISO string is its instant, shown as its UTC hour and minute. *)
Definition page_formatTime (time : Z) : string :=
  pad2 (getUTCHours time) ++ ":" ++ pad2 (getUTCMinutes time).

(** [`${formatTime(slot.start)} - ${formatTime(slot.end)}`]. *)
Definition slot_label (sl : TimeSlot) : string :=
  page_formatTime (slot_start sl) ++ " - " ++ page_formatTime (slot_end sl).

Definition formatted_of (sl : TimeSlot) : FormattedSlot :=
  {| fs_slot := slot_label sl; fs_calendar_id := slot_calendar_id sl; fs_employee_name := slot_employee_name sl |}.

(** The reducer: a slot whose label is already listed is dropped. *)
Definition add_slot (result : list FormattedSlot) (sl : TimeSlot) : list FormattedSlot :=
  if existsb (fun r => String.eqb (fs_slot r) (slot_label sl)) result then result
  else result ++ [formatted_of sl].

Definition formattedSlots (timeslots : list TimeSlot) : list FormattedSlot :=
  fold_left add_slot (sort_by slot_start false timeslots) [].

(** [s.split(sep)] with a non-empty string separator; the fuel is the
    length of [s], and each step consumes a character. *)
Fixpoint split_str_fuel (fuel : nat) (sep s : string) : list string :=
  match fuel with
  | O => [s]
  | S f =>
      match s with
      | EmptyString => [EmptyString]
      | String c s' =>
          if String.prefix sep s then
            EmptyString :: split_str_fuel f sep (substring (String.length sep) (String.length s - String.length sep) s)
          else match split_str_fuel f sep s' with
               | x :: xs => String c x :: xs
               | [] => [String c EmptyString]
               end
      end
  end.

Definition split_str (sep s : string) : list string := split_str_fuel (S (String.length s)) sep s.

(** The [HH:MM] of a date-time string: [Invalid Date] ([None]) unless two
    numbers in range. *)
Definition parse_hm (s : string) : option (Z * Z) :=
  match split ":" s with
  | [h; m] =>
      match Number h, Number m with
      | Some hh, Some mm => if Z.ltb hh 24 && Z.ltb mm 60 then Some (hh, mm) else None
      | _, _ => None
      end
  | _ => None
  end.

(** [new Date(`${dayjs(currentDate).format('YYYY-MM-DD')}T${el.slot.split(' - ')[0]}`)]:
    the local day of [currentDate] at the label's start, read in local
    time. *)
Definition selected_start (offset currentDate : Z) (el : FormattedSlot) : option Z :=
  match split_str " - " (fs_slot el) with
  | s :: _ =>
      match parse_hm s with
      | Some (h, m) => Some (MakeDate (Day (currentDate + offset)) (MakeTime h m 0 0) - offset)
      | None => None
      end
  | [] => None
  end.

(** ** Lemmas *)

(** The entry the reducer keeps for a label: the one already listed, or
    the first later slot with that label. *)
Lemma find_fold_add_slot (lbl : string) (l : list TimeSlot) (acc : list FormattedSlot) :
  List.find (fun fs => String.eqb (fs_slot fs) lbl) (fold_left add_slot l acc) =
  match List.find (fun fs => String.eqb (fs_slot fs) lbl) acc with
  | Some x => Some x
  | None => option_map formatted_of (List.find (fun sl => String.eqb (slot_label sl) lbl) l)
  end.
Proof.
  revert acc. induction l as [|sl l IH]; intros acc; simpl.
  - destruct (List.find _ acc); reflexivity.
  - rewrite IH. unfold add_slot.
    destruct (existsb (fun r => String.eqb (fs_slot r) (slot_label sl)) acc) eqn:Ex.
    + destruct (String.eqb (slot_label sl) lbl) eqn:Hq; [|reflexivity].
      apply String.eqb_eq in Hq. subst lbl.
      destruct (List.find _ acc) eqn:Hf; [reflexivity|].
      apply existsb_exists in Ex as [r [Hr Hre]].
      pose proof (List.find_none _ _ Hf r Hr) as Hn. simpl in Hn. congruence.
    + rewrite find_app_first. destruct (List.find _ acc); [reflexivity|]. simpl.
      destruct (String.eqb (slot_label sl) lbl); reflexivity.
Qed.

Lemma NoDup_fold_add_slot (l : list TimeSlot) (acc : list FormattedSlot) :
  List.NoDup (map fs_slot acc) -> List.NoDup (map fs_slot (fold_left add_slot l acc)).
Proof.
  revert acc. induction l as [|sl l IH]; intros acc Hnd; simpl; [exact Hnd|]. apply IH.
  unfold add_slot. destruct (existsb _ acc) eqn:Ex; [exact Hnd|].
  rewrite map_app. simpl. apply NoDup_app; [exact Hnd | repeat constructor; intros [] |].
  intros x Hx [<-|[]]. apply in_map_iff in Hx as [r [Hr Hin]].
  rewrite existsb_false_forall in Ex. specialize (Ex r Hin). rewrite Hr, String.eqb_refl in Ex. discriminate.
Qed.

Lemma split_str_fuel_cons (f : nat) (sep : string) (c : ascii) (s : string) :
  split_str_fuel (S f) sep (String c s) =
  if String.prefix sep (String c s) then
    EmptyString :: split_str_fuel f sep (substring (String.length sep) (String.length (String c s) - String.length sep) (String c s))
  else match split_str_fuel f sep s with
       | x :: xs => String c x :: xs
       | [] => [String c EmptyString]
       end.
Proof. reflexivity. Qed.

(** The head of [split(' - ')] of a string that starts with a part
    without blanks. *)
Lemma split_str_fuel_head (fuel : nat) (x y : string) :
  (String.length x < fuel)%nat -> has_char " " x = false ->
  exists rest, split_str_fuel fuel " - " (x ++ " - " ++ y) = x :: rest.
Proof.
  revert fuel. induction x as [|c x IH]; intros fuel Hl Hx; destruct fuel as [|f]; simpl in Hl; try lia.
  - destruct y; simpl; eexists; reflexivity.
  - simpl in Hx. apply orb_false_elim in Hx as [Hc Hx].
    destruct (IH f ltac:(lia) Hx) as [rest Hr]. exists rest.
    change ((String c x ++ " - " ++ y)) with (String c (x ++ " - " ++ y)). rewrite split_str_fuel_cons.
    assert (Hp : String.prefix " - " (String c (x ++ " - " ++ y)) = false).
    { destruct (String.prefix _ _) eqn:E; [|reflexivity]. apply prefix_correct in E.
      simpl in E. injection E as Ec _. subst c. discriminate Hc. }
    rewrite Hp, Hr. reflexivity.
Qed.

Definition zrange (n : nat) : list Z := map Z.of_nat (seq 0 n).

Lemma In_zrange (n : nat) (z : Z) : 0 <= z < Z.of_nat n -> In z (zrange n).
Proof.
  intros Hz. unfold zrange. apply in_map_iff. exists (Z.to_nat z). split; [lia|].
  apply in_seq. lia.
Qed.

(** Every label part [page_formatTime] prints has no blank and reads back as
    its hour and minute: checked on the 1440 minutes of a day. *)
Definition hm_ok (h m : Z) : bool :=
  negb (has_char " " (pad2 h ++ ":" ++ pad2 m)) &&
  match parse_hm (pad2 h ++ ":" ++ pad2 m) with
  | Some (h', m') => Z.eqb h h' && Z.eqb m m'
  | None => false
  end.

Lemma all_hm_ok : forallb (fun h => forallb (fun m => hm_ok h m) (zrange 60)) (zrange 24) = true.
Proof. vm_compute. reflexivity. Qed.

Lemma page_formatTime_ok (t : Z) :
  has_char " " (page_formatTime t) = false /\ parse_hm (page_formatTime t) = Some (getUTCHours t, getUTCMinutes t).
Proof.
  pose proof all_hm_ok as Hall. rewrite forallb_forall in Hall.
  specialize (Hall (getUTCHours t) (In_zrange 24 _ (getUTCHours_range t))).
  rewrite forallb_forall in Hall. specialize (Hall (getUTCMinutes t) (In_zrange 60 _ (getUTCMinutes_range t))).
  unfold hm_ok in Hall. unfold page_formatTime.
  apply andb_prop in Hall as [Hs Hp]. apply negb_true_iff in Hs. split; [exact Hs|].
  destruct (parse_hm _) as [[h' m']|]; [|discriminate].
  apply andb_prop in Hp as [H1 H2]. apply Z.eqb_eq in H1, H2. subst. reflexivity.
Qed.

(** An instant on a whole minute is its day, hour and minute. *)
Lemma whole_minute_fields (t : Z) :
  t mod msPerMinute = 0 -> MakeDate (Day t) (MakeTime (getUTCHours t) (getUTCMinutes t) 0 0) = t.
Proof.
  intros Hm. pose proof (time_decompose t) as Ht.
  assert (Hs : SecFromTime t = 0 /\ msFromTime t = 0).
  { unfold SecFromTime, msFromTime, msPerMinute, msPerSecond in *.
    pose proof (Z.div_mod t 60000 ltac:(lia)) as Hq. rewrite Hm, Z.add_0_r in Hq.
    rewrite Hq. replace (60000 * (t / 60000)) with ((60 * (t / 60000)) * 1000) by lia.
    rewrite Z.div_mul, Z.mod_mul by lia. split; [|reflexivity].
    rewrite Z.mul_comm, Z.mod_mul by lia. reflexivity. }
  destruct Hs as [Hs Hms]. unfold MakeDate, MakeTime, getUTCHours, getUTCMinutes. lia.
Qed.

Lemma string_length_app_le (x y : string) : (String.length x <= String.length (x ++ y))%nat.
Proof. induction x; simpl; lia. Qed.

(** The start a click on an entry pre-fills: the label's hour and minute
    on the local day of [currentDate], read in local time. *)
Lemma selected_start_label (offset currentDate : Z) (el : FormattedSlot) (a b : Z) :
  fs_slot el = page_formatTime a ++ " - " ++ page_formatTime b ->
  selected_start offset currentDate el =
    Some (MakeDate (Day (currentDate + offset)) (MakeTime (getUTCHours a) (getUTCMinutes a) 0 0) - offset).
Proof.
  intros Hl. unfold selected_start, split_str. rewrite Hl.
  destruct (page_formatTime_ok a) as [Hs Hp].
  destruct (split_str_fuel_head (S (String.length (page_formatTime a ++ " - " ++ page_formatTime b)))
              (page_formatTime a) (page_formatTime b) ltac:(pose proof (string_length_app_le (page_formatTime a) (" - " ++ page_formatTime b)); lia) Hs)
    as [rest ->].
  rewrite Hp. reflexivity.
Qed.

(** C39 (functional, finding): the page lists one entry per label
    ["HH:MM - HH:MM"], and the entry of a label is the first slot, in
    start order, with that label: when several technicians are free at the
    same time, only the first one the backend returned is offered. *)
Theorem formattedSlots_first_per_label (ts : list TimeSlot) :
  List.NoDup (map fs_slot (formattedSlots ts)) /\
  forall lbl, List.find (fun fs => String.eqb (fs_slot fs) lbl) (formattedSlots ts) =
              option_map formatted_of (List.find (fun sl => String.eqb (slot_label sl) lbl) (sort_by slot_start false ts)).
Proof.
  split; [apply NoDup_fold_add_slot; constructor|].
  intros lbl. unfold formattedSlots. rewrite find_fold_add_slot. reflexivity.
Qed.

(** C40 (safety, finding): for every slot of the backend on the local day
    of the page (and on a whole minute), the page shows an entry with its
    label, and a click on it pre-fills the booking form with the slot's
    start shifted by the browser's offset to UTC: the label is printed in
    UTC and read back in local time.  Outside UTC the form proposes a
    start other than the offered slot's. *)
Theorem selected_start_shifted (ts : list TimeSlot) (offset currentDate : Z) (sl : TimeSlot) :
  In sl ts -> Day (slot_start sl) = Day (currentDate + offset) -> slot_start sl mod msPerMinute = 0 ->
  exists el, In el (formattedSlots ts) /\ fs_slot el = slot_label sl /\
             selected_start offset currentDate el = Some (slot_start sl - offset).
Proof.
  intros Hin Hday Hmin.
  assert (Hs : In sl (sort_by slot_start false ts)) by (apply In_sort_by; exact Hin).
  destruct (List.find (fun s => String.eqb (slot_label s) (slot_label sl)) (sort_by slot_start false ts))
    as [sl'|] eqn:Hf.
  2: { exfalso. apply (List.find_none _ _ Hf) in Hs. rewrite String.eqb_refl in Hs. discriminate. }
  pose proof (find_some _ _ Hf) as [_ Hl]. apply String.eqb_eq in Hl.
  assert (He : List.find (fun fs => String.eqb (fs_slot fs) (slot_label sl)) (formattedSlots ts) =
               Some (formatted_of sl'))
    by (unfold formattedSlots; rewrite find_fold_add_slot, Hf; reflexivity).
  apply find_some in He as [Hel _].
  exists (formatted_of sl'). split; [exact Hel|]. split; [exact Hl|].
  rewrite (selected_start_label offset currentDate _ (slot_start sl) (slot_end sl)) by exact Hl.
  rewrite <- Hday, whole_minute_fields by exact Hmin. reflexivity.
Qed.

(** ** Two technicians free at 08:00 UTC on Monday 2024-05-13, seen
    from Vienna in summer (UTC+2) *)

Definition tech_slot (cal name : string) : TimeSlot :=
  {| slot_start := 1715587200000; slot_end := 1715590800000; slot_calendar_id := cal; slot_employee_name := name |}.

Definition two_techs : list TimeSlot := [tech_slot "2" "Ben"; tech_slot "1" "Anna"].

(** [dayjs(...).endOf('day')] of the selected day in Vienna. *)
Definition vienna_end_of_day : Z := 1715637599999.
Definition vienna_offset : Z := 7200000.

Lemma selected_start_shifted_witness :
  exists el, In el (formattedSlots two_techs) /\ fs_slot el = slot_label (tech_slot "1" "Anna") /\
             selected_start vienna_offset vienna_end_of_day el = Some (slot_start (tech_slot "1" "Anna") - vienna_offset).
Proof.
  apply (selected_start_shifted two_techs vienna_offset vienna_end_of_day (tech_slot "1" "Anna")).
  - right. left. reflexivity.
  - vm_compute. reflexivity.
  - vm_compute. reflexivity.
Defined.

(** One entry, Ben's, and the form opens at 06:00 UTC, 08:00 in Vienna,
    for the slot labelled ["08:00 - 09:00"]. *)
Example one_entry_two_hours_early :
  map (fun el => (fs_slot el, fs_employee_name el)) (formattedSlots two_techs) = [("08:00 - 09:00", "Ben")] /\
  map (selected_start vienna_offset vienna_end_of_day) (formattedSlots two_techs) = [Some 1715580000000].
Proof. vm_compute. split; reflexivity. Qed.

End AppointmentPage.
