(* ===== verification/AppointmentCalendar.v ===== *)
(** The calendar of the back office
    ([booking-frontend-main/src/pages/Appointment/index.tsx], lines 64-262
    and 286-357): the state of [AppointmentPage], its [fetchAppointments]
    for the month of [currentDate], [fetchTimeslots] for [currentDate],
    [componentDidUpdate], the date pickers, the two modals, the slot
    entries and [onSelectSlot], and the [events] and [resourceMap] the day
    view is drawn from.  The browser's offset to UTC, [offset] in
    milliseconds (local minus UTC, so [getTimezoneOffset() * 60000] is
    [- offset]), is fixed, as in [AppointmentPage]; a [Dayjs] or [Date] is
    its time value; the thunks only record their request.  Selecting a day
    in antd's calendar fires [onChange] and [onSelect]; each is an event of
    its own. *)

From Stdlib Require Import ZArith List String Bool Lia.
From S2P Require Import Prelude JsDate TimeParse Schedule Slots AppointmentController AppointmentPage.
Import ListNotations.
Open Scope Z_scope.

Module AppointmentCalendar.
Import JsDate TimeParse Schedule Slots AppointmentController AppointmentPage.
Local Open Scope string_scope.

(** ** The data the day view is drawn from *)

(** The fields of [ExtendedAppointment] the page reads; a date is [None]
    when the field is missing or empty. *)
Record PageAppointment := {
  pa_start_date : option Z;
  pa_end_date : option Z;
  pa_calendar_id : option string;
  pa_service_name : option string;
  pa_imported_service_name : option string
}.

(** An entry of [events]. *)
Record CalendarEvent := { ev_title : string; ev_start : Z; ev_end : Z; ev_resourceId : string }.

(** The fields of [CalendarType] the resource map reads. *)
Record Employee := { emp_id : option string; emp_name : string }.

(** [a || b] on an optional string: the empty string is falsy. *)
Definition or_str (a : option string) (b : string) : string :=
  match a with Some s => if String.eqb s "" then b else s | None => b end.

Section Offset.
Context (offset : Z).

(** The body of the [map] of [events] (lines 185-220): [null] for an
    appointment without both dates, else the dates moved by
    [- getTimezoneOffset()] and the resource [String(calendar_id || '')]. *)
Definition event_of (el : PageAppointment) : option CalendarEvent :=
  match pa_start_date el, pa_end_date el with
  | Some s, Some e =>
      Some {| ev_title := or_str (pa_service_name el) (or_str (pa_imported_service_name el) "");
              ev_start := s + offset; ev_end := e + offset;
              ev_resourceId := or_str (pa_calendar_id el) "" |}
  | _, _ => None
  end.

(** [events]: the map, then the filter of the [null] entries. *)
Definition events (appointments : list PageAppointment) : list CalendarEvent :=
  flat_map (fun el => match event_of el with Some ev => [ev] | None => [] end) appointments.

End Offset.

(** [resourceMap] (lines 174-180): the employees and the column
    [{ _id: '--', employee_name: other }]. *)
Definition resourceMap (employees : list Employee) (other : string) : list (string * string) :=
  map (fun el => (or_str (emp_id el) "", emp_name el))
      (employees ++ [{| emp_id := Some "--"; emp_name := other |}]).

(** The column of the day view an event is drawn in: the resource whose
    id is its [resourceId], if any. *)
Definition column_of (resources : list (string * string)) (ev : CalendarEvent) : option (string * string) :=
  find (fun r => String.eqb (fst r) (ev_resourceId ev)) resources.

(** ** Local calendar months *)

Definition leap_year (y : Z) : bool :=
  ((y mod 4 =? 0) && (negb (y mod 100 =? 0) || (y mod 400 =? 0)))%Z.

Definition days_in_month (y m : Z) : Z :=
  (if m =? 2 then (if leap_year y then 29 else 28)
   else if (m =? 4) || (m =? 6) || (m =? 9) || (m =? 11) then 30 else 31)%Z.

Section Months.
Context (offset : Z).

(** The local day, year and month of a time value. *)
Definition local_day (t : Z) : Z := Day (t + offset).
Definition local_ym (t : Z) : Z * Z := (YearFromDay (local_day t), MonthFromDay (local_day t)).

(** [dayjs(currentDate).startOf('month')] and [.endOf('month')]: the
    first millisecond of the local month and the last. *)
Definition month_range (t : Z) : Z * Z :=
  let z := local_day t in
  let first := z - (DateFromDay z - 1) in
  (MakeDate first 0 - offset,
   MakeDate (first + days_in_month (YearFromDay z) (MonthFromDay z)) 0 - offset - 1).

End Months.

(** The day of the month of a day number lies in its month. *)
Definition date_in_month (z : Z) : bool :=
  let '(y, m, d) := civil_from_days z in ((1 <=? d) && (d <=? days_in_month y m))%Z.

(** ** The page *)

(** The [selectedSlot] the booking modal opens with: its start, its end
    ([None] for an [Invalid Date]) and its resource. *)
Record SlotInfo := { si_start : option Z; si_end : option Z; si_resourceId : string }.

(** The state of [AppointmentPage] (lines 64-74); [views] is constant. *)
Record CalState := {
  currentDate : Z;
  selectedEvent : option CalendarEvent;
  modalState : bool;
  newAppointmentModal : bool;
  selectedSlot : option SlotInfo
}.

(** The component with the requests its thunks sent, oldest first. *)
Record Page := {
  st : CalState;
  mounted : bool;
  appointment_requests : list (Z * Z);     (** [fetchAppointments({ start, end })] *)
  timeslot_requests : list Z;              (** [fetchTimeSlots({ date })] *)
  employee_requests : list (Z * Z)         (** [fetchEmployees({ page, limit })] *)
}.

Definition initial_page (now : Z) : Page := {|
  st := {| currentDate := now; selectedEvent := None; modalState := false;
           newAppointmentModal := false; selectedSlot := None |};
  mounted := false; appointment_requests := []; timeslot_requests := []; employee_requests := [] |}.

Definition with_state (s : CalState) (p : Page) : Page := {|
  st := s; mounted := mounted p; appointment_requests := appointment_requests p;
  timeslot_requests := timeslot_requests p; employee_requests := employee_requests p |}.

Definition set_modal (ev : option CalendarEvent) (open : bool) (s : CalState) : CalState := {|
  currentDate := currentDate s; selectedEvent := ev; modalState := open;
  newAppointmentModal := newAppointmentModal s; selectedSlot := selectedSlot s |}.

Definition set_new_modal (slot : option SlotInfo) (open : bool) (s : CalState) : CalState := {|
  currentDate := currentDate s; selectedEvent := selectedEvent s; modalState := modalState s;
  newAppointmentModal := open; selectedSlot := slot |}.

Section Page.
Context (offset : Z).

(** [fetchAppointments] (lines 76-85): the local month of [currentDate]. *)
Definition fetchAppointments (p : Page) : Page := {|
  st := st p; mounted := mounted p;
  appointment_requests := appointment_requests p ++ [month_range offset (currentDate (st p))];
  timeslot_requests := timeslot_requests p; employee_requests := employee_requests p |}.

(** [fetchTimeslots] (lines 93-101): the date itself. *)
Definition fetchTimeslots (p : Page) : Page := {|
  st := st p; mounted := mounted p; appointment_requests := appointment_requests p;
  timeslot_requests := timeslot_requests p ++ [currentDate (st p)]; employee_requests := employee_requests p |}.

(** [componentDidMount] (lines 87-91). *)
Definition mount (p : Page) : Page :=
  let p1 := fetchAppointments p in
  fetchTimeslots {| st := st p1; mounted := true; appointment_requests := appointment_requests p1;
                    timeslot_requests := timeslot_requests p1;
                    employee_requests := employee_requests p1 ++ [(1, 100)] |}.

(** [this.setState({ currentDate: d })] with a new [Dayjs], then
    [componentDidUpdate] (lines 118-129): the new object is never [===]
    the old one, so the slots are fetched again; the appointments when
    the local month or year changed. *)
Definition set_date (d : Z) (p : Page) : Page :=
  let s := st p in
  let p1 := fetchTimeslots (with_state {| currentDate := d; selectedEvent := selectedEvent s;
                                          modalState := modalState s; newAppointmentModal := newAppointmentModal s;
                                          selectedSlot := selectedSlot s |} p) in
  let '(y0, m0) := local_ym offset (currentDate s) in
  let '(y1, m1) := local_ym offset d in
  if negb (Z.eqb m1 m0) || negb (Z.eqb y1 y0) then fetchAppointments p1 else p1.

(** The slot an entry of the list pre-fills (lines 304-311). *)
Definition selected_end (currentDate : Z) (el : FormattedSlot) : option Z :=
  match split_str " - " (fs_slot el) with
  | _ :: e :: _ =>
      match parse_hm e with
      | Some (h, m) => Some (MakeDate (Day (currentDate + offset)) (MakeTime h m 0 0) - offset)
      | None => None
      end
  | _ => None
  end.

Definition entry_slot (currentDate : Z) (el : FormattedSlot) : SlotInfo :=
  {| si_start := selected_start offset currentDate el; si_end := selected_end currentDate el;
     si_resourceId := fs_calendar_id el |}.

(** The [onClick] of an entry of the slot list. *)
Definition entry_click (el : FormattedSlot) (p : Page) : Page :=
  with_state (set_new_modal (Some (entry_slot (currentDate (st p)) el)) true (st p)) p.

(** [onSelectDate] (lines 103-109): only a click on a date, not a change
    of month or year, selects the end of that day. *)
Definition onSelectDate (value : Z) (source_date : bool) (p : Page) : Page :=
  if source_date then set_date (local_end_of_day offset value) p else p.

(** [handleSelectedEvent] (lines 250-255). *)
Definition handleSelectedEvent (ev : CalendarEvent) (p : Page) : Page :=
  with_state (set_modal (Some ev) true (st p)) p.

(** [onSelectSlot] (lines 339-350): a slot in the past only shows an
    error. *)
Definition onSelectSlot (start end_ : Z) (resource : string) (now : Z) (p : Page) : Page :=
  if Z.ltb start now then p
  else with_state (set_new_modal (Some {| si_start := Some start; si_end := Some end_;
                                          si_resourceId := resource |}) true (st p)) p.
End Page.

Inductive CalEvent :=
| Mount
| SelectDate (value : Z) (source_date : bool)  (** [onSelectDate] *)
| CalendarChange (d : Z)                       (** the antd calendar's [onChange] *)
| Navigate (d : Z)                             (** [handleNavigate] *)
| SelectEvent (ev : CalendarEvent)             (** [handleSelectedEvent] *)
| EventModalClose | EventModalSave             (** [renderEventModal]'s callbacks *)
| NewModalClose | NewModalSave                 (** [renderNewAppointmentModal]'s callbacks *)
| EntryClick (el : FormattedSlot)              (** a click on an entry of the slot list *)
| SelectSlot (start end_ : Z) (resource : string) (now : Z). (** [onSelectSlot] *)

Section Step.
Context (offset : Z).

Definition cal_step (e : CalEvent) (p : Page) : option Page :=
  if negb (mounted p) then
    match e with Mount => Some (mount offset p) | _ => None end
  else
    let s := st p in
    match e with
    | Mount => None
    | SelectDate v src => Some (onSelectDate offset v src p)
    | CalendarChange d | Navigate d => Some (set_date offset d p)
    | SelectEvent ev => Some (handleSelectedEvent ev p)
    | EventModalClose => Some (with_state (set_modal None false s) p)
    | EventModalSave => let p1 := fetchAppointments offset p in Some (with_state (set_modal None false (st p1)) p1)
    | NewModalClose => Some (with_state (set_new_modal None false s) p)
    | NewModalSave => let p1 := fetchAppointments offset p in Some (with_state (set_new_modal None false (st p1)) p1)
    | EntryClick el => Some (entry_click offset el p)
    | SelectSlot start end_ res now => Some (onSelectSlot start end_ res now p)
    end.

Inductive reachable (now : Z) : Page -> Prop :=
| reach_init : reachable now (initial_page now)
| reach_step p e p' : reachable now p -> cal_step e p = Some p' -> reachable now p'.

Fixpoint cal_run (es : list CalEvent) (p : Page) : option Page :=
  match es with
  | [] => Some p
  | e :: es' => match cal_step e p with Some p' => cal_run es' p' | None => None end
  end.
End Step.

(** The latest element of a list of requests. *)
Definition latest {A} (l : list A) : option A := hd_error (rev l).

(** What the page has asked the server for, once mounted: the slots of
    [currentDate], and the appointments of a month range computed from a
    date in the local month of [currentDate]. *)
Definition requests_current (offset : Z) (p : Page) : Prop :=
  latest (timeslot_requests p) = Some (currentDate (st p)) /\
  exists d, latest (appointment_requests p) = Some (month_range offset d) /\
            local_ym offset d = local_ym offset (currentDate (st p)).

Definition cal_inv (offset : Z) (p : Page) : Prop :=
  if mounted p then requests_current offset p
  else appointment_requests p = [] /\ timeslot_requests p = [].

(** ** Lemmas *)

Lemma latest_snoc {A} (l : list A) x : latest (l ++ [x]) = Some x.
Proof. unfold latest. rewrite rev_app_distr. reflexivity. Qed.

Create Rewrite HintDb calendar.
#[local] Hint Rewrite @latest_snoc : calendar.

Section Lemmas.
Context (offset : Z).

(** A change of the state only ([with_state]) keeps the requests current
    when it keeps the date. *)
Lemma with_state_current s p :
  currentDate s = currentDate (st p) -> requests_current offset p -> requests_current offset (with_state s p).
Proof. intros E [Ht (d & Ha & Hd)]. unfold requests_current. cbn. rewrite E. split; [|exists d]; auto. Qed.

Lemma fetchAppointments_current p :
  latest (timeslot_requests p) = Some (currentDate (st p)) -> requests_current offset (fetchAppointments offset p).
Proof.
  intros Ht. unfold requests_current, fetchAppointments. cbn. autorewrite with calendar.
  split; [exact Ht | exists (currentDate (st p)); split; reflexivity].
Qed.

Lemma set_date_current d p : requests_current offset p -> requests_current offset (set_date offset d p).
Proof.
  intros [Ht (d0 & Ha & Hd)]. unfold set_date. cbv zeta.
  destruct (local_ym _ (currentDate _)) as [y0 m0] eqn:E0.
  destruct (local_ym _ d) as [y1 m1] eqn:E1.
  destruct (negb (Z.eqb m1 m0) || negb (Z.eqb y1 y0))%bool eqn:Ech.
  - apply fetchAppointments_current. cbn. autorewrite with calendar. reflexivity.
  - apply orb_false_iff in Ech as [Em Ey]. apply negb_false_iff, Z.eqb_eq in Em, Ey. subst.
    unfold requests_current. cbn [st timeslot_requests appointment_requests fetchTimeslots with_state currentDate].
    autorewrite with calendar. split; [reflexivity|].
    exists d0. split; [exact Ha|]. rewrite Hd, E1. reflexivity.
Qed.

Lemma set_date_mounted d p : mounted (set_date offset d p) = mounted p.
Proof.
  unfold set_date. destruct (local_ym _ _), (local_ym _ _). destruct (_ || _)%bool; reflexivity.
Qed.

(** The events after mounting keep the requests current. *)
Lemma cal_step_current e p p' :
  mounted p = true -> requests_current offset p -> cal_step offset e p = Some p' ->
  mounted p' = true /\ requests_current offset p'.
Proof.
  intros Em Hc Hs. unfold cal_step in Hs. rewrite Em in Hs.
  pose proof (proj1 Hc) as Ht.
  destruct e; cbv beta iota zeta in Hs; try discriminate; injection Hs as <-;
    unfold onSelectDate, handleSelectedEvent, onSelectSlot, entry_click;
    try (destruct source_date); try (destruct (Z.ltb start now));
    rewrite ?set_date_mounted; (split; [exact Em|]);
    first [ apply set_date_current; exact Hc
          | exact Hc
          | apply with_state_current; [reflexivity|]; apply fetchAppointments_current; exact Ht
          | apply with_state_current; [reflexivity | exact Hc] ].
Qed.

Lemma cal_step_inv e p p' : cal_inv offset p -> cal_step offset e p = Some p' -> cal_inv offset p'.
Proof.
  unfold cal_inv. intros Hi Hs. destruct (mounted p) eqn:Em.
  - destruct (cal_step_current e p p' Em Hi Hs) as [-> Hc]. exact Hc.
  - unfold cal_step in Hs. rewrite Em in Hs. cbn in Hs.
    destruct e; try discriminate. injection Hs as <-. unfold mount. cbn.
    destruct Hi as [Ha Ht]. unfold requests_current. cbn. rewrite Ha, Ht. cbn.
    split; [reflexivity | exists (currentDate (st p)); split; reflexivity].
Qed.

Lemma reachable_cal_inv now p : reachable offset now p -> cal_inv offset p.
Proof.
  induction 1 as [| p e p' _ IH Hs]; [split; reflexivity|]. exact (cal_step_inv e p p' IH Hs).
Qed.

End Lemmas.

Lemma event_of_resource offset a ev :
  event_of offset a = Some ev -> ev_resourceId ev = or_str (pa_calendar_id a) "".
Proof. unfold event_of. destruct (pa_start_date a), (pa_end_date a); intros H; try discriminate; now injection H as <-. Qed.

Lemma column_of_none resources ev :
  Forall (fun r => fst r <> ev_resourceId ev) resources -> column_of resources ev = None.
Proof.
  induction 1 as [| r rs Hr _ IH]; [reflexivity|]. cbn.
  destruct (String.eqb_spec (fst r) (ev_resourceId ev)); [contradiction | exact IH].
Qed.

(** [civil_from_days] repeats every 400 years (146097 days). *)
Lemma civil_era z :
  civil_from_days z =
    let '(y, m, d) := civil_from_days ((z + 719468) mod 146097 - 719468) in
    (y + (z + 719468) / 146097 * 400, m, d).
Proof.
  unfold civil_from_days.
  replace ((z + 719468) mod 146097 - 719468 + 719468) with ((z + 719468) mod 146097) by lia.
  pose proof (Z.mod_pos_bound (z + 719468) 146097 ltac:(lia)) as Hb.
  rewrite (Z.div_small ((z + 719468) mod 146097) 146097) by lia.
  rewrite (Z.mod_eq (z + 719468) 146097) by lia.
  set (e := (z + 719468) / 146097). set (w := z + 719468 - 146097 * e).
  replace (z + 719468 - e * 146097) with w by (unfold w; lia).
  replace (w - 0 * 146097) with w by lia.
  cbv zeta. destruct (Z.ltb _ 10); destruct (Z.leb _ 2); f_equal; f_equal; lia.
Qed.

Lemma leap_year_400 y k : leap_year (y + k * 400) = leap_year y.
Proof.
  unfold leap_year.
  replace (y + k * 400) with (y + (k * 100) * 4) by lia. rewrite Z_mod_plus_full.
  replace (y + k * 100 * 4) with (y + (k * 4) * 100) by lia. rewrite Z_mod_plus_full.
  replace (y + k * 4 * 100) with (y + k * 400) by lia. rewrite Z_mod_plus_full. reflexivity.
Qed.

Lemma days_in_month_400 y m k : days_in_month (y + k * 400) m = days_in_month y m.
Proof. unfold days_in_month. rewrite leap_year_400. reflexivity. Qed.

(** The check over one era, by evaluation. *)
Lemma date_in_month_era : all_lt 146097 (fun w => date_in_month (w - 719468)) = true.
Proof. vm_compute. reflexivity. Qed.

Lemma DateFromDay_bounds z : 1 <= DateFromDay z <= days_in_month (YearFromDay z) (MonthFromDay z).
Proof.
  pose proof (Z.mod_pos_bound (z + 719468) 146097 ltac:(lia)) as Hb.
  pose proof (all_lt_spec _ _ date_in_month_era ((z + 719468) mod 146097) Hb) as H.
  unfold date_in_month, DateFromDay, YearFromDay, MonthFromDay in *. rewrite civil_era.
  destruct (civil_from_days ((z + 719468) mod 146097 - 719468)) as [[y m] d].
  cbn [fst snd]. rewrite days_in_month_400. apply andb_true_iff in H as [H1 H2]. apply Z.leb_le in H1, H2. lia.
Qed.

(** ** Theorems *)

(** the range [fetchAppointments] asks for, [startOf('month')] to
    [endOf('month')] of the local month, contains the date it is computed
    from, for every date and every offset. *)
Theorem month_range_contains offset t :
  fst (month_range offset t) <= t <= snd (month_range offset t).
Proof.
  unfold month_range, local_day, MakeDate, Day, msPerDay. cbn [fst snd].
  pose proof (DateFromDay_bounds ((t + offset) / 86400000)).
  pose proof (Z.div_mod (t + offset) 86400000 ltac:(lia)).
  pose proof (Z.mod_pos_bound (t + offset) 86400000 ltac:(lia)).
  nia.
Qed.

(** Once mounted, in every state the calendar can reach, the latest slot
    request is for [currentDate] and the latest appointment request is the
    month range of a date in the local month and year of [currentDate]:
    [componentDidUpdate] refetches whenever the shown month changes. *)
Theorem calendar_requests_current offset now p :
  reachable offset now p -> mounted p = true ->
  latest (timeslot_requests p) = Some (currentDate (st p)) /\
  exists d, latest (appointment_requests p) = Some (month_range offset d) /\
            local_ym offset d = local_ym offset (currentDate (st p)).
Proof.
  intros Hr Hm. pose proof (reachable_cal_inv offset now p Hr) as Hi. unfold cal_inv in Hi.
  rewrite Hm in Hi. exact Hi.
Qed.

(** An appointment without a calendar is drawn in no column of the day
    view: its resource is [''], while the extra column meant for it has
    the id ['--'], and no employee has an empty id. *)
Theorem unassigned_appointment_hidden offset employees other a ev :
  Forall (fun e => or_str (emp_id e) "" <> "") employees ->
  or_str (pa_calendar_id a) "" = "" ->
  event_of offset a = Some ev ->
  column_of (resourceMap employees other) ev = None.
Proof.
  intros Hemp Hcal Hev. apply column_of_none. rewrite (event_of_resource _ _ _ Hev), Hcal.
  unfold resourceMap. rewrite map_app. apply Forall_app. split.
  - rewrite Forall_map. exact Hemp.
  - constructor; [cbn; discriminate | constructor].
Qed.

(** A click on the entry of a backend slot (on the page's local day and a
    whole minute) opens the booking form at the slot's start minus the
    offset; an appointment saved at that start is drawn by the day view
    at the [Date] of the slot itself, which it shows in local time: the
    offset later than the entry's label, itself printed in UTC. *)
Theorem entry_booking_drawn_at_slot offset p p' el sl e cal name imported :
  cal_step offset (EntryClick el) p = Some p' ->
  fs_slot el = slot_label sl ->
  Day (slot_start sl) = Day (currentDate (st p) + offset) -> slot_start sl mod msPerMinute = 0 ->
  option_map si_start (selectedSlot (st p')) = Some (Some (slot_start sl - offset)) /\
  option_map ev_start (event_of offset {| pa_start_date := Some (slot_start sl - offset); pa_end_date := Some e;
                                          pa_calendar_id := cal; pa_service_name := name;
                                          pa_imported_service_name := imported |}) = Some (slot_start sl).
Proof.
  intros Hs Hl Hday Hmin. unfold cal_step in Hs. destruct (mounted p); cbn in Hs; [|discriminate].
  injection Hs as <-. cbn. split; [|f_equal; lia].
  unfold entry_slot. rewrite (selected_start_label offset _ el (slot_start sl) (slot_end sl)) by exact Hl.
  rewrite <- Hday, whole_minute_fields by exact Hmin. reflexivity.
Qed.

(** ** Concrete runs *)

Definition vienna : Z := 7200000.
Definition new_york : Z := -18000000.
(** Monday 2024-05-13, 10:00 UTC. *)
Definition monday_10 : Z := 1715594400000.
Definition day_ms : Z := 86400000.

(** In Vienna the May range is 2024-04-30T22:00:00.000Z to
    2024-05-31T21:59:59.999Z; moving a day ahead fetches only slots, and
    moving into June fetches June's appointments too. *)
Example calendar_navigation :
  month_range vienna monday_10 = (1714514400000, 1717192799999) /\
  option_map (fun p => (List.length (appointment_requests p), List.length (timeslot_requests p), employee_requests p))
    (cal_run vienna [Mount; Navigate (monday_10 + day_ms); Navigate (monday_10 + 20 * day_ms)] (initial_page monday_10)) =
  Some (2%nat, 3%nat, [(1, 100)]).
Proof. vm_compute. split; reflexivity. Qed.

(** West of UTC, [onSelectDate]'s [endOf('day')] is already the next UTC
    day: selecting Monday 2024-05-13 in New York asks the server for the
    slots of a time on Tuesday. *)
Example west_of_utc_selects_next_day :
  option_map (fun p => option_map (fun t => Day t - Day monday_10) (latest (timeslot_requests p)))
    (cal_run new_york [Mount; SelectDate monday_10 true] (initial_page monday_10)) = Some (Some 1).
Proof. vm_compute. reflexivity. Qed.

(** A booking of calendar 1 is drawn in Anna's column, one without a
    calendar in none, not even in the column for others. *)
Example other_column_stays_empty :
  let emps := [{| emp_id := Some "1"; emp_name := "Anna" |}] in
  let appt c := {| pa_start_date := Some monday_10; pa_end_date := Some (monday_10 + 3600000);
                   pa_calendar_id := c; pa_service_name := Some "Wartung"; pa_imported_service_name := None |} in
  map (fun c => option_map (column_of (resourceMap emps "Andere")) (event_of vienna (appt c))) [Some "1"; None] =
  [Some (Some ("1", "Anna")); Some None].
Proof. vm_compute. reflexivity. Qed.

End AppointmentCalendar.
