(* ===== verification/MySQLPool.v ===== *)
(** The MySQL connection pool of [database-client/src/mysqlClient.ts]:
    [getMySQLConfig] (lines 29-59) and the module state [pool] /
    [poolInitialized] (62-63) with [getMySQLPool] (72-124),
    [closeMySQLPool] (131-144) and [checkMySQLHealth] (150-161).

    [getMySQLPool] is synchronous, but the test connection it opens
    settles later, in a [.then] or [.catch] callback, and [closeMySQLPool]
    awaits [pool.end()].  The module's state is therefore modelled with
    the promises still to settle: the pools whose test connection is
    pending and those being ended.  Each synchronous piece of code is one
    event of [step]; the callbacks are events of their own, so that any
    interleaving the event loop allows is a sequence of events, and
    [reachable] is the set of states they reach from the module's
    initial state.  A pool is an id: the [n]-th [mysql.createPool]. *)

From Stdlib Require Import ZArith List String Bool Lia Arith.
From S2P Require Import Prelude TimeParse.
Import ListNotations.

Module MySQLPool.
Import TimeParse.
Local Open Scope nat_scope.
Local Open Scope string_scope.

(** ** Configuration *)

Record MySQLConfig := {
  host : string;
  port : option Z;          (** [None] is [NaN] *)
  user : string;
  password : string;
  database : string
}.

(** The fields of [env.json] that [getMySQLConfig] reads. *)
Record EnvJson := {
  mysqlHost : option string;
  mysqlPort : option string;
  mysqlUser : option string;
  mysqlPassword : option string;
  mysqlDatabase : option string
}.

(** The variables of [process.env] it reads. *)
Record ProcessEnv := {
  MYSQL_HOST : option string;
  MYSQL_PORT : option string;
  MYSQL_USER : option string;
  MYSQL_PASSWORD : option string;
  MYSQL_DATABASE : option string
}.

(** A string is truthy when it is defined and not empty. *)
Definition env_truthy (o : option string) : bool :=
  match o with Some s => negb (String.eqb s "") | None => false end.

(** [a || b] on two strings that may be [undefined]. *)
Definition js_or (a b : option string) : option string := if env_truthy a then a else b.

(** [a || 'default']. *)
Definition js_or_default (a : option string) (d : string) : string :=
  match js_or a (Some d) with Some s => s | None => d end.

(** The object of lines 37-43. *)
Definition env_config (e : EnvJson) (pe : ProcessEnv) : MySQLConfig := {|
  host := js_or_default (js_or (mysqlHost e) (MYSQL_HOST pe)) "localhost";
  port := parseInt10 (js_or_default (js_or (mysqlPort e) (MYSQL_PORT pe)) "3306");
  user := js_or_default (js_or (mysqlUser e) (MYSQL_USER pe)) "root";
  password := js_or_default (js_or (mysqlPassword e) (MYSQL_PASSWORD pe)) "";
  database := js_or_default (js_or (mysqlDatabase e) (MYSQL_DATABASE pe)) "booking_db" |}.

(** The fallback of lines 52-58. *)
Definition process_config (pe : ProcessEnv) : MySQLConfig := {|
  host := js_or_default (MYSQL_HOST pe) "localhost";
  port := parseInt10 (js_or_default (MYSQL_PORT pe) "3306");
  user := js_or_default (MYSQL_USER pe) "root";
  password := js_or_default (MYSQL_PASSWORD pe) "";
  database := js_or_default (MYSQL_DATABASE pe) "booking_db" |}.

(** [getMySQLConfig]; [env] is [None] when [require('../../server/env')]
    or [getEnv()] throws, or [getEnv()] returns nothing. *)
Definition getMySQLConfig (env : option EnvJson) (pe : ProcessEnv) : MySQLConfig :=
  match env with
  | Some e =>
      if env_truthy (mysqlHost e) || env_truthy (mysqlUser e) || env_truthy (mysqlDatabase e)
      then env_config e pe else process_config pe
  | None => process_config pe
  end.

(** ** The module state *)

Record PoolState := {
  pool : option nat;                  (** [let pool: mysql.Pool | null] *)
  poolInitialized : bool;             (** [let poolInitialized] *)
  next_pool : nat;                    (** the id of the next [createPool] *)
  created : list (nat * MySQLConfig); (** the pools created, with their configuration *)
  open_pools : list nat;              (** the pools not ended *)
  pending : list nat;                 (** test connections not settled *)
  closing : list nat                  (** [pool.end()] calls not settled *)
}.

Definition init_state : PoolState := {|
  pool := None; poolInitialized := false; next_pool := 0; created := [];
  open_pools := []; pending := []; closing := [] |}.

Definition remove_id (k : nat) (l : list nat) : list nat := List.remove Nat.eq_dec k l.

Definition mem_id (k : nat) (l : list nat) : bool := existsb (Nat.eqb k) l.

(** Lines 74-120 without the callbacks: [createPool], then
    [pool.getConnection()] started. *)
Definition createPool (cfg : MySQLConfig) (s : PoolState) : nat * PoolState :=
  let k := next_pool s in
  (k, {| pool := Some k; poolInitialized := poolInitialized s; next_pool := S k;
         created := created s ++ [(k, cfg)]; open_pools := k :: open_pools s;
         pending := pending s ++ [k]; closing := closing s |}).

(** [getMySQLPool]: a new pool when [!pool || !poolInitialized]. *)
Definition getMySQLPool (env : option EnvJson) (pe : ProcessEnv) (s : PoolState) : nat * PoolState :=
  match pool s with
  | Some k => if poolInitialized s then (k, s) else createPool (getMySQLConfig env pe) s
  | None => createPool (getMySQLConfig env pe) s
  end.

(** The [.then] callback of pool [k]'s test connection (lines 110-114). *)
Definition test_resolved (k : nat) (s : PoolState) : PoolState := {|
  pool := pool s; poolInitialized := true; next_pool := next_pool s; created := created s;
  open_pools := open_pools s; pending := remove_id k (pending s); closing := closing s |}.

(** The [.catch] callback (lines 115-120): it clears the module's [pool],
    whichever pool it holds by then. *)
Definition test_rejected (k : nat) (s : PoolState) : PoolState := {|
  pool := None; poolInitialized := false; next_pool := next_pool s; created := created s;
  open_pools := open_pools s; pending := remove_id k (pending s); closing := closing s |}.

(** [closeMySQLPool] up to its [await pool.end()]. *)
Definition close_start (s : PoolState) : PoolState :=
  match pool s with
  | Some k => {| pool := pool s; poolInitialized := poolInitialized s; next_pool := next_pool s;
                 created := created s; open_pools := open_pools s; pending := pending s;
                 closing := closing s ++ [k] |}
  | None => s
  end.

(** The rest of [closeMySQLPool] once [pool.end()] of pool [k] settles
    ([ok]) or throws: both branches clear [pool], whichever pool it holds
    by then; only an [end()] that succeeded has closed [k]. *)
Definition close_settled (k : nat) (ok : bool) (s : PoolState) : PoolState := {|
  pool := None; poolInitialized := false; next_pool := next_pool s; created := created s;
  open_pools := if ok then remove_id k (open_pools s) else open_pools s;
  pending := pending s; closing := remove_id k (closing s) |}.

(** [checkMySQLHealth]: [getMySQLPool()], then a connection of that pool,
    which fails on a pool being ended; [up] is whether the server answers. *)
Definition checkMySQLHealth (env : option EnvJson) (pe : ProcessEnv) (up : bool) (s : PoolState)
    : bool * PoolState :=
  let '(k, s1) := getMySQLPool env pe s in
  (up && negb (mem_id k (closing s1)), s1).

(** ** Interleavings *)

Inductive PoolEvent :=
| GetPool                         (** a call of [getMySQLPool] *)
| TestResolved (k : nat)
| TestRejected (k : nat)
| CloseStart                      (** a call of [closeMySQLPool] *)
| CloseSettled (k : nat) (ok : bool)
| Health (up : bool).             (** a call of [checkMySQLHealth] *)

Section Machine.
Variable env : option EnvJson.
Variable pe : ProcessEnv.

(** One event; a callback can only run for a promise that is pending. *)
Definition step (e : PoolEvent) (s : PoolState) : option PoolState :=
  match e with
  | GetPool => Some (snd (getMySQLPool env pe s))
  | TestResolved k => if mem_id k (pending s) then Some (test_resolved k s) else None
  | TestRejected k => if mem_id k (pending s) then Some (test_rejected k s) else None
  | CloseStart => Some (close_start s)
  | CloseSettled k ok => if mem_id k (closing s) then Some (close_settled k ok s) else None
  | Health up => Some (snd (checkMySQLHealth env pe up s))
  end.

Fixpoint run (es : list PoolEvent) (s : PoolState) : option PoolState :=
  match es with
  | [] => Some s
  | e :: es' => match step e s with Some s' => run es' s' | None => None end
  end.

Inductive reachable : PoolState -> Prop :=
| reach_init : reachable init_state
| reach_step s e s' : reachable s -> step e s = Some s' -> reachable s'.

(** Every pending test connection settles with success, in order. *)
Definition settle (s : PoolState) : list PoolEvent := map TestResolved (pending s).

(** The server's start ([server/app/clients/index.ts] lines 100-101):
    [createContainer()] and [createContainer(true)] each call [getMySQL()],
    that is [getMySQLPool()], and keep the pool for all their DAOs. *)
Definition createContainers (s : PoolState) : (nat * nat) * PoolState :=
  let '(service, s1) := getMySQLPool env pe s in
  let '(serviceKalender, s2) := getMySQLPool env pe s1 in
  ((service, serviceKalender), s2).

(** [closeMySQLPool] run to its end, with [pool.end()] succeeding. *)
Definition closeMySQLPool (s : PoolState) : PoolState :=
  match pool s with
  | Some k => close_settled k true (close_start s)
  | None => s
  end.

(** ** Invariant *)

(** The current pool is ready or still being tested; every id in use was
    created; a test connection is pending at most once. *)
Definition pool_inv (s : PoolState) : Prop :=
  (forall k, pool s = Some k -> poolInitialized s = true \/ In k (pending s)) /\
  (forall k, In k (open_pools s) \/ In k (pending s) \/ In k (closing s) -> k < next_pool s) /\
  NoDup (pending s) /\
  (forall k, pool s = Some k -> k < next_pool s).

(** Pool [k] is open, no longer the module's pool and not being ended:
    nothing can end it any more. *)
Definition leaked (k : nat) (s : PoolState) : Prop :=
  In k (open_pools s) /\ pool s <> Some k /\ ~ In k (closing s) /\ k < next_pool s.

End Machine.

(** ** Lemmas *)

Lemma mem_id_In k l : mem_id k l = true <-> In k l.
Proof.
  unfold mem_id. rewrite existsb_exists. split.
  - intros [x [Hx Heq]]. apply Nat.eqb_eq in Heq. subst. exact Hx.
  - intros Hk. exists k. split; [exact Hk | apply Nat.eqb_refl].
Qed.

Lemma In_remove_id x k l : In x (remove_id k l) <-> In x l /\ x <> k.
Proof.
  unfold remove_id. split; [apply in_remove|].
  intros [Hx Hne]. apply in_in_remove; assumption.
Qed.

Lemma NoDup_remove_id k l : NoDup l -> NoDup (remove_id k l).
Proof.
  induction l as [|a l IH]; intros Hl; [constructor|]. inversion Hl as [|? ? Ha Hl']; subst.
  unfold remove_id in *. simpl. destruct (Nat.eq_dec k a); [auto|].
  constructor; [|auto]. intros Hin. apply Ha. apply In_remove_id in Hin. apply Hin.
Qed.

Lemma getMySQLPool_pool env pe s : pool (snd (getMySQLPool env pe s)) = Some (fst (getMySQLPool env pe s)).
Proof. unfold getMySQLPool. destruct (pool s) eqn:E; [destruct (poolInitialized s)|]; simpl; auto. Qed.

Lemma checkMySQLHealth_state env pe up s : snd (checkMySQLHealth env pe up s) = snd (getMySQLPool env pe s).
Proof. unfold checkMySQLHealth. destruct (getMySQLPool env pe s). reflexivity. Qed.

(** [getMySQLPool] returns the module's pool without effect, or creates
    the next one. *)
Lemma getMySQLPool_cases env pe s :
  (pool s = Some (fst (getMySQLPool env pe s)) /\ poolInitialized s = true /\
   snd (getMySQLPool env pe s) = s) \/
  getMySQLPool env pe s = createPool (getMySQLConfig env pe) s.
Proof.
  unfold getMySQLPool. destruct (pool s) eqn:E; [destruct (poolInitialized s) eqn:I|]; auto.
Qed.

Lemma step_GetPool_like env pe e s s' :
  (e = GetPool \/ exists up, e = Health up) -> step env pe e s = Some s' ->
  s' = snd (getMySQLPool env pe s).
Proof.
  intros [-> | [up ->]]; simpl; intros H; injection H as <-; [reflexivity|apply checkMySQLHealth_state].
Qed.

Lemma NoDup_snoc (l : list nat) k : NoDup l -> ~ In k l -> NoDup (l ++ [k]).
Proof. intros Hl Hk. exact (Permutation.Permutation_NoDup (Permutation.Permutation_cons_append l k) (NoDup_cons k Hk Hl)). Qed.

Lemma createPool_inv cfg s : pool_inv s -> pool_inv (snd (createPool cfg s)).
Proof.
  intros (Hp & Hid & Hnd & Hlt). unfold createPool. cbn. repeat split.
  - intros k [= <-]. right. apply in_or_app. right. left. reflexivity.
  - intros k Hk. cbn in Hk. rewrite in_app_iff in Hk. cbn in Hk.
    assert (k = next_pool s \/ In k (open_pools s) \/ In k (pending s) \/ In k (closing s))
      as [-> | Hk'] by intuition; cbn; [lia|]. specialize (Hid k Hk'). lia.
  - apply NoDup_snoc; [exact Hnd|]. intros Hin. specialize (Hid _ (or_intror (or_introl Hin))). lia.
  - intros k [= <-]. cbn. lia.
Qed.

Lemma getMySQLPool_inv env pe s : pool_inv s -> pool_inv (snd (getMySQLPool env pe s)).
Proof.
  intros Hs. destruct (getMySQLPool_cases env pe s) as [(_ & _ & ->) | ->]; [exact Hs|].
  apply createPool_inv, Hs.
Qed.

Section Step.
Variable env : option EnvJson.
Variable pe : ProcessEnv.

Lemma step_inv e s s' : pool_inv s -> step env pe e s = Some s' -> pool_inv s'.
Proof.
  intros Hs Hst.
  destruct e as [| k | k | | k ok | up];
    [rewrite (step_GetPool_like env pe GetPool s s' (or_introl eq_refl) Hst); apply getMySQLPool_inv, Hs
    | | | |
    | rewrite (step_GetPool_like env pe (Health up) s s' (or_intror (ex_intro _ up eq_refl)) Hst);
      apply getMySQLPool_inv, Hs];
    cbn in Hst; destruct Hs as (Hp & Hid & Hnd & Hlt).
  - destruct (mem_id k (pending s)); [injection Hst as <-|discriminate]. unfold test_resolved.
    repeat split; cbn; auto.
    intros j Hj. apply Hid. rewrite In_remove_id in Hj. tauto.
    apply NoDup_remove_id, Hnd.
  - destruct (mem_id k (pending s)); [injection Hst as <-|discriminate]. unfold test_rejected.
    repeat split; cbn; try discriminate.
    intros j Hj. apply Hid. rewrite In_remove_id in Hj. tauto.
    apply NoDup_remove_id, Hnd.
  - injection Hst as <-. unfold close_start. destruct (pool s) as [j|] eqn:E; [|repeat split; auto].
    repeat split; cbn; rewrite ?E; auto.
    intros i Hi. rewrite in_app_iff in Hi. cbn in Hi.
    destruct Hi as [Hi | [Hi | [Hi | [<- | []]]]]; [apply Hid; tauto .. | apply Hlt; reflexivity]. all: rewrite E; assumption.
  - destruct (mem_id k (closing s)); [injection Hst as <-|discriminate]. unfold close_settled.
    repeat split; cbn; try discriminate; auto.
    intros j Hj. apply Hid. destruct ok; rewrite ?In_remove_id in Hj; tauto.
Qed.

Lemma reachable_inv s : reachable env pe s -> pool_inv s.
Proof.
  induction 1 as [| s e s' _ IH Hst].
  - repeat split; cbn; try tauto; try discriminate. constructor.
  - exact (step_inv e s s' IH Hst).
Qed.

Lemma run_reachable es s s' : reachable env pe s -> run env pe es s = Some s' -> reachable env pe s'.
Proof.
  revert s. induction es as [|e es IH]; intros s Hs; cbn; [congruence|].
  destruct (step env pe e s) as [s1|] eqn:E; [|discriminate]. apply IH. exact (reach_step env pe s e s1 Hs E).
Qed.

(** Success callbacks of the test connections [l], pending and each
    once, run in order: the pool stays, and it is marked initialized as
    soon as one of them ran. *)
Lemma run_resolved l s :
  NoDup l -> incl l (pending s) ->
  exists s', run env pe (map TestResolved l) s = Some s' /\ pool s' = pool s /\
             poolInitialized s' = poolInitialized s || Nat.ltb 0 (List.length l).
Proof.
  revert s. induction l as [|a l IH]; intros s Hnd Hincl.
  - exists s. rewrite orb_false_r. auto.
  - inversion Hnd as [|? ? Ha Hl]; subst. cbn.
    assert (mem_id a (pending s) = true) as -> by (apply mem_id_In, Hincl; left; reflexivity).
    destruct (IH (test_resolved a s) Hl) as (s' & Hr & Hp & Hi).
    + intros x Hx. cbn. apply In_remove_id. split; [apply Hincl; right; exact Hx|].
      intros ->. contradiction.
    + exists s'. rewrite Hr, Hp, Hi, orb_true_r. auto.
Qed.

Lemma getMySQLPool_uninit s :
  poolInitialized s = false -> getMySQLPool env pe s = createPool (getMySQLConfig env pe) s.
Proof. intros H. unfold getMySQLPool. rewrite H. destruct (pool s); reflexivity. Qed.

Lemma getMySQLPool_leaked k s : leaked k s -> leaked k (snd (getMySQLPool env pe s)).
Proof.
  intros Hl. destruct (getMySQLPool_cases env pe s) as [(_ & _ & ->) | ->]; [exact Hl|].
  destruct Hl as (Ho & Hp & Hc & Hlt). unfold createPool. cbn.
  repeat split; cbn; [right; exact Ho | intros [= E]; lia | exact Hc | lia].
Qed.

(** No event ends or takes back a leaked pool. *)
Lemma step_leaked k e s s' : leaked k s -> step env pe e s = Some s' -> leaked k s'.
Proof.
  intros Hl Hst.
  destruct e as [| j | j | | j ok | up];
    [rewrite (step_GetPool_like env pe GetPool s s' (or_introl eq_refl) Hst); apply getMySQLPool_leaked, Hl
    | | | |
    | rewrite (step_GetPool_like env pe (Health up) s s' (or_intror (ex_intro _ up eq_refl)) Hst);
      apply getMySQLPool_leaked, Hl];
    cbn in Hst; destruct Hl as (Ho & Hp & Hc & Hlt).
  - destruct (mem_id j (pending s)); [injection Hst as <-|discriminate]. repeat split; assumption.
  - destruct (mem_id j (pending s)); [injection Hst as <-|discriminate].
    repeat split; cbn; try assumption; discriminate.
  - injection Hst as <-. unfold close_start. destruct (pool s) as [i|] eqn:E; [|repeat split; rewrite ?E; first [assumption | discriminate]].
    repeat split; cbn; rewrite ?E; try assumption.
    rewrite in_app_iff. intros [Hi | [-> | []]]; [contradiction | apply Hp; reflexivity].
  - destruct (mem_id j (closing s)) eqn:Ej; [injection Hst as <-|discriminate].
    apply mem_id_In in Ej. assert (j <> k) by (intros ->; contradiction).
    repeat split; cbn; try discriminate; try assumption.
    + destruct ok; [apply In_remove_id; auto | exact Ho].
    + rewrite In_remove_id. tauto.
Qed.

Lemma run_leaked k es s s' : leaked k s -> run env pe es s = Some s' -> leaked k s'.
Proof.
  revert s. induction es as [|e es IH]; intros s Hl; cbn; [congruence|].
  destruct (step env pe e s) as [s1|] eqn:E; [|discriminate]. apply IH. exact (step_leaked k e s s1 Hl E).
Qed.

End Step.

(** ** Theorems *)

(** C11 (liveness): from every state the module can reach, a call of
    [getMySQLPool] followed by the success of every test connection still
    pending leads to a state in which [getMySQLPool] returns the pool of
    that call and changes nothing: once its test connections succeed, the
    module stops creating pools. *)
Theorem getMySQLPool_settles env pe s :
  reachable env pe s ->
  exists s2, run env pe (settle (snd (getMySQLPool env pe s))) (snd (getMySQLPool env pe s)) = Some s2 /\
             getMySQLPool env pe s2 = (fst (getMySQLPool env pe s), s2).
Proof.
  intros Hr. set (s1 := snd (getMySQLPool env pe s)).
  assert (Hr1 : reachable env pe s1) by exact (reach_step env pe s GetPool s1 Hr eq_refl).
  destruct (reachable_inv env pe s1 Hr1) as (Hp & _ & Hnd & _).
  assert (Hk : pool s1 = Some (fst (getMySQLPool env pe s))) by apply getMySQLPool_pool.
  destruct (run_resolved env pe (pending s1) s1 Hnd (incl_refl _)) as (s2 & Hrun & Hpool & Hinit).
  exists s2. split; [exact Hrun|]. unfold getMySQLPool. rewrite Hpool, Hk, Hinit.
  destruct (Hp _ Hk) as [-> | Hin]; [reflexivity|].
  destruct (pending s1) as [|a l]; [contradiction|]. rewrite orb_true_r. reflexivity.
Qed.

(** C12 (safety, finding): when the server starts, [createContainer()]
    and [createContainer(true)] both run before any test connection
    settles, so the two service containers get two different pools; and
    whatever happens afterwards (requests, failed or successful test
    connections, health checks, [closeMySQLPool]), the first container's
    pool stays open and is never the module's [pool] again, so
    [closeMySQLPool] can never end it. *)
Theorem createContainers_leak env pe s :
  reachable env pe s -> poolInitialized s = false ->
  let '((service, serviceKalender), s2) := createContainers env pe s in
  service <> serviceKalender /\ pool s2 = Some serviceKalender /\
  forall es s', run env pe es s2 = Some s' -> In service (open_pools s') /\ pool s' <> Some service.
Proof.
  intros Hr Hi. destruct (reachable_inv env pe s Hr) as (_ & Hid & _ & _).
  unfold createContainers. rewrite (getMySQLPool_uninit env pe s Hi). cbn [createPool fst snd].
  rewrite getMySQLPool_uninit by exact Hi. cbn. split; [lia | split; [reflexivity|]].
  intros es s' Hrun. eapply run_leaked in Hrun as (Ho & Hp & _); [split; eassumption|].
  repeat split; cbn; [right; left; reflexivity | intros [= E]; lia | | lia].
  intros Hc. specialize (Hid _ (or_intror (or_intror Hc))). lia.
Qed.

(** ** Concrete runs *)

(** The variables of a container without [env.json]. *)
Definition docker_env : ProcessEnv := {|
  MYSQL_HOST := Some "db"; MYSQL_PORT := Some "3306"; MYSQL_USER := Some "booking";
  MYSQL_PASSWORD := Some "secret"; MYSQL_DATABASE := Some "booking_db" |}.

Lemma getMySQLPool_settles_witness :
  exists s2, run None docker_env (settle (snd (getMySQLPool None docker_env init_state)))
                 (snd (getMySQLPool None docker_env init_state)) = Some s2 /\
             getMySQLPool None docker_env s2 = (fst (getMySQLPool None docker_env init_state), s2).
Proof. exact (getMySQLPool_settles None docker_env init_state (reach_init _ _)). Defined.

Lemma createContainers_leak_witness :
  poolInitialized init_state = false /\
  let '((service, serviceKalender), s2) := createContainers None docker_env init_state in
  service <> serviceKalender /\ pool s2 = Some serviceKalender /\
  forall es s', run None docker_env es s2 = Some s' -> In service (open_pools s') /\ pool s' <> Some service.
Proof.
  split; [reflexivity|].
  exact (createContainers_leak None docker_env init_state (reach_init _ _) eq_refl).
Defined.

(** The state after a run, or [init_state] for a run a callback refuses. *)
Definition after (es : list PoolEvent) : PoolState :=
  match run None docker_env es init_state with Some s => s | None => init_state end.

(** The server's start, both tests succeeding, then [closeMySQLPool]:
    pool 0, the [service] container's, is still open. *)
Example startup_then_close :
  open_pools (after [GetPool; GetPool; TestResolved 0; TestResolved 1; CloseStart; CloseSettled 1 true]) = [0] /\
  pool (after [GetPool; GetPool; TestResolved 0; TestResolved 1; CloseStart; CloseSettled 1 true]) = None.
Proof. vm_compute. split; reflexivity. Qed.

(** A late failure of pool 0's test clears the healthy pool 1: the next
    call creates pool 2, and pool 1 stays open. *)
Example stale_rejection_drops_ready_pool :
  pool (after [GetPool; GetPool; TestResolved 1; TestRejected 0; GetPool]) = Some 2 /\
  open_pools (after [GetPool; GetPool; TestResolved 1; TestRejected 0; GetPool]) = [2; 1; 0].
Proof. vm_compute. split; reflexivity. Qed.

(** A [getMySQLPool] while [closeMySQLPool] awaits [pool.end()] creates
    pool 1, which the end of the close then forgets. *)
Example close_race_forgets_new_pool :
  pool (after [GetPool; CloseStart; GetPool; CloseSettled 0 true]) = None /\
  open_pools (after [GetPool; CloseStart; GetPool; CloseSettled 0 true]) = [1].
Proof. vm_compute. split; reflexivity. Qed.

(** [env.json] counts only with a host, user or database: its port and
    password alone are ignored; an empty variable falls back to the
    default, and a port that is not a number is [NaN]. *)
Example config_fallbacks :
  getMySQLConfig (Some {| mysqlHost := None; mysqlPort := Some "3307"; mysqlUser := None;
                          mysqlPassword := Some "pw"; mysqlDatabase := None |}) docker_env
    = process_config docker_env /\
  port (process_config docker_env) = Some 3306%Z /\
  host (getMySQLConfig None {| MYSQL_HOST := Some ""; MYSQL_PORT := Some "x"; MYSQL_USER := None;
                               MYSQL_PASSWORD := None; MYSQL_DATABASE := None |}) = "localhost" /\
  port (getMySQLConfig None {| MYSQL_HOST := None; MYSQL_PORT := Some "x"; MYSQL_USER := None;
                               MYSQL_PASSWORD := None; MYSQL_DATABASE := None |}) = None.
Proof. vm_compute. repeat split. Qed.

End MySQLPool.
