(* ===== verification/Backup.v ===== *)
(** The database backup of [server/app/dbbackup.ts]: [backupDatabase]
    (lines 13-44) builds a [mysqldump] command line from the fields of
    [getEnv()] and a file name from the current instant, and runs
    [mkdir -p] and the command through a shell; [dbbackup] (lines 48-58)
    only logs, since the [cron] schedule that would call [backupDatabase]
    is commented out.  The shell is the section variable [exec], whether a
    command exits with success; [getEnv()] throwing is [None].
    [new Date().toISOString()] is ECMA-262's format of the instant, for
    the years 0 to 9999 where it has four year digits. *)

From Stdlib Require Import ZArith List String Ascii Bool Lia DecimalString.
From S2P Require Import Prelude JsDate TimeParse Schedule MySQLPool.
Import ListNotations.
Open Scope Z_scope.

Module Backup.
Import JsDate TimeParse Schedule MySQLPool.
Local Open Scope string_scope.

(** ** The file name *)

(** [String(n).padStart(w, '0')] of a natural number. *)
Definition pad_num (w : nat) (n : Z) : string :=
  let s := id_toString n in repeat_str "0" (w - String.length s) ++ s.

(** [Date.prototype.toISOString]: [YYYY-MM-DDTHH:mm:ss.sssZ]. *)
Definition toISOString (t : Z) : string :=
  let d := Day t in
  pad_num 4 (YearFromDay d) ++ "-" ++ pad_num 2 (MonthFromDay d) ++ "-" ++ pad_num 2 (DateFromDay d) ++
  "T" ++ pad_num 2 (HourFromTime t) ++ ":" ++ pad_num 2 (MinFromTime t) ++ ":" ++
  pad_num 2 (SecFromTime t) ++ "." ++ pad_num 3 (msFromTime t) ++ "Z".

(** [.replace(/[:.]/g, '-')]. *)
Fixpoint replace_colon_dot (s : string) : string :=
  match s with
  | EmptyString => EmptyString
  | String c s' => String (if Ascii.eqb c ":" || Ascii.eqb c "." then "-"%char else c) (replace_colon_dot s')
  end.

Definition backupDir : string := "./backups".

(** Lines 26-27. *)
Definition backupFile (t : Z) : string :=
  backupDir ++ "/backup-" ++ replace_colon_dot (toISOString t) ++ ".sql".

(** ** The command *)

(** [${v}] of a field of [getEnv()]: [undefined] prints as such. *)
Definition tmpl (o : option string) : string :=
  match o with Some v => v | None => "undefined" end.

(** Line 30, with [config] the fields of lines 16-22. *)
Definition mysqldumpCommand (e : EnvJson) (file : string) : string :=
  "mysqldump -h " ++ tmpl (mysqlHost e) ++ " -P " ++ tmpl (mysqlPort e) ++ " -u " ++ tmpl (mysqlUser e) ++
  " " ++ (if env_truthy (mysqlPassword e) then "-p" ++ tmpl (mysqlPassword e) else "") ++
  " " ++ tmpl (mysqlDatabase e) ++ " > " ++ file.

(** What the two functions log. *)
Inductive Log :=
| Info (line : string)
| Warn (line : string)
| Error (line : string).

(** The warnings of lines 38-39. *)
Definition skipped : list Log :=
  [Warn "mysqldump not available. For production backups, please use a dedicated backup solution.";
   Warn "Backup skipped. Consider setting up automated MySQL backups at the database level."].

Section Shell.
(** Whether a command run by [exec] exits with success. *)
Variable exec : string -> bool.

(** [backupDatabase] at instant [now]: the commands run, in order, and
    the log. *)
Definition backupDatabase (env : option EnvJson) (now : Z) : list string * list Log :=
  match env with
  | None => ([], [Error "Database backup failed:"])
  | Some e =>
      let file := backupFile now in
      let cmd := mysqldumpCommand e file in
      if exec ("mkdir -p " ++ backupDir) then
        if exec cmd then (["mkdir -p " ++ backupDir; cmd], [Info ("MySQL database backup completed successfully: " ++ file)])
        else (["mkdir -p " ++ backupDir; cmd], skipped)
      else (["mkdir -p " ++ backupDir], skipped)
  end.
End Shell.

(** [dbbackup]: no command, one line. *)
Definition dbbackup : list string * list Log :=
  ([], [Info "Database backup scheduler initialized (disabled by default - use database-level backups for production)"]).


(** ** Lemmas *)








(** ** Theorems *)


(** ** Concrete runs *)


(** The command and the file at 21 November 2025 00:00:00.123 UTC; with
    both commands succeeding the backup is logged, otherwise skipped. *)
Example backup_run :
  let e := {| mysqlHost := Some "db"; mysqlPort := Some "3306"; mysqlUser := Some "root";
              mysqlPassword := Some "secret"; mysqlDatabase := Some "booking_db" |} in
  backupDatabase (fun _ => true) (Some e) 1763683200123 =
    (["mkdir -p ./backups";
      "mysqldump -h db -P 3306 -u root -psecret booking_db > ./backups/backup-2025-11-21T00-00-00-123Z.sql"],
     [Info "MySQL database backup completed successfully: ./backups/backup-2025-11-21T00-00-00-123Z.sql"]) /\
  snd (backupDatabase (fun cmd => String.eqb cmd "mkdir -p ./backups") (Some e) 1763683200123) = skipped.
Proof. vm_compute. split; reflexivity. Qed.

End Backup.
