(* ===== verification/EmailServiceLayer.v ===== *)
(** [EmailService] (server/app/email/EmailService.ts, lines 14-108): the
    service methods over [EmailConfigDaoMySql] and [EmailTemplateDaoMySql],
    each a [.then(data => data)] with a [.catch] that rethrows the DAO's
    error as a [ClientError] with status 500 (the writes) or answers
    [null] (the reads); and the two inputs the booking handler of
    [appointment/controller.ts] takes from them: the template of the
    booked service (lines 178-183) and the sender of the newest
    configuration (lines 263-264), which [AppointmentController] has as
    section variables.  [sendMail] (lines 110-158) is
    [MailerStore.sendMail]. *)

From Stdlib Require Import ZArith List String Bool Lia.
From S2P Require Import Prelude TimeParse Schedule Table ContactStore Catalog CalendarStore MailerStore TemplateStore Appointment AppointmentController.
Import ListNotations.
Open Scope Z_scope.
Open Scope sched_scope.

Module EmailServiceLayer.
Import Schedule Table Catalog.
Import (hints) MailerStore TemplateStore.
Local Open Scope string_scope.

(** [new ClientError(err, 500)] ([utils/exceptions] is not in the
    repository): the cause and the HTTP status. *)
Record ClientError := { ce_cause : string; ce_status : Z }.

(** What a service method's promise settles to. *)
Inductive Settled (A : Type) :=
| Returned (a : A)
| Threw (e : ClientError).
Arguments Returned {A} a.
Arguments Threw {A} e.

(** [.then((data) => data).catch((err) => { throw new ClientError(err, 500) })]. *)
Definition rethrow_500 {S A} (m : ST S A) (s : S) : Settled A * S :=
  match m s with
  | (Ok a, s') => (Returned a, s')
  | (Err e, s') => (Threw {| ce_cause := e; ce_status := 500 |}, s')
  end.

(** [.then((data) => data).catch((err) => null)]. *)
Definition null_on_error {S A} (m : ST S A) (s : S) : option A * S :=
  match m s with
  | (Ok a, s') => (Some a, s')
  | (Err _, s') => (None, s')
  end.

(** The two tables behind the service. *)
Record MailDb := {
  email_configs : table MailerStore.EmailConfigRow;
  email_templates : table TemplateStore.EmailTemplateRow
}.

Definition on_configs {A} (m : ST (table MailerStore.EmailConfigRow) A) : ST MailDb A :=
  fun d => let '(r, t) := m (email_configs d) in (r, {| email_configs := t; email_templates := email_templates d |}).

Definition on_templates {A} (m : ST (table TemplateStore.EmailTemplateRow) A) : ST MailDb A :=
  fun d => let '(r, t) := m (email_templates d) in (r, {| email_configs := email_configs d; email_templates := t |}).

(** ** The service methods *)

Definition EmailService_addEmailConfig (now : Z) (c : MailerStore.EmailConfigRequest) :=
  rethrow_500 (on_configs (MailerStore.addEmailConfig now c)).

Definition EmailService_getEmailConfig := null_on_error (on_configs MailerStore.getEmailConfig).

Definition EmailService_updateEmailConfig (id : string) (c : MailerStore.EmailConfigRequest) :=
  rethrow_500 (on_configs (MailerStore.updateEmailConfig id c)).

Definition EmailService_deleteEmailConfig (id : string) := rethrow_500 (on_configs (MailerStore.deleteEmailConfig id)).

Definition EmailService_addEmailTemplate (now : Z) (c : TemplateStore.EmailTemplateRequest) :=
  rethrow_500 (on_templates (TemplateStore.addEmailTemplate now c)).

Definition EmailService_getEmailTemplates (type : string) := null_on_error (on_templates (TemplateStore.getEmailTemplates type)).

Definition EmailService_updateEmailTemplate (id : string) (c : TemplateStore.EmailTemplateRequest) :=
  rethrow_500 (on_templates (TemplateStore.updateEmailTemplate id c)).

Definition EmailService_deleteEmailTemplate (id : string) := rethrow_500 (on_templates (TemplateStore.deleteEmailTemplate id)).

Definition EmailService_getEmailTemplatesByServiceId (id : string) :=
  null_on_error (on_templates (TemplateStore.getEmailTemplatesByServiceId id)).

(** ** The booking handler's inputs *)

(** [emailTemplate] of the booking handler: the template and subject the
    lookup of the booked service answers, if any. *)
Definition booking_template (serviceId : string) (d : MailDb) : option (string * option string) :=
  match fst (EmailService_getEmailTemplatesByServiceId serviceId d) with
  | Some (Some tp) => Some (TemplateStore.tp_template tp, Some (TemplateStore.tp_subject tp))
  | _ => None
  end.

(** [emailConfig[0].sender] under [if (emailConfig && emailConfig.length)]. *)
Definition booking_sender (d : MailDb) : option string :=
  match fst (EmailService_getEmailConfig d) with
  | Some (c :: _) => Some (MailerStore.cf_sender c)
  | _ => None
  end.

(** ** Lemmas *)

Lemma rethrow_500_state {S A} (m : ST S A) s : snd (rethrow_500 m s) = snd (m s).
Proof. unfold rethrow_500. destruct (m s) as [[a|e] s']; reflexivity. Qed.

Lemma rethrow_500_ok {S A} (m : ST S A) s a s' : m s = (Ok a, s') -> rethrow_500 m s = (Returned a, s').
Proof. unfold rethrow_500. intros ->. reflexivity. Qed.

Lemma rethrow_500_err {S A} (m : ST S A) s e s' :
  m s = (Err e, s') -> rethrow_500 m s = (Threw {| ce_cause := e; ce_status := 500 |}, s').
Proof. unfold rethrow_500. intros ->. reflexivity. Qed.

Lemma on_templates_state {A} (m : ST (table TemplateStore.EmailTemplateRow) A) d :
  snd (on_templates m d) = {| email_configs := email_configs d; email_templates := snd (m (email_templates d)) |}.
Proof. unfold on_templates. destruct (m (email_templates d)). reflexivity. Qed.

Lemma on_configs_state {A} (m : ST (table MailerStore.EmailConfigRow) A) d :
  snd (on_configs m d) = {| email_configs := snd (m (email_configs d)); email_templates := email_templates d |}.
Proof. unfold on_configs. destruct (m (email_configs d)). reflexivity. Qed.

(** The booking's template is the first row of the service's templates. *)
Lemma booking_template_eq serviceId d :
  booking_template serviceId d =
    option_map (fun r => (TemplateStore.et_template r, Some (TemplateStore.et_subject r)))
               (TemplateStore.template_by_service serviceId (email_templates d)).
Proof. unfold booking_template. cbn. destruct (TemplateStore.template_by_service _ _); reflexivity. Qed.

Lemma addEmailTemplate_templates now c d :
  email_templates (snd (EmailService_addEmailTemplate now c d)) = snd (TemplateStore.addEmailTemplate now c (email_templates d)).
Proof. unfold EmailService_addEmailTemplate. rewrite rethrow_500_state, on_templates_state. reflexivity. Qed.

(** ** Theorems *)

(** C13 (invariant, finding): a service's first template is final: whatever [EmailService.addEmailTemplate] is
    asked to store, succeeding or throwing, the booking handler keeps
    using the template the service had. *)
Theorem first_template_permanent now c d serviceId r :
  TemplateStore.template_by_service serviceId (email_templates d) = Some r ->
  booking_template serviceId (snd (EmailService_addEmailTemplate now c d)) = booking_template serviceId d.
Proof.
  intros Hr. rewrite !booking_template_eq, addEmailTemplate_templates, Hr.
  destruct (TemplateStore.addEmailTemplate_state now c (email_templates d)) as [-> | [mk ->]];
    [rewrite Hr | rewrite (TemplateStore.template_by_service_insert_keep _ _ _ _ Hr)]; reflexivity.
Qed.

(** A template stored through the service for a service that had none is
    the booking's customer mail: its text with the sixteen placeholders
    replaced, and its subject (or the default subject when it is empty). *)
Theorem added_template_fills_customer_mail now c d type subject template n serviceId
    serviceName formatDateDE a ct :
  table_wf (email_templates d) ->
  TemplateStore.tq_type c = Some type -> TemplateStore.tq_subject c = Some subject ->
  TemplateStore.tq_template c = Some template -> template <> EmptyString ->
  match or_null (TemplateStore.tq_service_id c) with
  | Some s => match TemplateStore.service_id_column s with Ok n => Ok (Some n) | Err e => Err e end
  | None => Ok None
  end = Ok (Some n) ->
  TemplateStore.template_by_service serviceId (email_templates d) = None -> sql_id_eq serviceId n = true ->
  AppointmentController.customer_mail (booking_template serviceId (snd (EmailService_addEmailTemplate now c d)))
    formatDateDE serviceName a ct =
  (AppointmentController.fill_template formatDateDE serviceName template a ct,
   if String.eqb subject EmptyString then AppointmentController.default_customer_subject else subject).
Proof.
  intros Hw Hty Hs Htp Hne Hsid Hnone Heq.
  rewrite booking_template_eq, addEmailTemplate_templates,
    (TemplateStore.addEmailTemplate_lookup now c _ type subject template (Some n) serviceId Hw Hty Hs Htp Hsid),
    Hnone, Heq.
  unfold AppointmentController.customer_mail. cbn.
  destruct (String.eqb template EmptyString) eqn:E; [apply String.eqb_eq in E; contradiction|].
  unfold AppointmentController.truthy_s. cbn.
  destruct (String.eqb subject EmptyString); reflexivity.
Qed.

(** A configuration stored through the service, newer than every stored
    one, gives the booking handler its sender: the company's booking
    notice goes to the address just saved. *)
Theorem added_config_is_sender now c d cfg d' :
  (forall r, In r (rows (email_configs d)) -> MailerStore.ec_created_at r < now) ->
  EmailService_addEmailConfig now c d = (Returned cfg, d') ->
  booking_sender d' = MailerStore.eq_sender c.
Proof.
  intros Hold. unfold EmailService_addEmailConfig, rethrow_500, on_configs.
  destruct (MailerStore.addEmailConfig now c (email_configs d)) as [[a|e] t'] eqn:E; [|discriminate].
  intros [= _ <-].
  destruct (MailerStore.addEmailConfig_ok _ _ _ _ _ E) as (sender & server & username & password & n & Hs & _ & _ & ->).
  destruct (MailerStore.newest_config_inserted (MailerStore.new_email_config_row now sender server username password n c)
              (email_configs d) now Hold eq_refl) as [rest Hsort].
  unfold booking_sender, EmailService_getEmailConfig, null_on_error, on_configs, MailerStore.getEmailConfig.
  cbn [fst snd email_configs]. rewrite Hsort, Hs. reflexivity.
Qed.

(** ** Concrete runs *)

Definition empty_mail_db : MailDb := {| email_configs := empty_table; email_templates := empty_table |}.

Definition confirmation_for (serviceId : string) (text : string) : TemplateStore.EmailTemplateRequest := {|
  TemplateStore.tq_type := Some "Confirmation"; TemplateStore.tq_subject := Some "Ihr Termin";
  TemplateStore.tq_template := Some text; TemplateStore.tq_service_id := Some serviceId |}.

(** Two templates for service 3 stored through the service: the booking
    keeps the first; a template for a service id that is not a number
    throws a [ClientError] with status 500 and stores nothing. *)
Example service_template_runs :
  let d1 := snd (EmailService_addEmailTemplate 1 (confirmation_for "3" "old") empty_mail_db) in
  let d2 := snd (EmailService_addEmailTemplate 2 (confirmation_for "3" "new") d1) in
  booking_template "3" d2 = Some ("old", Some "Ihr Termin") /\
  fst (EmailService_addEmailTemplate 3 (confirmation_for "oil" "x") d2) =
    Threw {| ce_cause := TemplateStore.incorrect_integer; ce_status := 500 |} /\
  snd (EmailService_addEmailTemplate 3 (confirmation_for "oil" "x") d2) = d2.
Proof. vm_compute. repeat split. Qed.

(** Service 3 with its first template stored. *)
Definition template_db : MailDb := snd (EmailService_addEmailTemplate 1 (confirmation_for "3" "old") empty_mail_db).

Lemma first_template_permanent_witness :
  booking_template "3" (snd (EmailService_addEmailTemplate 2 (confirmation_for "3" "new") template_db)) =
  booking_template "3" template_db.
Proof. eapply first_template_permanent. vm_compute. reflexivity. Defined.

(** Without a configuration the booking has no sender; a read never
    throws. *)
Example no_config_no_sender :
  booking_sender empty_mail_db = None /\ fst (EmailService_getEmailConfig empty_mail_db) = Some [].
Proof. vm_compute. split; reflexivity. Qed.

End EmailServiceLayer.
