(* ===== verification/SeedData.v ===== *)
(** The development database script
    [booking-backend-main/scripts/reset-and-seed-db.ts]: [deleteAllData]
    (lines 13-53: [DELETE FROM] and [AUTO_INCREMENT = 1] on the ten
    tables), [insertDummyData] (58-199: the rows of seven tables) and the
    row counts of [verifyData] (204-231, the verdict of 287-292), composed
    by [main] (302-323).  The state is every table of the database: the
    appointment and contact tables of [Database], the catalog of
    [Catalog], the users and reset tokens of [UserStore] and the mail
    tables of [EmailServiceLayer].  [NOW()] is the parameter [now] (the
    database session taken at UTC); the columns an [INSERT] does not name
    take [NULL] or [false], since the schema is not in the repository; the
    JSON columns [channels] and [internal] of [users] and the column
    [newsletter] of [contacts] are not in the rows.  What [verifyData]
    prints, the sample [SELECT]s included, is [verifyData_log]. *)

From Stdlib Require Import ZArith List String Bool Lia QArith.
From S2P Require Import Prelude JsDate TimeParse Schedule Table Slots Appointment Database Conflict Availability Catalog UserStore MailerStore TemplateStore EmailServiceLayer.
Import ListNotations.
Open Scope Z_scope.

Module SeedData.
Import JsDate Schedule Table Slots Appointment Database Conflict Availability Catalog UserStore EmailServiceLayer.
Local Open Scope string_scope.

#[local] Instance appointment_row_id : HasId AppointmentRow := ar_id.
#[local] Instance contact_row_id : HasId ContactRow := cr_id.

(** ** The whole database *)

Record FullDb := {
  fd_db : Db;
  fd_catalog : Catalog;
  fd_users : UserDb;
  fd_mail : MailDb
}.

(** A statement on one table, whatever its rows. *)
Definition TableOp := forall (R : Type), HasId R -> table R -> table R.

Definition appointments_table (db : Db) : table AppointmentRow := mk_table (db_appointments db) (db_ai_appointments db).
Definition contacts_table (db : Db) : table ContactRow := mk_table (db_contacts db) (db_ai_contacts db).

(** [op] on the table called [name]; an unknown name changes nothing. *)
Definition with_table (name : string) (op : TableOp) (s : FullDb) : FullDb :=
  let db := fd_db s in let c := fd_catalog s in let u := fd_users s in let m := fd_mail s in
  let db' :=
    if String.eqb name "appointments" then
      let t := op _ appointment_row_id (appointments_table db) in
      {| db_appointments := rows t; db_contacts := db_contacts db;
         db_ai_appointments := next_id t; db_ai_contacts := db_ai_contacts db |}
    else if String.eqb name "contacts" then
      let t := op _ contact_row_id (contacts_table db) in
      {| db_appointments := db_appointments db; db_contacts := rows t;
         db_ai_appointments := db_ai_appointments db; db_ai_contacts := next_id t |}
    else db in
  let c' :=
    if String.eqb name "schedules" then set_schedules c (op _ schedule_id (schedules c))
    else if String.eqb name "services" then set_services c (op _ service_id (services c))
    else if String.eqb name "categories" then set_categories c (op _ category_id (categories c))
    else if String.eqb name "calendars" then set_calendars c (op _ calendar_id (calendars c))
    else c in
  let u' :=
    if String.eqb name "reset_tokens" then set_reset_tokens u (op _ reset_token_id (reset_tokens u))
    else if String.eqb name "users" then set_users u (op _ user_id (users u))
    else u in
  let m' :=
    if String.eqb name "email_templates" then
      {| email_configs := email_configs m; email_templates := op _ TemplateStore.email_template_id (email_templates m) |}
    else if String.eqb name "email_configs" then
      {| email_configs := op _ MailerStore.email_config_id (email_configs m); email_templates := email_templates m |}
    else m in
  {| fd_db := db'; fd_catalog := c'; fd_users := u'; fd_mail := m' |}.

(** [DELETE FROM t]: the rows go, the counter stays. *)
Definition delete_from : TableOp := fun R _ t => mk_table [] (next_id t).

Definition max_id {R} `{HasId R} (l : list R) : Z := fold_right (fun r m => Z.max (row_id r) m) 0 l.

(** [ALTER TABLE t AUTO_INCREMENT = v]: InnoDB never sets the counter at
    or below the largest id. *)
Definition alter_auto_increment (v : Z) : TableOp :=
  fun R h t => mk_table (rows t) (Z.max v (@max_id R h (rows t) + 1)).

(** ** [deleteAllData] *)

Definition tables : list string :=
  ["appointments"; "schedules"; "services"; "categories"; "calendars"; "contacts";
   "reset_tokens"; "users"; "email_templates"; "email_configs"].

Definition deleteAllData (s : FullDb) : FullDb :=
  let s1 := fold_left (fun s name => with_table name delete_from s) tables s in
  fold_left (fun s name => with_table name (alter_auto_increment 1) s) tables s1.

(** The empty database with every counter at 1. *)
Definition empty_full_db : FullDb := {|
  fd_db := {| db_appointments := []; db_contacts := []; db_ai_appointments := 1; db_ai_contacts := 1 |};
  fd_catalog := empty_catalog; fd_users := empty_user_db; fd_mail := empty_mail_db |}.

(** ** [insertDummyData] *)

(** One multi-row [INSERT]: the rows get consecutive ids from the counter. *)
Definition insert_rows {R} `{HasId R} (mks : list (Z -> R)) (t : table R) : table R :=
  fold_left (fun t mk => snd (insert_row mk t)) mks t.

Definition seed_user (now : Z) (name email password phone role remarks : string) (id : Z) : UserRow := {|
  u_id := id; u_name := name; u_email := email; u_password := password; u_phone_number := phone;
  u_remarks := Some remarks; u_role := role; u_token := None; u_refresh_token := None; u_created_at := now |}.

Definition seed_users (now : Z) : list (Z -> UserRow) := [
  seed_user now "مدير النظام" "admin@example.com" "$2b$10$Ds14gLwwKdYzHv.qQv6GzOzXLZqbTO3zjndh1gmM3j03zhKDYN/Qu" "+436641234567" "admin" "مدير النظام الرئيسي";
  seed_user now "سكرتارية" "secretary@example.com" "$2b$10$tYUa3W.sUBO1C3n/nmLJ/e8yQNSl/mUNnquopHhhomiwfyqErKe5m" "+436641234568" "secretaria" "سكرتارية المكتب";
  seed_user now "موظف 1" "employee1@example.com" "$2b$10$m4tpVR8bS2xf8StF2Wp6P.RJsrOn36otKQ4iKiEuL7pvIG3FqaHFu" "+436641234569" "employee" "موظف فني 1";
  seed_user now "موظف 2" "employee2@example.com" "$2b$10$m4tpVR8bS2xf8StF2Wp6P.RJsrOn36otKQ4iKiEuL7pvIG3FqaHFu" "+436641234570" "employee" "موظف فني 2";
  seed_user now "مستخدم عادي" "user@example.com" "$2b$10$t4XACTSNpQxEILs7L4XNkO5KHrSvnzsylQsksvXQ3UZauaQv6L62e" "+436641234571" "user" "مستخدم عادي"].

Definition seed_calendar (now : Z) (name description email password : string) (online_booked active : bool)
    (assignment show : string) (id : Z) : CalendarRow := {|
  c_id := id; c_employee_name := name; c_description := Some description; c_show_description := show;
  c_appointment_scheduling := None; c_employee_image := None; c_email := Some email;
  c_password := Some password; c_online_booked := online_booked; c_assignment_of_services := assignment;
  c_assignments_services := None; c_link_calendar := false; c_priority_link := None;
  c_insert_appointments := None; c_coupling_on_certain_services := false; c_certain_services := None;
  c_active := active; c_created_at := now |}.

Definition seed_calendars (now : Z) : list (Z -> CalendarRow) := [
  seed_calendar now "محمد أحمد" "فني صيانة متخصص في أجهزة التكييف" "mohamed@example.com" "$2b$10$m4tpVR8bS2xf8StF2Wp6P.RJsrOn36otKQ4iKiEuL7pvIG3FqaHFu" true true "All" "Text";
  seed_calendar now "علي حسن" "فني صيانة متخصص في أجهزة التدفئة" "ali@example.com" "$2b$10$m4tpVR8bS2xf8StF2Wp6P.RJsrOn36otKQ4iKiEuL7pvIG3FqaHFu" true true "All" "Tooltip";
  seed_calendar now "فاطمة خالد" "فني صيانة متخصص في الأجهزة الكهربائية" "fatima@example.com" "$2b$10$m4tpVR8bS2xf8StF2Wp6P.RJsrOn36otKQ4iKiEuL7pvIG3FqaHFu" true true "All" "None";
  seed_calendar now "خالد محمد" "فني صيانة عام" "khaled@example.com" "$2b$10$m4tpVR8bS2xf8StF2Wp6P.RJsrOn36otKQ4iKiEuL7pvIG3FqaHFu" false true "All" "Text"].

Definition seed_contact (now : Z) (salutation first last address zip location telephone email password : string)
    (district : Z) (archived : bool) (id : Z) : ContactRow := {|
  cr_id := id; cr_salutation := Some salutation; cr_first_name := Some first; cr_last_name := Some last;
  cr_address := Some address; cr_zip_code := Some zip; cr_location := Some location;
  cr_telephone := Some telephone; cr_phone_numbber_2 := None; cr_phone_numbber_3 := None;
  cr_email := Some email; cr_password := Some password; cr_archived := archived;
  cr_note_on_address := None; cr_district := Some district; cr_lat := None; cr_lng := None;
  cr_remarks := None; cr_created_at := now |}.

Definition customer_hash : string := "$2b$10$t4XACTSNpQxEILs7L4XNkO5KHrSvnzsylQsksvXQ3UZauaQv6L62e".

Definition seed_contacts (now : Z) : list (Z -> ContactRow) := [
  seed_contact now "Herr" "أحمد" "محمد" "شارع النصر 10" "1010" "فيينا" "+436641234001" "ahmed@customer.com" customer_hash 1 false;
  seed_contact now "Frau" "سارة" "أحمد" "شارع الجمهورية 25" "1020" "فيينا" "+436641234002" "sara@customer.com" customer_hash 2 false;
  seed_contact now "Herr" "محمد" "علي" "شارع الشهداء 50" "1030" "فيينا" "+436641234003" "mohamed.customer@email.com" customer_hash 3 false;
  seed_contact now "Frau" "فاطمة" "خالد" "شارع الحرية 75" "1040" "فيينا" "+436641234004" "fatima@customer.com" customer_hash 1 false;
  seed_contact now "Herr" "عمر" "يوسف" "شارع السلام 100" "1050" "فيينا" "+436641234005" "omar@customer.com" customer_hash 2 false;
  seed_contact now "Frau" "ليلى" "محمد" "شارع الاستقلال 150" "1060" "فيينا" "+436641234006" "leila@customer.com" customer_hash 3 false;
  seed_contact now "Herr" "يوسف" "أحمد" "شارع الكرامة 200" "1070" "فيينا" "+436641234007" "youssef@customer.com" customer_hash 1 false;
  seed_contact now "Frau" "نور" "علي" "شارع الوحدة 250" "1080" "فيينا" "+436641234008" "noor@customer.com" customer_hash 2 false;
  seed_contact now "Herr" "حسن" "محمد" "شارع الفجر 300" "1090" "فيينا" "+436641234009" "hasan@customer.com" customer_hash 3 false;
  seed_contact now "Frau" "ريم" "خالد" "شارع الأمل 350" "1100" "فيينا" "+436641234010" "reem@customer.com" customer_hash 1 false].

Definition seed_category (now : Z) (name category choices : string) (optional show_price show_duration : bool)
    (columns : Z) (full_screen folded online : bool) (remarks : string) (unique_id : Z) (display : string)
    (id : Z) : CategoryRow := {|
  cat_id := id; cat_name := name; cat_category := category; cat_choices := choices;
  cat_selection_is_optional := optional; cat_show_price := show_price;
  cat_show_appointment_duration := show_duration; cat_no_columns_of_services := columns;
  cat_full_screen := full_screen; cat_folded := folded; cat_online_booking := online;
  cat_remarks := remarks; cat_unique_id := unique_id; cat_display_status := display; cat_created_at := now |}.

Definition seed_categories (now : Z) : list (Z -> CategoryRow) := [
  seed_category now "صيانة التكييف" "Maintenance" "Single" false true true 1 false false true "خدمات صيانة أجهزة التكييف" 1 "show";
  seed_category now "صيانة التدفئة" "Maintenance" "Single" false true true 1 false false true "خدمات صيانة أجهزة التدفئة" 2 "show";
  seed_category now "صيانة الأجهزة الكهربائية" "Maintenance" "Multiple" true true true 2 false false true "خدمات صيانة الأجهزة الكهربائية" 3 "show";
  seed_category now "تركيب الأجهزة" "Installation" "Single" false true true 1 false false true "خدمات تركيب الأجهزة" 4 "show";
  seed_category now "فحص دوري" "Inspection" "Single" false false true 1 false false true "فحص دوري للأجهزة" 5 "show"].

(** A price of [DECIMAL] type written [n.00]. *)
Definition seed_service (category_id : Z) (name description : string) (duration price abbreviation : Z)
    (id : Z) : ServiceRow := {|
  srv_id := id; srv_category_id := category_id; srv_name := name; srv_description := description;
  srv_duration := Some duration; srv_price := inject_Z price; srv_abbreviation_id := abbreviation |}.

Definition seed_services : list (Z -> ServiceRow) := [
  seed_service 1 "صيانة دورية للتكييف" "صيانة دورية شاملة لوحدة التكييف" 60 150 101;
  seed_service 1 "تنظيف فلتر التكييف" "تنظيف وفحص فلتر التكييف" 30 80 102;
  seed_service 1 "إصلاح عطل في التكييف" "تشخيص وإصلاح الأعطال" 90 200 103;
  seed_service 2 "صيانة دورية للتدفئة" "صيانة دورية شاملة لنظام التدفئة" 60 150 201;
  seed_service 2 "تنظيف المرجل" "تنظيف وفحص مرجل التدفئة" 45 120 202;
  seed_service 2 "إصلاح عطل في التدفئة" "تشخيص وإصلاح الأعطال" 90 220 203;
  seed_service 3 "صيانة الغسالة" "صيانة وفحص الغسالة" 60 100 301;
  seed_service 3 "صيانة الثلاجة" "صيانة وفحص الثلاجة" 60 120 302;
  seed_service 3 "صيانة الميكروويف" "صيانة وفحص الميكروويف" 30 80 303;
  seed_service 3 "صيانة الفرن" "صيانة وفحص الفرن" 45 110 304;
  seed_service 4 "تركيب تكييف" "تركيب وحدة تكييف جديدة" 120 300 401;
  seed_service 4 "تركيب نظام تدفئة" "تركيب نظام تدفئة جديد" 180 500 402;
  seed_service 4 "تركيب جهاز كهربائي" "تركيب أي جهاز كهربائي" 60 150 403;
  seed_service 5 "فحص شامل" "فحص شامل لجميع الأجهزة" 120 200 501;
  seed_service 5 "فحص دوري سريع" "فحص سريع للأجهزة الرئيسية" 60 100 502].

Definition seed_schedule (now : Z) (calendar_id : Z) (type weekday from to : string) (active : bool)
    (id : Z) : ScheduleRow := {|
  s_id := id; s_calendar_id := calendar_id; s_working_hours_type := type; s_weekday := Some weekday;
  s_date_from := None; s_date_to := None; s_time_from := from; s_time_to := to; s_reason := None;
  s_deactivate_working_hours := false; s_one_time_appointment_link := None; s_only_internally := false;
  s_restricted_to_services := None; s_possible_appointment := None; s_active := active;
  s_created_at := now |}.

Definition seed_schedules (now : Z) : list (Z -> ScheduleRow) := [
  seed_schedule now 1 "weekly" "Monday" "08:00" "17:00" true;
  seed_schedule now 1 "weekly" "Tuesday" "08:00" "17:00" true;
  seed_schedule now 1 "weekly" "Wednesday" "08:00" "17:00" true;
  seed_schedule now 1 "weekly" "Thursday" "08:00" "17:00" true;
  seed_schedule now 1 "weekly" "Friday" "08:00" "13:00" true;
  seed_schedule now 2 "weekly" "Monday" "09:00" "18:00" true;
  seed_schedule now 2 "weekly" "Tuesday" "09:00" "18:00" true;
  seed_schedule now 2 "weekly" "Wednesday" "09:00" "18:00" true;
  seed_schedule now 2 "weekly" "Thursday" "09:00" "18:00" true;
  seed_schedule now 2 "weekly" "Friday" "09:00" "14:00" true;
  seed_schedule now 2 "weekly" "Saturday" "09:00" "13:00" true;
  seed_schedule now 3 "weekly" "Monday" "08:00" "16:00" true;
  seed_schedule now 3 "weekly" "Tuesday" "08:00" "16:00" true;
  seed_schedule now 3 "weekly" "Wednesday" "08:00" "16:00" true;
  seed_schedule now 3 "weekly" "Thursday" "08:00" "16:00" true;
  seed_schedule now 3 "weekly" "Friday" "08:00" "12:00" true;
  seed_schedule now 4 "weekly" "Monday" "07:00" "15:00" true;
  seed_schedule now 4 "weekly" "Tuesday" "07:00" "15:00" true;
  seed_schedule now 4 "weekly" "Wednesday" "07:00" "15:00" true;
  seed_schedule now 4 "weekly" "Thursday" "07:00" "15:00" true;
  seed_schedule now 4 "weekly" "Friday" "07:00" "12:00" true].

(** [DATE_ADD(NOW(), INTERVAL days DAY)] and [+ INTERVAL minutes MINUTE]. *)
Definition seed_appointment (now : Z) (category_id service_id calendar_id contact_id days minutes : Z)
    (status : string) (brand model year : option string) (archived : bool) (id : Z) : AppointmentRow := {|
  ar_id := id; ar_category_id := category_id; ar_service_id := service_id; ar_calendar_id := calendar_id;
  ar_contact_id := contact_id; ar_new_user := false; ar_start_date := now + days * msPerDay;
  ar_end_date := now + days * msPerDay + minutes * msPerMinute; ar_appointment_status := status;
  ar_archived := archived; ar_remarks := None; ar_brand_of_device := brand; ar_model := model;
  ar_year := year |}.

Definition seed_appointments (now : Z) : list (Z -> AppointmentRow) := [
  seed_appointment now 1 1 1 1 2 60 "Confirmed" (Some "Samsung") (Some "AC-2024") (Some "2024") false;
  seed_appointment now 2 4 2 2 3 60 "Confirmed" (Some "Bosch") (Some "Heater-3000") (Some "2023") false;
  seed_appointment now 3 7 3 3 4 60 "Confirmed" (Some "LG") (Some "Washer-WM4000") (Some "2022") false;
  seed_appointment now 1 2 1 4 5 30 "Confirmed" (Some "Mitsubishi") (Some "AC-MSR-1") (Some "2024") false;
  seed_appointment now 5 14 4 5 6 60 "Confirmed" None None None false;
  seed_appointment now 4 11 2 6 7 120 "Confirmed" (Some "Daikin") (Some "AC-DK-5000") (Some "2024") false;
  seed_appointment now 3 8 3 7 8 60 "Confirmed" (Some "Siemens") (Some "Fridge-SI-300") (Some "2023") false;
  seed_appointment now 2 5 1 8 9 45 "Confirmed" (Some "Viessmann") (Some "Boiler-VT-200") (Some "2022") false].

(** The multi-row [INSERT]s of the two tables of [Database]. *)
Definition insert_contacts (mks : list (Z -> ContactRow)) (db : Db) : Db :=
  fold_left (fun db mk => snd (insert_contact mk db)) mks db.

Definition insert_appointments (mks : list (Z -> AppointmentRow)) (db : Db) : Db :=
  fold_left (fun db mk => snd (insert_appointment mk db)) mks db.

(** The seven [INSERT]s in the script's order. *)
Definition insertDummyData (now : Z) (s : FullDb) : FullDb :=
  let u := set_users (fd_users s) (insert_rows (seed_users now) (users (fd_users s))) in
  let c1 := set_calendars (fd_catalog s) (insert_rows (seed_calendars now) (calendars (fd_catalog s))) in
  let db1 := insert_contacts (seed_contacts now) (fd_db s) in
  let c2 := set_categories c1 (insert_rows (seed_categories now) (categories c1)) in
  let c3 := set_services c2 (insert_rows seed_services (services c2)) in
  let c4 := set_schedules c3 (insert_rows (seed_schedules now) (schedules c3)) in
  let db2 := insert_appointments (seed_appointments now) db1 in
  {| fd_db := db2; fd_catalog := c4; fd_users := u; fd_mail := fd_mail s |}.

(** ** [verifyData] and [main] *)

(** The [SELECT COUNT] of table [t] ([count]). *)
Definition count_rows (name : string) (s : FullDb) : Z :=
  Z.of_nat (
    if String.eqb name "users" then List.length (rows (users (fd_users s)))
    else if String.eqb name "calendars" then List.length (rows (calendars (fd_catalog s)))
    else if String.eqb name "contacts" then List.length (db_contacts (fd_db s))
    else if String.eqb name "categories" then List.length (rows (categories (fd_catalog s)))
    else if String.eqb name "services" then List.length (rows (services (fd_catalog s)))
    else if String.eqb name "schedules" then List.length (rows (schedules (fd_catalog s)))
    else if String.eqb name "appointments" then List.length (db_appointments (fd_db s))
    else if String.eqb name "reset_tokens" then List.length (rows (reset_tokens (fd_users s)))
    else if String.eqb name "email_templates" then List.length (rows (email_templates (fd_mail s)))
    else List.length (rows (email_configs (fd_mail s)))).

Definition expected_counts : list (string * Z) :=
  [("users", 5); ("calendars", 4); ("contacts", 10); ("categories", 5); ("services", 15);
   ("schedules", 21); ("appointments", 8)].

(** [allCorrect] of [verifyData]. *)
Definition verifyData (s : FullDb) : bool :=
  forallb (fun '(name, expected) => Z.eqb (count_rows name s) expected) expected_counts.

(** [main]: the three steps, and the verdict [verifyData] prints. *)
Definition main (now : Z) (s : FullDb) : bool * FullDb :=
  let s2 := insertDummyData now (deleteAllData s) in
  (verifyData s2, s2).

(** The database the script leaves. *)
Definition seeded (now : Z) : FullDb := insertDummyData now empty_full_db.

(** ** What [verifyData] prints *)

(** [${v}] of a nullable text column: SQL [NULL] prints as [null]. *)
Definition show_null (o : option string) : string :=
  match o with Some v => v | None => "null" end.

(** Lines 224-229 for one table. *)
Definition count_line (name : string) (count expected : Z) : string :=
  if Z.eqb count expected
  then "✅ " ++ name ++ ": " ++ id_toString count ++ " صف (متوقع: " ++ id_toString expected ++ ")"
  else "❌ " ++ name ++ ": " ++ id_toString count ++ " صف (متوقع: " ++ id_toString expected ++ ")".

(** Lines 286-292. *)
Definition verdict_lines (allCorrect : bool) : list string :=
  [lf ++ repeat_str "=" 50;
   if allCorrect then "✅ جميع البيانات تم إضافتها بشكل صحيح!" else "⚠️  بعض البيانات غير متطابقة مع المتوقع";
   repeat_str "=" 50 ++ lf].

(** The [JOIN]s of the sample queries, each table in the order of its
    rows (the queries have no [ORDER BY]; InnoDB scans in primary key
    order, the order of the rows here). *)
Definition join_by {A B} (key : A -> Z) (id : B -> Z) (xs : list A) (ys : list B) : list (A * B) :=
  flat_map (fun x => map (fun y => (x, y)) (List.filter (fun y => Z.eqb (key x) (id y)) ys)) xs.

Section VerifyLog.
(** mysql2's text of a [DECIMAL] price, and
    [new Date(t).toLocaleString('ar-EG')]. *)
Variable decimal_text : Q -> string.
Variable toLocaleString : Z -> string.

(** Lines 236-240: [SELECT id, name, email, role FROM users LIMIT 3]. *)
Definition sample_users (s : FullDb) : list string :=
  map (fun u => "  - " ++ u_name u ++ " (" ++ u_email u ++ ") - " ++ u_role u)
      (firstn 3 (rows (users (fd_users s)))).

(** Lines 243-247. *)
Definition sample_contacts (s : FullDb) : list string :=
  map (fun c => "  - " ++ show_null (cr_first_name c) ++ " " ++ show_null (cr_last_name c) ++
                " (" ++ show_null (cr_email c) ++ ")")
      (firstn 3 (db_contacts (fd_db s))).

(** Lines 250-254. *)
Definition sample_categories (s : FullDb) : list string :=
  map (fun c => "  - " ++ cat_name c ++ " (ID: " ++ id_toString (cat_id c) ++
                ", Unique ID: " ++ id_toString (cat_unique_id c) ++ ")")
      (rows (categories (fd_catalog s))).

(** Lines 257-266: the services joined with their category, [LIMIT 5]. *)
Definition sample_services (s : FullDb) : list string :=
  map (fun '(sv, c) => "  - " ++ srv_name sv ++ " (" ++ cat_name c ++ ") - " ++ decimal_text (srv_price sv) ++ " €")
      (firstn 5 (join_by srv_category_id cat_id (rows (services (fd_catalog s))) (rows (categories (fd_catalog s))))).

(** Lines 269-284: the appointments joined with their category, service,
    calendar and contact, [LIMIT 3]. *)
Definition sample_appointments (s : FullDb) : list string :=
  let c := fd_catalog s in
  map (fun '(((a, _), sv), cal, con) =>
         "  - " ++ toLocaleString (ar_start_date a) ++ ": " ++ srv_name sv ++ " - " ++ c_employee_name cal ++
         " - " ++ show_null (cr_first_name con) ++ " " ++ show_null (cr_last_name con) ++
         " (" ++ ar_appointment_status a ++ ")")
      (firstn 3
         (join_by (fun p => ar_contact_id (fst (fst (fst p)))) cr_id
            (join_by (fun p => ar_calendar_id (fst (fst p))) c_id
               (join_by (fun p => ar_service_id (fst p)) srv_id
                  (join_by ar_category_id cat_id (db_appointments (fd_db s)) (rows (categories c)))
                  (rows (services c)))
               (rows (calendars c)))
            (db_contacts (fd_db s)))).

(** Every line [verifyData] (lines 204-296) logs. *)
Definition verifyData_log (s : FullDb) : list string :=
  app (map (fun '(name, expected) => count_line name (count_rows name s) expected) expected_counts)
  (app ((lf ++ "📋 عينة من البيانات:" ++ lf) :: "المستخدمون:" :: sample_users s)
  (app ((lf ++ "العملاء:") :: sample_contacts s)
  (app ((lf ++ "الفئات:") :: sample_categories s)
  (app ((lf ++ "الخدمات:") :: sample_services s)
  (app ((lf ++ "المواعيد:") :: sample_appointments s)
       (verdict_lines (verifyData s))))))).
End VerifyLog.

(** Every appointment names an existing category, service, calendar and
    contact, the service of its category; every rule an existing
    calendar; every service an existing category. *)
Definition references_ok (s : FullDb) : bool :=
  let c := fd_catalog s in
  let has_cal id := existsb (fun r => Z.eqb (c_id r) id) (rows (calendars c)) in
  let has_cat id := existsb (fun r => Z.eqb (cat_id r) id) (rows (categories c)) in
  forallb (fun a =>
             has_cat (ar_category_id a) && has_cal (ar_calendar_id a) &&
             existsb (fun r => Z.eqb (cr_id r) (ar_contact_id a)) (db_contacts (fd_db s)) &&
             existsb (fun r => Z.eqb (srv_id r) (ar_service_id a) && Z.eqb (srv_category_id r) (ar_category_id a))
                     (rows (services c)))
          (db_appointments (fd_db s)) &&
  forallb (fun r => has_cal (s_calendar_id r)) (rows (schedules c)) &&
  forallb (fun r => has_cat (srv_category_id r)) (rows (services c)).

(** ** Theorems *)

(** The two loops of [deleteAllData] reach every table: whatever the
    database held, it is empty afterwards with every counter at 1. *)
Lemma deleteAllData_empties s : deleteAllData s = empty_full_db.
Proof.
  destruct s as [[a ct ai ci] [[cr cn] [sr sn] [kr kn] [vr vn]] [[ur un] [tr tn]] [[er en] [mr mn]]].
  reflexivity.
Qed.

(** The script's check always passes, and it always leaves the same
    database, whatever the database held before. *)
Theorem reset_and_seed_verifies now s : main now s = (true, seeded now).
Proof. unfold main. rewrite deleteAllData_empties. reflexivity. Qed.

(** The seeded database satisfies the key invariants of every DAO model:
    ids positive, distinct and below their counters. *)
Theorem seeded_wf now :
  db_wf (fd_db (seeded now)) /\ catalog_wf (fd_catalog (seeded now)) /\
  table_wf (users (fd_users (seeded now))) /\ references_ok (seeded now) = true.
Proof.
  split; [apply db_wfb_sound; reflexivity|]. split; [apply catalog_wfb_sound; reflexivity|].
  split; [apply table_wfb_sound; reflexivity | reflexivity].
Qed.

(** ** The availability query on the seeded database *)

(** The query for a Friday of the seeded technicians, on a host at UTC,
    with no service chosen. *)
Definition seeded_slots (now date : Z) : option (list TimeSlot) :=
  let s := seeded now in
  @getTimeSlots (ScheduleDaoMySql (rows (schedules (fd_catalog s))) (rows (calendars (fd_catalog s))) 0)
    (AppointmentDaoMySql (db_appointments (fd_db s)) (db_contacts (fd_db s)))
    (CategoryDaoMySql (catalog_services (fd_catalog s))) 40 0 now date None None.

(** Seeded on Saturday 2024-05-11 at midnight, the Friday after has the
    five hours of technician 1 (08:00-13:00) and of technician 2
    (09:00-14:00), and nothing of technicians 3 and 4, whose Friday rules
    end at ["12:00"], read as 00:00. *)
Example seeded_friday :
  option_map (map (fun sl => (slot_calendar_id sl, (slot_start sl - friday_2024_05_17) / (60 * msPerMinute))))
    (seeded_slots (friday_2024_05_17 - 6 * msPerDay) friday_2024_05_17) =
  Some [("1", 8); ("1", 9); ("1", 10); ("1", 11); ("1", 12);
        ("2", 9); ("2", 10); ("2", 11); ("2", 12); ("2", 13)].
Proof. vm_compute. reflexivity. Qed.

(** The seeded appointments start at the time of day the script runs:
    seeded at midnight, technician 1's first booking is Monday 00:00-01:00,
    outside the 08:00-17:00 of its Monday rule. *)
Example seeded_booking_outside_hours :
  map (fun a => (ar_calendar_id a, (ar_start_date a - friday_2024_05_17 + 6 * msPerDay) / msPerDay,
                 (ar_start_date a mod msPerDay) / (60 * msPerMinute)))
      (firstn 1 (db_appointments (fd_db (seeded (friday_2024_05_17 - 6 * msPerDay))))) = [(1, 2, 0)] /\
  toLocaleWeekday 0 (friday_2024_05_17 - 4 * msPerDay) = "Monday".
Proof. vm_compute. split; reflexivity. Qed.

(** What [verifyData] prints on the seeded database: every count as
    expected, three sample appointments, each joined with its service,
    technician and customer, and the success verdict. *)
Example seeded_verify_log :
  let log := verifyData_log (fun _ => "90.00") (fun _ => "date") (seeded 1763683200000) in
  List.length log = 35%nat /\
  forallb (String.prefix "✅ ") (firstn 7 log) = true /\
  List.length (sample_appointments (fun _ => "date") (seeded 1763683200000)) = 3%nat /\
  nth 33 log "" = "✅ جميع البيانات تم إضافتها بشكل صحيح!".
Proof. vm_compute. repeat split. Qed.

End SeedData.
