(* ===== verification/Diagnostics.v ===== *)
(** The diagnostic scripts of [booking-backend-main/scripts]:
    [check-join.ts], [check-appointments.ts],
    [check-calendar-matching.ts] and [test-query.ts].  Each runs its
    SELECTs over [appointments], [contacts] and [calendars] and prints what
    it found; a script is a function from the tables to the arguments of
    its [console.log] calls, in order (a newline inside an argument is
    [lf]).  The pool the scripts open at load and close in their [finally]
    is [MySQLPool]'s; the queries of the model do not fail, so the [catch]
    printing the error is not reached.  As in [AppointmentHandlers],
    MySQL's reading of the ISO strings bound to a [DATETIME] comparison is
    a section variable, [dt]; so is the formatting of an instant by
    [toLocaleString('ar-EG')] and [toLocaleDateString('ar-EG')].
    [new Date(s).toISOString()] of the scripts' constants is the constant
    itself. *)

From Stdlib Require Import ZArith List String Ascii Bool Lia.
From S2P Require Import Prelude Schedule Appointment Database.
Import ListNotations.
From Stdlib Require Import Permutation.
Open Scope Z_scope.

Module Diagnostics.
Import Schedule Appointment Database.
Local Open Scope string_scope.

(** ** Output *)

(** A double quote, which a string literal here does not hold; the
    newline is the prelude's [lf]. *)
Definition quote_str : string := String (ascii_of_nat 34) EmptyString.

(** [${n}] of a count. *)
Definition show_nat (n : nat) : string := id_toString (Z.of_nat n).

(** The ranges the scripts query. *)
Definition nov_start : string := "2025-11-01T00:00:00.000Z".
Definition nov_end : string := "2025-11-30T23:59:59.999Z".
Definition day_start : string := "2025-11-21T00:00:00.000Z".
Definition day_end : string := "2025-11-21T23:59:59.999Z".

(** ** The queries *)

(** [LEFT JOIN contacts c ON a.contact_id = c.id]: an appointment without
    a contact gives one row whose contact columns are NULL. *)
Definition left_join_contacts (as_ : list AppointmentRow) (cs : list ContactRow)
    : list (AppointmentRow * option ContactRow) :=
  flat_map (fun a => match List.filter (fun c => Z.eqb (ar_contact_id a) (cr_id c)) cs with
                     | [] => [(a, None)]
                     | l => map (fun c => (a, Some c)) l
                     end) as_.

(** [!row.contact_exists] on [c.id as contact_exists]: NULL or [0]. *)
Definition falsy_id (o : option Z) : bool :=
  match o with None => true | Some n => Z.eqb n 0 end.

(** An appointment no contact row joins with. *)
Definition no_contact (cs : list ContactRow) (a : AppointmentRow) : bool :=
  match List.filter (fun c => Z.eqb (ar_contact_id a) (cr_id c)) cs with [] => true | _ :: _ => false end.

(** [SELECT ... FROM appointments ORDER BY start_date]. *)
Definition by_start (rows : list AppointmentRow) : list AppointmentRow :=
  sort_by ar_start_date false rows.

(** [WHERE start_date < ? AND end_date > ?]: the appointments overlapping
    the range. *)
Definition overlaps (start end_ : Z) (a : AppointmentRow) : bool :=
  Z.ltb (ar_start_date a) end_ && Z.ltb start (ar_end_date a).

Section Scripts.
(** MySQL's reading of an ISO date string compared with a [DATETIME]. *)
Variable dt : string -> Z.
(** [new Date(t).toLocaleString('ar-EG')] and
    [new Date(t).toLocaleDateString('ar-EG')]. *)
Variable toLocaleString : Z -> string.
Variable toLocaleDateString : Z -> string.

(** [WHERE start_date >= ? AND end_date <= ? ORDER BY start_date] on
    [appointments] alone, with the ISO strings [s] and [e]. *)
Definition select_in_range (s e : string) (db : Db) : list AppointmentRow :=
  by_start (List.filter (in_range (dt s) (dt e)) (db_appointments db)).

(** ** [check-join.ts] *)

(** The INNER JOIN of lines 19-25 and the LEFT JOIN of lines 30-36. *)
Definition inner_rows (db : Db) : list (AppointmentRow * ContactRow) :=
  sort_by (fun p => ar_start_date (fst p)) false
    (List.filter (fun p => in_range (dt nov_start) (dt nov_end) (fst p))
                 (join_contacts (db_appointments db) (db_contacts db))).

Definition left_rows (db : Db) : list (AppointmentRow * option ContactRow) :=
  sort_by (fun p => ar_start_date (fst p)) false
    (List.filter (fun p => in_range (dt nov_start) (dt nov_end) (fst p))
                 (left_join_contacts (db_appointments db) (db_contacts db))).

(** Line 41. *)
Definition missingContacts (db : Db) : list (AppointmentRow * option ContactRow) :=
  List.filter (fun p => falsy_id (option_map cr_id (snd p))) (left_rows db).

(** Lines 42-49. *)
Definition join_report (missing : list (AppointmentRow * option ContactRow)) : list string :=
  if Nat.ltb 0 (List.length missing) then
    ("❌ المواعيد بدون contacts: " ++ show_nat (List.length missing)) ::
    map (fun p => "  Appointment ID: " ++ id_toString (ar_id (fst p)) ++
                  ", Contact ID: " ++ id_toString (ar_contact_id (fst p))) missing
  else ["✅ جميع المواعيد لها contacts"].

(** [checkJoin] (lines 9-56). *)
Definition checkJoin (db : Db) : list string :=
  app ["🔍 التحقق من JOIN بين appointments و contacts:" ++ lf;
       "Start: " ++ nov_start;
       "End: " ++ nov_end ++ lf;
       "✅ INNER JOIN - عدد المواعيد: " ++ show_nat (List.length (inner_rows db)) ++ lf;
       "✅ LEFT JOIN - عدد المواعيد: " ++ show_nat (List.length (left_rows db)) ++ lf]
      (join_report (missingContacts db)).

(** ** [check-appointments.ts] *)

(** Lines 25-30 for one row. *)
Definition appointment_lines (a : AppointmentRow) : list string :=
  ["ID: " ++ id_toString (ar_id a);
   "  Start: " ++ toLocaleString (ar_start_date a);
   "  End: " ++ toLocaleString (ar_end_date a);
   "  Calendar ID: " ++ id_toString (ar_calendar_id a);
   "  Status: " ++ ar_appointment_status a;
   ""].

(** The overlap query of lines 50-55. *)
Definition overlapping_rows (db : Db) : list AppointmentRow :=
  by_start (List.filter (overlaps (dt day_start) (dt day_end)) (db_appointments db)).

(** Lines 57-64. *)
Definition overlap_report (overlapping : list AppointmentRow) : list string :=
  ("✅ المواعيد التي تتداخل مع اليوم (start_date < end AND end_date > start): " ++
     show_nat (List.length overlapping) ++ lf) ::
  (if Nat.ltb 0 (List.length overlapping) then
     "المواعيد المتداخلة:" ::
     map (fun a => "  - ID: " ++ id_toString (ar_id a) ++ ", Start: " ++ toLocaleString (ar_start_date a) ++
                   ", End: " ++ toLocaleString (ar_end_date a)) overlapping
   else []).

(** [checkAppointments] (lines 9-71): all rows, then the two queries of
    the 21st of November; an empty table returns after the count. *)
Definition checkAppointments (db : Db) : list string :=
  let rows := by_start (db_appointments db) in
  (lf ++ "📅 عدد المواعيد: " ++ show_nat (List.length rows) ++ lf) ::
  match rows with
  | [] => ["لا توجد مواعيد في قاعدة البيانات"]
  | _ :: _ =>
      app (flat_map appointment_lines rows)
        (app [lf ++ "🔍 البحث عن مواعيد في 21 نوفمبر 2025:";
              "  من: " ++ day_start;
              "  إلى: " ++ day_end ++ lf;
              "✅ المواعيد التي تطابق الاستعلام الحالي (start_date >= start AND end_date <= end): " ++
                show_nat (List.length (select_in_range day_start day_end db))]
             (overlap_report (overlapping_rows db)))
  end.

(** ** [test-query.ts] *)

(** Lines 36-42 and 55-61 for one row. *)
Definition query_row_lines (a : AppointmentRow) : list string :=
  ["ID: " ++ id_toString (ar_id a);
   "  Start: " ++ toLocaleString (ar_start_date a);
   "  End: " ++ toLocaleString (ar_end_date a);
   "  Calendar: " ++ id_toString (ar_calendar_id a);
   ""].

(** [testQuery] (lines 9-68): the day, then the month. *)
Definition testQuery (db : Db) : list string :=
  let dayRows := select_in_range day_start day_end db in
  let rows := select_in_range nov_start nov_end db in
  app ["🔍 اختبار الاستعلام مع نطاق نوفمبر 2025:";
       "  Start: " ++ nov_start;
       "  End: " ++ nov_end ++ lf;
       "🔍 اختبار الاستعلام مع يوم 21 نوفمبر فقط:";
       "  Start: " ++ day_start;
       "  End: " ++ day_end ++ lf;
       "✅ عدد المواعيد في 21 نوفمبر: " ++ show_nat (List.length dayRows) ++ lf]
    (app (flat_map query_row_lines dayRows)
       (app [lf ++ repeat_str "=" 50 ++ lf;
             "✅ عدد المواعيد: " ++ show_nat (List.length rows) ++ lf]
          (flat_map query_row_lines rows))).

(** ** [check-calendar-matching.ts] *)

(** [calendars.find((cal) => cal.id === apt.calendar_id)]. *)
Definition find_calendar (cals : list CalendarRow) (a : AppointmentRow) : option CalendarRow :=
  find (fun c => Z.eqb (c_id c) (ar_calendar_id a)) cals.

(** Lines 36-43 for one appointment. *)
Definition matching_line (cals : list CalendarRow) (a : AppointmentRow) : string :=
  match find_calendar cals a with
  | Some c => "  ✅ Appointment " ++ id_toString (ar_id a) ++ " -> Calendar " ++
              id_toString (ar_calendar_id a) ++ " (" ++ c_employee_name c ++ ")"
  | None => "  ❌ Appointment " ++ id_toString (ar_id a) ++ " -> Calendar " ++
            id_toString (ar_calendar_id a) ++ " (NOT FOUND!)"
  end.

(** Lines 57-65 for one appointment of the 21st: [calendar?.employee_name
    || 'NOT FOUND']. *)
Definition day_lines (cals : list CalendarRow) (a : AppointmentRow) : list string :=
  ["  Appointment ID: " ++ id_toString (ar_id a);
   "    Calendar ID (from DB): " ++ id_toString (ar_calendar_id a);
   "    Calendar ID (as string): " ++ quote_str ++ id_toString (ar_calendar_id a) ++ quote_str;
   "    Calendar Name: " ++
     match find_calendar cals a with
     | Some c => if String.eqb (c_employee_name c) "" then "NOT FOUND" else c_employee_name c
     | None => "NOT FOUND"
     end;
   "    Start: " ++ toLocaleString (ar_start_date a);
   ""].

(** [checkMatching] (lines 9-72) on the appointments and the
    [calendars] rows. *)
Definition checkMatching (db : Db) (calendars : list CalendarRow) : list string :=
  let appointments := by_start (db_appointments db) in
  let cals := sort_by c_id false calendars in
  app ((lf ++ "📅 المواعيد:") ::
       map (fun a => "  Appointment ID: " ++ id_toString (ar_id a) ++ ", Calendar ID: " ++
                     id_toString (ar_calendar_id a) ++ ", Start: " ++ toLocaleDateString (ar_start_date a))
           appointments)
   (app ((lf ++ "👥 الموظفين:") ::
         map (fun c => "  Calendar ID: " ++ id_toString (c_id c) ++ ", Name: " ++ c_employee_name c) cals)
    (app ((lf ++ "🔍 التحقق من المطابقة:") :: map (matching_line cals) appointments)
         ((lf ++ "📋 المواعيد في 21 نوفمبر:") ::
          flat_map (day_lines cals) (select_in_range day_start day_end db)))).

End Scripts.

(** ** A database for concrete runs *)

(** MySQL's reading of the scripts' four ISO strings, in UTC. *)
Definition script_datetime (s : string) : Z :=
  if String.eqb s nov_start then 1761955200000
  else if String.eqb s nov_end then 1764547199999
  else if String.eqb s day_start then 1763683200000
  else if String.eqb s day_end then 1763769599999
  else 0.

(** Contact 1; appointment 1 of contact 1 from 20 November 22:00 to 21
    November 01:00 (UTC); appointment 2 on 21 November 09:00-10:00 of a
    contact 9 that does not exist. *)
Definition script_db : Db := {|
  db_appointments :=
    [appt_row 1 1763676000000 1763686800000 "Confirmed";
     {| ar_id := 2; ar_category_id := 1; ar_service_id := 1; ar_calendar_id := 2; ar_contact_id := 9;
        ar_new_user := false; ar_start_date := 1763715600000; ar_end_date := 1763719200000;
        ar_appointment_status := "Confirmed"; ar_archived := false; ar_remarks := None;
        ar_brand_of_device := None; ar_model := None; ar_year := None |}];
  db_contacts := [contact_row 1 (Some "Gasse 1") (Some 10)];
  db_ai_appointments := 3; db_ai_contacts := 2 |}.

(** ** Lemmas *)

Section JoinFacts.
Variable cs : list ContactRow.
Variable f : AppointmentRow -> bool.

Lemma filter_pair_map {B C} (a : AppointmentRow) (g : B -> C) (l : list B) :
  List.filter (fun p => f (fst p)) (map (fun c => (a, g c)) l) = if f a then map (fun c => (a, g c)) l else [].
Proof. induction l as [|c l IH]; simpl; [destruct (f a); reflexivity|]. rewrite IH. destruct (f a); reflexivity. Qed.

(** A WHERE clause on the appointment's columns can be applied before the
    join. *)
Lemma filter_join_contacts as_ :
  List.filter (fun p => f (fst p)) (join_contacts as_ cs) = join_contacts (List.filter f as_) cs.
Proof.
  induction as_ as [|a as_ IH]; [reflexivity|]. unfold join_contacts in *. simpl.
  rewrite filter_app, IH, (filter_pair_map a (fun c => c)). destruct (f a); reflexivity.
Qed.

Lemma filter_left_join_contacts as_ :
  List.filter (fun p => f (fst p)) (left_join_contacts as_ cs) = left_join_contacts (List.filter f as_) cs.
Proof.
  induction as_ as [|a as_ IH]; [reflexivity|]. unfold left_join_contacts in *.
  cbn [flat_map List.filter]. rewrite filter_app, IH.
  destruct (f a) eqn:Ha; cbn [flat_map];
    destruct (List.filter (fun c => Z.eqb (ar_contact_id a) (cr_id c)) cs) as [|c l];
    rewrite ?(filter_pair_map a Some (c :: l)); cbn [List.filter fst]; rewrite ?Ha; reflexivity.
Qed.
End JoinFacts.

(** The LEFT JOIN has the rows of the INNER JOIN and one more for each
    appointment without a contact. *)
Lemma length_left_join cs as_ :
  List.length (left_join_contacts as_ cs) =
  (List.length (join_contacts as_ cs) + List.length (List.filter (no_contact cs) as_))%nat.
Proof.
  induction as_ as [|a as_ IH]; [reflexivity|]. unfold left_join_contacts, join_contacts, no_contact in *.
  cbn [flat_map List.filter]. rewrite !length_app, IH.
  destruct (List.filter (fun c => Z.eqb (ar_contact_id a) (cr_id c)) cs); simpl; rewrite ?length_map; lia.
Qed.

(** With positive contact ids, the rows [!row.contact_exists] keeps are
    those of the appointments without a contact. *)
Lemma missing_left_join cs as_ :
  Forall (fun c => 0 < cr_id c) cs ->
  List.filter (fun p => falsy_id (option_map cr_id (snd p))) (left_join_contacts as_ cs) =
  map (fun a => (a, None)) (List.filter (no_contact cs) as_).
Proof.
  intros Hpos. induction as_ as [|a as_ IH]; [reflexivity|].
  unfold left_join_contacts, no_contact in *. cbn [flat_map List.filter]. rewrite filter_app, IH.
  assert (Hl : forall l, Forall (fun c => 0 < cr_id c) l ->
            List.filter (fun p => falsy_id (option_map cr_id (snd p))) (map (fun c => (a, Some c)) l) = []).
  { induction 1 as [|c l Hc _ IHl]; [reflexivity|]. simpl. rewrite IHl.
    destruct (Z.eqb_spec (cr_id c) 0); [lia | reflexivity]. }
  destruct (List.filter (fun c => Z.eqb (ar_contact_id a) (cr_id c)) cs) as [|c l] eqn:E; [reflexivity|].
  rewrite Hl; [reflexivity|]. rewrite <- E, Forall_forall. intros c' Hc'.
  apply filter_In in Hc' as [Hc' _]. rewrite Forall_forall in Hpos. exact (Hpos c' Hc').
Qed.

Lemma no_contact_spec cs a :
  no_contact cs a = true <-> Forall (fun c => cr_id c <> ar_contact_id a) cs.
Proof.
  unfold no_contact. rewrite Forall_forall. split.
  - intros H c Hc Heq. destruct (List.filter _ cs) eqn:E; [|discriminate].
    assert (Hin : In c (List.filter (fun c => Z.eqb (ar_contact_id a) (cr_id c)) cs))
      by (apply filter_In; split; [exact Hc | apply Z.eqb_eq; congruence]).
    rewrite E in Hin. contradiction.
  - intros H. destruct (List.filter _ cs) as [|c l] eqn:E; [reflexivity|].
    assert (Hin : In c (c :: l)) by (left; reflexivity). rewrite <- E in Hin.
    apply filter_In in Hin as [Hc Heq]. apply Z.eqb_eq in Heq. exfalso. exact (H c Hc (eq_sym Heq)).
Qed.

Lemma filter_length_mono {A} (p q : A -> bool) l :
  (forall x, In x l -> p x = true -> q x = true) ->
  (List.length (List.filter p l) <= List.length (List.filter q l))%nat.
Proof.
  induction l as [|x l IH]; intros H; simpl; [lia|].
  assert (IH' : (List.length (List.filter p l) <= List.length (List.filter q l))%nat) by (apply IH; intros y Hy; apply H; right; exact Hy).
  destruct (p x) eqn:Hp; [rewrite (H x (or_introl eq_refl) Hp); simpl; lia|].
  destruct (q x); simpl; lia.
Qed.

(** A row lying inside a range overlaps it, when it does not end before
    it starts. *)
Lemma in_range_overlaps s e a :
  ar_start_date a < ar_end_date a -> in_range s e a = true -> overlaps s e a = true.
Proof.
  unfold in_range, overlaps. intros Hlt H. apply andb_true_iff in H as [H1 H2].
  apply Z.leb_le in H1. apply Z.leb_le in H2. apply andb_true_iff. split; apply Z.ltb_lt; lia.
Qed.

Lemma In_select_in_range dt s e db a :
  In a (select_in_range dt s e db) <-> In a (db_appointments db) /\ in_range (dt s) (dt e) a = true.
Proof. unfold select_in_range, by_start. rewrite In_sort_by, filter_In. reflexivity. Qed.

(** The line [check-calendar-matching.ts] prints for an appointment says
    [NOT FOUND!] exactly when no calendar row has its [calendar_id]. *)
Lemma matching_line_not_found cals a :
  matching_line cals a = "  ❌ Appointment " ++ id_toString (ar_id a) ++ " -> Calendar " ++
                         id_toString (ar_calendar_id a) ++ " (NOT FOUND!)" <->
  Forall (fun c => c_id c <> ar_calendar_id a) cals.
Proof.
  unfold matching_line, find_calendar. rewrite Forall_forall. split.
  - intros H c Hc Heq. destruct (find _ cals) as [c'|] eqn:E; [cbn in H; discriminate H|].
    apply (find_none _ _ E c) in Hc. apply Z.eqb_neq in Hc. contradiction.
  - intros H. destruct (find _ cals) as [c|] eqn:E; [|reflexivity].
    apply find_some in E as [Hin Heq]. apply Z.eqb_eq in Heq. exfalso. exact (H c Hin Heq).
Qed.

(** ** Theorems *)

(** C34 (functional): [check-join.ts] reports what it means to: on a database whose
    primary keys are positive, the LEFT JOIN count is the INNER JOIN count
    plus the number of appointments it lists as without a contact, and it
    lists exactly the appointments of the range no contact row joins
    with. *)
Theorem checkJoin_reports_orphans dt db :
  db_wf db ->
  (List.length (left_rows dt db) = List.length (inner_rows dt db) + List.length (missingContacts dt db))%nat /\
  (forall a, In a (map fst (missingContacts dt db)) <->
     In a (db_appointments db) /\ in_range (dt nov_start) (dt nov_end) a = true /\
     Forall (fun c => cr_id c <> ar_contact_id a) (db_contacts db)).
Proof.
  intros (_ & _ & Hc & _). set (inr := in_range (dt nov_start) (dt nov_end)).
  assert (Hpos : Forall (fun c => 0 < cr_id c) (db_contacts db)) by (eapply Forall_impl; [|exact Hc]; simpl; lia).
  assert (Hm : Permutation (missingContacts dt db)
                 (map (fun a => (a, None)) (List.filter (no_contact (db_contacts db)) (List.filter inr (db_appointments db))))).
  { unfold missingContacts, left_rows. rewrite (Permutation_filter_bool _ _ _ (Permutation_sort_by _ _ _)).
    fold inr. rewrite (filter_left_join_contacts _ inr), missing_left_join by exact Hpos. reflexivity. }
  split.
  - rewrite (Permutation_length Hm), length_map. unfold left_rows, inner_rows. rewrite !length_sort_by.
    fold inr. rewrite (filter_left_join_contacts _ inr), (filter_join_contacts _ inr). apply length_left_join.
  - intros a.
    assert (Hiff : In a (map fst (missingContacts dt db)) <->
                   In a (List.filter (no_contact (db_contacts db)) (List.filter inr (db_appointments db)))).
    { rewrite in_map_iff. split.
      - intros [p [<- Hp]]. apply (Permutation_in _ Hm), in_map_iff in Hp as [x [<- Hx]]. exact Hx.
      - intros Ha. exists (a, None). split; [reflexivity|].
        apply (Permutation_in _ (Permutation_sym Hm)), in_map_iff. eauto. }
    rewrite Hiff, !filter_In, no_contact_spec. tauto.
Qed.

(** [check-appointments.ts] prints a count of the overlap query at least
    the count of the containment query the services use: every appointment
    lying inside the 21st of November overlaps it (for rows that end after
    they start); the difference is the appointments crossing the day's
    bounds, which [getAppointments] does not return. *)
Theorem checkAppointments_overlap_covers dt db :
  Forall (fun a => ar_start_date a < ar_end_date a) (db_appointments db) ->
  incl (select_in_range dt day_start day_end db) (overlapping_rows dt db) /\
  (List.length (select_in_range dt day_start day_end db) <= List.length (overlapping_rows dt db))%nat.
Proof.
  rewrite Forall_forall. intros Hlt. split.
  - intros a Ha. apply In_select_in_range in Ha as [Hin Hr].
    unfold overlapping_rows, by_start. apply In_sort_by, filter_In. split; [exact Hin|].
    apply in_range_overlaps; auto.
  - unfold select_in_range, overlapping_rows, by_start. rewrite !length_sort_by.
    apply filter_length_mono. intros a Hin. apply in_range_overlaps; auto.
Qed.

(** [test-query.ts]: when MySQL reads the day's bounds inside the month's,
    every appointment listed for the 21st is listed for November. *)
Theorem testQuery_day_within_month dt db :
  dt nov_start <= dt day_start -> dt day_end <= dt nov_end ->
  incl (select_in_range dt day_start day_end db) (select_in_range dt nov_start nov_end db).
Proof.
  intros H1 H2 a Ha. apply In_select_in_range in Ha as [Hin Hr]. apply In_select_in_range.
  split; [exact Hin|]. unfold in_range in *. apply andb_true_iff in Hr as [Hs He].
  apply Z.leb_le in Hs. apply Z.leb_le in He. apply andb_true_iff. split; apply Z.leb_le; lia.
Qed.

(** ** Concrete runs *)

Lemma checkJoin_reports_orphans_witness :
  db_wf script_db /\
  (List.length (left_rows script_datetime script_db) =
   List.length (inner_rows script_datetime script_db) + List.length (missingContacts script_datetime script_db))%nat.
Proof.
  assert (H : db_wf script_db) by (apply db_wfb_sound; vm_compute; reflexivity).
  split; [exact H | apply (checkJoin_reports_orphans script_datetime script_db H)].
Defined.

(** On [script_db], [check-join.ts] counts one appointment in the INNER
    JOIN and two in the LEFT JOIN and names the one of contact 9;
    [check-appointments.ts] finds appointment 2 inside the 21st but both
    with the overlap query, the one starting the evening before included. *)
Example script_runs :
  skipn 3 (checkJoin script_datetime script_db) =
    ["✅ INNER JOIN - عدد المواعيد: 1" ++ lf; "✅ LEFT JOIN - عدد المواعيد: 2" ++ lf;
     "❌ المواعيد بدون contacts: 1"; "  Appointment ID: 2, Contact ID: 9"] /\
  map ar_id (select_in_range script_datetime day_start day_end script_db) = [2] /\
  map ar_id (overlapping_rows script_datetime script_db) = [1; 2].
Proof. vm_compute. repeat split. Qed.

End Diagnostics.
