(* ===== verification/AppointmentHandlers.v ===== *)
(** The other handlers of [AppointmentsControllers]
    (server/app/appointment/controller.ts, lines 326-761) with the
    [AppointmentsService] methods they call (AppointmentsService.ts): the
    range read, the reads by contact and by calendar (each appointment with
    its service), the XLSX export, the update with its cancellation mails,
    the delete, and the time-slot query; and the service's wrappers of
    the DAO's insert, read by id, update, delete and reminder read, whose
    [.catch] rethrows a [ClientError] with status 500 or answers [null]
    (the handler passes the error's cause to [next]).  The services table and the
    e-mail configuration and cancellation template are section variables;
    so is MySQL's conversion of a date parameter string to a [DATETIME],
    which the comparisons of the DAO apply to the request's strings. *)

From Stdlib Require Import ZArith List String Bool Lia.
From S2P Require Import Prelude JsDate TimeParse Schedule Slots Appointment Database Conflict AppointmentStore ContactStore Availability Table MailerStore AppointmentController EmailServiceLayer.
Import ListNotations.
Open Scope Z_scope.
Local Open Scope string_scope.

Module AppointmentHandlers.
Import Schedule Slots Appointment Database Conflict AppointmentStore ContactStore Availability Table AppointmentController.
Import EmailServiceLayer (ClientError(..), ce_cause, ce_status, Settled(..), rethrow_500, null_on_error,
  rethrow_500_ok, rethrow_500_err).

(** [AppointmentStatus.Cancelled]. *)
Definition AppointmentStatus_Cancelled : string := "Cancelled".

(** mysql2's refusal of an [undefined] bind parameter. *)
Definition bind_undefined : string :=
  "Bind parameters must not contain undefined. To pass SQL NULL specify JS null".

(** A boolean field of a JSON body: a boolean, a number or a string. *)
Inductive BoolLike := JBool (b : bool) | JNum (n : Z) | JStr (s : string).

(** The normalisation of lines 564-586: a boolean is kept, otherwise
    [v === 1 || v === '1' || v === 'true']; [undefined] stays. *)
Definition normalize_bool (o : option BoolLike) : option bool :=
  match o with
  | None => None
  | Some (JBool b) => Some b
  | Some (JNum n) => Some (Z.eqb n 1)
  | Some (JStr s) => Some (String.eqb s "1" || String.eqb s "true")
  end.

(** [request.body] of the update: the dates as the strings sent, the
    boolean-like [archived], and [updated_by].  The other normalised flags
    ([exhaust_gas_measurement], ...) are not columns the DAO updates. *)
Record UpdateForm := {
  uf_category_id : option string;
  uf_service_id : option string;
  uf_calendar_id : option string;
  uf_contact_id : option string;
  uf_new_user : option bool;
  uf_start_date : option string;
  uf_end_date : option string;
  uf_appointment_status : option string;
  uf_archived : option BoolLike;
  uf_remarks : option string;
  uf_brand_of_device : option string;
  uf_model : option string;
  uf_year : option string;
  uf_updated_by : option string
}.

(** JS string concatenation of a possibly [undefined] string. *)
Definition js_concat_str (o : option string) : string :=
  match o with Some s => s | None => "undefined" end.

Section Handlers.
  (** The services table, read through [CategoryDaoMySql]. *)
  Variable services : list Service.
  (** MySQL's conversion of a date parameter string. *)
  Variable mysql_datetime : string -> Z.
  (** The [email_configs] table, and the decipher and SMTP server of
      [MailerStore.sendMail], through which every mail goes. *)
  Variable mailer : table MailerStore.EmailConfigRow.
  Variable aes_decipher : string -> string -> option string.
  Variable smtp_accepts : MailerStore.MailOptions -> bool.
  (** The first cancellation template, when its [template] is truthy:
      [(template, subject)]. *)
  Variable cancellationTemplate : option (string * string).

(** [AppointmentsService.getAppointmentsWithService] (lines 131-153): each appointment with
    the service of its category and service ids, or [null]. *)
Definition getAppointmentsWithService (appointments : list Appointment) : list ExtendedAppointment :=
  map (fun a => (a, getServiceByCategoryIdAndServiceId services (ap_category_id a) (ap_service_id a)))
      appointments.

(** [AppointmentsService.addAppointment] (lines 20-29): the DAO's insert,
    its rejection rethrown as a [ClientError] with status 500. *)
Definition AppointmentsService_addAppointment (r : AddAppointmentRequest) : Db -> Settled Appointment * Db :=
  rethrow_500 (addAppointment r).

(** [AppointmentsService.getAppointmentById] (lines 31-38): a rejection
    answers [null]. *)
Definition AppointmentsService_getAppointmentById (id : string) : Db -> option (option Appointment) * Db :=
  null_on_error (getAppointmentById_st id).

(** [AppointmentsService.updateAppointment] (lines 40-49). *)
Definition AppointmentsService_updateAppointment (id : string) (r : AddAppointmentRequest)
    : Db -> Settled (option Appointment) * Db :=
  rethrow_500 (updateAppointment id r).

(** [AppointmentsService.deleteAppointment] (lines 193-202). *)
Definition AppointmentsService_deleteAppointment (id : string) : Db -> Settled (option Appointment) * Db :=
  rethrow_500 (deleteAppointment id).

(** [AppointmentsService.getDueReminderAppointments] (lines 414-431): the
    DAO's read, rethrown on rejection, then each appointment with its
    service ([isReminder] changes nothing: both branches push the same
    object). *)
Definition AppointmentsService_getDueReminderAppointments (offset now : Z) (db : Db)
    : Settled (list ExtendedAppointment) * Db :=
  match rethrow_500 (getDueReminderAppointments offset now) db with
  | (Returned l, db1) => (Returned (getAppointmentsWithService l), db1)
  | (Threw e, db1) => (Threw e, db1)
  end.

(** [AppointmentsService.getAppointments] (lines 51-82). *)
Definition AppointmentsService_getAppointments (start end_ : string) (db : Db) : list ExtendedAppointment :=
  getAppointmentsWithService
    (getAppointments (db_appointments db) (db_contacts db) (mysql_datetime start) (mysql_datetime end_)).

(** [AppointmentsService.getAppointmentsByContactId] (lines 155-172). *)
Definition AppointmentsService_getAppointmentsByContactId (contactId : string) (db : Db)
    : list ExtendedAppointment :=
  getAppointmentsWithService (getAppointmentsByContactId (db_appointments db) (db_contacts db) contactId).

(** [AppointmentsService.getAppointmentsByCalendarId] (lines 174-191). *)
Definition AppointmentsService_getAppointmentsByCalendarId (calendarId : string) (db : Db)
    : list ExtendedAppointment :=
  getAppointmentsWithService (getAppointmentsByCalendarIdId (db_appointments db) (db_contacts db) calendarId).

(** The handler [getAppointments] (controller.ts, lines 326-392). *)
Definition getAppointmentsHandler (start end_ : option string) (db : Db) : Response :=
  match start, end_ with
  | Some s, Some e =>
      if truthy_s start && truthy_s end_ then
        Json 200 (BAppointments (AppointmentsService_getAppointments s e db))
      else Json 400 (BError "Missing start or end parameter")
  | _, _ => Json 400 (BError "Missing start or end parameter")
  end.

(** The handlers [getAppointmentsByContactId] (lines 458-492) and
    [getAppointmentsByCalendarId] (lines 495-529). *)
Definition getAppointmentsByContactIdHandler (contactId : string) (db : Db) : Response :=
  Json 200 (BAppointments (AppointmentsService_getAppointmentsByContactId contactId db)).

Definition getAppointmentsByCalendarIdHandler (calendarId : string) (db : Db) : Response :=
  Json 200 (BAppointments (AppointmentsService_getAppointmentsByCalendarId calendarId db)).

(** [AppointmentsService.getAppointmentsByDateAndCalendarIdId] (lines
    84-129): each appointment
    of the calendar in the range with its service or [null] (the category
    read when a service is found is not used by any caller). *)
Definition getAppointmentsByDateAndCalendarIdId (calendarId : string) (start end_ : Z) (db : Db)
    : list ExtendedAppointment :=
  getAppointmentsWithService
    (getAppointmentsByDateCalendarIdId (db_appointments db) (db_contacts db) calendarId start end_).

(** The [services] field of a [Service] object: [mapServiceRow] builds a
    [Service] without one, so it is [undefined]. *)
Definition services_field (sv : Service) : option (list Service) := None.

(** [service.services[0]] (line 422) on an item's [service]. *)
Definition services_first (sv : option Service) : Result (option Service) :=
  match sv with
  | None => Err "TypeError: Cannot read properties of null (reading 'services')"
  | Some s =>
      match services_field s with
      | None => Err "TypeError: Cannot read properties of undefined (reading '0')"
      | Some l => Ok (hd_error l)
      end
  end.

(** The row of the sheet for one item (lines 424-438); [undefined] cells
    are left out.  The [Service] record carries its id and duration. *)
Definition export_row (info : option Service) (contact : option Contact) : list (string * string) :=
  match info with
  | Some sv => [("Service ID", id_toString (sv_id sv))]
  | None => []
  end ++
  match contact with
  | Some c =>
      flat_map (fun '(k, v) => match v with Some x => [(k, x)] | None => [] end)
        [("Contact First Name", ct_first_name c); ("Contact Last Name", ct_last_name c);
         ("Contact Address", ct_address c); ("Contact Zip Code", ct_zip_code c);
         ("Contact Location", ct_location c); ("Contact Telephone", ct_telephone c);
         ("Contact Email", ct_email c)]
  | None => []
  end.

(** The [Promise.all] of lines 414-440, item by item: the contact read,
    then the service access; the first rejection rejects the whole. *)
Fixpoint export_rows (db : Db) (items : list ExtendedAppointment) : Result (list (list (string * string))) :=
  match items with
  | [] => Ok []
  | (a, sv) :: rest =>
      let contact := option_map mapContactRow (contact_by_id (db_contacts db) (ap_contact_id a)) in
      match services_first sv with
      | Err e => Err e
      | Ok info =>
          match export_rows db rest with
          | Ok rows => Ok (export_row info contact :: rows)
          | Err e => Err e
          end
      end
  end.

(** The handler [getAppointmentsByDateAndCalenderId] (lines 395-455): the
    body's [calendar_id], [start_date] and [end_date] are bound as
    parameters, so an absent one throws. *)
Definition exportHandler (calendar_id start_date end_date : option string) (db : Db) : Response :=
  match calendar_id, start_date, end_date with
  | Some c, Some s, Some e =>
      match export_rows db (getAppointmentsByDateAndCalendarIdId c (mysql_datetime s) (mysql_datetime e) db) with
      | Ok rows => Json 200 (BWorkbook rows)
      | Err err => Thrown err
      end
  | _, _, _ => Thrown bind_undefined
  end.

(** [const { updated_by, ...rest } = normalizedForm] as the DAO's request. *)
Definition update_request (f : UpdateForm) : AddAppointmentRequest := {|
  rq_category_id := uf_category_id f; rq_service_id := uf_service_id f;
  rq_calendar_id := uf_calendar_id f; rq_contact_id := uf_contact_id f;
  rq_new_user := uf_new_user f;
  rq_start_date := option_map mysql_datetime (uf_start_date f);
  rq_end_date := option_map mysql_datetime (uf_end_date f);
  rq_appointment_status := uf_appointment_status f;
  rq_archived := normalize_bool (uf_archived f);
  rq_remarks := uf_remarks f; rq_brand_of_device := uf_brand_of_device f;
  rq_model := uf_model f; rq_year := uf_year f |}.

(** The company notification, to [emailConfig[0].sender]. *)
Definition to_company (subject text : string) : list Mail :=
  match emailSender mailer with
  | Some sender => send_mail mailer aes_decipher smtp_accepts {| mail_to := sender; mail_subject := subject; mail_text := text |}
  | None => []
  end.

(** The mails of lines 605-656 for a cancellation. *)
Definition cancellation_mails (f : UpdateForm) (contactEmail : option string) : list Mail :=
  if String.eqb (or_empty (uf_updated_by f)) "contact" then
    to_company "Absage eines B-Gas-Termins"
      ("Termin (" ++ js_concat_str (uf_start_date f) ++ " - " ++ js_concat_str (uf_end_date f) ++
       ") wurde vom Kunden storniert: " ++ show_db contactEmail)
  else
    let '(email, subject) :=
      match cancellationTemplate with
      | Some ts => ts
      | None => ("Sehr geehrter Kunde, Ihr Termin wurde abgesagt", "Absage eines B-Gas-Termins")
      end in
    (if truthy_s contactEmail
     then send_mail mailer aes_decipher smtp_accepts {| mail_to := or_empty contactEmail; mail_subject := subject; mail_text := email |}
     else []) ++
    to_company subject email.

(** The handler [updateAppointment] (lines 532-676): the contact read
    (which throws on an absent [contact_id]), the update through
    [AppointmentDaoMySql.updateAppointment] with the request's
    [categoryId] parameter as the appointment id, the mails, and the answer,
    404 when the contact does not exist. *)
Definition updateAppointmentHandler (categoryId : string) (f : UpdateForm) (db : Db)
    : Response * Db * list Mail :=
  match uf_contact_id f with
  | None => (Thrown bind_undefined, db, [])
  | Some cid =>
      let contact := option_map mapContactRow (contact_by_id (db_contacts db) cid) in
      match AppointmentsService_updateAppointment categoryId (update_request f) db with
      | (Threw e, db1) => (Thrown (ce_cause e), db1, [])
      | (Returned data, db1) =>
          let contactEmail := match contact with Some c => ct_email c | None => Some "" end in
          let mails :=
            if String.eqb (or_empty (uf_appointment_status f)) AppointmentStatus_Cancelled
            then cancellation_mails f contactEmail else [] in
          match contact with
          | None => (Json 404 (BMessage "Contact not found"), db1, mails)
          | Some c => (Json 200 (BUpdated data c), db1, mails)
          end
      end
  end.

(** The handler [deleteAppointment] (lines 679-716). *)
Definition deleteAppointmentHandler (categoryId : string) (db : Db) : Response * Db :=
  match AppointmentsService_deleteAppointment categoryId db with
  | (Returned (Some _), db1) => (Json 200 (BStatus "success"), db1)
  | (Returned None, db1) => (Json 200 (BStatus "faild"), db1)
  | (Threw e, db1) => (Thrown (ce_cause e), db1)
  end.
End Handlers.

(** The handler [getTimeSlots] (lines 719-761): [Availability.getTimeSlots]
    with the query's date, category and service; the list, empty or not,
    is answered with 200.  [None] is the fuel of the slot loop running out,
    for a loop that does not end: the handler never answers. *)
Definition getTimeSlotsHandler `{ScheduleDao} `{AppointmentDao} `{CategoryDao}
    (fuel : nat) (offset now date : Z) (category_id service_id : option string) : Response :=
  match getTimeSlots fuel offset now date category_id service_id with
  | Some l => Json 200 (BSlots l)
  | None => Pending
  end.

(** ** Lemmas *)

Lemma getAppointmentsWithService_fst services l :
  map fst (getAppointmentsWithService services l) = l.
Proof. unfold getAppointmentsWithService. rewrite map_map. apply map_id. Qed.

(** The reminder read never throws and changes nothing: it answers the
    appointments [getDueReminderAppointments] selects, in its order, each
    with its service. *)
Lemma AppointmentsService_getDueReminderAppointments_spec services offset now db :
  exists l, getDueReminderAppointments offset now db = (Ok l, db) /\
    AppointmentsService_getDueReminderAppointments services offset now db =
      (Returned (getAppointmentsWithService services l), db).
Proof. eexists. split; [reflexivity|]. unfold AppointmentsService_getDueReminderAppointments. reflexivity. Qed.

(** The access [service.services[0]] throws on every item. *)
Lemma services_first_fails sv : exists e, services_first sv = Err e.
Proof. destruct sv; eexists; reflexivity. Qed.

Lemma export_rows_nonempty db items :
  items <> [] -> exists e, export_rows db items = Err e.
Proof.
  destruct items as [|[a sv] rest]; [congruence|]. intros _. simpl.
  destruct (services_first_fails sv) as [e He]. rewrite He. eauto.
Qed.

(** Without both query parameters the range read answers 400. *)
Lemma getAppointmentsHandler_missing services dt start end_ db :
  falsy_str start = true \/ falsy_str end_ = true ->
  getAppointmentsHandler services dt start end_ db = Json 400 (BError "Missing start or end parameter").
Proof.
  unfold getAppointmentsHandler, truthy_s. intros [H|H];
    destruct start, end_; try reflexivity; rewrite H; simpl; [reflexivity|].
  rewrite andb_false_r. reflexivity.
Qed.

Lemma updateAppointmentHandler_wf dt mailer aes smtp tpl cat f db resp db' mails :
  db_wf db -> updateAppointmentHandler dt mailer aes smtp tpl cat f db = (resp, db', mails) -> db_wf db'.
Proof.
  intros Hwf. unfold updateAppointmentHandler.
  destruct (uf_contact_id f); [|intros H; injection H as _ <- _; exact Hwf].
  unfold AppointmentsService_updateAppointment.
  destruct (updateAppointment cat (update_request dt f) db) as [[data|e] db1] eqn:Hu;
    [rewrite (rethrow_500_ok _ _ _ _ Hu) | rewrite (rethrow_500_err _ _ _ _ Hu)]; intros H;
    [destruct (option_map _ _) in H|]; injection H as _ <- _;
    exact (updateAppointment_wf _ _ _ _ _ Hwf Hu).
Qed.

Lemma deleteAppointmentHandler_wf cat db resp db' :
  db_wf db -> deleteAppointmentHandler cat db = (resp, db') -> db_wf db'.
Proof.
  intros Hwf. unfold deleteAppointmentHandler.
  unfold AppointmentsService_deleteAppointment.
  destruct (deleteAppointment cat db) as [[[a|]|e] db1] eqn:Hd;
    [rewrite (rethrow_500_ok _ _ _ _ Hd) .. | rewrite (rethrow_500_err _ _ _ _ Hd)]; intros H; injection H as _ <-;
    exact (deleteAppointment_wf _ _ _ _ Hwf Hd).
Qed.

(** The update is committed before the contact check: with a [contact_id]
    that names no contact the handler answers 404, in the state the DAO's
    update left. *)
Lemma updateAppointmentHandler_404_after_update dt mailer aes smtp tpl cat f db cid data db1 :
  uf_contact_id f = Some cid -> contact_by_id (db_contacts db) cid = None ->
  updateAppointment cat (update_request dt f) db = (Ok data, db1) ->
  exists mails, updateAppointmentHandler dt mailer aes smtp tpl cat f db =
                (Json 404 (BMessage "Contact not found"), db1, mails).
Proof.
  intros Hc Hn Hu. unfold updateAppointmentHandler, AppointmentsService_updateAppointment.
  rewrite Hc, Hn, (rethrow_500_ok _ _ _ _ Hu). simpl. eauto.
Qed.

(** C28 (error, finding): the XLSX export answers only for a range
    without appointments, with an empty sheet; as soon as the calendar has
    an appointment in the range the handler throws, because it reads
    [service.services[0]] and the [Service] of [mapServiceRow] (or [null])
    has no [services]. *)
Theorem exportHandler_fails_on_appointments services dt c s e db :
  (getAppointmentsByDateCalendarIdId (db_appointments db) (db_contacts db) c (dt s) (dt e) = [] /\
   exportHandler services dt (Some c) (Some s) (Some e) db = Json 200 (BWorkbook [])) \/
  (getAppointmentsByDateCalendarIdId (db_appointments db) (db_contacts db) c (dt s) (dt e) <> [] /\
   exists err, exportHandler services dt (Some c) (Some s) (Some e) db = Thrown err).
Proof.
  unfold exportHandler, getAppointmentsByDateAndCalendarIdId.
  destruct (getAppointmentsByDateCalendarIdId _ _ c _ _) as [|a l] eqn:Hl; [left; auto|right].
  split; [congruence|].
  destruct (export_rows_nonempty db (getAppointmentsWithService services (a :: l))) as [err Herr];
    [simpl; congruence|].
  rewrite Herr. eauto.
Qed.

(** ** Concrete runs *)

Definition demo_service : Service := {| sv_id := 1; sv_category_id := 1; sv_duration := Some 60 |}.

(** The parameter strings of the examples: ["s"] is Monday 00:00 UTC and
    any other string the next midnight. *)
Definition demo_datetime (s : string) : Z :=
  if String.eqb s "s" then monday_0h else monday_0h + 24 * one_hour.

(** The export of Monday of calendar 1, which holds one appointment,
    throws at the [services] field of the [Service] found. *)
Example export_demo_throws :
  exportHandler [demo_service] demo_datetime (Some "1") (Some "s") (Some "e") demo_db =
  Thrown "TypeError: Cannot read properties of undefined (reading '0')".
Proof. vm_compute. reflexivity. Qed.

(** The export of calendar 2 on the same day, which holds none, answers
    with an empty sheet. *)
Example export_demo_empty :
  exportHandler [demo_service] demo_datetime (Some "2") (Some "s") (Some "e") demo_db =
  Json 200 (BWorkbook []).
Proof. vm_compute. reflexivity. Qed.

Definition cancel_form (contact : string) : UpdateForm := {|
  uf_category_id := None; uf_service_id := None; uf_calendar_id := None;
  uf_contact_id := Some contact; uf_new_user := None; uf_start_date := None; uf_end_date := None;
  uf_appointment_status := Some "Cancelled"; uf_archived := Some (JStr "true"); uf_remarks := None;
  uf_brand_of_device := None; uf_model := None; uf_year := None; uf_updated_by := None |}.

(** A cancellation of appointment 1 that names contact 7, which does not
    exist: the row is cancelled and archived, the company is told, and the
    answer is 404. *)
Example update_unknown_contact_demo :
  let '(resp, db1, mails) :=
    updateAppointmentHandler demo_datetime delivering_mailer MailerStore.cipher_ok MailerStore.smtp_up None "1"
      (cancel_form "7") demo_db in
  resp = Json 404 (BMessage "Contact not found") /\
  map (fun r => (ar_appointment_status r, ar_archived r, ar_contact_id r)) (db_appointments db1) =
    [("Cancelled", true, 7)] /\
  map mail_to mails = ["office@example.com"].
Proof. vm_compute. repeat split. Qed.

End AppointmentHandlers.
