(* ===== verification/ContactController.v ===== *)
(** The HTTP handlers of [ContactsControllers]
    (server/app/contact/controller.ts) on the database state: add, the
    paginated list, read by id, the update that carries [archived] over to
    the contact's appointments, the delete that first deletes the contact's
    appointments, the credentials mail, and the sync, which only runs the
    database backup of [Backup].  [ContactsService]
    (contact/ContactsService.ts, imported by clients/index.ts) is not in the
    repository; its methods are taken to forward to [ContactDaoMySql] as the
    [AppointmentsService] methods forward to [AppointmentDaoMySql], with
    [getContacts] answering the page and [getContactsCount].  The bcrypt
    hash, [FRONTEND_URL], the clock, and the [email_configs] table with the
    decipher and SMTP server of [MailerStore.sendMail] are section
    variables; the list takes the order the server gives its rows. *)

From Stdlib Require Import ZArith List String Bool Lia.
From S2P Require Import Prelude Schedule Appointment Database AppointmentStore ContactStore Table MailerStore AppointmentController MySQLPool Backup.
Import ListNotations.
Open Scope Z_scope.
Local Open Scope string_scope.
Open Scope sched_scope.

Module ContactController.
Import Schedule Appointment Database AppointmentStore ContactStore Table AppointmentController.

(** The bodies the handlers answer with. *)
Inductive CBody :=
  | CContact (c : Contact)
  | CNullable (c : option Contact)
  | CPage (data : list Contact) (page limit count : Z)
  | CMessege (messege : string)
  | CUpdatedWithMail (messege : string) (data : option Contact)
  | CDeleted (deletedAppointments : Z)
  | CFailed (message : string)
  | CStatusMessage (status message : string).

Inductive CResponse :=
  | CJson (status : Z) (body : CBody)
  | CThrown (error : string).

(** The response of a computation of the DAOs: a thrown error goes to
    [next]. *)
Definition respond {A} (k : A -> CResponse) (r : Result A * Db) : CResponse * Db :=
  match r with
  | (Ok x, db) => (k x, db)
  | (Err e, db) => (CThrown e, db)
  end.

(** [{ ...appointment, contact_id: contactId, archived: form.archived }] as
    the request of [updateAppointment] (line 164): every column of the
    appointment is written back with its own value, [archived] with the
    form's ([undefined] leaves it). *)
Definition rearchive_request (a : Appointment) (contactId : string) (archived : option bool)
    : AddAppointmentRequest := {|
  rq_category_id := Some (ap_category_id a); rq_service_id := Some (ap_service_id a);
  rq_calendar_id := Some (ap_calendar_id a); rq_contact_id := Some contactId;
  rq_new_user := Some (ap_new_user a); rq_start_date := Some (ap_start_date a);
  rq_end_date := Some (ap_end_date a); rq_appointment_status := Some (ap_appointment_status a);
  rq_archived := archived; rq_remarks := ap_remarks a; rq_brand_of_device := ap_brand_of_device a;
  rq_model := ap_model a; rq_year := ap_year a |}.

(** The loop of lines 163-166. *)
Fixpoint rearchive (contactId : string) (archived : option bool) (l : list Appointment) : ST Db unit :=
  match l with
  | [] => st_ret tt
  | a :: rest => updateAppointment (ap_id a) (rearchive_request a contactId archived) ;;;
                 rearchive contactId archived rest
  end.

(** The loop of lines 205-208. *)
Fixpoint delete_each (l : list Appointment) : ST Db unit :=
  match l with
  | [] => st_ret tt
  | a :: rest => deleteAppointment (ap_id a) ;;; delete_each rest
  end.

(** [{ ...existingContact, password: hashedPassword }] as the request of
    [updateContact] (lines 235-237). *)
Definition with_hashed_password (c : Contact) (hashed : string) : ContactRequest := {|
  cq_salutation := ct_salutation c; cq_first_name := ct_first_name c; cq_last_name := ct_last_name c;
  cq_address := ct_address c; cq_zip_code := ct_zip_code c; cq_location := ct_location c;
  cq_telephone := ct_telephone c; cq_phone_numbber_2 := ct_phone_numbber_2 c;
  cq_phone_numbber_3 := ct_phone_numbber_3 c; cq_email := ct_email c; cq_password := Some hashed;
  cq_archived := Some (ct_archived c); cq_note_on_address := ct_note_on_address c; cq_remarks := None;
  cq_district := ct_district c; cq_lat := ct_lat c; cq_lng := ct_lng c |}.

(** The text of the credentials mail (line 248). *)
Definition credentials_email (loginUrl email password : string) : string :=
  "<p>Liebe Kund*innen,</p><br>Ihr Konto wurde erfolgreich aktualisiert. Wir empfehlen Ihnen, sich auf unserer <a href='" ++ loginUrl ++ "'>Website</a> mit den folgenden Anmeldeinformationen anzumelden und aus Sicherheitsgründen Ihr Passwort zu ändern:<br>E-Mail: " ++ email ++ "<br>Passwort: " ++ password ++ "<br><p>Vielen Dank, dass Sie unsere Dienste gewählt haben.</p><p>Mit freundlichen Grüßen,</p><img src='https://firebasestorage.googleapis.com/v0/b/b-gas-13308.appspot.com/o/bgas-logo.png?alt=media&token=7ebf87ca-c995-4266-b660-a4c354460ace' alt='Company Signature Logo' width='150'>".

Section Handlers.
  Variable now : Z.
  Variable hashPassword : string -> string.
  (** The [email_configs] table, and the decipher and SMTP server of
      [MailerStore.sendMail]. *)
  Variable mailer : table MailerStore.EmailConfigRow.
  Variable aes_decipher : string -> string -> option string.
  Variable smtp_accepts : MailerStore.MailOptions -> bool.
  (** [process.env.FRONTEND_URL || 'http://localhost:3000']. *)
  Variable frontendUrl : string.

(** [addContact] (lines 15-43). *)
Definition addContactHandler (form : ContactRequest) (db : Db) : CResponse * Db :=
  respond (fun c => CJson 200 (CContact c)) (addContact now form db).

(** [getContacts] (lines 45-88): [page = 1, limit = 10] by default, the
    page and the count of the search; [ord] is the server's order of the
    query's rows. *)
Definition getContactsHandler (ord : list ContactRow -> list ContactRow) (page limit : option Z)
    (search : option string) (db : Db) : CResponse * Db :=
  let page := match page with Some p => p | None => 1 end in
  let limit := match limit with Some l => l | None => 10 end in
  respond (fun '(data, count) => CJson 200 (CPage data page limit count))
    ((data <- getContacts ord page limit search ;;
      count <- getContactsCount search ;;
      st_ret (data, count)) db).

(** [getContactById] (lines 90-123): [null] is answered with 200. *)
Definition getContactByIdHandler (contactId : string) (db : Db) : CResponse * Db :=
  respond (fun c => CJson 200 (CNullable c)) (getContactById contactId db).

(** [updateContact] (lines 125-173). *)
Definition updateContactHandler (contactId : string) (form : ContactRequest) (db : Db) : CResponse * Db :=
  respond (fun r => r)
    ((existing <- getContactById contactId ;;
      match existing with
      | Some _ =>
          fun db1 =>
            (rearchive contactId (cq_archived form)
               (getAppointmentsByContactId (db_appointments db1) (db_contacts db1) contactId) ;;;
             data <- updateContact contactId form ;;
             st_ret (CJson 200 (CNullable data))) db1
      | None => st_ret (CJson 404 (CMessege "User not found"))
      end) db).

(** [deleteContact] (lines 175-217): the contact's appointments, then the
    contact; [deletedAppointments] counts the iterations of the loop. *)
Definition deleteContactHandler (contactId : string) (db : Db) : CResponse * Db :=
  let appointments := getAppointmentsByContactId (db_appointments db) (db_contacts db) contactId in
  respond (fun data => match data with
                       | Some _ => CJson 200 (CDeleted (Z.of_nat (List.length appointments)))
                       | None => CJson 404 (CFailed "Contact not found")
                       end)
    ((delete_each appointments ;;; deleteContact contactId) db).

(** [sendContactCredentials] (lines 219-271): the mail, sent through
    [sendMail], goes to the stored address with the password in clear
    text. *)
Definition sendContactCredentials (contactId password : string) (db : Db)
    : CResponse * Db * list Mail :=
  match getContactById contactId db with
  | (Ok (Some c), db1) =>
      match updateContact contactId (with_hashed_password c (hashPassword password)) db1 with
      | (Ok data, db2) =>
          let email := credentials_email (frontendUrl ++ "/login") (show_db (ct_email c)) password in
          (CJson 200 (CUpdatedWithMail "Contact has been updated and email has been sent" data), db2,
           send_mail mailer aes_decipher smtp_accepts
             {| mail_to := show_db (ct_email c); mail_subject := "B-Gas Kontoaktualisierung"; mail_text := email |})
      | (Err e, db2) => (CThrown e, db2, [])
      end
  | (Ok None, db1) => (CJson 404 (CMessege "Contact not found"), db1, [])
  | (Err e, db1) => (CThrown e, db1, [])
  end.
End Handlers.

(** [syncContacts] (lines 274-281): [await backupDatabase()], then
    success, whatever the backup did: [backupDatabase] catches every
    error itself.  The answer, the commands the backup ran and its log. *)
Definition syncContacts (exec : string -> bool) (env : option MySQLPool.EnvJson) (now : Z)
    : CResponse * list string * list Backup.Log :=
  let '(cmds, logs) := Backup.backupDatabase exec env now in
  (CJson 200 (CStatusMessage "success" "Database backup completed"), cmds, logs).

(** ** The cascade of [deleteContact] *)

(** The rows that one of the appointments of [l] names by its id. *)
Definition named_by (l : list Appointment) (y : AppointmentRow) : bool :=
  existsb (fun a => sql_id_eq (ap_id a) (ar_id y)) l.

(** [delete_each l] deletes every row an appointment of [l] names, when
    each of those rows has its contact (so that [deleteAppointment] finds
    it through the join). *)
Lemma delete_each_spec l db :
  (forall y, In y (db_appointments db) -> named_by l y = true ->
     exists c, In c (db_contacts db) /\ ar_contact_id y = cr_id c) ->
  delete_each l db =
    (Ok tt, set_appointments db (List.filter (fun y => negb (named_by l y)) (db_appointments db))).
Proof.
  revert db. induction l as [|a l IH]; intros db Hj; simpl.
  - rewrite filter_all_true, set_appointments_same; reflexivity.
  - destruct (deleteAppointment_filter (ap_id a) db) as [res Hd].
    { intros y Hy E. apply Hj; [exact Hy|]. unfold named_by. simpl. rewrite E. reflexivity. }
    unfold st_bind at 1. rewrite Hd, IH.
    + unfold set_appointments. simpl. rewrite filter_filter_andb. do 2 f_equal.
      apply filter_ext. intros y. unfold named_by. simpl. rewrite negb_orb. reflexivity.
    + intros y Hy E. apply In_filter_iff in Hy as [Hy Hn]. apply Hj; [exact Hy|].
      unfold named_by. simpl. fold (named_by l y). rewrite E, orb_true_r. reflexivity.
Qed.

Section Cascade.
  Variables (db : Db) (cid : string) (r : ContactRow).
  Hypothesis Hwf : db_wf db.
  Hypothesis Hr : In r (db_contacts db).
  Hypothesis Hcid : sql_id_eq cid (cr_id r) = true.

(** The contact's appointments name exactly the rows of the contact. *)
Lemma named_by_contact_appointments y :
  In y (db_appointments db) ->
  named_by (getAppointmentsByContactId (db_appointments db) (db_contacts db) cid) y =
  sql_id_eq cid (ar_contact_id y).
Proof.
  destruct Hwf as (Ha & Hnd & _). rewrite Forall_forall in Ha. intros Hy.
  destruct (sql_id_eq cid (ar_contact_id y)) eqn:E; unfold named_by.
  - apply existsb_exists. exists (mapAppointmentWithContact y r). split.
    + apply In_select_appointments. exists y, r. repeat split; auto. apply (sql_id_eq_inj cid); auto.
    + simpl. rewrite sql_id_eq_toString by (specialize (Ha y Hy); lia). apply Z.eqb_refl.
  - apply not_true_iff_false. intros H. apply existsb_exists in H as [a [Hin Hs]].
    apply In_select_appointments in Hin as (x & c & Hx & _ & _ & Ec & ->). simpl in Hs.
    rewrite sql_id_eq_toString in Hs by (specialize (Ha x Hx); lia). apply Z.eqb_eq in Hs.
    rewrite (NoDup_map_eq ar_id _ x y Hnd Hx Hy Hs) in Ec. congruence.
Qed.

Lemma contact_appointments_count :
  List.length (getAppointmentsByContactId (db_appointments db) (db_contacts db) cid) =
  List.length (List.filter (fun y => sql_id_eq cid (ar_contact_id y)) (db_appointments db)).
Proof.
  destruct Hwf as (_ & _ & _ & Hnc & _). apply length_select_appointments.
  intros a _ Ea. rewrite (sql_id_eq_inj cid _ _ Ea Hcid). apply filter_key_unique; assumption.
Qed.
End Cascade.

(** C29 (functional): deleting a contact that exists deletes exactly the
    appointment rows whose [contact_id] names it, then the contact row; the
    answer counts the deleted appointments and the counters are untouched.
    No appointment of the contact is left behind. *)
Theorem deleteContact_cascade (db : Db) (cid : string) (r : ContactRow) :
  db_wf db -> contact_by_id (db_contacts db) cid = Some r ->
  deleteContactHandler cid db =
    (CJson 200 (CDeleted (Z.of_nat (List.length
        (List.filter (fun y => sql_id_eq cid (ar_contact_id y)) (db_appointments db))))),
     {| db_appointments := List.filter (fun y => negb (sql_id_eq cid (ar_contact_id y))) (db_appointments db);
        db_contacts := List.filter (fun c => negb (sql_id_eq cid (cr_id c))) (db_contacts db);
        db_ai_appointments := db_ai_appointments db; db_ai_contacts := db_ai_contacts db |}).
Proof.
  intros Hwf Hc. destruct (contact_by_id_Some _ _ _ Hc) as [Hr Hcid].
  unfold deleteContactHandler. unfold st_bind at 1.
  rewrite delete_each_spec.
  2: { intros y Hy E. rewrite (named_by_contact_appointments db cid r Hwf Hr Hcid y Hy) in E.
       exists r. split; [exact Hr | apply (sql_id_eq_inj cid); assumption]. }
  unfold deleteContact, st_bind, getContactById. simpl. rewrite Hc. simpl.
  rewrite (contact_appointments_count db cid r Hwf Hr Hcid).
  do 2 f_equal. unfold set_contacts, set_appointments. simpl. f_equal.
  apply filter_ext_in. intros y Hy.
  rewrite (named_by_contact_appointments db cid r Hwf Hr Hcid y Hy). reflexivity.
Qed.

(** [syncContacts] reports success even when no backup was made: when
    the shell fails [mkdir -p ./backups] or [mysqldump], the backup only
    logs the two warnings of a skipped backup and the answer is still
    [{ status: "success", message: "Database backup completed" }]. *)
Theorem syncContacts_success_when_skipped exec e now :
  exec ("mkdir -p " ++ Backup.backupDir) = false \/
  exec (Backup.mysqldumpCommand e (Backup.backupFile now)) = false ->
  let '(resp, _, logs) := syncContacts exec (Some e) now in
  resp = CJson 200 (CStatusMessage "success" "Database backup completed") /\ logs = Backup.skipped.
Proof.
  unfold syncContacts, Backup.backupDatabase. cbv zeta.
  intros [H|H]; rewrite H; [split; reflexivity|].
  destruct (exec ("mkdir -p " ++ Backup.backupDir)); split; reflexivity.
Qed.

(** ** Concrete runs *)

(** An appointment row of calendar 1 for a given contact. *)
Definition appt_of (id contact : Z) : AppointmentRow := {|
  ar_id := id; ar_category_id := 1; ar_service_id := 1; ar_calendar_id := 1; ar_contact_id := contact;
  ar_new_user := false; ar_start_date := monday_0h + id * one_hour;
  ar_end_date := monday_0h + (id + 1) * one_hour;
  ar_appointment_status := "Confirmed"; ar_archived := false; ar_remarks := None;
  ar_brand_of_device := None; ar_model := None; ar_year := None |}.

(** Contacts 1 and 2; contact 1 has appointments 1 and 3, contact 2 has 2. *)
Definition family_db : Db := {|
  db_appointments := [appt_of 1 1; appt_of 2 2; appt_of 3 1];
  db_contacts := [contact_row 1 None None; contact_row 2 None None];
  db_ai_appointments := 4; db_ai_contacts := 3 |}.

Lemma deleteContact_cascade_witness :
  deleteContactHandler "1" family_db =
    (CJson 200 (CDeleted 2),
     {| db_appointments := [appt_of 2 2]; db_contacts := [contact_row 2 None None];
        db_ai_appointments := 4; db_ai_contacts := 3 |}).
Proof.
  rewrite (deleteContact_cascade family_db "1" (contact_row 1 None None)).
  - vm_compute. reflexivity.
  - apply db_wfb_sound. vm_compute. reflexivity.
  - vm_compute. reflexivity.
Defined.

(** Contact 9 does not exist: 404, and nothing is deleted. *)
Example deleteContact_unknown :
  deleteContactHandler "9" family_db = (CJson 404 (CFailed "Contact not found"), family_db).
Proof. vm_compute. reflexivity. Qed.

(** Archiving contact 1 archives its two appointments and not the other. *)
Example updateContact_archives :
  let '(resp, db1) := updateContactHandler "1"
      {| cq_salutation := None; cq_first_name := None; cq_last_name := None; cq_address := None;
         cq_zip_code := None; cq_location := None; cq_telephone := None; cq_phone_numbber_2 := None;
         cq_phone_numbber_3 := None; cq_email := None; cq_password := None; cq_archived := Some true;
         cq_note_on_address := None; cq_remarks := None; cq_district := None; cq_lat := None;
         cq_lng := None |} family_db in
  map ar_archived (db_appointments db1) = [true; false; true] /\
  map cr_archived (db_contacts db1) = [true; false].
Proof. vm_compute. split; reflexivity. Qed.

Lemma syncContacts_success_when_skipped_witness :
  let e := {| MySQLPool.mysqlHost := Some "db"; MySQLPool.mysqlPort := Some "3306"; MySQLPool.mysqlUser := Some "root";
              MySQLPool.mysqlPassword := None; MySQLPool.mysqlDatabase := Some "booking_db" |} in
  (fun (_ : string) => false) ("mkdir -p " ++ Backup.backupDir) = false /\
  snd (syncContacts (fun _ => false) (Some e) 1763683200123) = Backup.skipped.
Proof.
  cbv zeta. split; [reflexivity|].
  pose proof (syncContacts_success_when_skipped (fun _ => false)
    {| MySQLPool.mysqlHost := Some "db"; MySQLPool.mysqlPort := Some "3306"; MySQLPool.mysqlUser := Some "root";
       MySQLPool.mysqlPassword := None; MySQLPool.mysqlDatabase := Some "booking_db" |}
    1763683200123 (or_introl eq_refl)) as H.
  destruct (syncContacts _ _ _) as [[resp cmds] logs]. destruct H as [_ H]. exact H.
Defined.

End ContactController.
