(* ===== verification/ContactPage.v ===== *)
(** The contact list of the back office
    ([booking-frontend-main/src/pages/Contact/index.tsx], lines 78-197):
    the state of [ContactPage] (its constructor), [fetchData],
    [componentDidUpdate], the debounced [onSearch], the pager's
    [handlePageChange] / [handlePageSizeChange], the modal and export
    toggles, and the answers of the server, which
    [ContactController.getContactsHandler] computes.  The Redux thunk
    [fetchContacts] and the class [PaginatedResponse] are not in the
    repository: the thunk is taken to send [page], [limit] and [search]
    and to resolve to the response's JSON, whose [metaData] carries
    [totalItems], [currentPage] and [itemsPerPage] from the count, the
    page and the limit.  A request answers at any later time, in any
    order: each answer is an event of its own, and the database it is
    computed on is the event's. *)

From Stdlib Require Import ZArith List String Bool Lia.
From S2P Require Import Prelude Schedule Appointment Database AppointmentStore ContactStore AppointmentController ContactController.
Import ListNotations.
Open Scope Z_scope.

Module ContactPage.
Import Appointment Database ContactStore ContactController.
Local Open Scope string_scope.

(** The state of [ContactPage] (lines 80-94). *)
Record PageState := {
  visible : bool;
  pageNum : Z;
  totalCount : Z;
  pageCount : Z;
  currentPage : Z;
  editingContactId : option string;
  search : string;
  importModelVisible : bool;
  importLoading : bool;
  exportLoading : bool;
  syncLoading : bool;
  resetVisible : bool
}.

Definition initial_state : PageState := {|
  visible := false; pageNum := 1; totalCount := 0; pageCount := 10; currentPage := 1;
  editingContactId := None; search := ""; importModelVisible := false; importLoading := false;
  exportLoading := false; syncLoading := false; resetVisible := false |}.

(** [PaginatedForm]: one call of [fetchContacts]. *)
Record PaginatedForm := { pf_page : Z; pf_limit : Z; pf_search : string }.

(** The component with its effects still to come: the requests in
    flight, whether the debounced search is armed, and the contacts the
    store holds for the table. *)
Record Page := {
  state : PageState;
  inflight : list PaginatedForm;
  debounce_armed : bool;
  contacts : list Contact
}.

Definition initial_page : Page :=
  {| state := initial_state; inflight := []; debounce_armed := false; contacts := [] |}.

(** [fetchData] (lines 99-112), the request only. *)
Definition fetchData (p : Page) : Page :=
  let s := state p in
  {| state := s; inflight := inflight p ++ [{| pf_page := pageNum s; pf_limit := pageCount s; pf_search := search s |}];
     debounce_armed := debounce_armed p; contacts := contacts p |}.

(** [this.setState(f)] followed by [componentDidUpdate] (lines 118-128):
    a new request when the total, the page or the page size changed. *)
Definition setState (f : PageState -> PageState) (p : Page) : Page :=
  let s := state p in
  let s' := f s in
  let p' := {| state := s'; inflight := inflight p; debounce_armed := debounce_armed p; contacts := contacts p |} in
  if negb (Z.eqb (totalCount s) (totalCount s')) || negb (Z.eqb (pageNum s) (pageNum s'))
     || negb (Z.eqb (pageCount s) (pageCount s'))
  then fetchData p' else p'.

Definition with_paging (total page count : Z) (s : PageState) : PageState := {|
  visible := visible s; pageNum := page; totalCount := total; pageCount := count; currentPage := page;
  editingContactId := editingContactId s; search := search s; importModelVisible := importModelVisible s;
  importLoading := importLoading s; exportLoading := exportLoading s; syncLoading := syncLoading s;
  resetVisible := resetVisible s |}.

Definition with_search (v : string) (s : PageState) : PageState := {|
  visible := visible s; pageNum := 1; totalCount := totalCount s; pageCount := pageCount s;
  currentPage := currentPage s; editingContactId := editingContactId s; search := v;
  importModelVisible := importModelVisible s; importLoading := importLoading s;
  exportLoading := exportLoading s; syncLoading := syncLoading s; resetVisible := resetVisible s |}.

Definition with_page (page count : Z) (s : PageState) : PageState := {|
  visible := visible s; pageNum := page; totalCount := totalCount s; pageCount := count;
  currentPage := currentPage s; editingContactId := editingContactId s; search := search s;
  importModelVisible := importModelVisible s; importLoading := importLoading s;
  exportLoading := exportLoading s; syncLoading := syncLoading s; resetVisible := resetVisible s |}.

(** [onOpen] (lines 137-139). *)
Definition open_edit (id : option string) (s : PageState) : PageState := {|
  visible := true; pageNum := pageNum s; totalCount := totalCount s; pageCount := pageCount s;
  currentPage := currentPage s; editingContactId := id; search := search s;
  importModelVisible := importModelVisible s; importLoading := importLoading s;
  exportLoading := exportLoading s; syncLoading := syncLoading s; resetVisible := resetVisible s |}.

(** [onOpenResetPassword] (lines 141-143). *)
Definition open_reset (id : string) (s : PageState) : PageState := {|
  visible := visible s; pageNum := pageNum s; totalCount := totalCount s; pageCount := pageCount s;
  currentPage := currentPage s; editingContactId := Some id; search := search s;
  importModelVisible := importModelVisible s; importLoading := importLoading s;
  exportLoading := exportLoading s; syncLoading := syncLoading s; resetVisible := true |}.

(** [onOpenImportModel] (lines 145-147). *)
Definition open_import (s : PageState) : PageState := {|
  visible := visible s; pageNum := pageNum s; totalCount := totalCount s; pageCount := pageCount s;
  currentPage := currentPage s; editingContactId := editingContactId s; search := search s;
  importModelVisible := true; importLoading := importLoading s;
  exportLoading := exportLoading s; syncLoading := syncLoading s; resetVisible := resetVisible s |}.

(** [this.setState({ exportLoading: b })] of [onExportContacts]
    (lines 149-153), around the [window.open] of the export file. *)
Definition with_export (b : bool) (s : PageState) : PageState := {|
  visible := visible s; pageNum := pageNum s; totalCount := totalCount s; pageCount := pageCount s;
  currentPage := currentPage s; editingContactId := editingContactId s; search := search s;
  importModelVisible := importModelVisible s; importLoading := importLoading s;
  exportLoading := b; syncLoading := syncLoading s; resetVisible := resetVisible s |}.

(** The [search] query parameter: an empty search sends none. *)
Definition search_param (v : string) : option string := if String.eqb v "" then None else Some v.

(** The server's answer to a request, on the database [db], its rows in
    the order [ord]. *)
Definition answer (ord : list ContactRow -> list ContactRow) (r : PaginatedForm) (db : Db) : CResponse :=
  fst (getContactsHandler ord (Some (pf_page r)) (Some (pf_limit r)) (search_param (pf_search r)) db).

(** The [.then] of [fetchData] (lines 102-111): the store takes the page's
    contacts; the pager takes the meta data when [totalItems] is truthy. *)
Definition receive (resp : CResponse) (p : Page) : Page :=
  match resp with
  | CJson _ (CPage data page limit count) =>
      let p1 := {| state := state p; inflight := inflight p; debounce_armed := debounce_armed p;
                   contacts := data |} in
      if Z.eqb count 0 then p1 else setState (with_paging count page limit) p1
  | _ => p
  end.

Definition remove_nth {A} (i : nat) (l : list A) : list A := firstn i l ++ skipn (S i) l.

Inductive PageEvent :=
| Mount                          (** [componentDidMount] *)
| Search (v : string)            (** [onSearch] *)
| DebounceFire                   (** the debounced [fetchData], a second after the last search *)
| PageChange (n : Z)             (** [handlePageChange] *)
| PageSizeChange (n : Z)         (** [handlePageSizeChange] *)
| Answer (i : nat) (db : Db) (ord : list ContactRow -> list ContactRow)
                                 (** the [i]-th request in flight answers *)
| Open (id : option string)
| OpenResetPassword (id : string)
| OpenImportModel
| ExportContacts.

(** One event; the pager only offers pages and sizes of at least 1. *)
Definition page_step (e : PageEvent) (p : Page) : option Page :=
  match e with
  | Mount => Some (fetchData p)
  | Search v =>
      let p1 := setState (with_search v) p in
      Some {| state := state p1; inflight := inflight p1; debounce_armed := true; contacts := contacts p1 |}
  | DebounceFire =>
      if debounce_armed p then
        let p1 := fetchData p in
        Some {| state := state p1; inflight := inflight p1; debounce_armed := false; contacts := contacts p1 |}
      else None
  | PageChange n => if Z.leb 1 n then Some (setState (fun s => with_page n (pageCount s) s) p) else None
  | PageSizeChange n => if Z.leb 1 n then Some (setState (with_page 1 n) p) else None
  | Answer i db ord =>
      match nth_error (inflight p) i with
      | Some r =>
          Some (receive (answer ord r db)
                  {| state := state p; inflight := remove_nth i (inflight p);
                     debounce_armed := debounce_armed p; contacts := contacts p |})
      | None => None
      end
  | Open id => Some (setState (open_edit id) p)
  | OpenResetPassword id => Some (setState (open_reset id) p)
  | OpenImportModel => Some (setState open_import p)
  | ExportContacts => Some (setState (with_export false) (setState (with_export true) p))
  end.

Fixpoint run (es : list PageEvent) (p : Page) : option Page :=
  match es with
  | [] => Some p
  | e :: es' => match page_step e p with Some p' => run es' p' | None => None end
  end.

Inductive reachable : Page -> Prop :=
| reach_init : reachable initial_page
| reach_step p e p' : reachable p -> page_step e p = Some p' -> reachable p'.

(** The pager shows a page and a size of at least 1, and every request
    in flight asks for such a page. *)
Definition page_inv (p : Page) : Prop :=
  1 <= pageNum (state p) /\ 1 <= pageCount (state p) /\
  Forall (fun r => 1 <= pf_page r /\ 1 <= pf_limit r) (inflight p).

(** ** Lemmas *)

Lemma fetchData_inv p : page_inv p -> page_inv (fetchData p).
Proof.
  intros (Hn & Hc & Hf). unfold fetchData. repeat split; cbn; try assumption.
  apply Forall_app. split; [exact Hf|]. constructor; [cbn; lia | constructor].
Qed.

Lemma setState_inv f p :
  (forall s, 1 <= pageNum s -> 1 <= pageCount s -> 1 <= pageNum (f s) /\ 1 <= pageCount (f s)) ->
  page_inv p -> page_inv (setState f p).
Proof.
  intros Hf (Hn & Hc & Hr). destruct (Hf _ Hn Hc) as [Hn' Hc'].
  unfold setState. destruct (_ || _)%bool; [apply fetchData_inv|]; repeat split; cbn; assumption.
Qed.

(** The answer to a request carries the request's page and limit. *)
Lemma answer_echo ord r db :
  match answer ord r db with
  | CJson _ (CPage _ page limit _) => page = pf_page r /\ limit = pf_limit r
  | _ => True
  end.
Proof.
  unfold answer, getContactsHandler, respond, st_bind.
  destruct (getContacts _ _ _ _ db) as [[l|e] db1]; [|exact I].
  destruct (getContactsCount _ db1) as [[n|e] db2]; [split; reflexivity | exact I].
Qed.

Lemma receive_inv ord r db p :
  1 <= pf_page r -> 1 <= pf_limit r -> page_inv p -> page_inv (receive (answer ord r db) p).
Proof.
  intros Hpg Hlim Hp. pose proof (answer_echo ord r db) as He. unfold receive.
  destruct (answer ord r db) as [st [| | data page limit count | | | | |]|]; try exact Hp.
  destruct He as [-> ->]. destruct Hp as (Hn & Hc & Hr).
  destruct (Z.eqb count 0); [repeat split; assumption|].
  apply setState_inv; [intros; cbn; lia | repeat split; assumption].
Qed.

Lemma Forall_remove_nth {A} (P : A -> Prop) i l : Forall P l -> Forall P (remove_nth i l).
Proof.
  unfold remove_nth. revert i. induction l as [|x l IH]; intros [|i] H; cbn; try assumption.
  - inversion H; assumption.
  - inversion H; subst. constructor; [assumption | apply IH; assumption].
Qed.

Lemma page_step_inv e p p' : page_inv p -> page_step e p = Some p' -> page_inv p'.
Proof.
  intros Hp Hs. destruct e as [| v | | n | n | i db ord | id | id | |]; cbn in Hs.
  - injection Hs as <-. apply fetchData_inv, Hp.
  - injection Hs as <-. pose proof (setState_inv (with_search v) p ltac:(intros; cbn; lia) Hp) as (H1 & H2 & H3).
    repeat split; assumption.
  - destruct (debounce_armed p); [injection Hs as <-|discriminate].
    destruct (fetchData_inv p Hp) as (H1 & H2 & H3). repeat split; assumption.
  - destruct (Z.leb_spec 1 n); [injection Hs as <-|discriminate]. apply setState_inv; [intros; cbn; lia | exact Hp].
  - destruct (Z.leb_spec 1 n); [injection Hs as <-|discriminate]. apply setState_inv; [intros; cbn; lia | exact Hp].
  - destruct (nth_error (inflight p) i) as [r|] eqn:Ei; [injection Hs as <-|discriminate].
    destruct Hp as (Hn & Hc & Hr). pose proof (nth_error_In _ _ Ei) as Hin.
    rewrite Forall_forall in Hr. destruct (Hr r Hin) as [Hpg Hlim].
    apply receive_inv; [assumption | assumption |].
    repeat split; cbn; try assumption. apply Forall_remove_nth. rewrite Forall_forall. exact Hr.
  - injection Hs as <-. apply setState_inv; [intros; cbn; lia | exact Hp].
  - injection Hs as <-. apply setState_inv; [intros; cbn; lia | exact Hp].
  - injection Hs as <-. apply setState_inv; [intros; cbn; lia | exact Hp].
  - injection Hs as <-. apply setState_inv; [intros; cbn; lia|].
    apply setState_inv; [intros; cbn; lia | exact Hp].
Qed.

Lemma page_reachable_inv p : reachable p -> page_inv p.
Proof.
  induction 1 as [| p e p' _ IH Hs]; [repeat split; cbn; try lia; constructor|].
  exact (page_step_inv e p p' IH Hs).
Qed.

(** The answer to a request for a page [>= 1] of a size [>= 0]: the
    page's rows of the search and its count. *)
Lemma answer_ok ord r db :
  1 <= pf_page r -> 0 <= pf_limit r ->
  answer ord r db =
    CJson 200 (CPage (map mapContactRow (firstn (Z.to_nat (pf_limit r))
                        (skipn (Z.to_nat (pf_limit r * (pf_page r - 1)))
                           (ord (List.filter (search_where (search_param (pf_search r))) (db_contacts db))))))
                     (pf_page r) (pf_limit r)
                     (Z.of_nat (List.length (List.filter (search_where (search_param (pf_search r))) (db_contacts db))))).
Proof.
  intros Hpg Hlim. unfold answer, getContactsHandler, respond, st_bind, getContacts, getContactsCount.
  cbn. rewrite (proj2 (Z.ltb_ge (pf_limit r) 0)), (proj2 (Z.ltb_ge (pf_limit r * (pf_page r - 1)) 0)) by nia.
  reflexivity.
Qed.

(** ** Theorems *)

(** Every request the contact list has in flight, in every
    state the page can reach, asks for a page and a size of at least 1,
    so the server answers it, on any database, with status 200 and the
    page of the search's rows and their count: the DAO's error for a
    negative [LIMIT] or [OFFSET] never reaches the page. *)
Theorem contact_requests_answered ord p r db :
  reachable p -> In r (inflight p) ->
  answer ord r db =
    CJson 200 (CPage (map mapContactRow (firstn (Z.to_nat (pf_limit r))
                        (skipn (Z.to_nat (pf_limit r * (pf_page r - 1)))
                           (ord (List.filter (search_where (search_param (pf_search r))) (db_contacts db))))))
                     (pf_page r) (pf_limit r)
                     (Z.of_nat (List.length (List.filter (search_where (search_param (pf_search r))) (db_contacts db))))).
Proof.
  intros Hr Hin. destruct (page_reachable_inv p Hr) as (_ & _ & Hf).
  rewrite Forall_forall in Hf. destruct (Hf r Hin). apply answer_ok; lia.
Qed.

(** ** Concrete runs *)

(** The first answer changes [totalCount] from 0, so [componentDidUpdate]
    asks for the same page a second time: every visit loads the first page
    twice. *)
Example mount_fetches_twice :
  option_map (fun p => (inflight p, totalCount (state p), List.length (contacts p)))
    (run [Mount; Answer 0 people_db table_order] initial_page) =
  Some ([{| pf_page := 1; pf_limit := 10; pf_search := "" |}], 3, 3%nat).
Proof. vm_compute. reflexivity. Qed.

(** Answers are not matched with the search that asked for them: after
    searching "Jo" and then "Joh", with the answers coming in the other
    order, the table shows the two contacts matching "Jo" and the pager a
    total of 2 while the field says "Joh", which one contact matches. *)
Example stale_search_results :
  option_map (fun p => (search (state p), List.length (contacts p), totalCount (state p), List.length (inflight p)))
    (run [Mount; Answer 0 people_db table_order; Answer 0 people_db table_order;
          Search "Jo"; DebounceFire; Search "Joh"; DebounceFire;
          Answer 1 people_db table_order; Answer 0 people_db table_order] initial_page) =
  Some ("Joh", 2%nat, 2, 2%nat).
Proof. vm_compute. reflexivity. Qed.

(** A search nothing matches answers [totalItems: 0], which is falsy: the
    table empties but the pager keeps the total of the previous search. *)
Example zero_results_keep_total :
  option_map (fun p => (List.length (contacts p), totalCount (state p), inflight p))
    (run [Mount; Answer 0 people_db table_order; Answer 0 people_db table_order; Search "Xyz"; DebounceFire; Answer 0 people_db table_order]
       initial_page) =
  Some (0%nat, 3, []).
Proof. vm_compute. reflexivity. Qed.

End ContactPage.
