(* ===== verification/ContactForms.v ===== *)
(** The modals and row actions of the contact list
    ([booking-frontend-main/src/pages/Contact/index.tsx], lines 155-243
    and 478-540) against the server: the new/edit form with its
    validation rules and [onFinish], archive, delete, the manual password
    reset, the import and the sync.  A request is answered at once by the
    handler of [ContactController] on the server's database; the Redux
    thunks [createContactRequest], [updateContactRequest],
    [deleteContactRequest] and [resetContactPasswordManually] are not in
    the repository and are taken to resolve to the handler's JSON body.
    The component's [newPassword] and [file] fields are kept beside the
    [ContactPage] state.  antd's [email] rule is a section variable. *)

From Stdlib Require Import ZArith List String Bool Lia Reals.
From S2P Require Import Prelude Schedule Appointment Database AppointmentStore ContactStore Table MailerStore AppointmentController ContactController ContactPage.
Import ListNotations.
Open Scope Z_scope.

Module ContactForms.
Import Appointment Database ContactStore Table AppointmentController ContactController ContactPage.
Local Open Scope string_scope.

(** ** The form *)

(** The values of the form of [renderNewContactModal] (lines 260-460);
    [district] is what its [<Input type="number" />] holds, a string. *)
Record ContactFormValues := {
  fv_salutation : option string;
  fv_first_name : option string;
  fv_last_name : option string;
  fv_address : option string;
  fv_zip_code : option string;
  fv_location : option string;
  fv_district : option string;
  fv_telephone : option string;
  fv_phone_numbber_2 : option string;
  fv_phone_numbber_3 : option string;
  fv_email : option string;
  fv_password : option string;
  fv_remarks : option string
}.

(** A [required] rule: a value other than [undefined] and [''].  *)
Definition filled (o : option string) : bool :=
  match o with Some s => negb (String.eqb s "") | None => false end.

(** An optional field: absent or empty skips the other rules. *)
Definition blank (o : option string) : bool := negb (filled o).

Section Rules.
(** antd's [type: 'email'] check. *)
Variable is_email : string -> bool.

(** The rules of the form's items.  [district]'s rule has
    [type: 'number'], which a string never satisfies: a filled district
    fails whatever it holds. *)
Definition form_ok (isEditing : bool) (v : ContactFormValues) : bool :=
  filled (fv_salutation v) && filled (fv_first_name v) && filled (fv_last_name v) &&
  filled (fv_address v) && filled (fv_zip_code v) && filled (fv_location v) &&
  blank (fv_district v) && filled (fv_telephone v) &&
  match fv_email v with Some e => negb (String.eqb e "") && is_email e | None => false end &&
  (isEditing || filled (fv_password v)).
End Rules.

(** The body of [onFinish]'s request: the form's values ([district] is
    empty whenever the rules pass). *)
Definition to_request (v : ContactFormValues) : ContactRequest := {|
  cq_salutation := fv_salutation v; cq_first_name := fv_first_name v; cq_last_name := fv_last_name v;
  cq_address := fv_address v; cq_zip_code := fv_zip_code v; cq_location := fv_location v;
  cq_telephone := fv_telephone v; cq_phone_numbber_2 := fv_phone_numbber_2 v;
  cq_phone_numbber_3 := fv_phone_numbber_3 v; cq_email := fv_email v; cq_password := fv_password v;
  cq_archived := None; cq_note_on_address := None; cq_remarks := fv_remarks v; cq_district := None;
  cq_lat := None; cq_lng := None |}.

(** [onArchiveContact] (lines 186-196):
    [{ ...rest, archived: !contact.archived }] without [_id]. *)
Definition archive_request (c : Contact) : ContactRequest := {|
  cq_salutation := ct_salutation c; cq_first_name := ct_first_name c; cq_last_name := ct_last_name c;
  cq_address := ct_address c; cq_zip_code := ct_zip_code c; cq_location := ct_location c;
  cq_telephone := ct_telephone c; cq_phone_numbber_2 := ct_phone_numbber_2 c;
  cq_phone_numbber_3 := ct_phone_numbber_3 c; cq_email := ct_email c; cq_password := ct_password c;
  cq_archived := Some (negb (ct_archived c)); cq_note_on_address := ct_note_on_address c;
  cq_remarks := None; cq_district := ct_district c; cq_lat := ct_lat c; cq_lng := ct_lng c |}.

(** ** The page with the server *)

Record World := {
  page : Page;
  db : Db;
  newPassword : string;
  file_selected : bool;
  import_pending : bool;
  mails : list Mail
}.

(** [this.setState] of the flags the modals use, through
    [ContactPage.setState] and its [componentDidUpdate]. *)
Definition set_flags (vis reset imp impL sync : option bool) (edit : option (option string)) (s : PageState)
    : PageState := {|
  visible := upd vis (visible s); pageNum := pageNum s; totalCount := totalCount s;
  pageCount := pageCount s; currentPage := currentPage s;
  editingContactId := upd edit (editingContactId s); search := search s;
  importModelVisible := upd imp (importModelVisible s); importLoading := upd impL (importLoading s);
  exportLoading := exportLoading s; syncLoading := upd sync (syncLoading s);
  resetVisible := upd reset (resetVisible s) |}.

Definition with_page (p : Page) (w : World) : World := {|
  page := p; db := db w; newPassword := newPassword w; file_selected := file_selected w;
  import_pending := import_pending w; mails := mails w |}.

Definition flags (vis reset imp impL sync : option bool) (edit : option (option string)) (w : World) : World :=
  with_page (setState (set_flags vis reset imp impL sync edit) (page w)) w.

Definition with_db (d : Db) (w : World) : World := {|
  page := page w; db := d; newPassword := newPassword w; file_selected := file_selected w;
  import_pending := import_pending w; mails := mails w |}.

(** [data._id]: the body is a contact. *)
Definition has_id (r : CResponse) : bool :=
  match r with
  | CJson _ (CContact _) | CJson _ (CNullable (Some _)) => true
  | _ => false
  end.

(** [data.status && data.status === 'success']: the bodies of the delete
    and sync handlers have a [status]. *)
Definition status_success (r : CResponse) : bool :=
  match r with
  | CJson _ (CDeleted _) => true
  | CJson _ (CStatusMessage st _) => String.eqb st "success"
  | _ => false
  end.

Inductive FormEvent :=
| FormFinish (v : ContactFormValues)   (** the form's submit, its rules passed *)
| FormClose
| Archive (c : Contact)
| Delete (id : string)
| PasswordInput (s : string)           (** the reset modal's [onChange] *)
| ResetFinish | ResetClose
| SelectFile | ImportOk | ImportSettled (ok : bool) | ImportClose
| SyncClick | SyncSettled.

Section Step.
Variable now : Z.
Variable hashPassword : string -> string.
Variable mailer : table MailerStore.EmailConfigRow.
Variable aes_decipher : string -> string -> option string.
Variable smtp_accepts : MailerStore.MailOptions -> bool.
Variable frontendUrl : string.
Variable is_email : string -> bool.

(** The [onFinish] of [renderResetPasswordModal] (lines 493-506). *)
Definition resetFinish (w : World) : World :=
  match editingContactId (state (page w)) with
  | Some id =>
      if String.eqb (newPassword w) "" then w
      else
        let '(r, d, ms) := sendContactCredentials hashPassword mailer aes_decipher smtp_accepts frontendUrl id (newPassword w) (db w) in
        let w1 := {| page := page w; db := d; newPassword := newPassword w; file_selected := file_selected w;
                     import_pending := import_pending w; mails := app (mails w) ms |} in
        if status_success r
        then let w2 := flags None (Some false) None None None (Some None) w1 in
             {| page := page w2; db := db w2; newPassword := ""; file_selected := file_selected w2;
                import_pending := import_pending w2; mails := mails w2 |}
        else w1
  | None => w
  end.

(** [onImport] of [renderImportModal] (lines 530-534), up to the
    [fetch] of the file. *)
Definition onImport (w : World) : World :=
  if file_selected w then
    let w1 := flags None None None (Some true) None None w in
    {| page := page w1; db := db w1; newPassword := newPassword w1; file_selected := true;
       import_pending := true; mails := mails w1 |}
  else w.

(** The [then] and [finally] of the import (lines 539-551). *)
Definition importSettled (ok : bool) (w : World) : option World :=
  if import_pending w then
    let w1 := if ok then with_page (fetchData (page w)) w else w in
    let w2 := flags None None (Some false) (Some false) None None w1 in
    Some {| page := page w2; db := db w2; newPassword := newPassword w2; file_selected := file_selected w2;
            import_pending := false; mails := mails w2 |}
  else None.

Definition form_step (e : FormEvent) (w : World) : option World :=
  let s := state (page w) in
  match e with
  | FormFinish v =>
      let isEditing := match editingContactId s with Some _ => true | None => false end in
      if negb (visible s && form_ok is_email isEditing v) then None
      else match editingContactId s with
           | Some id =>
               let '(r, d) := updateContactHandler id (to_request v) (db w) in
               let w1 := with_db d w in
               Some (if has_id r then flags (Some false) None None None None (Some None) w1 else w1)
           | None =>
               let '(r, d) := addContactHandler now (to_request v) (db w) in
               let w1 := with_db d w in
               Some (if has_id r then flags (Some false) None None None None None w1 else w1)
           end
  | FormClose => Some (flags (Some false) None None None None None w)
  | Archive c => Some (with_db (snd (updateContactHandler (ct_id c) (archive_request c) (db w))) w)
  | Delete id => Some (with_db (snd (deleteContactHandler id (db w))) w)
  | PasswordInput p => Some {| page := page w; db := db w; newPassword := p; file_selected := file_selected w;
                               import_pending := import_pending w; mails := mails w |}
  | ResetFinish => Some (resetFinish w)
  | ResetClose => Some (flags None (Some false) None None None None w)
  | SelectFile => Some {| page := page w; db := db w; newPassword := newPassword w; file_selected := true;
                          import_pending := import_pending w; mails := mails w |}
  | ImportOk => Some (onImport w)
  | ImportSettled ok => importSettled ok w
  | ImportClose => Some (flags None None (Some false) None None None w)
  | SyncClick => Some (flags None None None None (Some true) None w)
  | SyncSettled => Some (flags None None None None (Some false) None w)
  end.

End Step.

(** ** Lemmas *)

Lemma setState_state f p : state (setState f p) = f (state p).
Proof. unfold setState. cbv zeta. destruct (_ || _)%bool; reflexivity. Qed.

Lemma flags_state vis reset imp impL sync edit w :
  state (page (flags vis reset imp impL sync edit w)) = set_flags vis reset imp impL sync edit (state (page w)).
Proof. apply setState_state. Qed.

(** The body of the credentials handler never has [status: 'success']. *)
Lemma sendContactCredentials_not_success hp ml ad sa fu id pw d :
  status_success (fst (fst (sendContactCredentials hp ml ad sa fu id pw d))) = false.
Proof.
  unfold sendContactCredentials.
  destruct (getContactById id d) as [[[c|]|e] d1]; [|reflexivity|reflexivity].
  destruct (updateContact id _ d1) as [[x|e] d2]; reflexivity.
Qed.

(** ** Theorems *)

(** C9 (safety, finding): a contact created through the form of the back office is stored with
    the password as typed: neither [addContactHandler] nor the DAO hashes
    it, unlike a booking's new contact ([new_contact_password_hashed]);
    the form then closes. *)
Theorem form_create_stores_password_plain now hp ml ad sa fu ie w v w' :
  db_wf (db w) -> editingContactId (state (page w)) = None ->
  form_step now hp ml ad sa fu ie (FormFinish v) w = Some w' ->
  exists r, In r (db_contacts (db w')) /\ cr_password r = fv_password v /\ visible (state (page w')) = false.
Proof.
  intros Hwf Hed Hs. unfold form_step in Hs. rewrite Hed in Hs.
  destruct (negb _) eqn:Hok in Hs; [discriminate|].
  unfold addContactHandler in Hs. rewrite (addContact_run now _ _ Hwf) in Hs. cbn in Hs.
  injection Hs as <-. exists (new_contact_row now (to_request v) (db_ai_contacts (db w))).
  split; [cbn; apply in_or_app; right; left; reflexivity|]. split; [reflexivity|].
  rewrite flags_state. reflexivity.
Qed.

(** C22 (error, finding): the manual password reset stores the new password's hash and sends
    the credentials mail, but its answer has no [status: 'success']: the
    modal stays open with the password typed, and the page reports an
    error, whatever the server did. *)
Theorem reset_never_confirmed now hp ml ad sa fu ie w w' id :
  editingContactId (state (page w)) = Some id -> newPassword w <> "" ->
  form_step now hp ml ad sa fu ie ResetFinish w = Some w' ->
  page w' = page w /\ newPassword w' = newPassword w /\
  db w' = snd (fst (sendContactCredentials hp ml ad sa fu id (newPassword w) (db w))) /\
  mails w' = app (mails w) (snd (sendContactCredentials hp ml ad sa fu id (newPassword w) (db w))).
Proof.
  intros Hed Hpw Hs. unfold form_step, resetFinish in Hs. rewrite Hed in Hs.
  apply String.eqb_neq in Hpw. rewrite Hpw in Hs.
  pose proof (sendContactCredentials_not_success hp ml ad sa fu id (newPassword w) (db w)) as Hn.
  destruct (sendContactCredentials hp ml ad sa fu id (newPassword w) (db w)) as [[r d] ms].
  cbn in Hn. rewrite Hn in Hs. injection Hs as <-. repeat split; reflexivity.
Qed.

(** ** Concrete runs *)

Definition world0 : World := {|
  page := initial_page; db := people_db; newPassword := ""; file_selected := false;
  import_pending := false; mails := [] |}.

Definition values (district password : option string) : ContactFormValues := {|
  fv_salutation := Some "Frau"; fv_first_name := Some "Eva"; fv_last_name := Some "Berg";
  fv_address := Some "Gasse 1"; fv_zip_code := Some "1060"; fv_location := Some "Wien";
  fv_district := district; fv_telephone := Some "0664"; fv_email := Some "eva@example.at";
  fv_phone_numbber_2 := None; fv_phone_numbber_3 := None; fv_password := password; fv_remarks := None |}.

Definition run_forms (es : list FormEvent) (w : World) : option World :=
  fold_left (fun ow e => match ow with
                         | Some w => form_step 100 (fun p => "hash:" ++ p) delivering_mailer MailerStore.cipher_ok MailerStore.smtp_up
                                       "https://shop.example.at" (fun _ => true) e w
                         | None => None
                         end) es (Some w).

Definition demo_step : FormEvent -> World -> option World :=
  form_step 100 (fun p => "hash:" ++ p) delivering_mailer MailerStore.cipher_ok MailerStore.smtp_up
    "https://shop.example.at" (fun _ => true).

(** The form opened for a new contact, and the reset modal opened for
    Jo with a new password typed. *)
Definition creating_world : World := flags (Some true) None None None None (Some None) world0.

Definition resetting_world : World := {|
  page := page (flags None (Some true) None None None (Some (Some "2")) world0); db := people_db;
  newPassword := "neu123"; file_selected := false; import_pending := false; mails := [] |}.

Lemma form_create_stores_password_plain_witness :
  let w' := match demo_step (FormFinish (values None (Some "geheim"))) creating_world with
            | Some w => w | None => creating_world end in
  exists r, In r (db_contacts (db w')) /\ cr_password r = Some "geheim" /\ visible (state (page w')) = false.
Proof.
  intros w'. apply (form_create_stores_password_plain 100 (fun p => "hash:" ++ p) delivering_mailer
    MailerStore.cipher_ok MailerStore.smtp_up "https://shop.example.at" (fun _ => true) creating_world
    (values None (Some "geheim")) w').
  - apply db_wfb_sound. vm_compute. reflexivity.
  - vm_compute. reflexivity.
  - vm_compute. reflexivity.
Defined.

Lemma reset_never_confirmed_witness :
  let w' := match demo_step ResetFinish resetting_world with Some w => w | None => resetting_world end in
  page w' = page resetting_world /\ newPassword w' = "neu123" /\
  db w' = snd (fst (sendContactCredentials (fun p => "hash:" ++ p) delivering_mailer MailerStore.cipher_ok
                      MailerStore.smtp_up "https://shop.example.at" "2" "neu123" people_db)) /\
  mails w' = app [] (snd (sendContactCredentials (fun p => "hash:" ++ p) delivering_mailer MailerStore.cipher_ok
                            MailerStore.smtp_up "https://shop.example.at" "2" "neu123" people_db)).
Proof.
  intros w'. apply (reset_never_confirmed 100 (fun p => "hash:" ++ p) delivering_mailer
    MailerStore.cipher_ok MailerStore.smtp_up "https://shop.example.at" (fun _ => true) resetting_world w' "2").
  - vm_compute. reflexivity.
  - discriminate.
  - vm_compute. reflexivity.
Defined.

(** The district rule rejects every district, in range or not; a form
    without one is submitted and closes, its password stored as typed. *)
Example district_never_accepted :
  form_ok (fun _ => true) false (values (Some "6") (Some "geheim")) = false /\
  form_ok (fun _ => true) false (values (Some "0") (Some "geheim")) = false /\
  option_map (fun w => (visible (state (page w)), map cr_password (db_contacts (db w))))
    (run_forms [FormFinish (values None (Some "geheim"))]
       (flags (Some true) None None None None (Some None) world0)) =
  Some (false, [None; None; None; Some "geheim"]).
Proof. vm_compute. repeat split. Qed.

(** Resetting Jo's password stores its hash and mails it, yet the modal
    stays open; archiving Jo from the table archives the row. *)
Example reset_and_archive :
  option_map (fun w => (resetVisible (state (page w)), map cr_password (db_contacts (db w)), List.length (mails w)))
    (run_forms [PasswordInput "neu123"; ResetFinish] (flags None (Some true) None None None (Some (Some "2")) world0)) =
  Some (true, [None; Some "hash:neu123"; None], 1%nat) /\
  option_map (fun w => map cr_archived (db_contacts (db w)))
    (run_forms [Archive (mapContactRow (named_contact 2 "Jo" 20))] world0) =
  Some [false; true; false].
Proof. vm_compute. split; reflexivity. Qed.

End ContactForms.
