(* ===== verification/Geo.v ===== *)
(** The distance calculator and the district table of [utils/geospatial.ts]:
    [toRad], [calculateDistance] (the Haversine formula with an Earth radius
    of 6371 km, lines 35-65 of the file), [VIENNA_DISTRICT_COORDINATES] and
    [getDistrictCoordinates] (lines 6-30 and 72-77).  JS numbers are real
    numbers here: the theorems speak of the exact formula, not of its IEEE
    rounding.  [Math.atan2] is written out by quadrant; [Math.sqrt] is only
    applied to values in [0, 1].  The table is a [gmap] keyed by district
    number, as the code's object literal. *)

From Stdlib Require Import ZArith List Reals Lra.
From stdpp Require Import base gmap.
From S2P Require Import Prelude.
Import ListNotations.

Module Geo.
Local Open Scope R_scope.

Record Coordinates := { lat : R; lng : R }.

Definition toRad (value : R) : R := value * PI / 180.

(** [Math.atan2(y, x)] (signed zeros aside). *)
Definition atan2 (y x : R) : R :=
  if Rlt_dec 0 x then atan (y / x)
  else if Rlt_dec x 0 then (if Rle_dec 0 y then atan (y / x) + PI else atan (y / x) - PI)
  else if Rlt_dec 0 y then PI / 2
  else if Rlt_dec y 0 then - (PI / 2)
  else 0.

Definition EarthRadiusKm : R := 6371.

(** The [a] of the Haversine formula. *)
Definition haversine_a (lat1 lng1 lat2 lng2 : R) : R :=
  let dLat := toRad (lat2 - lat1) in
  let dLon := toRad (lng2 - lng1) in
  sin (dLat / 2) * sin (dLat / 2) +
  cos (toRad lat1) * cos (toRad lat2) * sin (dLon / 2) * sin (dLon / 2).

Definition calculateDistance (lat1 lng1 lat2 lng2 : R) : R :=
  let a := haversine_a lat1 lng1 lat2 lng2 in
  let c := 2 * atan2 (sqrt a) (sqrt (1 - a)) in
  EarthRadiusKm * c.

(** [VIENNA_DISTRICT_COORDINATES]. *)
Definition VIENNA_DISTRICT_COORDINATES : gmap Z Coordinates :=
  list_to_map [
    (1%Z, {| lat := 48.2085; lng := 16.3731 |}); (2%Z, {| lat := 48.2167; lng := 16.4000 |});
    (3%Z, {| lat := 48.1944; lng := 16.3944 |}); (4%Z, {| lat := 48.1917; lng := 16.3667 |});
    (5%Z, {| lat := 48.1833; lng := 16.3500 |}); (6%Z, {| lat := 48.1983; lng := 16.3550 |});
    (7%Z, {| lat := 48.2033; lng := 16.3467 |}); (8%Z, {| lat := 48.2100; lng := 16.3500 |});
    (9%Z, {| lat := 48.2200; lng := 16.3500 |}); (10%Z, {| lat := 48.1667; lng := 16.3667 |});
    (11%Z, {| lat := 48.1667; lng := 16.4333 |}); (12%Z, {| lat := 48.1750; lng := 16.3167 |});
    (13%Z, {| lat := 48.1833; lng := 16.2833 |}); (14%Z, {| lat := 48.2000; lng := 16.2833 |});
    (15%Z, {| lat := 48.1983; lng := 16.3250 |}); (16%Z, {| lat := 48.2167; lng := 16.3167 |});
    (17%Z, {| lat := 48.2333; lng := 16.3167 |}); (18%Z, {| lat := 48.2333; lng := 16.3333 |});
    (19%Z, {| lat := 48.2500; lng := 16.3500 |}); (20%Z, {| lat := 48.2333; lng := 16.3833 |});
    (21%Z, {| lat := 48.2667; lng := 16.4000 |}); (22%Z, {| lat := 48.2167; lng := 16.4667 |});
    (23%Z, {| lat := 48.1333; lng := 16.3000 |})].

(** [getDistrictCoordinates(district)]. *)
Definition getDistrictCoordinates (district : Z) : option Coordinates :=
  if ((1 <=? district) && (district <=? 23))%Z then VIENNA_DISTRICT_COORDINATES !! district
  else None.

(** ** Lemmas *)

Lemma toRad_sub_opp (x y : R) : toRad (x - y) / 2 = - (toRad (y - x) / 2).
Proof. unfold toRad. field. Qed.

Lemma haversine_a_sym (lat1 lng1 lat2 lng2 : R) :
  haversine_a lat1 lng1 lat2 lng2 = haversine_a lat2 lng2 lat1 lng1.
Proof.
  unfold haversine_a. cbv zeta. rewrite (toRad_sub_opp lat2 lat1), (toRad_sub_opp lng2 lng1), !sin_neg.
  ring.
Qed.

Lemma haversine_a_self (la ln : R) : haversine_a la ln la ln = 0.
Proof.
  unfold haversine_a. cbv zeta. replace (toRad (la - la) / 2) with 0 by (unfold toRad; field).
  replace (toRad (ln - ln) / 2) with 0 by (unfold toRad; field).
  rewrite sin_0. ring.
Qed.

(** ** Properties *)

Lemma calculateDistance_sym (lat1 lng1 lat2 lng2 : R) :
  calculateDistance lat1 lng1 lat2 lng2 = calculateDistance lat2 lng2 lat1 lng1.
Proof. unfold calculateDistance. rewrite haversine_a_sym. reflexivity. Qed.

Lemma calculateDistance_self (la ln : R) : calculateDistance la ln la ln = 0.
Proof.
  unfold calculateDistance. cbv zeta. rewrite haversine_a_self, Rminus_0_r, sqrt_0, sqrt_1.
  unfold atan2. destruct (Rlt_dec 0 1); [|lra].
  replace (0 / 1) with 0 by field. rewrite atan_0. ring.
Qed.

(** The Haversine distance is symmetric and is zero from
    a point to itself (section 8, item 4 of the specification). *)
Theorem calculateDistance_sym_self (lat1 lng1 lat2 lng2 : R) :
  calculateDistance lat1 lng1 lat2 lng2 = calculateDistance lat2 lng2 lat1 lng1 /\
  calculateDistance lat1 lng1 lat1 lng1 = 0.
Proof. split; [apply calculateDistance_sym | apply calculateDistance_self]. Qed.

(** Every district number from 1 to 23 has a centre. *)
Lemma district_in_range_defined (district : Z) :
  (1 <= district <= 23)%Z -> exists p, getDistrictCoordinates district = Some p.
Proof.
  intros H. unfold getDistrictCoordinates.
  replace ((1 <=? district) && (district <=? 23))%Z with true
    by (symmetry; apply andb_true_intro; split; apply Z.leb_le; lia).
  assert (district = 1 \/ district = 2 \/ district = 3 \/ district = 4 \/ district = 5 \/
          district = 6 \/ district = 7 \/ district = 8 \/ district = 9 \/ district = 10 \/
          district = 11 \/ district = 12 \/ district = 13 \/ district = 14 \/ district = 15 \/
          district = 16 \/ district = 17 \/ district = 18 \/ district = 19 \/ district = 20 \/
          district = 21 \/ district = 22 \/ district = 23)%Z as Hd by lia.
  repeat (destruct Hd as [->|Hd]; [eexists; reflexivity|]). subst. eexists; reflexivity.
Qed.

(** [getDistrictCoordinates] is defined exactly on the
    districts 1 to 23. *)
Theorem getDistrictCoordinates_defined (district : Z) :
  is_Some (getDistrictCoordinates district) <-> (1 <= district <= 23)%Z.
Proof.
  split.
  - unfold getDistrictCoordinates.
    destruct ((1 <=? district) && (district <=? 23))%Z eqn:E; [|intros [? H]; discriminate].
    bool_to_prop. lia.
  - intros H. destruct (district_in_range_defined district H) as [p Hp]. rewrite Hp. eexists; reflexivity.
Qed.

End Geo.
