(* ===== verification/Geocode.v ===== *)
(** The geocoding collaborator [geocodeAddress] of
    [booking-backend-main/src/utils/geospatial.ts] (lines 85-126): the key
    check, the address completed with [", Vienna, Austria"], the request
    URL with [encodeURIComponent], and the reading of Google's answer.  The
    HTTP call with [response.json()] is a section variable, [fetch_json],
    whose [None] is a network or parse error that the [catch] turns into
    [null].  Strings are byte strings, a UTF-8 text being its bytes: on
    them [encodeURIComponent] escapes every byte but the unreserved ones,
    as JS does on the UTF-8 encoding of the text.  The request is read back
    as the server reads it: the fragment cut at [#], the query split at
    [&] and each parameter at its first [=]. *)

From Stdlib Require Import ZArith List String Ascii Bool Lia Arith Reals.
From S2P Require Import Prelude TimeParse Json Geo.
Import ListNotations.

Module Geocode.
Import TimeParse Geo.
Local Open Scope string_scope.
Local Open Scope nat_scope.

(** ** [encodeURIComponent] and [decodeURIComponent] *)

(** The characters [encodeURIComponent] leaves alone:
    [A-Z a-z 0-9 - _ . ! ~ * ' ( )]. *)
Definition unreserved (c : ascii) : bool :=
  let n := nat_of_ascii c in
  ((48 <=? n) && (n <=? 57)) || ((65 <=? n) && (n <=? 90)) || ((97 <=? n) && (n <=? 122)) ||
  existsb (Nat.eqb n) [45; 95; 46; 33; 126; 42; 39; 40; 41].

(** Every character of a string satisfies [f]. *)
Fixpoint str_forall (f : ascii -> bool) (s : string) : bool :=
  match s with EmptyString => true | String c s' => f c && str_forall f s' end.

(** An upper-case hexadecimal digit. *)
Definition hex_upper (n : nat) : ascii := ascii_of_nat (if n <? 10 then 48 + n else 55 + n).

Fixpoint encodeURIComponent (s : string) : string :=
  match s with
  | EmptyString => EmptyString
  | String c s' =>
      if unreserved c then String c (encodeURIComponent s')
      else let n := nat_of_ascii c in
           String "%" (String (hex_upper (n / 16)) (String (hex_upper (n mod 16)) (encodeURIComponent s')))
  end.

(** [decodeURIComponent]: [None] is the [URIError] of a [%] not followed
    by two hexadecimal digits. *)
Fixpoint decodeURIComponent (s : string) : option string :=
  match s with
  | EmptyString => Some EmptyString
  | String "%" (String a (String b s')) =>
      match Json.hex_value a, Json.hex_value b with
      | Some x, Some y => option_map (String (ascii_of_nat (x * 16 + y))) (decodeURIComponent s')
      | _, _ => None
      end
  | String "%" _ => None
  | String c s' => option_map (String c) (decodeURIComponent s')
  end.

(** ** The request *)

(** Line 97. *)
Definition fullAddress (address : string) : string := address ++ ", Vienna, Austria".

(** Line 99. *)
Definition geocodingUrl (encodedAddress apiKey : string) : string :=
  "https://maps.googleapis.com/maps/api/geocode/json?address=" ++ encodedAddress ++ "&key=" ++ apiKey.

(** The part of [s] before the first [sep] and, if there is one, the
    part after it. *)
Fixpoint split_first (sep : ascii) (s : string) : string * option string :=
  match s with
  | EmptyString => (EmptyString, None)
  | String c s' =>
      if Ascii.eqb c sep then (EmptyString, Some s')
      else let '(a, b) := split_first sep s' in (String c a, b)
  end.

(** The query parameters a server reads from a URL: without the
    fragment, after the first [?], split at [&], each at its first [=]. *)
Definition query_params (url : string) : list (string * option string) :=
  match snd (split_first "?" (fst (split_first "#" url))) with
  | Some q => map (split_first "=") (split "&" q)
  | None => []
  end.

(** ** [geocodeAddress] *)

(** The fields of Google's answer the code reads: [status],
    [results[i].geometry.location] and [error_message]. *)
Record GeoResponse := {
  gr_status : string;
  gr_results : option (list Coordinates);
  gr_error_message : option string
}.

Section Geocoder.
(** [fetch(url)] then [response.json()]. *)
Variable fetch_json : string -> option GeoResponse.

(** [geocodeAddress] with [getEnv().google_maps_api_key]. *)
Definition geocodeAddress (apiKey : option string) (address : string) : option Coordinates :=
  match apiKey with
  | None => None
  | Some k =>
      if String.eqb k "" then None
      else match fetch_json (geocodingUrl (encodeURIComponent (fullAddress address)) k) with
           | Some r =>
               if String.eqb (gr_status r) "OK" then
                 match gr_results r with Some (c :: _) => Some c | _ => None end
               else None
           | None => None
           end
  end.
End Geocoder.

(** ** Lemmas *)

(** One byte escaped and read back: by cases on the 256 bytes. *)
Lemma decode_encode_byte c s :
  decodeURIComponent (encodeURIComponent (String c s)) =
  option_map (String c) (decodeURIComponent (encodeURIComponent s)).
Proof. destruct c as [[] [] [] [] [] [] [] []]; reflexivity. Qed.

(** The reserved characters a URL is parsed at never appear escaped. *)
Lemma encode_reserved_byte d c s :
  In d ["&"; "#"; "="; "?"]%char ->
  has_char d (encodeURIComponent (String c s)) = has_char d (encodeURIComponent s).
Proof.
  intros Hd. destruct Hd as [<- | [<- | [<- | [<- | []]]]];
    destruct c as [[] [] [] [] [] [] [] []]; reflexivity.
Qed.

Lemma encode_reserved d s : In d ["&"; "#"; "="; "?"]%char -> has_char d (encodeURIComponent s) = false.
Proof. intros Hd. induction s as [|c s IH]; [reflexivity|]. rewrite encode_reserved_byte by exact Hd. exact IH. Qed.

Lemma unreserved_no_reserved d s :
  In d ["&"; "#"; "="; "?"]%char -> str_forall unreserved s = true -> has_char d s = false.
Proof.
  intros Hd. induction s as [|c s IH]; intros H; [reflexivity|]. cbn in H |- *.
  apply andb_true_iff in H as [Hc Hs]. rewrite IH by exact Hs. rewrite orb_false_r.
  destruct (Ascii.eqb_spec c d) as [-> |]; [|reflexivity].
  destruct Hd as [<- | [<- | [<- | [<- | []]]]]; discriminate.
Qed.

Lemma split_first_no_sep sep s : has_char sep s = false -> split_first sep s = (s, None).
Proof.
  induction s as [|c s IH]; cbn; [reflexivity|]. intros H. apply orb_false_iff in H as [Hc Hs].
  rewrite Hc, IH by exact Hs. reflexivity.
Qed.

Lemma split_first_app sep a s :
  has_char sep a = false -> split_first sep (a ++ s) = let '(x, y) := split_first sep s in (a ++ x, y).
Proof.
  induction a as [|c a IH]; intros H; [change (EmptyString ++ s) with s; destruct (split_first sep s); reflexivity|]. simpl in H |- *.
  apply orb_false_iff in H as [Hc Ha]. rewrite Hc, IH by exact Ha. destruct (split_first sep s); reflexivity.
Qed.

(** A side condition [has_char d s = false] for a reserved [d] and an [s]
    built from literals, the escaped address and the key. *)
Local Ltac reserved_free He Hkey :=
  repeat progress (rewrite ?has_char_app; cbn); rewrite ?He, ?Hkey by (cbn; tauto); reflexivity.

(** ** Theorems *)

(** [decodeURIComponent] reads back what [encodeURIComponent] wrote, for
    every byte string. *)
Theorem decode_encode s : decodeURIComponent (encodeURIComponent s) = Some s.
Proof. induction s as [|c s IH]; [reflexivity|]. rewrite decode_encode_byte, IH. reflexivity. Qed.

(** Whatever the address, the request [geocodeAddress] sends carries
    exactly two parameters: [address], which decodes to the address
    followed by [", Vienna, Austria"], and [key], for a key of unreserved
    characters (as Google's keys are): an address cannot add, cut or
    override a parameter. *)
Theorem geocode_request_params address key :
  str_forall unreserved key = true ->
  query_params (geocodingUrl (encodeURIComponent (fullAddress address)) key) =
    [("address", Some (encodeURIComponent (fullAddress address))); ("key", Some key)] /\
  decodeURIComponent (encodeURIComponent (fullAddress address)) = Some (fullAddress address).
Proof.
  intros Hk. split; [|apply decode_encode].
  set (enc := encodeURIComponent (fullAddress address)).
  assert (He : forall d, In d ["&"; "#"; "="; "?"]%char -> has_char d enc = false)
    by (intros; apply encode_reserved; assumption).
  assert (Hkey : forall d, In d ["&"; "#"; "="; "?"]%char -> has_char d key = false)
    by (intros; apply unreserved_no_reserved; assumption).
  unfold geocodingUrl.
  change ("https://maps.googleapis.com/maps/api/geocode/json?address=" ++ enc ++ "&key=" ++ key)
    with ("https://maps.googleapis.com/maps/api/geocode/json" ++
          String "?" (("address" ++ String "=" enc) ++ String "&" ("key" ++ String "=" key))).
  unfold query_params.
  rewrite (split_first_no_sep "#") by reserved_free He Hkey.
  cbn [fst]. rewrite (split_first_app "?") by reflexivity. cbn [split_first Ascii.eqb Bool.eqb andb snd].
  rewrite split_app_sep by reserved_free He Hkey.
  rewrite split_no_sep by reserved_free He Hkey.
  cbn [map]. rewrite !split_first_app by reflexivity. cbn. reflexivity.
Qed.

(** ** Concrete runs *)

(** A German address in UTF-8 ([ß] is the two bytes C3 9F); an address
    that tries to smuggle a parameter stays one parameter. *)
Example encode_runs :
  encodeURIComponent "Mariahilfer Straße 1" = "Mariahilfer%20Stra%C3%9Fe%201" /\
  query_params (geocodingUrl (encodeURIComponent (fullAddress "Gasse 1&key=other#x")) "AIzaK3y") =
    [("address", Some "Gasse%201%26key%3Dother%23x%2C%20Vienna%2C%20Austria"); ("key", Some "AIzaK3y")].
Proof. vm_compute. split; reflexivity. Qed.

(** Without a key nothing is fetched; an answer other than [OK], or one
    without results, is [null]; the first result is taken. *)
Example geocode_answers :
  let here := {| lat := 48%R; lng := 16%R |} in
  let answer st res := fun (_ : string) => Some {| gr_status := st; gr_results := res; gr_error_message := None |} in
  geocodeAddress (fun _ => None) None "Gasse 1" = None /\
  geocodeAddress (answer "ZERO_RESULTS" (Some [])) (Some "k") "Gasse 1" = None /\
  geocodeAddress (answer "OK" (Some [])) (Some "k") "Gasse 1" = None /\
  geocodeAddress (answer "OK" (Some [here])) (Some "k") "Gasse 1" = Some here /\
  geocodeAddress (answer "OK" (Some [here])) (Some "") "Gasse 1" = None.
Proof. repeat split. Qed.

End Geocode.
