(* ===== verification/LocationAware.v ===== *)
(** The location-aware query: [LocationAwareService] (LocationAwareService.ts)
    with [resolveCoordinates] (lines 39-60) and
    [getAvailableSlotsWithLocationScore] (lines 69-144).  The geocoding
    collaborator [geocodeAddress] (a Google Maps call, swallowed errors) is a
    section variable: any function from addresses to optional coordinates.
    The query reads the rules through [ScheduleDao] and the calendar's day
    appointments through [AppointmentDao]; it annotates the calendar's rules
    (not generated slots) with one per-day distance and an optimality flag.
    JS truthiness of a coordinate is "defined and non-zero".  [Infinity],
    the initial minimum, is [None] in [minDistance]. *)

From Stdlib Require Import ZArith List String Bool Lia Reals Lra Zfloor.
From S2P Require Import Prelude JsDate Schedule Slots Appointment Availability Geo.
Import ListNotations.

Module LocationAware.
Import JsDate Schedule Slots Appointment Availability Geo.
Local Open Scope R_scope.
Local Open Scope string_scope.
Local Open Scope R_scope.

(** The [LocationAwareSlot]: an [ExtendedSchedule] with the two fields. *)
Record LocationAwareSlot := {
  las_schedule : ExtendedSchedule;
  distanceKm : option R;
  isOptimal : bool
}.

Definition OPTIMAL_DISTANCE_THRESHOLD_KM : R := 5.

Definition Rleb (x y : R) : bool := if Rle_dec x y then true else false.
Definition Reqb (x y : R) : bool := if Req_dec_T x y then true else false.

(** JS truthiness of a number field: defined and not 0. *)
Definition truthy_num (o : option R) : bool :=
  match o with Some x => negb (Reqb x 0) | None => false end.

(** [parseFloat(x.toFixed(2))]: round half up at two decimals, on the
    magnitude for negative numbers. *)
Definition round2 (y : R) : R := IZR (Zfloor (y * 100 + / 2)) / 100.
Definition toFixed2 (x : R) : R := if Rlt_dec x 0 then - round2 (- x) else round2 x.

(** [Math.min(m, d)] with [m] possibly [Infinity] ([None]). *)
Definition js_min (m : option R) (d : R) : R :=
  match m with None => d | Some m => Rmin m d end.

Fixpoint minDistance (cust : Coordinates) (coords : list Coordinates) (acc : option R) : option R :=
  match coords with
  | [] => acc
  | c :: cs => minDistance cust cs
                 (Some (js_min acc (calculateDistance (lat cust) (lng cust) (lat c) (lng c))))
  end.

(** Lines 137-143: from [minDistanceKm] to [distanceKm] and [isOptimal];
    1000 is the "no appointment" sentinel. *)
Definition annotate (m : option R) : option R * bool :=
  match m with
  | Some x => (if Reqb x 1000 then None else Some (toFixed2 x),
               Rleb x OPTIMAL_DISTANCE_THRESHOLD_KM)
  | None => (None, false)
  end.

Section Service.
  Context `{SD : ScheduleDao} `{AD : AppointmentDao}.
  Variable geocodeAddress : string -> option Coordinates.

Definition resolveCoordinates (contact : Contact) : option Coordinates :=
    match (if truthy_num (ct_lat contact) && truthy_num (ct_lng contact) then
             match ct_lat contact, ct_lng contact with
             | Some la, Some ln => Some {| lat := la; lng := ln |}
             | _, _ => None
             end
           else None) with
    | Some p => Some p
    | None =>
        match (match ct_address contact with
               | Some addr => if String.eqb addr EmptyString then None else geocodeAddress addr
               | None => None
               end) with
        | Some g => Some g
        | None =>
            match ct_district contact with
            | Some d => if Z.eqb d 0 then None else getDistrictCoordinates d
            | None => None
            end
        end
    end.

  (** The [for] loop of lines 107-115. *)
Fixpoint existingApptCoords (appts : list Appointment) : list Coordinates :=
    match appts with
    | [] => []
    | a :: rest =>
        match ap_contact a with
        | Some ct => match resolveCoordinates ct with
                     | Some p => p :: existingApptCoords rest
                     | None => existingApptCoords rest
                     end
        | None => existingApptCoords rest
        end
    end.

Definition unscored (s : ExtendedSchedule) : LocationAwareSlot :=
    {| las_schedule := s; distanceKm := None; isOptimal := false |}.

Definition getAvailableSlotsWithLocationScore (offset date : Z) (calendarId : string)
      (customerContact : Contact) : list LocationAwareSlot :=
    let schedules := dao_getScheduleByDate date in
    let calendarSchedules := List.filter (fun s => String.eqb (es_calendar_id s) calendarId) schedules in
    match calendarSchedules with
    | [] => []
    | _ =>
        let existingAppointments :=
          dao_getAppointmentsByDateCalendarIdId calendarId
            (local_start_of_day offset date) (local_end_of_day offset date) in
        match resolveCoordinates customerContact with
        | None => map unscored calendarSchedules
        | Some cust =>
            let coords := existingApptCoords existingAppointments in
            let minDistanceKm := match coords with
                                 | [] => Some 1000
                                 | _ => minDistance cust coords None
                                 end in
            let '(dist, opt) := annotate minDistanceKm in
            map (fun s => {| las_schedule := s; distanceKm := dist; isOptimal := opt |})
                calendarSchedules
        end
    end.
End Service.

(** ** Lemmas on the scoring arithmetic *)

Lemma minDistance_acc (cust : Coordinates) (coords : list Coordinates) (x : R) :
  exists m, minDistance cust coords (Some x) = Some m /\ m <= x.
Proof.
  revert x. induction coords as [|c cs IH]; intros x; simpl; [exists x; split; [reflexivity|lra]|].
  destruct (IH (Rmin x (calculateDistance (lat cust) (lng cust) (lat c) (lng c)))) as [m [Hm Hle]].
  exists m. split; [exact Hm|]. pose proof (Rmin_l x (calculateDistance (lat cust) (lng cust) (lat c) (lng c))). lra.
Qed.

(** The minimum is at most the distance to every point of the list. *)
Lemma minDistance_le (cust c : Coordinates) (coords : list Coordinates) (acc : option R) :
  In c coords ->
  exists m, minDistance cust coords acc = Some m /\
            m <= calculateDistance (lat cust) (lng cust) (lat c) (lng c).
Proof.
  revert acc. induction coords as [|c' cs IH]; intros acc Hin; [contradiction|].
  destruct Hin as [->|Hin]; simpl.
  - set (d := calculateDistance (lat cust) (lng cust) (lat c) (lng c)).
    destruct (minDistance_acc cust cs (js_min acc d)) as [m [Hm Hle]].
    exists m. split; [exact Hm|]. destruct acc as [a|]; simpl in Hle; [|lra].
    pose proof (Rmin_r a d). lra.
  - apply IH, Hin.
Qed.

Lemma round2_le_5 (y : R) : y <= 5 -> round2 y <= 5.
Proof.
  intros Hy. unfold round2.
  assert (Hz : (Zfloor (y * 100 + / 2) <= Zfloor (500 + / 2))%Z) by (apply Zfloor_le; lra).
  rewrite (Zfloor_eq 500 (500 + / 2)) in Hz by lra.
  apply IZR_le in Hz. lra.
Qed.

Lemma round2_nonneg (y : R) : 0 <= y -> 0 <= round2 y.
Proof.
  intros Hy. unfold round2.
  assert (Hz : (Zfloor (0 + / 2) <= Zfloor (y * 100 + / 2))%Z) by (apply Zfloor_le; lra).
  rewrite (Zfloor_eq 0 (0 + / 2)) in Hz by lra.
  apply IZR_le in Hz. lra.
Qed.

(** A flagged distance is shown, and is at most 5 km after rounding. *)
Lemma annotate_optimal (m : option R) :
  snd (annotate m) = true -> exists r, fst (annotate m) = Some r /\ r <= 5.
Proof.
  destruct m as [x|]; simpl; [|discriminate]. unfold Rleb, Reqb, OPTIMAL_DISTANCE_THRESHOLD_KM.
  destruct (Rle_dec x 5) as [Hx|]; [|discriminate]. intros _.
  destruct (Req_dec_T x 1000); [lra|]. eexists. split; [reflexivity|].
  unfold toFixed2. destruct (Rlt_dec x 0).
  - pose proof (round2_nonneg (- x) ltac:(lra)). lra.
  - apply round2_le_5, Hx.
Qed.

Lemma map_las_schedule (f : ExtendedSchedule -> option R) (g : ExtendedSchedule -> bool) l :
  map las_schedule (map (fun s => {| las_schedule := s; distanceKm := f s; isOptimal := g s |}) l) = l.
Proof. rewrite map_map. simpl. apply map_id. Qed.

Section Properties.
  Context `{SD : ScheduleDao} `{AD : AppointmentDao}.
  Variable geocodeAddress : string -> option Coordinates.

  Notation score := (getAvailableSlotsWithLocationScore geocodeAddress).

  (** The location-aware query returns the
      calendar's working-hour rules for the day, each annotated, not
      generated time slots. *)
Theorem score_returns_rules (offset date : Z) (calendarId : string) (customer : Contact) :
    map las_schedule (score offset date calendarId customer) =
    List.filter (fun s => String.eqb (es_calendar_id s) calendarId) (dao_getScheduleByDate date).
  Proof.
    unfold getAvailableSlotsWithLocationScore.
    destruct (List.filter _ _) as [|s0 ss] eqn:Hf; [reflexivity|].
    destruct (resolveCoordinates geocodeAddress customer) as [cust|].
    - destruct (annotate _) as [dist opt]. apply (map_las_schedule (fun _ => dist) (fun _ => opt)).
    - apply (map_las_schedule (fun _ => None) (fun _ => false)).
  Qed.

  (** When the customer's coordinates cannot be resolved,
      every item has no distance and is not optimal (section 8, item 8 of
      the specification). *)
Theorem score_unresolved_customer (offset date : Z) (calendarId : string) (customer : Contact) :
    resolveCoordinates geocodeAddress customer = None ->
    Forall (fun x => distanceKm x = None /\ isOptimal x = false) (score offset date calendarId customer).
  Proof.
    intros Hc. unfold getAvailableSlotsWithLocationScore.
    destruct (List.filter _ _) as [|s0 ss]; [constructor|]. rewrite Hc.
    apply Forall_map, Forall_forall. intros; split; reflexivity.
  Qed.

  (** An item flagged optimal carries a distance, and that
      distance is at most 5 km. *)
Theorem score_optimal_has_distance (offset date : Z) (calendarId : string) (customer : Contact) x :
    In x (score offset date calendarId customer) -> isOptimal x = true ->
    exists r, distanceKm x = Some r /\ r <= 5.
  Proof.
    unfold getAvailableSlotsWithLocationScore.
    destruct (List.filter _ _) as [|s0 ss]; [contradiction|].
    destruct (resolveCoordinates geocodeAddress customer) as [cust|].
    - destruct (annotate _) as [dist opt] eqn:Ha. intros Hin Hopt.
      apply in_map_iff in Hin as [s [<- _]]. simpl in *. subst opt.
      destruct (annotate_optimal _ ltac:(rewrite Ha; reflexivity)) as [r [Hr Hle]].
      rewrite Ha in Hr. simpl in Hr. exists r. auto.
    - intros Hin. apply in_map_iff in Hin as [s [<- _]]. discriminate.
  Qed.

  (** When the customer and one of the calendar's day
      appointments resolve to the same point, every item is optimal. *)
Theorem score_same_point_optimal (offset date : Z) (calendarId : string) (customer : Contact)
      (p : Coordinates) (a : Appointment) (ct : Contact) :
    resolveCoordinates geocodeAddress customer = Some p ->
    In a (dao_getAppointmentsByDateCalendarIdId calendarId (local_start_of_day offset date)
            (local_end_of_day offset date)) ->
    ap_contact a = Some ct -> resolveCoordinates geocodeAddress ct = Some p ->
    Forall (fun x => isOptimal x = true) (score offset date calendarId customer).
  Proof.
    intros Hc Ha Hct Hp. unfold getAvailableSlotsWithLocationScore.
    destruct (List.filter _ _) as [|s0 ss]; [constructor|]. rewrite Hc.
    assert (Hin : In p (existingApptCoords geocodeAddress
                          (dao_getAppointmentsByDateCalendarIdId calendarId
                             (local_start_of_day offset date) (local_end_of_day offset date)))).
    { revert Ha. generalize (dao_getAppointmentsByDateCalendarIdId calendarId
                               (local_start_of_day offset date) (local_end_of_day offset date)).
      intros l. induction l as [|a' l IH]; simpl; [contradiction|]. intros [->|Hl].
      - rewrite Hct, Hp. left; reflexivity.
      - destruct (ap_contact a'); [destruct (resolveCoordinates geocodeAddress c)|]; simpl; auto. }
    destruct (minDistance_le p p _ None Hin) as [m [Hm Hle]].
    rewrite calculateDistance_self in Hle.
    destruct (existingApptCoords _ _) as [|c cs]; [contradiction|]. rewrite Hm. cbn -[map].
    apply Forall_map, Forall_forall. intros s _. simpl.
    unfold Rleb, OPTIMAL_DISTANCE_THRESHOLD_KM. destruct (Rle_dec m 5); [reflexivity | lra].
  Qed.
End Properties.

(** ** Findings *)

(** [isOptimal] is computed on the unrounded
    minimum and [distanceKm] on the rounded one: a nearest appointment at
    5.004 km shows [distanceKm = 5] yet [isOptimal = false], against the
    specification's "optimal iff the distance is defined and at most 5". *)
Theorem annotate_rounding_divergence : annotate (Some 5.004) = (Some 5, false).
Proof.
  unfold annotate, Reqb, Rleb, OPTIMAL_DISTANCE_THRESHOLD_KM, toFixed2, round2.
  destruct (Req_dec_T 5.004 1000); [lra|]. destruct (Rlt_dec 5.004 0); [lra|].
  destruct (Rle_dec 5.004 5); [lra|].
  rewrite (Zfloor_eq 500) by lra. f_equal. f_equal. lra.
Qed.

(** Without a geocoder, no contact the appointment DAO returns resolves:
    the DAO's contact objects have no coordinates and no district. *)
Lemma existingApptCoords_nil (g : string -> option Coordinates) (l : list Appointment) :
  (forall a ct, In a l -> ap_contact a = Some ct -> resolveCoordinates g ct = None) ->
  existingApptCoords g l = [].
Proof.
  induction l as [|a l IH]; simpl; intros H; [reflexivity|].
  destruct (ap_contact a) as [ct|] eqn:E; [rewrite (H a ct (or_introl eq_refl) E)|];
    apply IH; intros; eapply H; eauto.
Qed.

Lemma existingApptCoords_mysql_no_geocoder as_ cs cid start end_ :
  existingApptCoords (fun _ => None) (getAppointmentsByDateCalendarIdId as_ cs cid start end_) = [].
Proof.
  apply existingApptCoords_nil. intros x ct Hx Hct.
  unfold getAppointmentsByDateCalendarIdId in Hx.
  apply In_select_appointments in Hx as (a & c & _ & _ & _ & _ & ->).
  injection Hct as <-. unfold resolveCoordinates; simpl.
  destruct (cr_address c) as [addr|]; [destruct (String.eqb addr EmptyString)|]; reflexivity.
Qed.

(** C8 (functional, finding): with the MySQL appointment DAO and no
    geocoding key, the location-aware query never marks anything optimal
    and never shows a distance, whatever the customer: the appointments'
    contacts carry no [lat], [lng] or [district], so no baseline exists
    (the specification's example 9, two contacts in district 1, cannot
    happen). *)
Theorem mysql_no_geocoder_never_optimal ss cs as_ contacts (offset0 offset date : Z)
    (calendarId : string) (customer : Contact) :
  Forall (fun x => distanceKm x = None /\ isOptimal x = false)
    (@getAvailableSlotsWithLocationScore (ScheduleDaoMySql ss cs offset0)
       (AppointmentDaoMySql as_ contacts) (fun _ => None) offset date calendarId customer).
Proof.
  unfold getAvailableSlotsWithLocationScore.
  destruct (List.filter _ _) as [|s0 ss']; [constructor|].
  destruct (resolveCoordinates _ customer) as [cust|].
  - simpl dao_getAppointmentsByDateCalendarIdId. rewrite existingApptCoords_mysql_no_geocoder.
    unfold annotate, Reqb, Rleb, OPTIMAL_DISTANCE_THRESHOLD_KM.
    destruct (Req_dec_T 1000 1000); [|congruence]. destruct (Rle_dec 1000 5); [lra|].
    apply Forall_map, Forall_forall. intros; split; reflexivity.
  - apply Forall_map, Forall_forall. intros; split; reflexivity.
Qed.

(** A stored latitude of exactly 0 is falsy in
    JS, so stored coordinates with [lat = 0] are ignored and the resolver
    falls back to geocoding and the district. *)
Theorem resolve_zero_latitude_ignored (geocode : string -> option Coordinates) (c : Contact) :
  ct_lat c = Some 0 ->
  resolveCoordinates geocode c =
  resolveCoordinates geocode
    {| ct_id := ct_id c; ct_salutation := ct_salutation c; ct_first_name := ct_first_name c;
       ct_last_name := ct_last_name c; ct_address := ct_address c; ct_zip_code := ct_zip_code c;
       ct_location := ct_location c; ct_telephone := ct_telephone c;
       ct_phone_numbber_2 := ct_phone_numbber_2 c; ct_phone_numbber_3 := ct_phone_numbber_3 c;
       ct_email := ct_email c; ct_password := ct_password c; ct_archived := ct_archived c;
       ct_note_on_address := ct_note_on_address c;
       ct_district := ct_district c; ct_lat := None; ct_lng := ct_lng c |}.
Proof.
  intros H. unfold resolveCoordinates. simpl. rewrite H. unfold truthy_num, Reqb.
  destruct (Req_dec_T 0 0); [reflexivity|congruence].
Qed.

(** ** Concrete data *)

Definition district1 : Coordinates := {| lat := 48.2085; lng := 16.3731 |}.

(** A contact object with only an id, an address, a district and
    coordinates. *)
Definition bare_contact (id : string) (address : option string) (district : option Z)
    (la ln : option R) : Contact :=
  {| ct_id := id; ct_salutation := None; ct_first_name := None; ct_last_name := None;
     ct_address := address; ct_zip_code := None; ct_location := None; ct_telephone := None; ct_phone_numbber_2 := None; ct_phone_numbber_3 := None;
     ct_email := None; ct_password := None; ct_archived := false; ct_note_on_address := None;
     ct_district := district; ct_lat := la; ct_lng := ln |}.

Definition customer_in (d : Z) : Contact := bare_contact "new" None (Some d) None None.

Definition address_contacts : list ContactRow :=
  [contact_row 1 (Some "Stephansplatz 1") (Some 1)]%Z.

Definition monday_booking : list AppointmentRow :=
  [appt_row 1 (monday_2024_05_13 + 10 * hour) (monday_2024_05_13 + 11 * hour) "Confirmed"]%Z.

(** The location-aware query on the demo tables, with a geocoder that puts
    every address at the centre of district 1. *)
Definition demo_score (customer : Contact) : list LocationAwareSlot :=
  @getAvailableSlotsWithLocationScore
    (ScheduleDaoMySql [weekly_row 1%Z "Monday" "08:00" "17:00"] demo_calendars 0%Z)
    (AppointmentDaoMySql monday_booking address_contacts)
    (fun _ => Some district1) 0%Z monday_2024_05_13 "1" customer.

Lemma score_unresolved_customer_witness :
  Forall (fun x => distanceKm x = None /\ isOptimal x = false)
    (@getAvailableSlotsWithLocationScore
       (ScheduleDaoMySql [weekly_row 1%Z "Monday" "08:00" "17:00"] demo_calendars 0%Z)
       (AppointmentDaoMySql monday_booking address_contacts)
       (fun _ => Some district1) 0%Z monday_2024_05_13 "1" (customer_in 0%Z)).
Proof. apply score_unresolved_customer. reflexivity. Defined.

Lemma score_same_point_optimal_witness :
  Forall (fun x => isOptimal x = true) (demo_score (customer_in 1%Z)).
Proof.
  unfold demo_score.
  apply (score_same_point_optimal _ 0%Z monday_2024_05_13 "1" (customer_in 1%Z) district1
           (mapAppointmentWithContact (hd (appt_row 0 0 0 "")%Z monday_booking)
              (hd (contact_row 0 None None)%Z address_contacts))
           (bare_contact "1" (Some "Stephansplatz 1") None None None));
    [reflexivity | simpl; left; reflexivity | reflexivity | reflexivity].
Defined.

Definition demo_rule : ExtendedSchedule :=
  mapExtendedScheduleRow (weekly_row 1%Z "Monday" "08:00" "17:00")
    (calendar_row 1%Z "Tech" None).

Lemma demo_score_district1 :
  demo_score (customer_in 1%Z) =
  [{| las_schedule := demo_rule;
      distanceKm := fst (annotate (minDistance district1 [district1] None));
      isOptimal := snd (annotate (minDistance district1 [district1] None)) |}].
Proof. exact eq_refl. Qed.

Lemma score_optimal_has_distance_witness :
  exists x, In x (demo_score (customer_in 1%Z)) /\ isOptimal x = true /\
    exists r, distanceKm x = Some r /\ r <= 5.
Proof.
  assert (Hopt : snd (annotate (minDistance district1 [district1] None)) = true).
  { cbn [minDistance js_min annotate snd]. rewrite calculateDistance_self.
    unfold Rleb, OPTIMAL_DISTANCE_THRESHOLD_KM. destruct (Rle_dec 0 5); [reflexivity | lra]. }
  rewrite demo_score_district1. eexists. split; [left; reflexivity|]. split; [exact Hopt|].
  pose proof demo_score_district1 as E. unfold demo_score in E.
  apply (@score_optimal_has_distance
           (ScheduleDaoMySql [weekly_row 1%Z "Monday" "08:00" "17:00"] demo_calendars 0%Z)
           (AppointmentDaoMySql monday_booking address_contacts)
           (fun _ => Some district1) 0%Z monday_2024_05_13 "1" (customer_in 1%Z));
    [rewrite E; left; reflexivity | exact Hopt].
Defined.

Lemma resolve_zero_latitude_ignored_witness :
  resolveCoordinates (fun _ => None)
    (bare_contact "1" None (Some 1%Z) (Some 0) (Some 16.3731))
  = Some district1.
Proof.
  rewrite (resolve_zero_latitude_ignored (fun _ => None)
    (bare_contact "1" None (Some 1%Z) (Some 0) (Some 16.3731))
    eq_refl).
  reflexivity.
Defined.

End LocationAware.
