(* ===== verification/Controller.v ===== *)
(** The HTTP handler of the location-aware endpoint:
    [LocationAwareController.getSuggestedLocationTimeSlots]
    (LocationAwareController.ts, lines 25-63).  It checks that the query
    parameters [date], [calendarId] and [customerDistrict] are present,
    reads the district with [parseInt(_, 10)], rejects a district that is
    [NaN] or outside 1..23 with status 400, and otherwise answers 200 with
    the scored rules for a contact that has only that district.  The date
    string is turned into an instant by [new Date], a section variable
    here.  The service is pure in the model, so the 500 branch (an
    exception) does not arise. *)

From Stdlib Require Import ZArith List String Ascii Bool Lia Reals.
From S2P Require Import Prelude JsDate TimeParse Schedule Appointment Geo LocationAware.
Import ListNotations.
Open Scope Z_scope.
Open Scope string_scope.

Module Controller.
Import TimeParse Schedule Appointment Geo LocationAware.

(** The responses the handler sends. *)
Inductive Response :=
  | Status400 (message : string)
  | Status200 (body : list LocationAwareSlot).

(** ** The handler *)

Definition truthy (o : option string) : bool :=
  match o with Some s => negb (String.eqb s EmptyString) | None => false end.

(** [{ district: parsedDistrict } as any]: a contact object with only a
    district. *)
Definition customerContact (n : Z) : Contact :=
  {| ct_id := EmptyString; ct_salutation := None; ct_first_name := None; ct_last_name := None;
     ct_address := None; ct_zip_code := None; ct_location := None; ct_telephone := None; ct_phone_numbber_2 := None; ct_phone_numbber_3 := None;
     ct_email := None; ct_password := None; ct_archived := false; ct_note_on_address := None;
     ct_district := Some n; ct_lat := None; ct_lng := None |}.

Section Handler.
  Context `{SD : ScheduleDao} `{AD : AppointmentDao}.
  Variable geocodeAddress : string -> option Coordinates.
  Variable newDate : string -> Z.
  Variable offset : Z.

Definition getSuggestedLocationTimeSlots
      (date calendarId customerDistrict : option string) : Response :=
    match date, calendarId, customerDistrict with
    | Some d, Some cal, Some cd =>
        if truthy date && truthy calendarId && truthy customerDistrict then
          match parseInt10 cd with
          | Some n =>
              if (Z.ltb n 1) || (Z.ltb 23 n) then
                Status400 "Invalid customerDistrict. Must be a number between 1 and 23."
              else
                Status200 (getAvailableSlotsWithLocationScore geocodeAddress offset (newDate d) cal
                             (customerContact n))
          | None => Status400 "Invalid customerDistrict. Must be a number between 1 and 23."
          end
        else Status400 "Missing required query parameters: date, calendarId, customerDistrict"
    | _, _, _ => Status400 "Missing required query parameters: date, calendarId, customerDistrict"
    end.

  (** A 200 answer comes only with all three parameters
      present and non-empty and a district that [parseInt] reads as a
      number in 1..23; the body is the scored rules of that calendar for a
      customer who has only that district, whose coordinates always
      resolve (to the district centre). *)
Theorem handler_ok_inputs (date calendarId customerDistrict : option string) body :
    getSuggestedLocationTimeSlots date calendarId customerDistrict = Status200 body ->
    exists d cal cd n,
      date = Some d /\ calendarId = Some cal /\ customerDistrict = Some cd /\
      d <> EmptyString /\ cal <> EmptyString /\ cd <> EmptyString /\
      parseInt10 cd = Some n /\ (1 <= n <= 23)%Z /\
      (exists p, resolveCoordinates geocodeAddress
                   (customerContact n) = Some p) /\
      body = getAvailableSlotsWithLocationScore geocodeAddress offset (newDate d) cal
               (customerContact n).
  Proof.
    unfold getSuggestedLocationTimeSlots.
    destruct date as [d|], calendarId as [cal|], customerDistrict as [cd|];
      try discriminate.
    unfold truthy. destruct (String.eqb d "") eqn:Ed, (String.eqb cal "") eqn:Ec,
      (String.eqb cd "") eqn:Ecd; simpl; try discriminate.
    destruct (parseInt10 cd) as [n|] eqn:Hn; [|discriminate].
    destruct ((Z.ltb n 1) || (Z.ltb 23 n))%bool eqn:Hr; [discriminate|].
    intros H. injection H as <-. bool_to_prop.
    apply String.eqb_neq in Ed, Ec, Ecd.
    exists d, cal, cd, n. repeat split; auto; try lia.
    unfold resolveCoordinates. simpl. replace (Z.eqb n 0) with false by (symmetry; apply Z.eqb_neq; lia).
    apply district_in_range_defined. lia.
  Qed.
End Handler.

Lemma handler_ok_inputs_witness :
  exists d cal cd n,
    Some "2024-05-13" = Some d /\ Some "1" = Some cal /\ Some "1" = Some cd /\
    d <> EmptyString /\ cal <> EmptyString /\ cd <> EmptyString /\
    parseInt10 cd = Some n /\ (1 <= n <= 23)%Z /\
    (exists p, resolveCoordinates (fun _ => None)
                 (customerContact n) = Some p) /\
    getAvailableSlotsWithLocationScore (SD := ScheduleDaoMySql [] [] 0) (AD := AppointmentDaoMySql [] [])
      (fun _ => None) 0 (0 * Z.of_nat (String.length d)) cal
      (customerContact n) = [].
Proof.
  exact (handler_ok_inputs (SD := ScheduleDaoMySql [] []  0) (AD := AppointmentDaoMySql [] [])
           (fun _ => None) (fun s => 0 * Z.of_nat (String.length s)) 0
           (Some "2024-05-13") (Some "1") (Some "1") [] eq_refl).
Defined.

(** [parseInt] stops at the first non-digit: ["7abc"] and [" 7.9"] read as
    district 7. *)
Example parseInt_prefix : parseInt10 "7abc" = Some 7 /\ parseInt10 " 7.9" = Some 7 /\
                          parseInt10 "abc" = None /\ parseInt10 "-3" = Some (-3).
Proof. repeat split; reflexivity. Qed.

End Controller.
