(* ===== verification/Server.v ===== *)
(** The HTTP server around the handlers: the middleware chain and routes
    of [server/app/app.ts] (lines 38-105) in Express's dispatch order,
    the route of [schedule/locationAwareResource.ts], the container
    choice of [middlewares/serviceMiddleware.ts], [getService] /
    [getServiceKalender] of [clients/index.ts] with [getMySQL] of
    [clients/mysql/mysql.ts], the port and the lifecycle of
    [server/index.ts], and the optional Firebase initialization (lines
    29-33, 60-73) choosing Firebase or local file storage.  The third-party middlewares are modelled by what
    they do to a request with the options [app.ts] gives them: helmet's
    frameguard header, cors reflecting the origin and answering
    preflights, the body parsers passing a parse error on.  The rate
    limiter ([middlewares/rateLimiter]), the error handler and the other
    resources' route files are not in the repository: they are section
    variables. *)

From Stdlib Require Import ZArith List String Bool Lia.
From S2P Require Import Prelude TimeParse MySQLPool.
Import ListNotations.
Open Scope Z_scope.

Module Server.
Import TimeParse MySQLPool.
Local Open Scope string_scope.

(** ** Requests and responses *)

(** A request as Express sees it after the query string is cut off. *)
Record Request := { method : string; path : string; req_headers : list (string * string) }.

(** [req.header(name)]: header names compare without case. *)
Definition header (name : string) (r : Request) : option string :=
  option_map snd (find (fun kv => String.eqb (toLowerCase (fst kv)) (toLowerCase name)) (req_headers r)).

(** What answered the request. *)
Inductive Body :=
| StatusUp                       (** [res.json({ status: `up` })] *)
| Docs                           (** the swagger UI *)
| Routed (handler : string)      (** a handler of the [/api] router *)
| Preflight                      (** cors's answer to [OPTIONS] *)
| TooManyRequests                (** the rate limiter's refusal *)
| ErrorBody                      (** the error handler's answer *)
| CannotGet (method path : string). (** Express's final 404 *)

Record Response := { status : Z; res_headers : list (string * string); body : Body }.

(** ** The [/api] router *)

(** A route of [router.get(path, handler)] and its kin. *)
Record Route := { rt_method : string; rt_path : string; rt_handler : string }.

(** Lines 11-16 of [locationAwareResource.ts]. *)
Definition locationAwareApi : list Route :=
  [{| rt_method := "GET"; rt_path := "/appointments/suggest_location_timeslots";
      rt_handler := "getSuggestedLocationTimeSlots" |}].

(** Express matches paths without case and with an optional trailing
    slash. *)
Definition strip_slash (p : string) : string :=
  let n := String.length p in
  if (1 <? n)%nat && String.eqb (substring (n - 1) 1 p) "/" then substring 0 (n - 1) p else p.

Definition path_is (route p : string) : bool :=
  String.eqb (toLowerCase (strip_slash p)) (toLowerCase route).

(** [app.use(prefix, ...)]: the path is the prefix or lies below it. *)
Definition under (prefix p : string) : bool :=
  path_is prefix p || String.prefix (toLowerCase (prefix ++ "/")) (toLowerCase p).

(** The path a router mounted at [prefix] sees. *)
Definition mount_path (prefix p : string) : string :=
  let q := substring (String.length prefix) (String.length p - String.length prefix) p in
  if String.eqb q "" then "/" else q.

(** A [GET] route also answers [HEAD]. *)
Definition method_matches (route m : string) : bool :=
  String.eqb route m || (String.eqb route "GET" && String.eqb m "HEAD").

Definition route_matches (r : Request) (p : string) (rt : Route) : bool :=
  method_matches (rt_method rt) (method r) && path_is (rt_path rt) p.

(** ** The application *)

(** The layers of [app.ts], in the order of its [app.use] and [app.get]
    calls; Express's own [expressInit] comes first. *)
Inductive Layer :=
| ExpressInit | Helmet | Cors | CookieParser | FileUpload | JsonParser | Urlencoded | RateLimiter
| SwaggerDocs (prefix : string) | GetRoot | ApiRouter (prefix : string) | ErrorHandler.

(** [getEnv().env] and [process.env.PORT]. *)
Record AppEnv := { env_name : string; env_port : option string }.

(** Lines 43-105: [x-powered-by] is disabled (line 51), the docs are
    mounted in development only (lines 83-85). *)
Definition app_layers (e : AppEnv) : list Layer :=
  ([ExpressInit; Helmet; Cors; CookieParser; FileUpload; JsonParser; Urlencoded; RateLimiter] ++
  (if String.eqb (env_name e) "development" then [SwaggerDocs "/app/docs-yuop!"] else []) ++
  [GetRoot; ApiRouter "/api"; ErrorHandler])%list.

Definition x_powered_by : bool := false.

(** Line 78: [process.env.PORT || 11700]. *)
Definition port (e : AppEnv) : string :=
  match env_port e with
  | Some p => if String.eqb p "" then "11700" else p
  | None => "11700"
  end.

(** [serviceAccount] (lines 29-33): the Firebase credentials of the
    environment, [None] when unset. *)
Record ServiceAccount := {
  projectId : option string;
  clientEmail : option string;
  privateKey : option string
}.

Inductive FileStorage := FirebaseStorage | LocalStorage.

(** A credential in the [if] of line 60: set and not empty. *)
Definition credential_set (o : option string) : bool :=
  match o with Some v => negb (String.eqb v "") | None => false end.

(** Lines 60-73: Firebase is initialised when the three credentials are
    set and [admin.initializeApp] does not throw ([init_ok]); otherwise
    files go to the local disk.  The string is the line logged. *)
Definition initFirebase (sa : ServiceAccount) (init_ok : bool) : FileStorage * string :=
  if credential_set (projectId sa) && credential_set (clientEmail sa) && credential_set (privateKey sa) then
    if init_ok then (FirebaseStorage, "Firebase initialized successfully")
    else (LocalStorage, "Firebase initialization failed, will use local storage:")
  else (LocalStorage, "Firebase credentials not provided, using local file storage").

(** A layer's answer: the request goes on with the headers set so far
    and the error passed to [next], if any, or is answered. *)
Inductive Outcome :=
| Next (hs : list (string * string)) (err : option Z)
| Respond (r : Response).

Section App.
(** The routes the resources not in the repository register on the
    router, before and after [locationAwareApi] (lines 92-100). *)
Variable routes_before routes_after : list Route.
(** The rate limiter's verdict. *)
Variable rate_ok : Request -> bool.
(** Whether a body parser reads the request's body; [fileUpload] is
    configured without [abortOnLimit] and never fails. *)
Variable json_ok urlencoded_ok : Request -> bool.
(** The status the error handler answers an error with. *)
Variable error_status : Z -> Z.

Definition appScoped : list Route := (routes_before ++ locationAwareApi ++ routes_after)%list.

Definition layer (l : Layer) (r : Request) (hs : list (string * string)) (err : option Z) : Outcome :=
  match err, l with
  | Some e, ErrorHandler => Respond {| status := error_status e; res_headers := hs; body := ErrorBody |}
  | Some e, _ => Next hs err
  | None, ExpressInit => Next (if x_powered_by then app hs [("X-Powered-By", "Express")] else hs) None
  | None, Helmet => Next (app hs [("X-Frame-Options", "DENY")]) None
  | None, Cors =>
      let hs' := match header "origin" r with
                 | Some o => app hs [("Access-Control-Allow-Origin", o); ("Vary", "Origin")]
                 | None => hs
                 end in
      if String.eqb (method r) "OPTIONS" then Respond {| status := 204; res_headers := hs'; body := Preflight |}
      else Next hs' None
  | None, CookieParser | None, FileUpload => Next hs None
  | None, JsonParser => if json_ok r then Next hs None else Next hs (Some 400)
  | None, Urlencoded => if urlencoded_ok r then Next hs None else Next hs (Some 400)
  | None, RateLimiter =>
      if rate_ok r then Next hs None
      else Respond {| status := 429; res_headers := hs; body := TooManyRequests |}
  | None, SwaggerDocs prefix =>
      if under prefix (path r) then Respond {| status := 200; res_headers := hs; body := Docs |} else Next hs None
  | None, GetRoot =>
      if method_matches "GET" (method r) && path_is "/" (path r)
      then Respond {| status := 200; res_headers := hs; body := StatusUp |} else Next hs None
  | None, ApiRouter prefix =>
      if under prefix (path r) then
        match find (route_matches r (mount_path prefix (path r))) appScoped with
        | Some rt => Respond {| status := 200; res_headers := hs; body := Routed (rt_handler rt) |}
        | None => Next hs None
        end
      else Next hs None
  | None, ErrorHandler => Next hs None
  end.

(** Express's dispatch: each layer in turn, then the final handler. *)
Fixpoint dispatch (ls : list Layer) (r : Request) (hs : list (string * string)) (err : option Z) : Response :=
  match ls with
  | [] => match err with
          | Some e => {| status := e; res_headers := hs; body := ErrorBody |}
          | None => {| status := 404; res_headers := hs; body := CannotGet (method r) (path r) |}
          end
  | l :: ls' => match layer l r hs err with
                | Next hs' err' => dispatch ls' r hs' err'
                | Respond resp => resp
                end
  end.

Definition handle (e : AppEnv) (r : Request) : Response := dispatch (app_layers e) r [] None.

End App.

(** ** The service containers *)

Inductive Container := Service | ServiceKalender.

(** [injectService] (lines 4-20 of [serviceMiddleware.ts]). *)
Definition injectService (r : Request) : Container :=
  match header "x-user-role" r with
  | Some role => if String.eqb role "user" then ServiceKalender else Service
  | None => Service
  end.

(** [getMySQL] of [clients/mysql/mysql.ts]: [getMySQLPool]. *)
Definition getMySQL (env : option EnvJson) (pe : ProcessEnv) (s : PoolState) : nat * PoolState :=
  getMySQLPool env pe s.

(** [getService] and [getServiceKalender] (lines 103-109 of
    [clients/index.ts]) on the pools the two containers hold. *)
Definition container_pool (pools : nat * nat) (c : Container) : nat :=
  match c with Service => fst pools | ServiceKalender => snd pools end.

(** ** The process *)

(** [startServer] (lines 8-40 of [server/index.ts]): the listener, then
    the process's exit code. *)
Inductive Phase := Listening | Closing | Exited (code : Z).

Inductive ServerEvent :=
| ListenError (code : string)      (** the listener's [error] event *)
| Signal (name : string)           (** a signal sent to the process *)
| ListenerClosed.                  (** the callback of [listener.close] *)

(** The [error] handler exits with 1 on [EADDRINUSE] and on any other
    error; [SIGTERM] and [SIGINT] close the listener, whose callback exits
    with 0; other signals are not handled by the program. *)
Definition server_step (e : ServerEvent) (p : Phase) : option Phase :=
  match p, e with
  | Exited _, _ => None
  | _, ListenError code => if String.eqb code "EADDRINUSE" then Some (Exited 1) else Some (Exited 1)
  | Listening, Signal n | Closing, Signal n =>
      if String.eqb n "SIGTERM" || String.eqb n "SIGINT" then Some Closing else None
  | Closing, ListenerClosed => Some (Exited 0)
  | Listening, ListenerClosed => None
  end.

Fixpoint server_run (es : list ServerEvent) (p : Phase) : option Phase :=
  match es with
  | [] => Some p
  | e :: es' => match server_step e p with Some p' => server_run es' p' | None => None end
  end.

(** ** Lemmas *)

Lemma find_app {A} (f : A -> bool) l1 l2 :
  find f (l1 ++ l2)%list = match find f l1 with Some x => Some x | None => find f l2 end.
Proof. induction l1 as [|x l1 IH]; cbn; [reflexivity|]. destruct (f x); [reflexivity | exact IH]. Qed.

(** [createContainers] from a module without an initialized pool: two
    fresh pools, the module keeping the second. *)
Lemma createContainers_uninit env pe s :
  poolInitialized s = false ->
  createContainers env pe s =
    ((next_pool s, S (next_pool s)),
     snd (createPool (getMySQLConfig env pe) (snd (createPool (getMySQLConfig env pe) s)))).
Proof.
  intros H. unfold createContainers. rewrite getMySQLPool_uninit by exact H.
  cbn [createPool fst snd]. rewrite getMySQLPool_uninit by exact H. reflexivity.
Qed.

(** The headers every response carries: helmet's frame guard, and no
    [X-Powered-By]. *)
Definition safe_headers (hs : list (string * string)) : Prop :=
  In ("X-Frame-Options", "DENY") hs /\ forall v, ~ In ("X-Powered-By", v) hs.

Lemma safe_headers_app hs extra :
  safe_headers hs -> (forall v, ~ In ("X-Powered-By", v) extra) -> safe_headers (app hs extra).
Proof.
  intros [Hx Hp] He. split; [apply in_or_app; left; exact Hx|].
  intros v Hin. apply in_app_or in Hin as [H | H]; [exact (Hp v H) | exact (He v H)].
Qed.

Section Headers.
Variable routes_before routes_after : list Route.
Variable rate_ok json_ok urlencoded_ok : Request -> bool.
Variable error_status : Z -> Z.

Lemma layer_safe l r hs err :
  safe_headers hs ->
  match layer routes_before routes_after rate_ok json_ok urlencoded_ok error_status l r hs err with
  | Next hs' _ => safe_headers hs'
  | Respond resp => safe_headers (res_headers resp)
  end.
Proof.
  intros H. destruct err as [e|], l; cbn; try exact H;
    repeat match goal with
    | |- context [if ?b then _ else _] => destruct b
    | |- context [match ?o with Some _ => _ | None => _ end] => destruct o
    end; cbn; try exact H;
    apply safe_headers_app; try exact H; cbn; intros v Hin; intuition discriminate.
Qed.

Lemma dispatch_safe ls r hs err :
  safe_headers hs ->
  safe_headers (res_headers (dispatch routes_before routes_after rate_ok json_ok urlencoded_ok error_status ls r hs err)).
Proof.
  revert hs err. induction ls as [|l ls IH]; intros hs err H; cbn.
  - destruct err; exact H.
  - pose proof (layer_safe l r hs err H) as Hl.
    destruct (layer _ _ _ _ _ _ l r hs err); [apply IH|]; exact Hl.
Qed.

Lemma dispatch_next l ls r hs err hs' err' :
  layer routes_before routes_after rate_ok json_ok urlencoded_ok error_status l r hs err = Next hs' err' ->
  dispatch routes_before routes_after rate_ok json_ok urlencoded_ok error_status (l :: ls) r hs err =
  dispatch routes_before routes_after rate_ok json_ok urlencoded_ok error_status ls r hs' err'.
Proof. intros H. cbn. rewrite H. reflexivity. Qed.

(** The layers up to the rate limiter let a request that is not a
    preflight and whose body parses through with the frame guard and the
    origin headers. *)
Lemma pipeline_head r :
  method r <> "OPTIONS" -> json_ok r = true -> urlencoded_ok r = true -> rate_ok r = true ->
  forall ls, dispatch routes_before routes_after rate_ok json_ok urlencoded_ok error_status
    ([ExpressInit; Helmet; Cors; CookieParser; FileUpload; JsonParser; Urlencoded; RateLimiter] ++ ls)%list r [] None =
  dispatch routes_before routes_after rate_ok json_ok urlencoded_ok error_status ls r
    (app [("X-Frame-Options", "DENY")]
       match header "origin" r with Some o => [("Access-Control-Allow-Origin", o); ("Vary", "Origin")] | None => [] end)
    None.
Proof.
  intros Hm Hj Hu Hr ls. apply String.eqb_neq in Hm.
  cbn -[header]. rewrite Hm. cbn -[header]. rewrite Hj. cbn -[header]. rewrite Hu. cbn -[header]. rewrite Hr.
  destruct (header "origin" r); reflexivity.
Qed.

End Headers.

(** From any phase, a run ending in exit code 0 passes through [Closing]
    and then the close callback. *)
Lemma server_run_exit0 es p :
  server_run es p = Some (Exited 0) ->
  p = Exited 0 \/ (In ListenerClosed es /\
                   (p = Closing \/ exists n, In (Signal n) es /\ (n = "SIGTERM" \/ n = "SIGINT"))).
Proof.
  revert p. induction es as [|ev es IH]; intros p H; cbn in H; [injection H as ->; left; reflexivity|].
  destruct (server_step ev p) as [p'|] eqn:Es; [|discriminate]. right.
  destruct (IH p' H) as [-> | [Hc Hs]].
  - destruct p, ev; cbn in Es; try discriminate;
      repeat match type of Es with context [if ?b then _ else _] => destruct b end;
      try discriminate; split; cbn; auto.
  - split; [right; exact Hc|]. destruct Hs as [-> | (n & Hn & Hnn)]; [|right; exists n; split; [right|]; assumption].
    destruct p, ev; cbn in Es; try discriminate;
      try (destruct (String.eqb code "EADDRINUSE"); discriminate); [| left; reflexivity].
    right. exists name. split; [left; reflexivity|].
    destruct (String.eqb_spec name "SIGTERM"); [left; assumption|].
    destruct (String.eqb_spec name "SIGINT"); [right; assumption | discriminate].
Qed.

(** ** Theorems *)

(** Every response of the application, whatever the request, the
    environment, the other resources' routes, the rate limiter, the body
    parsers and the error handler, carries helmet's
    [X-Frame-Options: DENY] and no [X-Powered-By] header. *)
Theorem app_responses_safe rb ra rate json url errs e r :
  safe_headers (res_headers (handle rb ra rate json url errs e r)).
Proof.
  unfold handle, app_layers. cbn [List.app].
  rewrite (dispatch_next rb ra rate json url errs ExpressInit _ r [] None [] None) by reflexivity.
  rewrite (dispatch_next rb ra rate json url errs Helmet _ r [] None [("X-Frame-Options", "DENY")] None) by reflexivity.
  apply dispatch_safe. split; [left; reflexivity | intros v [E | []]; discriminate].
Qed.

(** [GET /] answers [{ status: 'up' }] with status 200 in every
    environment, once the rate limiter and the body parsers let it
    through. *)
Theorem root_up rb ra rate json url errs e r :
  method r = "GET" -> path r = "/" -> json r = true -> url r = true -> rate r = true ->
  status (handle rb ra rate json url errs e r) = 200 /\ body (handle rb ra rate json url errs e r) = StatusUp.
Proof.
  intros Hm Hp Hj Hu Hr. unfold handle, app_layers.
  rewrite pipeline_head by (try rewrite Hm; easy).
  destruct r as [m p h]; cbn in Hm, Hp; subst m p.
  destruct (String.eqb (env_name e) "development"); split; reflexivity.
Qed.

(** [GET /api/appointments/suggest_location_timeslots] reaches
    [LocationAwareController.getSuggestedLocationTimeSlots] in every
    environment, unless a route the resources registered before it
    answers the same request. *)
Theorem location_route_reached rb ra rate json url errs e r :
  method r = "GET" -> path r = "/api/appointments/suggest_location_timeslots" ->
  json r = true -> url r = true -> rate r = true ->
  find (route_matches r "/appointments/suggest_location_timeslots") rb = None ->
  body (handle rb ra rate json url errs e r) = Routed "getSuggestedLocationTimeSlots".
Proof.
  intros Hm Hp Hj Hu Hr Hb. unfold handle, app_layers.
  rewrite pipeline_head by (try rewrite Hm; easy).
  destruct r as [m p h]; cbn in Hm, Hp; subst m p.
  destruct (String.eqb (env_name e) "development"); lazy -[header appScoped find route_matches];
    unfold appScoped; rewrite find_app, Hb; reflexivity.
Qed.

(** Composition of [injectService], [getService] / [getServiceKalender]
    and [getMySQLPool] at start-up: a request runs on the pool the module
    holds exactly when its [x-user-role] header is [user]; every other
    request runs on the first pool, which the module has forgotten. *)
Theorem request_pool env pe s r :
  poolInitialized s = false ->
  let '(pools, s2) := createContainers env pe s in
  pool s2 = Some (container_pool pools ServiceKalender) /\
  (pool s2 = Some (container_pool pools (injectService r)) <-> header "x-user-role" r = Some "user").
Proof.
  intros Hi. rewrite createContainers_uninit by exact Hi. cbn. split; [reflexivity|].
  unfold injectService. destruct (header "x-user-role" r) as [role|].
  - destruct (String.eqb_spec role "user") as [-> | Hne]; cbn; split; try reflexivity.
    + intros [= E]; lia.
    + intros [= E]; contradiction.
  - cbn. split; [intros [= E]; lia | discriminate].
Qed.

(** The process only exits with 0 after a [SIGTERM] or [SIGINT] and the
    close callback of the listener. *)
Theorem server_exit_zero es :
  server_run es Listening = Some (Exited 0) ->
  In ListenerClosed es /\ exists n, In (Signal n) es /\ (n = "SIGTERM" \/ n = "SIGINT").
Proof.
  intros H. destruct (server_run_exit0 es Listening H) as [E | [Hc [E | Hs]]]; try discriminate; split; assumption.
Qed.

(** ** Concrete runs *)

Definition production : AppEnv := {| env_name := "production"; env_port := None |}.
Definition development : AppEnv := {| env_name := "development"; env_port := Some "" |}.

Definition get (p : string) : Request := {| method := "GET"; path := p; req_headers := [] |}.

(** The application with no other routes, an error handler answering the
    error's status, and the given rate limiter and JSON parser. *)
Definition app_with (rate json : Request -> bool) (e : AppEnv) (r : Request) : Response :=
  handle [] [] rate json (fun _ => true) (fun st => st) e r.

(** The docs are served in development only; elsewhere Express answers
    404.  An empty [PORT] falls back to 11700. *)
Example docs_development_only :
  body (app_with (fun _ => true) (fun _ => true) development (get "/app/docs-yuop!/index.html")) = Docs /\
  body (app_with (fun _ => true) (fun _ => true) production (get "/app/docs-yuop!/index.html")) =
    CannotGet "GET" "/app/docs-yuop!/index.html" /\
  port development = "11700" /\ port {| env_name := "x"; env_port := Some "8080" |} = "8080".
Proof. vm_compute. repeat split. Qed.

(** A body the JSON parser rejects passes its error to [next], and
    Express skips every middleware that is not an error handler: the
    request never meets the rate limiter, which refuses the same request
    with a readable body. *)
Example parse_error_skips_rate_limiter :
  let r := {| method := "POST"; path := "/api/contacts"; req_headers := [("Content-Type", "application/json")] |} in
  status (app_with (fun _ => false) (fun _ => false) production r) = 400 /\
  status (app_with (fun _ => false) (fun _ => true) production r) = 429.
Proof. vm_compute. split; reflexivity. Qed.

(** Preflights are answered by cors before the rate limiter, with the
    origin reflected. *)
Example preflight_not_rate_limited :
  app_with (fun _ => false) (fun _ => true) production
    {| method := "OPTIONS"; path := "/api/contacts"; req_headers := [("Origin", "https://evil.example")] |} =
  {| status := 204; body := Preflight;
     res_headers := [("X-Frame-Options", "DENY"); ("Access-Control-Allow-Origin", "https://evil.example");
                     ("Vary", "Origin")] |}.
Proof. vm_compute. reflexivity. Qed.

(** The role header is read without case: [X-User-Role: user] selects the
    calendar container, any other role the default one. *)
(** Without its private key, or when [initializeApp] throws, the server
    stores files locally. *)
Example firebase_fallback :
  fst (initFirebase {| projectId := Some "p"; clientEmail := Some "e"; privateKey := Some "k" |} true) = FirebaseStorage /\
  fst (initFirebase {| projectId := Some "p"; clientEmail := Some "e"; privateKey := Some "" |} true) = LocalStorage /\
  fst (initFirebase {| projectId := Some "p"; clientEmail := Some "e"; privateKey := Some "k" |} false) = LocalStorage.
Proof. repeat split. Qed.

Example role_header :
  injectService {| method := "GET"; path := "/"; req_headers := [("X-User-Role", "user")] |} = ServiceKalender /\
  injectService {| method := "GET"; path := "/"; req_headers := [("x-user-role", "admin")] |} = Service /\
  injectService (get "/") = Service.
Proof. vm_compute. repeat split. Qed.

End Server.
