(* ===== verification/FrontendUtils.v ===== *)
(** The helpers of [booking-frontend-main/src/utils.ts].
    [generatePassword] (lines 49-68): [Math.random()] returns [k / 2^53]
    for an integer [0 <= k < 2^53] (as V8 draws it); the [i]-th call is
    [draws i].  The product with the alphabet's length is taken exactly
    (for lengths below 100 the rounded product has the same floor).
    [getProfile] (70-76), and the requests of [upload] (4-24) and
    [download] (27-47) as [Server] receives them: [JSON.parse] of the
    stored profile, the path of [API_URL] ([redux/network/api] is not in
    the repository) and the browser's object URLs are section variables;
    the request reaches [Server.injectService], which picks the
    container. *)

From Stdlib Require Import ZArith List String Ascii Bool Lia.
From S2P Require Import Prelude Server.
Import ListNotations.

Module FrontendUtils.
Import Server.
Local Open Scope string_scope.

Definition lowerCaseChars : string := "abcdefghijklmnopqrstuvwxyz".
Definition upperCaseChars : string := "ABCDEFGHIJKLMNOPQRSTUVWXYZ".
Definition specialChars : string := "!@#$%^&*()_-+=<>?".
Definition numericChars : string := "0123456789".

Definition two53 : Z := 2 ^ 53.

(** [characters[Math.floor(Math.random() * characters.length)]] for the
    draw [k]; [undefined] ([None]) only when the index is out of range. *)
Definition getRandomChar (k : Z) (characters : string) : option ascii :=
  String.get (Z.to_nat (k * Z.of_nat (String.length characters) / two53)) characters.

(** The string concatenation of the pieces; an [undefined] piece would
    print as ["undefined"]. *)
Definition piece (c : option ascii) : string :=
  match c with Some a => String a EmptyString | None => "undefined" end.

(** [getRandomPassword] on the draws [d0], [d1], ...: four characters of
    the four classes, then [Array.from({ length: 6 }, ...)] over their
    union, joined. *)
Definition generatePassword (draws : nat -> Z) : string :=
  let all := lowerCaseChars ++ upperCaseChars ++ specialChars ++ numericChars in
  piece (getRandomChar (draws 0%nat) lowerCaseChars) ++
  piece (getRandomChar (draws 1%nat) upperCaseChars) ++
  piece (getRandomChar (draws 2%nat) specialChars) ++
  piece (getRandomChar (draws 3%nat) numericChars) ++
  String.concat "" (map (fun i => piece (getRandomChar (draws (4 + i)%nat) all)) (seq 0 6)).

(** ** Requests *)

(** The fields of the stored profile the helpers read. *)
Record Profile := { role : option string }.

(** The anchor [download] creates, and what happens to the page. *)
Record Anchor := { href : string; download_name : string }.
Inductive DomEvent := Append (a : Anchor) | Click (a : Anchor) | Remove (a : Anchor).

Section Network.
(** [JSON.parse] of the [profile] item; [None] is its [SyntaxError]. *)
Variable parse_profile : string -> option Profile.
(** The path part of [API_URL]. *)
Variable api_path : string.
(** [URL.createObjectURL] of the downloaded blob. *)
Variable createObjectURL : string -> string.

(** [getProfile]: [null] without a (non-empty) item; a [SyntaxError] of
    [JSON.parse] is not caught. *)
Definition getProfile (item : option string) : Result (option Profile) :=
  match item with
  | Some p =>
      if String.eqb p "" then Ok None
      else match parse_profile p with Some pr => Ok (Some pr) | None => Err "SyntaxError" end
  | None => Ok None
  end.

(** [{ "x-user-role": getProfile()?.role }]: [fetch]'s [Headers] turns an
    [undefined] value into the string ["undefined"]. *)
Definition user_role_header (p : option Profile) : list (string * string) :=
  [("x-user-role", match p with Some {| role := Some r |} => r | _ => "undefined" end)].

(** The [fetch] of [upload] (lines 5-14): the request and the form
    fields [file] (the file, by its name) and [path]. *)
Definition upload_request (item : option string) (name : string)
    : Result (Request * list (string * string)) :=
  match getProfile item with
  | Err e => Err e
  | Ok p => Ok ({| method := "POST"; path := api_path ++ "/files/upload"; req_headers := user_role_header p |},
                [("file", name); ("path", "services/" ++ name)])
  end.

(** Lines 15-23: the [link] of the answer, when there is a truthy one;
    [None] is a [null] answer. *)
Definition upload_uri (data : option (option string)) : string :=
  match data with
  | Some (Some link) => if String.eqb link "" then "" else link
  | _ => ""
  end.

(** [toDataURL] (lines 27-37): the request, and the URL it yields for the
    answer's blob, [None] when the fetch fails; a [SyntaxError] of
    [getProfile] is thrown before [fetch], outside its [.catch]. *)
Definition toDataURL_request (item : option string) (filename : string) : Result Request :=
  match getProfile item with
  | Err e => Err e
  | Ok p => Ok {| method := "GET"; path := api_path ++ "/files/download/" ++ filename; req_headers := user_role_header p |}
  end.

Definition toDataURL (blob : option string) : string :=
  match blob with Some b => createObjectURL b | None => "" end.

(** [download] (lines 40-47) once [toDataURL] resolved. *)
Definition download (blob : option string) (filename : string) : list DomEvent :=
  let a := {| href := toDataURL blob; download_name := filename |} in
  [Append a; Click a; Remove a].
End Network.

(** ** Lemmas *)

(** The server reads the role header the helpers set. *)
Lemma header_user_role m pth p :
  header "x-user-role" {| method := m; path := pth; req_headers := user_role_header p |} =
  Some (match p with Some {| role := Some r |} => r | _ => "undefined" end).
Proof. reflexivity. Qed.

Lemma getRandomChar_in k cs :
  0 <= k < two53 -> cs <> EmptyString ->
  exists a, getRandomChar k cs = Some a /\ In a (list_ascii_of_string cs).
Proof.
  intros Hk Hcs. unfold getRandomChar.
  assert (Hlen : (0 < String.length cs)%nat) by (destruct cs; [contradiction | cbn; lia]).
  set (n := Z.of_nat (String.length cs)).
  assert (Hi : 0 <= k * n / two53 < n).
  { unfold two53 in *. split; [apply Z.div_pos; lia|]. apply Z.div_lt_upper_bound; [lia|]. unfold n. nia. }
  set (i := Z.to_nat (k * n / two53)).
  assert (Hin : (i < String.length cs)%nat) by (unfold i, n in *; lia).
  clearbody i. clear Hi. revert i Hin. induction cs as [|c cs IH]; intros i Hin; [cbn in Hin; lia|].
  destruct i as [|i]; cbn; [exists c; split; [reflexivity | left; reflexivity]|].
  destruct cs as [|c' cs]; [cbn in Hin; lia|].
  destruct (IH ltac:(discriminate) ltac:(cbn; lia) i ltac:(cbn in Hin |- *; lia)) as (a & Ha & Hina).
  exists a. split; [exact Ha | right; exact Hina].
Qed.

(** ** Theorems *)

(** With every draw in range, the password has ten characters: a lower
    case letter, an upper case letter, a special character and a digit in
    this order, then six characters of their union. *)
Theorem generatePassword_shape draws :
  (forall i, 0 <= draws i < two53) ->
  exists l u sp d rest,
    generatePassword draws = String l (String u (String sp (String d rest))) /\
    In l (list_ascii_of_string lowerCaseChars) /\ In u (list_ascii_of_string upperCaseChars) /\
    In sp (list_ascii_of_string specialChars) /\ In d (list_ascii_of_string numericChars) /\
    String.length rest = 6%nat /\
    Forall (fun c => In c (list_ascii_of_string (lowerCaseChars ++ upperCaseChars ++ specialChars ++ numericChars)))
           (list_ascii_of_string rest).
Proof.
  intros Hd.
  destruct (getRandomChar_in (draws 0%nat) lowerCaseChars (Hd _) ltac:(discriminate)) as (l & El & Hl).
  destruct (getRandomChar_in (draws 1%nat) upperCaseChars (Hd _) ltac:(discriminate)) as (u & Eu & Hu).
  destruct (getRandomChar_in (draws 2%nat) specialChars (Hd _) ltac:(discriminate)) as (sp & Esp & Hsp).
  destruct (getRandomChar_in (draws 3%nat) numericChars (Hd _) ltac:(discriminate)) as (d & Ed & Hdd).
  pose (all := (lowerCaseChars ++ upperCaseChars ++ specialChars ++ numericChars)%string).
  assert (Hall : forall i, exists a, getRandomChar (draws (4 + i)%nat) all = Some a /\ In a (list_ascii_of_string all))
    by (intros i; apply getRandomChar_in; [apply Hd | discriminate]).
  destruct (Hall 0%nat) as (a0 & E0 & H0). destruct (Hall 1%nat) as (a1 & E1 & H1).
  destruct (Hall 2%nat) as (a2 & E2 & H2). destruct (Hall 3%nat) as (a3 & E3 & H3).
  destruct (Hall 4%nat) as (a4 & E4 & H4). destruct (Hall 5%nat) as (a5 & E5 & H5).
  exists l, u, sp, d, (String a0 (String a1 (String a2 (String a3 (String a4 (String a5 EmptyString)))))).
  unfold generatePassword. fold all. cbn [seq map String.concat].
  rewrite El, Eu, Esp, Ed. cbn [Nat.add] in E0, E1, E2, E3, E4, E5 |- *. rewrite E0, E1, E2, E3, E4, E5.
  refine (conj eq_refl (conj Hl (conj Hu (conj Hsp (conj Hdd (conj eq_refl _)))))).
  repeat (apply Forall_cons; [assumption|]). apply Forall_nil.
Qed.

(** An upload runs on the container of the stored role: the calendar
    container exactly for a profile whose [role] is [user], the main one
    without a profile or role; a stored profile that is not JSON throws
    before any request. *)
Theorem upload_container parse api item name :
  match upload_request parse api item name with
  | Ok (req, _) =>
      injectService req =
        match getProfile parse item with
        | Ok (Some {| role := Some r |}) => if String.eqb r "user" then ServiceKalender else Service
        | _ => Service
        end
  | Err e => getProfile parse item = Err e
  end.
Proof.
  unfold upload_request, injectService. destruct (getProfile parse item) as [p|e]; [|reflexivity].
  rewrite header_user_role. destruct p as [[[r|]]|]; reflexivity.
Qed.

(** ** Concrete runs *)

(** The smallest draws give [aA!0aaaaaa], the largest [zZ?9999999]. *)
Example password_extremes :
  generatePassword (fun _ => 0%Z) = "aA!0aaaaaa" /\
  generatePassword (fun _ => two53 - 1) = "zZ?9999999".
Proof. vm_compute. split; reflexivity. Qed.

(** Without a stored profile the role header is the string
    [undefined]; a failed download still clicks an anchor, with an empty
    [href]. *)
Example network_runs :
  upload_request (fun _ => None) "/api" None "logo.png" =
    Ok ({| method := "POST"; path := "/api/files/upload"; req_headers := [("x-user-role", "undefined")] |},
        [("file", "logo.png"); ("path", "services/logo.png")]) /\
  upload_request (fun _ => None) "/api" (Some "{") "logo.png" = Err "SyntaxError" /\
  download (fun b => "blob:" ++ b) None "c.pdf" =
    [Append {| href := ""; download_name := "c.pdf" |}; Click {| href := ""; download_name := "c.pdf" |};
     Remove {| href := ""; download_name := "c.pdf" |}].
Proof. repeat split. Qed.

End FrontendUtils.
